(** * lim1tr: grid construction, boundary operators and the reaction manager

    A shallow embedding of [Source/grid.py], [Source/boundary_types.py] and
    [Source/reaction.py].

    Numbers.  The Python code computes with binary64 floating point.  Where
    the code branches on a float, turns a float into an integer or compares
    it with a threshold (the node counts of the grid, the spacings and node
    positions, the gate of a timed boundary, the check of the mass
    fractions), the embedding computes with binary64 as well, on Rocq's
    primitive floats.  The entries of the equation system and the state of
    the reaction manager, which the code only adds, multiplies and stores,
    are exact rationals ([Q]): there the development describes the
    arithmetic the code asks for, without rounding, overflow or NaN.
    Integers (node counts, node indices, cell numbers) are [Z], as Python's
    [int].

    Errors.  Every [raise] of the source is a [ValueError]; the embedding keeps
    the Python exception class and adds, as its argument, which [raise] it was.
    Functions that can raise return a [result]. *)

From Stdlib Require Import Floats.
From Stdlib Require Import ZArith QArith Qround Qabs Qfield Lia Lqa List String.
From stdpp Require Import gmap strings list sorting.

Set Warnings "-inexact-float".

Open Scope Z_scope.

(** ** Exceptions and the error monad *)

(** The [ValueError]s of the three modules, one constructor per [raise]
    statement, the two that numpy raises for the array operations used, and
    the one of [int] on a NaN. *)
Inductive value_error : Type :=
  | DxGreaterThanThickness (layer : Z)            (* grid.py:38 *)
  | SingleNodeLayers (layers : list Z)            (* grid.py:68 *)
  | UnrecognizedBoundary (my_end : string)        (* boundary_types.py:36 *)
  | MissingDSCRate                                (* reaction.py:37 *)
  | MultipleControlVolumes                        (* reaction.py:48 *)
  | SpeciesCountMismatch                          (* reaction.py:59 *)
  | MassFractionsNotOne                           (* reaction.py:63 *)
  | CellDoesNotExist (cell_num rxn : Z)           (* reaction.py:136 *)
  | CellNumberNotPositive (rxn : Z)               (* reaction.py:140 *)
  | NoReactionSystem (node : Z)                   (* reaction.py:177 *)
  | NegativeDimensions                            (* np.zeros(n), n < 0 *)
  | CannotBroadcast                               (* a[:,i] = col, wrong length *)
  | CannotConvertNaN.                             (* int(nan) *)

(** The last one is not an exception of Python: it marks a computation that
    numpy carries on with an infinity or a NaN, which the rationals of the
    embedding do not have.  Nothing is stated about the code from there
    on. *)
Inductive exn : Type :=
  | ValueError (e : value_error)
  | IndexError
  | KeyError
  | TypeError
  | AttributeError
  | ZeroDivisionError
  | OverflowError
  | NotRational.

Inductive result (A : Type) : Type :=
  | OK (a : A)
  | Raise (e : exn).
Arguments OK {A} a.
Arguments Raise {A} e.

Definition rbind {A B} (r : result A) (k : A -> result B) : result B :=
  match r with
  | OK a => k a
  | Raise e => Raise e
  end.

Notation "'let*' x ':=' r 'in' k" := (rbind r (fun x => k))
  (at level 10, x pattern, r at level 100, k at level 200).

(** [o] or raise [e]: a lookup that fails in Python raises. *)
Definition or_raise {A} (e : exn) (o : option A) : result A :=
  match o with
  | Some a => OK a
  | None => Raise e
  end.

Definition is_value_error {A} (r : result A) : Prop :=
  exists e, r = Raise (ValueError e).

Definition is_OK {A} (r : result A) : Prop := exists a, r = OK a.

(** Monadic left fold: a [for] loop whose body may raise. *)
Fixpoint foldM {A S} (body : S -> A -> result S) (s : S) (l : list A)
  : result S :=
  match l with
  | [] => OK s
  | a :: l' => let* s' := body s a in foldM body s' l'
  end.

(** ** Python and numpy primitives *)

(** [range(n)] as a list of integers; empty when [n <= 0]. *)
Definition range (n : Z) : list Z := Z.of_nat <$> seq 0 (Z.to_nat n).

(** [a[i]] for a list or a one-dimensional array: negative indices count
    from the end, anything out of range raises [IndexError]. *)
Definition py_index (len : nat) (i : Z) : option nat :=
  if (0 <=? i) && (i <? Z.of_nat len) then Some (Z.to_nat i)
  else if (- Z.of_nat len <=? i) && (i <? 0) then Some (Z.to_nat (Z.of_nat len + i))
  else None.

Definition getitem {A} (a : list A) (i : Z) : result A :=
  or_raise IndexError (py_index (length a) i ≫= fun k => a !! k).

Definition setitem {A} (a : list A) (i : Z) (x : A) : result (list A) :=
  match py_index (length a) i with
  | Some k => OK (<[k := x]> a)
  | None => Raise IndexError
  end.

(** [np.zeros(n)]. *)
Definition np_zeros (n : Z) : result (list Q) :=
  if n <? 0 then Raise (ValueError NegativeDimensions)
  else OK (replicate (Z.to_nat n) 0%Q).

(** [np.zeros(n, dtype=int)]. *)
Definition np_zeros_int (n : Z) : result (list Z) :=
  if n <? 0 then Raise (ValueError NegativeDimensions)
  else OK (replicate (Z.to_nat n) 0).

(** [np.zeros([n, m])], a two-dimensional array.  Two-dimensional arrays are
    stored as the list of their columns: [a[i, j]] is entry [i] of column
    [j]. *)
Definition np_zeros2 {A} (zero : A) (n m : Z) : result (list (list A)) :=
  if (n <? 0) || (m <? 0) then Raise (ValueError NegativeDimensions)
  else OK (replicate (Z.to_nat m) (replicate (Z.to_nat n) zero)).

(** The positions of the entries of [a] that satisfy [p], counted from [i]:
    [np.argwhere], and a comprehension [[j for j in range(len(a)) if a[j]]]. *)
Fixpoint indices_where {A} (p : A -> bool) (i : Z) (a : list A) : list Z :=
  match a with
  | [] => []
  | y :: a' =>
      if p y then i :: indices_where p (i + 1) a'
      else indices_where p (i + 1) a'
  end.

(** [enumerate(l)]. *)
Definition enumerate {A} (l : list A) : list (Z * A) :=
  zip (range (Z.of_nat (length l))) l.

(** A comprehension whose element expression may raise. *)
Fixpoint mapM {A B} (f : A -> result B) (l : list A) : result (list B) :=
  match l with
  | [] => OK []
  | a :: l' => let* b := f a in let* bs := mapM f l' in OK (b :: bs)
  end.

(** [np.delete(a, idxs)]: the array without the positions [idxs]. *)
Fixpoint delete_positions {A} (k : nat) (ks : list nat) (a : list A) : list A :=
  match a with
  | [] => []
  | x :: a' =>
      if decide (k ∈ ks) then delete_positions (S k) ks a'
      else x :: delete_positions (S k) ks a'
  end.

Definition np_delete {A} (a : list A) (idxs : list Z) : result (list A) :=
  let* ks := mapM (fun i => or_raise IndexError (py_index (length a) i)) idxs in
  OK (delete_positions 0 ks a).

(** [a < b] on rationals. *)
Definition Qltb (a b : Q) : bool :=
  match (a ?= b)%Q with
  | Lt => true
  | _ => false
  end.

(** True division [a / b] of numpy scalars.  On a zero divisor numpy
    returns [inf] or [nan] and warns; it does not raise.  The rationals have
    no such value: the embedding marks the result [NotRational]. *)
Definition truediv (a b : Q) : result Q :=
  if Qeq_bool b 0 then Raise NotRational else OK (a / b)%Q.

(** ** Binary64

    The floats of the grid, of the gate and of the mass fractions are Rocq's
    primitive binary64 floats: [+], [-], [*], [/] round to nearest, ties to
    even, and the comparisons are the IEEE ones, as in CPython and numpy. *)

(** The rational that a finite float stands for. *)
Definition float_value (x : float) : option Q :=
  match Prim2SF x with
  | S754_zero _ => Some 0%Q
  | S754_finite s m e =>
      Some (if 0 <=? e then inject_Z (cond_Zopp s (Zpos m) * 2 ^ e)
            else Qmake (cond_Zopp s (Zpos m)) (Z.to_pos (2 ^ (- e))))
  | _ => None
  end.

(** The rational that a float stands for where the embedding computes with
    rationals; a float that is not finite stands for none, and has 0 in its
    place. *)
Definition float_Q (x : float) : Q := default 0%Q (float_value x).

(** [x > q] for a float [x] and a rational [q] that a float stands for. *)
Definition float_gt (x : float) (q : Q) : bool :=
  match Prim2SF x with
  | S754_nan => false
  | S754_infinity s => negb s
  | _ => match (q ?= float_Q x)%Q with Lt => true | _ => false end
  end.

(** [a / b] on Python floats: a zero divisor raises. *)
Definition float_truediv (a b : float) : result float :=
  if (b =? 0)%float then Raise ZeroDivisionError else OK (a / b)%float.

(** [float(n)] for a Python [int]: the nearest float, and [OverflowError]
    beyond the range of the floats. *)
Definition float_of_int (n : Z) : result float :=
  let x := SF2Prim (binary_normalize prec emax n 0 false) in
  if is_infinity x then Raise OverflowError else OK x.

(** [a / n] for a float [a] and an [int] [n]. *)
Definition float_truediv_int (a : float) (n : Z) : result float :=
  let* b := float_of_int n in
  float_truediv a b.

(** The integer nearest to [m * 2^e], the even one half way between two
    integers. *)
Definition round_half_even (m e : Z) : Z :=
  if 0 <=? e then m * 2 ^ e
  else
    let d := 2 ^ (- e) in
    let q := m / d in
    match 2 * (m mod d) ?= d with
    | Lt => q
    | Gt => q + 1
    | Eq => if Z.even q then q else q + 1
    end.

(** [int(np.round(x, 0))]: numpy rounds to the nearest integral float, to
    the even one half way between two, and [int] turns it into an integer;
    [int] raises [ValueError] on NaN and [OverflowError] on an infinity. *)
Definition int_round (x : float) : result Z :=
  match Prim2SF x with
  | S754_zero _ => OK 0
  | S754_finite s m e => OK (cond_Zopp s (round_half_even (Zpos m) e))
  | S754_infinity _ => Raise OverflowError
  | S754_nan => Raise (ValueError CannotConvertNaN)
  end.

(** [np.zeros(n)] as an array of floats. *)
Definition float_zeros (n : Z) : result (list float) :=
  if n <? 0 then Raise (ValueError NegativeDimensions)
  else OK (replicate (Z.to_nat n) 0%float).

(** [res += a[i]] for every entry, from left to right; from [0], Python's
    [sum] of a list of floats. *)
Definition sum_from (res : float) (a : list float) : float :=
  foldl PrimFloat.add res a.

(** [np.sum(a)] for a contiguous array of doubles: numpy's pairwise
    summation.  Fewer than 8 entries are added from left to right.  Up to
    128 entries are added into 8 accumulators, entry [i] into accumulator
    [i mod 8]; the accumulators are added pairwise, and the entries after
    the last full group of 8 are added to that sum from left to right.  A
    longer array is cut in two, the first part being the largest multiple
    of 8 that is at most half the length, and the sums of the two parts are
    added. *)
Fixpoint accumulate8 (groups : nat) (r a : list float) : list float :=
  match groups with
  | O => r
  | S groups' =>
      accumulate8 groups' (zip_with PrimFloat.add r (take 8 a)) (drop 8 a)
  end.

Definition block_sum (a : list float) : float :=
  let full := (length a / 8)%nat in
  match accumulate8 (full - 1) (take 8 a) (drop 8 a) with
  | [r0; r1; r2; r3; r4; r5; r6; r7] =>
      sum_from (((r0 + r1) + (r2 + r3)) + ((r4 + r5) + (r6 + r7)))%float
               (drop (8 * full) a)
  | _ => sum_from 0%float a
  end.

(** [depth] bounds the number of cuts; every cut shortens the array, so
    that the length of the array is enough. *)
Fixpoint pairwise_sum (depth : nat) (a : list float) : float :=
  let n := length a in
  if (n <? 8)%nat then sum_from 0%float a
  else if (n <=? 128)%nat then block_sum a
  else
    match depth with
    | O => block_sum a
    | S depth' =>
        let n2 := (n / 2 - (n / 2) mod 8)%nat in
        (pairwise_sum depth' (take n2 a) + pairwise_sum depth' (drop n2 a))%float
    end.

(** The reduction starts from the identity of the addition. *)
Definition float_sum (a : list float) : float :=
  (0 + pairwise_sum (length a) a)%float.

(** ** Stores seen through their entries

    [obs s i] is entry [i] of the store [s].  [upd obs f P s s'] says that
    [s'] is [s] with [f] applied to the entries that [P] selects, the others
    left as they are. *)

Section Observed.
Context {S I V : Type} (obs : S -> I -> option V) (f : V -> V).

Definition upd (P : I -> Prop) (s s' : S) : Prop :=
  forall i, (P i -> obs s' i = f <$> obs s i) /\
            (~ P i -> obs s' i = obs s i).

End Observed.

(** ** [grid.py] *)

Module Grid.

(** The attributes of a [grid_manager] once [setup_grid] has returned. *)
Record grid_manager : Type := {
  layer_names : list string;
  layer_dx : list float;
  layer_thickness : list float;
  n_layers : Z;
  n_tot : Z;
  mint_list : list Z;
  first_node_list : list Z;
  mat_nodes : list string;
  dx_arr : list float;
  internal_bounds : list (Z * Z);
  k_bounds : list (Z * Z);
  x_node : list float
}.

(** The table handed to [set_table]. *)
Record table : Type := {
  Material_Name : list string;
  dx : list float;
  Thickness : list float
}.

(** The variables the loop over the layers updates. *)
Record layer_state : Type := {
  ls_n_tot : Z;
  ls_mat_nodes : list string;
  ls_nodes_per_layer : list Z;
  ls_mint_list : list Z;
  ls_first_node_list : list Z;
  ls_dx_list : list float
}.

Definition layer_state0 : layer_state :=
  {| ls_n_tot := 0; ls_mat_nodes := []; ls_nodes_per_layer := [];
     ls_mint_list := []; ls_first_node_list := []; ls_dx_list := [] |}.

(** One pass of the body of [for i in range(self.n_layers)], lines 36-59.
    A negative [n_m] repeats the name no time. *)
Definition layer_body (i : Z) (name : string) (d th : float) (s : layer_state)
  : result layer_state :=
  if (th <? d)%float then Raise (ValueError (DxGreaterThanThickness (i + 1)))
  else
    let* r := float_truediv th d in
    let* n_m := int_round r in
    let n_tot' := ls_n_tot s + n_m in
    let* dx_m := float_truediv_int th n_m in
    OK {| ls_n_tot := n_tot';
          ls_mat_nodes := ls_mat_nodes s ++ replicate (Z.to_nat n_m) name;
          ls_nodes_per_layer := ls_nodes_per_layer s ++ [n_m];
          ls_mint_list := ls_mint_list s ++ [n_tot' - 1];
          ls_first_node_list := ls_first_node_list s ++ [ls_n_tot s];
          ls_dx_list := ls_dx_list s ++ [dx_m] |}.

(** The loop over the layers.  [i] runs over [range(len(layer_names))]; the
    other two columns are read at [i], which raises once one of them is
    shorter than the column of names. *)
Fixpoint layer_loop (i : Z) (names : list string) (dxs ths : list float)
  (s : layer_state) : result layer_state :=
  match names with
  | [] => OK s
  | name :: names' =>
      match ths, dxs with
      | th :: ths', d :: dxs' =>
          let* s' := layer_body i name d th s in
          layer_loop (i + 1) names' dxs' ths' s'
      | _, _ => Raise IndexError
      end
  end.

(** Lines 61-70: the layers with at most one node, looked for only when
    there are several layers. *)
Definition single_node_layers (n_layers : Z) (nodes_per_layer : list Z)
  : list Z :=
  if 1 <? n_layers then
    List.filter (fun i => match nodes_per_layer !! Z.to_nat i with
                          | Some n => n <=? 1
                          | None => false
                          end) (range n_layers)
  else [].

(** Lines 75-81: the spacing of every node. [m] is the current layer. *)
Fixpoint dx_loop (nodes : list Z) (m : nat) (dx_list : list float)
  (mint_list : list Z) (arr : list float) : result (list float) :=
  match nodes with
  | [] => OK arr
  | i :: nodes' =>
      let* d := or_raise IndexError (dx_list !! m) in
      let* arr' := setitem arr i d in
      let* mi := or_raise IndexError (mint_list !! m) in
      dx_loop nodes' (if i =? mi then S m else m) dx_list mint_list arr'
  end.

(** Lines 83-88: [internal_bounds] and [k_bounds], built in one loop. *)
Definition bounds_loop (n_layers : Z) (mint_list : list Z)
  : result (list (Z * Z) * list (Z * Z)) :=
  let* m0 := getitem mint_list 0 in
  foldM (fun '(ib, kb) m =>
           let* a := getitem mint_list (m - 1) in
           let* b := getitem mint_list m in
           OK (ib ++ [(a + 2, b)], kb ++ [(a + 1, b)]))
        ([(1, m0)], [(0, m0)]) (Z.succ <$> range (n_layers - 1)).

(** Lines 90-93. *)
Definition node_locations (n_tot : Z) (dx_arr : list float)
  : result (list float) :=
  let* x0 := float_zeros n_tot in
  foldM (fun x i =>
           let* dxi := getitem dx_arr i in
           setitem x i (0.5 * dxi + float_sum (take (Z.to_nat i) dx_arr))%float)
        x0 (range n_tot).

(** [set_table] followed by [setup_grid]. *)
Definition setup_grid (t : table) : result grid_manager :=
  let nl := Z.of_nat (length (Material_Name t)) in
  let* s := layer_loop 0 (Material_Name t) (dx t) (Thickness t) layer_state0 in
  match single_node_layers nl (ls_nodes_per_layer s) with
  | (_ :: _) as l => Raise (ValueError (SingleNodeLayers l))
  | [] =>
      let* z := float_zeros (ls_n_tot s) in
      let* dxa := dx_loop (range (ls_n_tot s)) 0 (ls_dx_list s) (ls_mint_list s) z in
      let* (ib, kb) := bounds_loop nl (ls_mint_list s) in
      let* xs := node_locations (ls_n_tot s) dxa in
      OK {| layer_names := Material_Name t;
            layer_dx := dx t;
            layer_thickness := Thickness t;
            n_layers := nl;
            n_tot := ls_n_tot s;
            mint_list := ls_mint_list s;
            first_node_list := ls_first_node_list s;
            mat_nodes := ls_mat_nodes s;
            dx_arr := dxa;
            internal_bounds := ib;
            k_bounds := kb;
            x_node := xs |}
  end.

(** *** What the loops compute, in closed form *)

(** The node count of a layer: [int(np.round(thickness/dx, 0))], on the
    binary64 quotient. *)
Definition layer_count (d th : float) : result Z :=
  let* r := float_truediv th d in
  int_round r.

(** A layer that is at least as thick as its requested spacing resolves to
    [n] nodes of spacing [dx_m]: the count and the spacing [thickness/n] are
    computed without an error. *)
Definition resolves (d th : float) (n : Z) (dx_m : float) : Prop :=
  (th <? d)%float = false /\
  layer_count d th = OK n /\ float_truediv_int th n = OK dx_m.

(** First and last node of every layer, for layers of [ns] nodes laid out
    from node [start]. *)
Fixpoint firsts (start : Z) (ns : list Z) : list Z :=
  match ns with
  | [] => []
  | n :: ns' => start :: firsts (start + n) ns'
  end.

Fixpoint mints (start : Z) (ns : list Z) : list Z :=
  match ns with
  | [] => []
  | n :: ns' => (start + n - 1) :: mints (start + n) ns'
  end.

Definition total (ns : list Z) : Z := foldr Z.add 0 ns.

(** [ns !! m] copies of [xs !! m], layer after layer. *)
Fixpoint expand {A} (ns : list Z) (xs : list A) : list A :=
  match ns, xs with
  | n :: ns', x :: xs' => replicate (Z.to_nat n) x ++ expand ns' xs'
  | _, _ => []
  end.

(** A table whose three columns have one length, and in which every layer
    that is not thinner than its requested spacing resolves to one node or
    more. *)
Definition well_formed (t : table) : Prop :=
  length (dx t) = length (Material_Name t) /\
  length (Thickness t) = length (Material_Name t) /\
  Forall2 (fun d th => (th <? d)%float = false ->
                       exists n dx_m, resolves d th n dx_m /\ 1 <= n)
          (dx t) (Thickness t).

(** Some layer is thinner than its requested spacing. *)
Definition some_layer_too_thin (t : table) : Prop :=
  exists m d th, dx t !! m = Some d /\ Thickness t !! m = Some th /\
                 (th <? d)%float = true.

(** Some layer resolves to fewer than two nodes. *)
Definition some_layer_below_two (t : table) : Prop :=
  exists m d th n, dx t !! m = Some d /\ Thickness t !! m = Some th /\
                   layer_count d th = OK n /\ n < 2.

(** *** Notions and examples used in the properties of the grid *)

(** The variables of the loop over the layers once it has gone through
    layers of [ns] nodes and spacings [ds], having started from [s]. *)
Definition layer_state_after (s : layer_state) (names : list string)
  (ns : list Z) (ds : list float) : layer_state :=
  {| ls_n_tot := ls_n_tot s + total ns;
     ls_mat_nodes := ls_mat_nodes s ++ expand ns names;
     ls_nodes_per_layer := ls_nodes_per_layer s ++ ns;
     ls_mint_list := ls_mint_list s ++ mints (ls_n_tot s) ns;
     ls_first_node_list := ls_first_node_list s ++ firsts (ls_n_tot s) ns;
     ls_dx_list := ls_dx_list s ++ ds |}.

(** The position of node [i]: half its spacing plus the sum of the spacings
    to its left, in binary64. *)
Definition x_at (dx_arr : list float) (i : nat) : float :=
  (0.5 * default 0%float (dx_arr !! i) + float_sum (take i dx_arr))%float.

(** What [setup_grid] returns when no check fires, for layers of [ns]
    nodes and spacings [ds]. *)
Definition grid_of (t : table) (ns : list Z) (ds : list float)
  (ib kb : list (Z * Z)) : grid_manager :=
  let dxa := expand ns ds in
  {| layer_names := Material_Name t;
     layer_dx := dx t;
     layer_thickness := Thickness t;
     n_layers := Z.of_nat (length (Material_Name t));
     n_tot := total ns;
     mint_list := mints 0 ns;
     first_node_list := firsts 0 ns;
     mat_nodes := expand ns (Material_Name t);
     dx_arr := dxa;
     internal_bounds := ib;
     k_bounds := kb;
     x_node := x_at dxa <$> seq 0 (Z.to_nat (total ns)) |}.



(** Two layers of thickness 1, the second asked to be resolved with a
    spacing of 2. *)
Definition thin_second_layer : table :=
  {| Material_Name := ["steel"%string; "foam"%string];
     dx := [0.25; 2]%float;
     Thickness := [1; 1]%float |}.

(** One layer exactly as thick as its requested spacing. *)
Definition one_unit_layer : table :=
  {| Material_Name := ["steel"%string];
     dx := [1%float];
     Thickness := [1%float] |}.

(** One layer with a negative requested spacing. *)
Definition negative_dx_layer : table :=
  {| Material_Name := ["steel"%string];
     dx := [(-1)%float];
     Thickness := [1%float] |}.

(** A layer of thickness [1e16] in two nodes, followed by a layer of
    thickness 2 in two nodes. *)
Definition wide_then_narrow : table :=
  {| Material_Name := ["steel"%string; "foam"%string];
     dx := [5e15; 1]%float;
     Thickness := [1e16; 2]%float |}.

(** One layer of thickness [0.05] with requested spacing [0.02]: the
    binary64 quotient is [2.5]. *)
Definition half_way_layer : table :=
  {| Material_Name := ["steel"%string];
     dx := [0.02%float];
     Thickness := [0.05%float] |}.

End Grid.


(** ** [boundary_types.py] *)

Module Boundary.

(** The equation system the boundary terms write into (an external
    collaborator): four arrays indexed by node. *)
Record eqn_sys : Type := {
  LHS_c : list Q;
  RHS : list Q;
  J_c : list Q;
  F : list Q
}.

(** The material manager, of which only [k_arr] is read here. *)
Record mat_man : Type := {
  k_arr : list Q
}.

(** [a[i] += v] and [a[i] -= v] on an array. *)
Definition iadd (a : list Q) (i : Z) (v : Q) : result (list Q) :=
  let* x := getitem a i in setitem a i (x + v)%Q.

Definition isub (a : list Q) (i : Z) (v : Q) : result (list Q) :=
  let* x := getitem a i in setitem a i (x - v)%Q.

Definition set_LHS_c (es : eqn_sys) (a : list Q) : eqn_sys :=
  {| LHS_c := a; RHS := RHS es; J_c := J_c es; F := F es |}.
Definition set_RHS (es : eqn_sys) (a : list Q) : eqn_sys :=
  {| LHS_c := LHS_c es; RHS := a; J_c := J_c es; F := F es |}.
Definition set_J_c (es : eqn_sys) (a : list Q) : eqn_sys :=
  {| LHS_c := LHS_c es; RHS := RHS es; J_c := a; F := F es |}.
Definition set_F (es : eqn_sys) (a : list Q) : eqn_sys :=
  {| LHS_c := LHS_c es; RHS := RHS es; J_c := J_c es; F := a |}.

(** [class end_bc]: what [__init__] stores. *)
Record end_bc : Type := {
  end_name : string;
  end_dx_arr : list Q;
  end_n_tot : Z;
  n_ind : Z;
  k_ind : Z
}.

Definition end_bc_init (dx_arr : list Q) (my_end : string) : result end_bc :=
  let n := Z.of_nat (length dx_arr) in
  if String.eqb my_end "Left" then
    OK {| end_name := "end"; end_dx_arr := dx_arr; end_n_tot := n;
          n_ind := 0; k_ind := 0 |}
  else if String.eqb my_end "Right" then
    OK {| end_name := "end"; end_dx_arr := dx_arr; end_n_tot := n;
          n_ind := n - 1; k_ind := n - 2 |}
  else Raise (ValueError (UnrecognizedBoundary my_end)).

Definition end_rename (b : end_bc) (suffix : string) : end_bc :=
  {| end_name := end_name b ++ suffix; end_dx_arr := end_dx_arr b;
     end_n_tot := end_n_tot b; n_ind := n_ind b; k_ind := k_ind b |}.

(** [class ext_bc]. *)
Record ext_bc : Type := {
  ext_name : string;
  ext_dx_arr : list Q;
  ext_n_tot : Z;
  PA_r : Q
}.

Definition ext_bc_init (dx_arr : list Q) (PA_r : Q) : ext_bc :=
  {| ext_name := "ext"; ext_dx_arr := dx_arr;
     ext_n_tot := Z.of_nat (length dx_arr); PA_r := PA_r |}.

Definition ext_rename (b : ext_bc) (suffix : string) : ext_bc :=
  {| ext_name := ext_name b ++ suffix; ext_dx_arr := ext_dx_arr b;
     ext_n_tot := ext_n_tot b; PA_r := PA_r b |}.

(** The five boundary conditions, each with the parameters that its
    [set_params] stores. *)
Inductive bc : Type :=
  | end_convection (b : end_bc) (h_end T_end : Q)
  | end_flux (b : end_bc) (flux : Q)
  | end_radiation (b : end_bc) (sigma_eps T_ext_4 : Q)
  | ext_convection (b : ext_bc) (h_ext T_ext : Q)
  | ext_radiation (b : ext_bc) (sigma_eps T_ext_4 : Q).

(** The Stefan-Boltzmann constant as the source writes it, [5.67e-8]. *)
Definition sigma : Q := 567 # 10000000000.

Definition end_flux_set_params (b : end_bc) (flux : Q) : bc :=
  end_flux (end_rename b "_flux") flux.
Definition end_radiation_set_params (b : end_bc) (eps T : Q) : bc :=
  end_radiation (end_rename b "_radiation") (sigma * eps) (T ^ 4).
Definition ext_convection_set_params (b : ext_bc) (h T : Q) : bc :=
  ext_convection (ext_rename b "_convection") h T.
Definition ext_radiation_set_params (b : ext_bc) (eps T : Q) : bc :=
  ext_radiation (ext_rename b "_radiation") (sigma * eps) (T ^ 4).

Definition bc_name (c : bc) : string :=
  match c with
  | end_convection b _ _ | end_flux b _ | end_radiation b _ _ => end_name b
  | ext_convection b _ _ | ext_radiation b _ _ => ext_name b
  end.

Definition bc_rename (c : bc) (suffix : string) : bc :=
  match c with
  | end_convection b h T => end_convection (end_rename b suffix) h T
  | end_flux b q => end_flux (end_rename b suffix) q
  | end_radiation b se T4 => end_radiation (end_rename b suffix) se T4
  | ext_convection b h T => ext_convection (ext_rename b suffix) h T
  | ext_radiation b se T4 => ext_radiation (ext_rename b suffix) se T4
  end.

(** The end convection coefficient, lines 50-51 and 60-61, on rationals.
    The entries of [k_arr] and [dx_arr] are numpy scalars: where the code
    divides by zero it goes on with [inf] or [nan], and the coefficient is
    [NotRational]. *)
Definition c_end (b : end_bc) (h_end : Q) (mm : mat_man) : result Q :=
  let* k := getitem (k_arr mm) (k_ind b) in
  let* dxn := getitem (end_dx_arr b) (n_ind b) in
  let* phi := truediv (2 * k) dxn in
  truediv (h_end * phi) (h_end + phi).

(** [apply(eqn_sys, mat_man)] or [apply(eqn_sys, mat_man, T)]: the
    temperature field is passed to the radiation terms only, and a call with
    the wrong number of arguments is a [TypeError]. *)
Definition apply (c : bc) (es : eqn_sys) (mm : mat_man) (T : option (list Q))
  : result eqn_sys :=
  match c, T with
  | end_convection b h_end T_end, None =>
      let* ce := c_end b h_end mm in
      let* lhs := iadd (LHS_c es) (n_ind b) ce in
      let* rhs := iadd (RHS es) (n_ind b) (ce * T_end) in
      OK (set_RHS (set_LHS_c es lhs) rhs)
  | end_flux b flux, None =>
      let* rhs := iadd (RHS es) (n_ind b) flux in
      OK (set_RHS es rhs)
  | end_radiation b sigma_eps T_ext_4, Some T =>
      let* t := getitem T (n_ind b) in
      let* j := iadd (J_c es) (n_ind b) (sigma_eps * 4 * t ^ 3) in
      let* t' := getitem T (n_ind b) in
      let* f := iadd (F es) (n_ind b) (sigma_eps * (t' ^ 4 - T_ext_4)) in
      OK (set_F (set_J_c es j) f)
  | ext_convection b h_ext T_ext, None =>
      foldM (fun es i =>
               let* dxi := getitem (ext_dx_arr b) i in
               let h_const := (h_ext * dxi * PA_r b)%Q in
               let* lhs := iadd (LHS_c es) i h_const in
               let* rhs := iadd (RHS es) i (h_const * T_ext) in
               OK (set_RHS (set_LHS_c es lhs) rhs))
            es (range (ext_n_tot b))
  | ext_radiation b sigma_eps T_ext_4, Some T =>
      let dxPA := (fun x => x * PA_r b)%Q <$> ext_dx_arr b in
      foldM (fun es i =>
               let* d := getitem dxPA i in
               let* t := getitem T i in
               let* j := iadd (J_c es) i (d * sigma_eps * 4 * t ^ 3) in
               let* d' := getitem dxPA i in
               let* t' := getitem T i in
               let* f := iadd (F es) i (d' * sigma_eps * (t' ^ 4 - T_ext_4)) in
               OK (set_F (set_J_c es j) f))
            es (range (ext_n_tot b))
  | _, _ => Raise TypeError
  end.

(** [apply_operator(eqn_sys, mat_man, T)]. *)
Definition apply_operator (c : bc) (es : eqn_sys) (mm : mat_man)
  (T : option (list Q)) : result eqn_sys :=
  match T with
  | None => Raise TypeError
  | Some T =>
      match c with
      | end_convection b h_end T_end =>
          let* ce := c_end b h_end mm in
          let* t := getitem T (n_ind b) in
          let* rhs := iadd (RHS es) (n_ind b) (ce * (T_end - t)) in
          OK (set_RHS es rhs)
      | end_flux b flux =>
          let* rhs := iadd (RHS es) (n_ind b) flux in
          OK (set_RHS es rhs)
      | end_radiation b sigma_eps T_ext_4 =>
          let* t := getitem T (n_ind b) in
          let* rhs := isub (RHS es) (n_ind b) (sigma_eps * (t ^ 4 - T_ext_4)) in
          OK (set_RHS es rhs)
      | ext_convection b h_ext T_ext =>
          foldM (fun es i =>
                   let* dxi := getitem (ext_dx_arr b) i in
                   let h_const := (h_ext * dxi * PA_r b)%Q in
                   let* t := getitem T i in
                   let* rhs := iadd (RHS es) i (h_const * (T_ext - t)) in
                   OK (set_RHS es rhs))
                es (range (ext_n_tot b))
      | ext_radiation b sigma_eps T_ext_4 =>
          let dxPA := (fun x => x * PA_r b)%Q <$> ext_dx_arr b in
          foldM (fun es i =>
                   let* d := getitem dxPA i in
                   let* t := getitem T i in
                   let* rhs := isub (RHS es) i
                                 (d * sigma_eps * (t ^ 4 - T_ext_4)) in
                   OK (set_RHS es rhs))
                es (range (ext_n_tot b))
      end
  end.

(** [class timed_boundary]: [tot_time] exists only once [set_time] has been
    called. *)
Record timed_boundary : Type := {
  tb_bc : bc;
  off_time : float;
  tot_time : option float
}.

Definition timed_boundary_init (c : bc) (off_time : float) : timed_boundary :=
  {| tb_bc := bc_rename c "_timed"; off_time := off_time; tot_time := None |}.

Definition set_time (tb : timed_boundary) (tot_time : float) : timed_boundary :=
  {| tb_bc := tb_bc tb; off_time := off_time tb; tot_time := Some tot_time |}.

(** The literal [1e-14], a binary64 float. *)
Definition gate_eps : float := 1e-14%float.

(** [self.off_time - self.tot_time > 1e-14], in binary64. *)
Definition gate_open (tb : timed_boundary) : result bool :=
  let* tot := or_raise AttributeError (tot_time tb) in
  OK (gate_eps <? off_time tb - tot)%float.

Definition timed_apply (tb : timed_boundary) (es : eqn_sys) (mm : mat_man)
  (T : option (list Q)) : result eqn_sys :=
  let* go := gate_open tb in
  if go then apply (tb_bc tb) es mm T else OK es.

Definition timed_apply_operator (tb : timed_boundary) (es : eqn_sys)
  (mm : mat_man) (T : option (list Q)) : result eqn_sys :=
  let* go := gate_open tb in
  if go then apply_operator (tb_bc tb) es mm T else OK es.

(** *** Notions and examples used in the properties of the boundary terms *)

(** [a'] is [a] with the entry that index [i] designates replaced by [x]. *)
Definition updated (a : list Q) (i : Z) (x : Q) (a' : list Q) : Prop :=
  exists k, py_index (length a) i = Some k /\ a' = <[k := x]> a.

(** The radiative loss at temperature [t] against surroundings at [T_ext],
    with the rounding of the source's products. *)
Definition radiative_loss (eps T_ext t : Q) : Q :=
  (sigma * eps * (t ^ 4 - T_ext ^ 4))%Q.

(** A three-node system at rest and a right end. *)
Definition es0 : eqn_sys :=
  {| LHS_c := [0; 0; 0]%Q; RHS := [1; 2; 3]%Q; J_c := [0; 0; 0]%Q;
     F := [0; 0; 0]%Q |}.
Definition mm0 : mat_man := {| k_arr := [1; 1]%Q |}.
Definition right_end : end_bc :=
  {| end_name := "end"; end_dx_arr := [1; 1; 1]%Q; end_n_tot := 3;
     n_ind := 2; k_ind := 1 |}.

End Boundary.

(** ** [reaction.py] *)

Module Reaction.

(** *** Inputs *)

(** The [Other] block.  A key that is absent is [None]. *)
Record other_opts : Type := {
  Y_Dimension : option Q;
  Z_Dimension : option Q;
  DSC_Mode : option Z;
  DSC_Rate : option Q;
  Reaction_Only : option bool
}.

(** The species table. *)
Record spec_dict : Type := {
  Initial_Mass_Fraction : list float;
  Names : list string;
  Material_Name : string;
  Molecular_Weights : list Q
}.

(** The material manager (an external collaborator): what
    [get_material(name)] returns, and its [layer_names]. *)
Record material : Type := {
  mat_rho : Q;
  mat_cp : Q
}.

Record mat_man : Type := {
  get_material : string -> result material;
  mm_layer_names : list string
}.

Record material_info : Type := {
  mi_Names : list string;
  mi_Molecular_Weights : gmap string Q;
  mi_rho : Q;
  mi_cp : Q
}.

(** The types of the external collaborators: reaction models, the status
    the integrator reports, the integration request ([t_arr], [dt0], [atol],
    [rtol], [nsteps]), and the entries of a reaction's specification other
    than [Type] and [Active Cells]. *)
Class ExternalTypes : Type := {
  model : Type;
  status : Type;
  solver_args : Type;
  rxn_spec : Type
}.

Section WithTypes.
Context {ET : ExternalTypes}.

(** One entry of the reaction table. *)
Record rxn_info : Type := {
  rxn_Type : option string;
  Active_Cells : option (list Z);
  rxn_rest : rxn_spec
}.

(** What [reaction_system.reaction_system(...)] is built from. *)
Record reaction_system : Type := {
  rs_frac_mat : list (list Q);
  rs_model_list : list model;
  rs_rho_cp : Q;
  rs_dsc_info : Z * Q
}.

(** The operations of the external collaborators: the model factory, and
    the three methods of a reaction system.  [solve_ode_node] returns the
    solution array (one row per time point) and a status. *)
Class ExternalOps : Type := {
  rxn_model_factory : rxn_info -> material_info -> result (model * list Q);
  solve_ode_node :
    reaction_system -> solver_args -> list Q -> list (list Q) * status;
  get_rates : reaction_system -> list Q -> list Q;
  check_complete : reaction_system -> list Q -> bool
}.

(** *** The reaction manager *)

(** The attributes of a [reaction_manager].  Those that [load_species] and
    [load_reactions] create hold an empty value until then; the functions
    below are meant to be called in the order [__init__], [load_species],
    [load_reactions], [solve_ode_all_nodes]. *)
Record reaction_manager : Type := {
  species_density : gmap string (list Q);
  species_rate : gmap string (list Q);
  n_tot : Z;
  mat_nodes : list string;
  first_node_list : list Z;
  cross_area : Q;
  dsc_mode : Z;
  dsc_rate : Q;
  dsc_info : Z * Q;
  rxn_only : bool;
  small_number : Q;
  mat_name : string;
  rho : Q;
  cp : Q;
  rho_cp : Q;
  n_species : Z;
  species_name_list : list string;
  heat_release_rate : list Q;
  temperature_rate : list Q;
  rm_material_info : material_info;
  n_cells : Z;
  cell_node_key : list Z;
  active_nodes : list Z;
  inactive_node_list : list Z;
  n_rxn : Z;
  model_list : list model;
  node_to_system_map : list Z;
  reaction_systems : list reaction_system
}.

(** The literal [1.0e-15]: the rational that this binary64 float stands
    for. *)
Definition small : Q := Eval vm_compute in float_Q 1.0e-15%float.

(** [reaction_manager.__init__(grid_man, other_opts)]. *)
Definition init (grid_man : Grid.grid_manager) (o : other_opts)
  : result reaction_manager :=
  let* Ly := or_raise KeyError (Y_Dimension o) in
  let* Lz := or_raise KeyError (Z_Dimension o) in
  let dsc_mode := default 0 (DSC_Mode o) in
  let* dsc_rate :=
    if dsc_mode =? 0 then OK 0%Q
    else match DSC_Rate o with
         | None => Raise (ValueError MissingDSCRate)
         | Some r => OK r
         end in
  let* rxn_only :=
    match Reaction_Only o with
    | Some true =>
        if Grid.n_tot grid_man =? 1 then OK true
        else Raise (ValueError MultipleControlVolumes)
    | _ => OK false
    end in
  OK {| species_density := ∅;
        species_rate := ∅;
        n_tot := Grid.n_tot grid_man;
        mat_nodes := Grid.mat_nodes grid_man;
        first_node_list := Grid.first_node_list grid_man;
        cross_area := (Ly * Lz)%Q;
        dsc_mode := dsc_mode;
        dsc_rate := dsc_rate;
        dsc_info := (dsc_mode, dsc_rate);
        rxn_only := rxn_only;
        small_number := small;
        mat_name := "";
        rho := 0%Q; cp := 0%Q; rho_cp := 0%Q;
        n_species := 0;
        species_name_list := [];
        heat_release_rate := [];
        temperature_rate := [];
        rm_material_info :=
          {| mi_Names := []; mi_Molecular_Weights := ∅; mi_rho := 0%Q;
             mi_cp := 0%Q |};
        n_cells := 0;
        cell_node_key := [];
        active_nodes := [];
        inactive_node_list := [];
        n_rxn := 0;
        model_list := [];
        node_to_system_map := [];
        reaction_systems := [] |}.

(** A dictionary of arrays, [d[name][i]] and [d[name][i] = v]. *)
Definition dict_getitem (d : gmap string (list Q)) (name : string) (i : Z)
  : result Q :=
  let* a := or_raise KeyError (d !! name) in getitem a i.

Definition dict_setitem (d : gmap string (list Q)) (name : string) (i : Z)
  (v : Q) : result (gmap string (list Q)) :=
  let* a := or_raise KeyError (d !! name) in
  let* a' := setitem a i v in
  OK (<[name := a']> d).

(** [a[start:stop] = v] on a one-dimensional array, with Python's clipping
    of the two bounds. *)
Definition slice_bound (len i : Z) : Z :=
  if i <? 0 then Z.max (i + len) 0 else Z.min i len.

Definition slice_fill {A} (a : list A) (start stop : Z) (v : A) : list A :=
  let len := Z.of_nat (length a) in
  imap (fun p x =>
          if (slice_bound len start <=? Z.of_nat p)
             && (Z.of_nat p <? slice_bound len stop)
          then v else x) a.

(** [np.argwhere(a == x).flatten()]. *)
Definition argwhere (a : list string) (x : string) : list Z :=
  indices_where (fun y => String.eqb y x) 0 a.

(** Lines 78-84: the initial density of one species at every node. *)
Definition initial_density (n_tot : Z) (mat_name : string)
  (mat_nodes : list string) (y rho : Q) : result (list Q) :=
  let* z := np_zeros n_tot in
  foldM (fun a j =>
           let* m := getitem mat_nodes j in
           if String.eqb mat_name m then setitem a j (y * rho)%Q else OK a)
        z (range n_tot).

(** Lines 99-102: the cell number of every node. *)
Fixpoint cell_loop (k : Z) (layer_names : list string) (mat_name : string)
  (fnl : list Z) (n_cells : Z) (key : list Z) : result (Z * list Z) :=
  match layer_names with
  | [] => OK (n_cells, key)
  | name :: names' =>
      if String.eqb mat_name name then
        let* a := getitem fnl k in
        let* b := getitem fnl (k + 1) in
        cell_loop (k + 1) names' mat_name fnl (n_cells + 1)
                  (slice_fill key a b (n_cells + 1))
      else cell_loop (k + 1) names' mat_name fnl n_cells key
  end.

(** [load_species(spec_dict, mat_man)].  The mass fractions are binary64
    floats and the check of their sum is Python's: [sum] adds them from left
    to right, starting from 0, and [abs(1. - sum) > self.small_number] is
    compared in binary64.  The densities are rationals: the float
    [Initial Mass Fraction[i]] enters the product with [rho] as the rational
    it stands for. *)
Definition load_species (s : reaction_manager) (sd : spec_dict) (mm : mat_man)
  : result reaction_manager :=
  if negb (length (Initial_Mass_Fraction sd) =? length (Names sd))%nat then
    Raise (ValueError SpeciesCountMismatch)
  else if float_gt (PrimFloat.abs
                      (1 - sum_from 0 (Initial_Mass_Fraction sd))%float)
                   (small_number s) then
    Raise (ValueError MassFractionsNotOne)
  else
    let mat_name := Material_Name sd in
    let* my_mat := get_material mm mat_name in
    let rho := mat_rho my_mat in
    let cp := mat_cp my_mat in
    let molecular_weights : gmap string Q :=
      list_to_map (reverse (zip (Names sd) (Molecular_Weights sd))) in
    let* (dens, rate) :=
      foldM (fun '(dens, rate) '(name, y) =>
               let* a := initial_density (n_tot s) mat_name (mat_nodes s)
                                         (float_Q y) rho in
               let* z := np_zeros (n_tot s) in
               OK (<[name := a]> dens, <[name := z]> rate))
            (species_density s, species_rate s)
            (zip (Names sd) (Initial_Mass_Fraction sd)) in
    let* hrr := np_zeros (n_tot s) in
    let* tr := np_zeros (n_tot s) in
    let* key0 := np_zeros_int (n_tot s) in
    let fnl := first_node_list s ++ [n_tot s] in
    let* (n_cells, key) :=
      cell_loop 0 (mm_layer_names mm) mat_name fnl 0 key0 in
    OK {| species_density := dens;
          species_rate := rate;
          n_tot := n_tot s;
          mat_nodes := mat_nodes s;
          first_node_list := fnl;
          cross_area := cross_area s;
          dsc_mode := dsc_mode s;
          dsc_rate := dsc_rate s;
          dsc_info := dsc_info s;
          rxn_only := rxn_only s;
          small_number := small_number s;
          mat_name := mat_name;
          rho := rho; cp := cp; rho_cp := (rho * cp)%Q;
          n_species := Z.of_nat (length (Names sd));
          species_name_list := Names sd;
          heat_release_rate := hrr;
          temperature_rate := tr;
          rm_material_info :=
            {| mi_Names := Names sd; mi_Molecular_Weights := molecular_weights;
               mi_rho := rho; mi_cp := cp |};
          n_cells := n_cells;
          cell_node_key := key;
          active_nodes := argwhere (mat_nodes s) mat_name;
          inactive_node_list := [];
          n_rxn := n_rxn s;
          model_list := model_list s;
          node_to_system_map := node_to_system_map s;
          reaction_systems := reaction_systems s |}.

(** *** [load_reactions] *)

Context {EO : ExternalOps}.

(** [frac_mat[:, i] = col]: the column must have one entry per row, or a
    single entry, which numpy repeats. *)
Definition set_column (nrows : Z) (frac_mat : list (list Q)) (i : Z)
  (col : list Q) : result (list (list Q)) :=
  if Z.of_nat (length col) =? nrows then setitem frac_mat i col
  else match col with
       | [x] => setitem frac_mat i (replicate (Z.to_nat nrows) x)
       | _ => Raise (ValueError CannotBroadcast)
       end.

(** [a[i, j] = v]. *)
Definition set_entry {A} (a : list (list A)) (i j : Z) (v : A)
  : result (list (list A)) :=
  let* col := getitem a j in
  let* col' := setitem col i v in
  setitem a j col'.

(** Lines 134-142, for one [cell_num] of the [Active Cells] of reaction
    [rxn], the [i]-th reaction. *)
Definition activate (n_cells rxn i : Z) (active_cells : list (list Z))
  (cell_num : Z) : result (list (list Z)) :=
  if n_cells <? cell_num then Raise (ValueError (CellDoesNotExist cell_num rxn))
  else if cell_num <? 1 then Raise (ValueError (CellNumberNotPositive rxn))
  else set_entry active_cells i (cell_num - 1) 1.

(** The variables the loop over the reactions updates. *)
Record rxn_state : Type := {
  st_frac_mat : list (list Q);
  st_model_list : list model;
  st_active_cells : list (list Z)
}.

(** The reaction's specification as the factory sees it: [Type] is
    ['Basic'] when the table gives none. *)
Definition with_default_type (info : rxn_info) : rxn_info :=
  match rxn_Type info with
  | Some _ => info
  | None => {| rxn_Type := Some "Basic"; Active_Cells := Active_Cells info;
               rxn_rest := rxn_rest info |}
  end.

(** One pass of the body of [for i in range(self.n_rxn)], lines 119-142. *)
Definition rxn_body (s : reaction_manager) (rxn_dict : gmap Z rxn_info)
  (i rxn : Z) (st : rxn_state) : result rxn_state :=
  let* info0 := or_raise KeyError (rxn_dict !! rxn) in
  let info := with_default_type info0 in
  let* (my_rxn_model, frac_mat_col) :=
    rxn_model_factory info (rm_material_info s) in
  let* fm := set_column (n_species s) (st_frac_mat st) i frac_mat_col in
  let* ac :=
    match Active_Cells info with
    | None => mapM (fun col => setitem col i 1) (st_active_cells st)
    | Some cells => foldM (activate (n_cells s) rxn i) (st_active_cells st) cells
    end in
  OK {| st_frac_mat := fm;
        st_model_list := st_model_list st ++ [my_rxn_model];
        st_active_cells := ac |}.

(** The loop over the reactions; [i] runs over [range(len(rxn_nums))] and
    [rxn] is [rxn_nums[i]]. *)
Fixpoint rxn_loop (s : reaction_manager) (rxn_dict : gmap Z rxn_info)
  (i : Z) (rxn_nums : list Z) (st : rxn_state) : result rxn_state :=
  match rxn_nums with
  | [] => OK st
  | rxn :: rxn_nums' =>
      let* st' := rxn_body s rxn_dict i rxn st in
      rxn_loop s rxn_dict (i + 1) rxn_nums' st'
  end.

(** The position of the first occurrence of [x] in [l]. *)
Fixpoint index_of {A} `{EqDecision A} (x : A) (l : list A) : option nat :=
  match l with
  | [] => None
  | y :: l' => if decide (y = x) then Some 0%nat else S <$> index_of x l'
  end.

(** Modelled from the spec: [reaction_system_helper.map_all_systems], whose
    module is not among the sources.  Section 4.3: the cells are grouped by
    identical activation-mask vector, the mask column being the key; each
    distinct key yields one reaction system; every node is mapped to the
    system of its cell, and a node that lies in no cell (cell number 0) is
    left unassigned, which is system index -1. *)
Definition map_all_systems (active_cells : list (list Z))
  (cell_node_key : list Z) : result (list Z * list (list Z)) :=
  let unique_system_list := remove_dups active_cells in
  let* node_to_system_map :=
    mapM (fun cell =>
            if cell <? 1 then OK (-1)
            else
              let* mask := getitem active_cells (cell - 1) in
              let* k := or_raise IndexError (index_of mask unique_system_list) in
              OK (Z.of_nat k))
         cell_node_key in
  OK (node_to_system_map, unique_system_list).

Definition truthy (x : Z) : bool := negb (x =? 0).

(** Lines 150-155: the reaction system of one activation pattern. *)
Definition build_system (s : reaction_manager) (frac_mat : list (list Q))
  (model_list : list model) (tmp_sys : list Z) : result reaction_system :=
  let rxn_inds := indices_where truthy 0 tmp_sys in
  let* model_sub_list := mapM (getitem model_list) rxn_inds in
  let* frac_sub := mapM (getitem frac_mat) rxn_inds in
  OK {| rs_frac_mat := frac_sub;
        rs_model_list := model_sub_list;
        rs_rho_cp := rho_cp s;
        rs_dsc_info := dsc_info s |}.

(** [sorted(rxn_dict.keys())]. *)
Definition sorted_keys (rxn_dict : gmap Z rxn_info) : list Z :=
  merge_sort Z.le (map_to_list rxn_dict).*1.

(** [load_reactions(rxn_dict)]. *)
Definition load_reactions (s : reaction_manager) (rxn_dict : gmap Z rxn_info)
  : result reaction_manager :=
  let rxn_nums := sorted_keys rxn_dict in
  let n_rxn := Z.of_nat (length rxn_nums) in
  let* frac_mat0 := np_zeros2 0%Q (n_species s) n_rxn in
  let* active_cells0 := np_zeros2 0 n_rxn (n_cells s) in
  let* st := rxn_loop s rxn_dict 0 rxn_nums
               {| st_frac_mat := frac_mat0; st_model_list := [];
                  st_active_cells := active_cells0 |} in
  let* (node_to_system_map, unique_system_list) :=
    map_all_systems (st_active_cells st) (cell_node_key s) in
  let* systems :=
    mapM (build_system s (st_frac_mat st) (st_model_list st))
         unique_system_list in
  OK {| species_density := species_density s;
        species_rate := species_rate s;
        n_tot := n_tot s;
        mat_nodes := mat_nodes s;
        first_node_list := first_node_list s;
        cross_area := cross_area s;
        dsc_mode := dsc_mode s;
        dsc_rate := dsc_rate s;
        dsc_info := dsc_info s;
        rxn_only := rxn_only s;
        small_number := small_number s;
        mat_name := mat_name s;
        rho := rho s; cp := cp s; rho_cp := rho_cp s;
        n_species := n_species s;
        species_name_list := species_name_list s;
        heat_release_rate := heat_release_rate s;
        temperature_rate := temperature_rate s;
        rm_material_info := rm_material_info s;
        n_cells := n_cells s;
        cell_node_key := cell_node_key s;
        active_nodes := active_nodes s;
        inactive_node_list := inactive_node_list s;
        n_rxn := n_rxn;
        model_list := st_model_list st;
        node_to_system_map := node_to_system_map;
        reaction_systems := systems |}.

(** *** [clear_nodes] and [solve_ode_all_nodes] *)

(** The arrays that the two functions write. *)
Record node_arrays : Type := {
  na_species_density : gmap string (list Q);
  na_species_rate : gmap string (list Q);
  na_temperature_rate : list Q;
  na_heat_release_rate : list Q
}.

Definition arrays_of (s : reaction_manager) : node_arrays :=
  {| na_species_density := species_density s;
     na_species_rate := species_rate s;
     na_temperature_rate := temperature_rate s;
     na_heat_release_rate := heat_release_rate s |}.

(** [s] with its arrays, active nodes and inactive node list replaced. *)
Definition with_arrays (s : reaction_manager) (a : node_arrays)
  (active inactive : list Z) : reaction_manager :=
  {| species_density := na_species_density a;
     species_rate := na_species_rate a;
     n_tot := n_tot s;
     mat_nodes := mat_nodes s;
     first_node_list := first_node_list s;
     cross_area := cross_area s;
     dsc_mode := dsc_mode s;
     dsc_rate := dsc_rate s;
     dsc_info := dsc_info s;
     rxn_only := rxn_only s;
     small_number := small_number s;
     mat_name := mat_name s;
     rho := rho s; cp := cp s; rho_cp := rho_cp s;
     n_species := n_species s;
     species_name_list := species_name_list s;
     heat_release_rate := na_heat_release_rate a;
     temperature_rate := na_temperature_rate a;
     rm_material_info := rm_material_info s;
     n_cells := n_cells s;
     cell_node_key := cell_node_key s;
     active_nodes := active;
     inactive_node_list := inactive;
     n_rxn := n_rxn s;
     model_list := model_list s;
     node_to_system_map := node_to_system_map s;
     reaction_systems := reaction_systems s |}.

(** One pass of the body of [for act_ind in self.inactive_node_list],
    lines 225-235. *)
Definition clear_node (s : reaction_manager) (a : node_arrays) (act_ind : Z)
  : result node_arrays :=
  let* i := getitem (active_nodes s) act_ind in
  let* dens :=
    foldM (fun d name =>
             let* x := dict_getitem d name i in
             if Qltb x (small_number s) then dict_setitem d name i 0%Q
             else OK d)
          (na_species_density a) (species_name_list s) in
  let* rate :=
    foldM (fun d name => dict_setitem d name i 0%Q)
          (na_species_rate a) (species_name_list s) in
  let* tr := setitem (na_temperature_rate a) i 0%Q in
  let* hrr := setitem (na_heat_release_rate a) i 0%Q in
  OK {| na_species_density := dens; na_species_rate := rate;
        na_temperature_rate := tr; na_heat_release_rate := hrr |}.

(** [clear_nodes()]. *)
Definition clear_nodes (s : reaction_manager) : result reaction_manager :=
  let* a := foldM (clear_node s) (arrays_of s) (inactive_node_list s) in
  let* active := np_delete (active_nodes s) (inactive_node_list s) in
  OK (with_arrays s a active []).

(** The variables the loop over the active nodes updates. *)
Record loop_state : Type := {
  lp_arrays : node_arrays;
  lp_T_out : list Q;
  lp_err_list : list status;
  lp_inactive_node_list : list Z
}.

(** One pass of the body of [for act_ind in range(...)], lines 171-215. *)
Definition integrate_node (s : reaction_manager) (args : solver_args)
  (T_in : list Q) (return_err : bool) (st : loop_state) (act_ind : Z)
  : result loop_state :=
  let a := lp_arrays st in
  let names := enumerate (species_name_list s) in
  let* i := getitem (active_nodes s) act_ind in
  let* sys_ind := getitem (node_to_system_map s) i in
  if sys_ind <? 0 then Raise (ValueError (NoReactionSystem i))
  else
    let* v0 := np_zeros (n_species s + 1) in
    let* v1 :=
      foldM (fun v '(j, name) =>
               let* x := dict_getitem (na_species_density a) name i in
               setitem v j x) v0 names in
    let* t := getitem T_in i in
    let* v_in := setitem v1 (-1) t in
    let* rs := getitem (reaction_systems s) sys_ind in
    let '(my_sol, my_status) := solve_ode_node rs args v_in in
    let err_list :=
      if return_err then lp_err_list st ++ [my_status] else lp_err_list st in
    let* dens :=
      foldM (fun d '(j, name) =>
               let* row := getitem my_sol (-1) in
               let* x := getitem row j in
               dict_setitem d name i x) (na_species_density a) names in
    let* last := getitem my_sol (-1) in
    let rate_arr := get_rates rs last in
    let* rate :=
      foldM (fun d '(j, name) =>
               let* x := getitem rate_arr j in
               dict_setitem d name i x) (na_species_rate a) names in
    let* r := getitem rate_arr (-1) in
    let* tr := setitem (na_temperature_rate a) i r in
    let* hrr := setitem (na_heat_release_rate a) i (r * rho_cp s)%Q in
    let* x := getitem last (-1) in
    let* T_out := setitem (lp_T_out st) i x in
    let is_complete := check_complete rs last in
    OK {| lp_arrays :=
            {| na_species_density := dens; na_species_rate := rate;
               na_temperature_rate := tr; na_heat_release_rate := hrr |};
          lp_T_out := T_out;
          lp_err_list := err_list;
          lp_inactive_node_list :=
            if is_complete then lp_inactive_node_list st ++ [act_ind]
            else lp_inactive_node_list st |}.

(** Lines 164-166: the clear pass. *)
Definition clear_pass (s : reaction_manager) : result reaction_manager :=
  if (0 <? length (inactive_node_list s))%nat then clear_nodes s else OK s.

(** Lines 168-215: the loop over the active nodes of [s]. *)
Definition integration_pass (s : reaction_manager) (args : solver_args)
  (T_in : list Q) (return_err : bool)
  : result (reaction_manager * list Q * list status) :=
  let* st :=
    foldM (integrate_node s args T_in return_err)
          {| lp_arrays := arrays_of s; lp_T_out := T_in; lp_err_list := [];
             lp_inactive_node_list := inactive_node_list s |}
          (range (Z.of_nat (length (active_nodes s)))) in
  OK (with_arrays s (lp_arrays st) (active_nodes s) (lp_inactive_node_list st),
      lp_T_out st, lp_err_list st).

(** [solve_ode_all_nodes(t_arr, T_in, dt0, atol, rtol, nsteps, return_err)]:
    the new state of the manager, [T_out] and [err_list]. *)
Definition solve_ode_all_nodes (s : reaction_manager) (args : solver_args)
  (T_in : list Q) (return_err : bool)
  : result (reaction_manager * list Q * list status) :=
  let* s1 := clear_pass s in
  integration_pass s1 args T_in return_err.

(** *** Notions used to state what [load_reactions] builds *)

(** Reaction [rxn] of the table is flagged active on cell [cell]: it names
    no [Active Cells], or [cell] is one of them. *)
Definition is_active (rxn_dict : gmap Z rxn_info) (rxn cell : Z) : bool :=
  match rxn_dict !! rxn with
  | Some info =>
      match Active_Cells info with
      | None => true
      | Some cells => bool_decide (cell ∈ cells)
      end
  | None => false
  end.

(** The activation pattern of a cell: one flag per reaction, in the order
    [rxn_nums]. *)
Definition mask_column (rxn_dict : gmap Z rxn_info) (rxn_nums : list Z)
  (cell : Z) : list Z :=
  (fun rxn => if is_active rxn_dict rxn cell then 1 else 0) <$> rxn_nums.

(** The column that [frac_mat[:, i] = col] stores. *)
Definition stored_column (nrows : Z) (col : list Q) : list Q :=
  if Z.of_nat (length col) =? nrows then col
  else match col with
       | [x] => replicate (Z.to_nat nrows) x
       | _ => col
       end.

(** Of the factory's outputs [outs], one per reaction of [rxn_nums], those
    of the reactions flagged active on [cell], in the order [rxn_nums]. *)
Definition active_outs (rxn_dict : gmap Z rxn_info) (cell : Z)
  (rxn_nums : list Z) (outs : list (model * list Q)) : list (model * list Q) :=
  snd <$> List.filter (fun ro => is_active rxn_dict ro.1 cell)
                      (zip rxn_nums outs).

(** *** Setup *)

(** A configuration: what the parser hands to the grid builder and to the
    reaction manager. *)
Record configuration : Type := {
  cfg_table : Grid.table;
  cfg_other : other_opts;
  cfg_species : spec_dict;
  cfg_mat_man : mat_man;
  cfg_reactions : gmap Z rxn_info
}.

(** [set_table] and [setup_grid], the construction of the reaction manager,
    [load_species] and [load_reactions], in this order. *)
Definition setup (c : configuration) : result reaction_manager :=
  let* g := Grid.setup_grid (cfg_table c) in
  let* s1 := init g (cfg_other c) in
  let* s2 := load_species s1 (cfg_species c) (cfg_mat_man c) in
  load_reactions s2 (cfg_reactions c).

(** Every active node has a reaction system. *)
Definition resolved (s : reaction_manager) : Prop :=
  0 <= n_species s /\
  Forall (fun i => 0 <= i /\
                   exists m, node_to_system_map s !! Z.to_nat i = Some m /\
                             0 <= m)
         (active_nodes s).

(** *** Notions used to state the properties of the two passes *)

(** Entry [k] of the array stored under [name]. *)
Definition entry (d : gmap string (list Q)) (name : string) (k : nat)
  : option Q :=
  d !! name ≫= fun a => a !! k.

(** What the clear pass does to a species density: below the small
    number it becomes zero. *)
Definition snap (small_number x : Q) : Q :=
  if Qltb x small_number then 0%Q else x.

(** The nodes waiting to be cleared: [active_nodes[act_ind]] for every
    [act_ind] of the inactive node list. *)
Definition pending_nodes (s : reaction_manager) : list Z :=
  omap (fun act_ind =>
          match getitem (active_nodes s) act_ind with
          | OK i => Some i
          | Raise _ => None
          end) (inactive_node_list s).

(** The states the manager can be in after further calls of
    [solve_ode_all_nodes], whatever their arguments. *)
Inductive later_state (s : reaction_manager) : reaction_manager -> Prop :=
  | later_now : later_state s s
  | later_call s' s'' args T_in return_err T_out err_list :
      later_state s s' ->
      solve_ode_all_nodes s' args T_in return_err = OK (s'', T_out, err_list) ->
      later_state s s''.

(** A manager whose arrays have one entry per node, whose active nodes are
    distinct nodes of the grid, and whose inactive node list holds positions
    of the active node array. *)
Record well_formed (s : reaction_manager) : Prop := {
  wf_density :
    Forall (fun name => exists a, species_density s !! name = Some a /\
                                  length a = Z.to_nat (n_tot s))
           (species_name_list s);
  wf_rate :
    Forall (fun name => exists a, species_rate s !! name = Some a /\
                                  length a = Z.to_nat (n_tot s))
           (species_name_list s);
  wf_temperature_rate : length (temperature_rate s) = Z.to_nat (n_tot s);
  wf_heat_release_rate : length (heat_release_rate s) = Z.to_nat (n_tot s);
  wf_active : Forall (fun i => 0 <= i < n_tot s) (active_nodes s);
  wf_active_NoDup : NoDup (active_nodes s);
  wf_inactive :
    Forall (fun a => 0 <= a < Z.of_nat (length (active_nodes s)))
           (inactive_node_list s)
}.

(** *** Notions used in the properties of the loops *)

(** A dictionary of arrays and an array, seen through their entries. *)
Definition obs_dict (d : gmap string (list Q)) (nk : string * nat)
  : option Q :=
  entry d nk.1 nk.2.

Definition obs_arr (a : list Q) (k : nat) : option Q := a !! k.

(** Every name has an array of [n] entries. *)
Definition dict_shape (names : list string) (n : nat)
  (d : gmap string (list Q)) : Prop :=
  Forall (fun name => exists a, d !! name = Some a /\ length a = n) names.

(** The arrays have the shape that [well_formed] asks for. *)
Definition arrays_shape (s : reaction_manager) (a : node_arrays) : Prop :=
  dict_shape (species_name_list s) (Z.to_nat (n_tot s)) (na_species_density a) /\
  dict_shape (species_name_list s) (Z.to_nat (n_tot s)) (na_species_rate a) /\
  length (na_temperature_rate a) = Z.to_nat (n_tot s) /\
  length (na_heat_release_rate a) = Z.to_nat (n_tot s).

(** The node of entry [k] is waiting to be cleared. *)
Definition pending_at (s : reaction_manager) (k : nat) : Prop :=
  exists i, i ∈ pending_nodes s /\ k = Z.to_nat i.

(** What the clear pass does, seen from the entries of the arrays. *)
Record cleared (s s1 : reaction_manager) : Prop := {
  cl_density :
    upd obs_dict (snap (small_number s))
        (fun nk => nk.1 ∈ species_name_list s /\ pending_at s nk.2)
        (species_density s) (species_density s1);
  cl_rate :
    upd obs_dict (fun _ => 0%Q)
        (fun nk => nk.1 ∈ species_name_list s /\ pending_at s nk.2)
        (species_rate s) (species_rate s1);
  cl_temperature_rate :
    upd obs_arr (fun _ => 0%Q) (pending_at s)
        (temperature_rate s) (temperature_rate s1);
  cl_heat_release_rate :
    upd obs_arr (fun _ => 0%Q) (pending_at s)
        (heat_release_rate s) (heat_release_rate s1);
  cl_inactive : inactive_node_list s1 = [];
  cl_active_subseteq : forall i, i ∈ active_nodes s1 -> i ∈ active_nodes s;
  cl_active_NoDup : NoDup (active_nodes s) -> NoDup (active_nodes s1);
  cl_removed :
    NoDup (active_nodes s) ->
    forall i, i ∈ pending_nodes s -> i ∉ active_nodes s1;
  cl_names : species_name_list s1 = species_name_list s;
  cl_n_tot : n_tot s1 = n_tot s;
  cl_map : node_to_system_map s1 = node_to_system_map s;
  cl_systems : reaction_systems s1 = reaction_systems s;
  cl_n_species : n_species s1 = n_species s;
  cl_small : small_number s1 = small_number s
}.

(** The entries of a dictionary of arrays away from entry [k]. *)
Definition same_away (k : nat) (d d' : gmap string (list Q)) : Prop :=
  forall name k', k' <> k -> entry d' name k' = entry d name k'.

(** What one pass of the loop over the active nodes leaves untouched. *)
Record node_step (s : reaction_manager) (act_ind ns_node : Z)
  (st st' : loop_state) : Prop := {
  ns_getitem : getitem (active_nodes s) act_ind = OK ns_node;
  ns_density :
    same_away (Z.to_nat ns_node) (na_species_density (lp_arrays st))
              (na_species_density (lp_arrays st'));
  ns_rate :
    same_away (Z.to_nat ns_node) (na_species_rate (lp_arrays st))
              (na_species_rate (lp_arrays st'));
  ns_temperature_rate : forall k, k <> Z.to_nat ns_node ->
    na_temperature_rate (lp_arrays st') !! k =
    na_temperature_rate (lp_arrays st) !! k;
  ns_heat_release_rate : forall k, k <> Z.to_nat ns_node ->
    na_heat_release_rate (lp_arrays st') !! k =
    na_heat_release_rate (lp_arrays st) !! k;
  ns_T_out : forall k, k <> Z.to_nat ns_node ->
    lp_T_out st' !! k = lp_T_out st !! k;
  ns_shape : arrays_shape s (lp_arrays st) -> arrays_shape s (lp_arrays st');
  ns_inactive :
    lp_inactive_node_list st' = lp_inactive_node_list st \/
    lp_inactive_node_list st' = lp_inactive_node_list st ++ [act_ind]
}.

(** What the loop over the active nodes leaves untouched. *)
Record integrated (s : reaction_manager) (T_in : list Q)
  (s2 : reaction_manager) (T_out : list Q) : Prop := {
  in_active : active_nodes s2 = active_nodes s;
  in_names : species_name_list s2 = species_name_list s;
  in_n_tot : n_tot s2 = n_tot s;
  in_map : node_to_system_map s2 = node_to_system_map s;
  in_systems : reaction_systems s2 = reaction_systems s;
  in_n_species : n_species s2 = n_species s;
  in_small : small_number s2 = small_number s;
  in_T_out : forall k, Z.of_nat k ∉ active_nodes s -> T_out !! k = T_in !! k;
  in_density : forall k name, Z.of_nat k ∉ active_nodes s ->
    entry (species_density s2) name k = entry (species_density s) name k;
  in_rate : forall k name, Z.of_nat k ∉ active_nodes s ->
    entry (species_rate s2) name k = entry (species_rate s) name k;
  in_temperature_rate : forall k, Z.of_nat k ∉ active_nodes s ->
    temperature_rate s2 !! k = temperature_rate s !! k;
  in_heat_release_rate : forall k, Z.of_nat k ∉ active_nodes s ->
    heat_release_rate s2 !! k = heat_release_rate s !! k;
  in_well_formed : well_formed s -> well_formed s2
}.

(** Entry [cj.2] of column [cj.1] of a two-dimensional array. *)
Definition get2 {A} (a : list (list A)) (cj : nat * nat) : option A :=
  a !! cj.1 ≫= fun col => col !! cj.2.

(** A two-dimensional array of [ncols] columns of [nrows] entries. *)
Definition shape2 {A} (ncols nrows : nat) (a : list (list A)) : Prop :=
  length a = ncols /\ Forall (fun col => length col = nrows) a.

(** The outputs of the factory, one per reaction. *)
Definition factory_output (s : reaction_manager) (rxn_dict : gmap Z rxn_info)
  (rxn : Z) (out : model * list Q) : Prop :=
  exists info, rxn_dict !! rxn = Some info /\
    rxn_model_factory (with_default_type info) (rm_material_info s) = OK out.

(** Entry [cj.2] of column [cj.1] belongs to one of the reactions
    [rxn_nums], numbered from [i], and that reaction is active on the cell
    of the column. *)
Definition flagged (rxn_dict : gmap Z rxn_info) (rxn_nums : list Z) (i : nat)
  (cj : nat * nat) : Prop :=
  exists j rxn, rxn_nums !! j = Some rxn /\ cj.2 = (i + j)%nat /\
                is_active rxn_dict rxn (Z.of_nat cj.1 + 1) = true.

(** What [load_reactions] has computed when it returns. *)
Record loaded (s : reaction_manager) (rxn_dict : gmap Z rxn_info)
  (s' : reaction_manager) (outs : list (model * list Q)) : Prop := {
  ld_outs : Forall2 (factory_output s rxn_dict) (sorted_keys rxn_dict) outs;
  ld_n_cells : 0 <= n_cells s;
  ld_model_list : model_list s' = outs.*1;
  ld_map :
    map_all_systems
      ((fun c =>
          mask_column rxn_dict (sorted_keys rxn_dict) (Z.of_nat c + 1))
         <$> seq 0 (Z.to_nat (n_cells s)))
      (cell_node_key s)
    = OK (node_to_system_map s',
          remove_dups
            ((fun c =>
                mask_column rxn_dict (sorted_keys rxn_dict) (Z.of_nat c + 1))
               <$> seq 0 (Z.to_nat (n_cells s))));
  ld_systems :
    mapM (build_system s (stored_column (n_species s) <$> outs.*2) outs.*1)
         (remove_dups
            ((fun c =>
                mask_column rxn_dict (sorted_keys rxn_dict) (Z.of_nat c + 1))
               <$> seq 0 (Z.to_nat (n_cells s))))
    = OK (reaction_systems s');
  ld_active : active_nodes s' = active_nodes s;
  ld_inactive : inactive_node_list s' = inactive_node_list s;
  ld_n_species : n_species s' = n_species s;
  ld_n_tot : n_tot s' = n_tot s;
  ld_names : species_name_list s' = species_name_list s;
  ld_density : species_density s' = species_density s;
  ld_rate : species_rate s' = species_rate s;
  ld_temperature_rate : temperature_rate s' = temperature_rate s;
  ld_heat_release_rate : heat_release_rate s' = heat_release_rate s
}.

End WithTypes.
End Reaction.

(** ** A small configuration

    Three layers of two nodes each, the outer two of the reacting material;
    one species; two reactions, the second active on the second cell only.
    The collaborators are stand-ins: the integrator halves every entry of
    the state, the rates are the state itself, and a system is complete once
    its first density is below one half. *)

Module Demo.
Import Reaction.

#[export] Instance demo_types : ExternalTypes :=
  {| model := Z; status := Z; solver_args := unit; rxn_spec := unit |}.

#[export] Instance demo_ops : ExternalOps :=
  {| rxn_model_factory := fun info _ =>
       OK (match Active_Cells info with None => 7 | Some _ => 8 end, [1%Q]);
     solve_ode_node := fun _ _ v_in => ([(fun x => x / 2)%Q <$> v_in], 0);
     get_rates := fun _ last => last;
     check_complete := fun _ last =>
       match last with
       | x :: _ => Qltb x (1 # 2)
       | [] => true
       end |}.

Definition demo_table : Grid.table :=
  {| Grid.Material_Name := ["A"; "B"; "A"]%string;
     Grid.dx := [1; 1; 1]%float;
     Grid.Thickness := [2; 2; 2]%float |}.

Definition demo_opts : other_opts :=
  {| Y_Dimension := Some 1%Q; Z_Dimension := Some 1%Q; DSC_Mode := None;
     DSC_Rate := None; Reaction_Only := None |}.

Definition demo_species : spec_dict :=
  {| Initial_Mass_Fraction := [1%float]; Names := ["R"%string];
     Material_Name := "A"%string; Molecular_Weights := [1%Q] |}.

(** Two species whose mass fractions add up, in binary64, to a number
    within [1e-15] of one, and two whose mass fractions do not. *)
Definition near_one_species : spec_dict :=
  {| Initial_Mass_Fraction := [0.75; 0.24999999999999897]%float;
     Names := ["R"; "P"]%string;
     Material_Name := "A"%string; Molecular_Weights := [1%Q; 1%Q] |}.

Definition short_species : spec_dict :=
  {| Initial_Mass_Fraction := [0.5; 0.4]%float;
     Names := ["R"; "P"]%string;
     Material_Name := "A"%string; Molecular_Weights := [1%Q; 1%Q] |}.

Definition demo_mat_man : mat_man :=
  {| get_material := fun _ => OK {| mat_rho := 2; mat_cp := 3 |};
     mm_layer_names := ["A"; "B"; "A"]%string |}.

Definition demo_reactions : gmap Z rxn_info :=
  <[2 := {| rxn_Type := None; Active_Cells := Some [2]; rxn_rest := tt |}]>
    (<[1 := {| rxn_Type := None; Active_Cells := None; rxn_rest := tt |}]> ∅).

Definition demo_config : configuration :=
  {| cfg_table := demo_table; cfg_other := demo_opts;
     cfg_species := demo_species; cfg_mat_man := demo_mat_man;
     cfg_reactions := demo_reactions |}.

Definition demo_setup : result reaction_manager := setup demo_config.

Definition demo_T : list Q := [300; 300; 300; 300; 300; 300]%Q.

(** The manager after [n] calls of [solve_ode_all_nodes], each fed the
    temperatures the previous one returned. *)
Fixpoint demo_run (n : nat) : result (reaction_manager * list Q) :=
  match n with
  | O => let* s := demo_setup in OK (s, demo_T)
  | S n' =>
      let* (s, T) := demo_run n' in
      let* (s', T_out, _) := solve_ode_all_nodes s tt T true in
      OK (s', T_out)
  end.

(** One layer of the reacting material, and a material manager whose
    layer list names another material. *)
Definition mismatched_config : configuration :=
  {| cfg_table :=
       {| Grid.Material_Name := ["A"%string]; Grid.dx := [1%float];
          Grid.Thickness := [2%float] |};
     cfg_other := demo_opts;
     cfg_species := demo_species;
     cfg_mat_man :=
       {| get_material := fun _ => OK {| mat_rho := 2; mat_cp := 3 |};
          mm_layer_names := ["B"%string] |};
     cfg_reactions :=
       {[ 1 := {| rxn_Type := None; Active_Cells := None; rxn_rest := tt |} ]} |}.

(** *** The manager once the species are loaded *)

(** The demo manager once the species are loaded. *)
Definition demo_species_loaded : result reaction_manager :=
  let* g := Grid.setup_grid demo_table in
  let* s1 := init g demo_opts in
  load_species s1 demo_species demo_mat_man.

End Demo.

(** ** Arrays incremented entry by entry

    [bumped inc k a a']: [a'] is [a] with [inc i] added to entry [i], for the
    entries [i] before [k]; the loops of the boundary conditions over all
    nodes are in this state after [k] passes. *)
Definition bumped (inc : nat -> Q) (k : nat) (a a' : list Q) : Prop :=
  length a' = length a /\
  forall i, a' !! i = if decide (i < k)%nat
                      then (fun x => (x + inc i)%Q) <$> a !! i
                      else a !! i.

(** ** Notions used in the further properties of the reaction manager *)

(** At every node the heat release rate is the temperature rate times
    [rho_cp]. *)
Definition rates_agree {ET : Reaction.ExternalTypes}
  (s : Reaction.reaction_manager) : Prop :=
  Forall2 (fun t h => (h == t * Reaction.rho_cp s)%Q)
          (Reaction.temperature_rate s) (Reaction.heat_release_rate s).

(** What no call of [solve_ode_all_nodes] changes. *)
Definition same_configuration {ET : Reaction.ExternalTypes}
  (s s' : Reaction.reaction_manager) : Prop :=
  Reaction.n_tot s' = Reaction.n_tot s /\
  Reaction.mat_nodes s' = Reaction.mat_nodes s /\
  Reaction.species_name_list s' = Reaction.species_name_list s /\
  Reaction.n_species s' = Reaction.n_species s /\
  Reaction.rho_cp s' = Reaction.rho_cp s /\
  Reaction.small_number s' = Reaction.small_number s /\
  Reaction.cell_node_key s' = Reaction.cell_node_key s /\
  Reaction.node_to_system_map s' = Reaction.node_to_system_map s /\
  Reaction.reaction_systems s' = Reaction.reaction_systems s.

(** The vector handed to the integrator for node [k]: the densities of the
    species at the node, in the order of [species_name_list], followed by
    the temperature of the node. *)
Definition node_input {ET : Reaction.ExternalTypes}
  (s : Reaction.reaction_manager) (T_in : list Q) (k : nat) : list Q :=
  ((fun name => default 0%Q (Reaction.entry (Reaction.species_density s) name k))
     <$> Reaction.species_name_list s)
  ++ [default 0%Q (T_in !! k)].

(** The reaction system of node [k], the last row of the solution that its
    integrator returns for the node, and the status it reports. *)
Definition node_solution {ET : Reaction.ExternalTypes}
  {EO : Reaction.ExternalOps} (s : Reaction.reaction_manager)
  (args : Reaction.solver_args) (T_in : list Q) (k : nat)
  : option (Reaction.reaction_system * list Q * Reaction.status) :=
  sys_ind ← Reaction.node_to_system_map s !! k;
  if sys_ind <? 0 then None
  else
    rs ← Reaction.reaction_systems s !! Z.to_nat sys_ind;
    let '(my_sol, my_status) :=
      Reaction.solve_ode_node rs args (node_input s T_in k) in
    row ← last my_sol;
    Some (rs, row, my_status).

(** What the loop over the active nodes has written for the node [k] at
    position [act_ind] of the active node array of [s], with [rs] the
    reaction system of the node, [row] the last row of its solution and
    [st] the status of its integration. *)
Record integrated_at {ET : Reaction.ExternalTypes} {EO : Reaction.ExternalOps}
  (s : Reaction.reaction_manager) (return_err : bool) (act_ind k : nat)
  (rs : Reaction.reaction_system) (row : list Q) (st : Reaction.status)
  (dens rate : gmap string (list Q)) (tr hrr T_out : list Q)
  (inactive : list Z) (err_list : list Reaction.status) : Prop := {
  ia_T_out : T_out !! k = last row;
  ia_density : forall j name,
    Reaction.species_name_list s !! j = Some name ->
    Reaction.entry dens name k = row !! j;
  ia_rate : forall j name,
    Reaction.species_name_list s !! j = Some name ->
    Reaction.entry rate name k = Reaction.get_rates rs row !! j;
  ia_temperature_rate : tr !! k = last (Reaction.get_rates rs row);
  ia_heat_release_rate :
    hrr !! k = (fun r => (r * Reaction.rho_cp s)%Q)
                 <$> last (Reaction.get_rates rs row);
  ia_inactive :
    Z.of_nat act_ind ∈ inactive <-> Reaction.check_complete rs row = true;
  ia_err_list : return_err = true -> err_list !! act_ind = Some st
}.

(** Every active node is mapped to a reaction system that exists. *)
Definition systems_assigned {ET : Reaction.ExternalTypes}
  (s : Reaction.reaction_manager) : Prop :=
  Forall (fun i => exists sys_ind rs,
            Reaction.node_to_system_map s !! Z.to_nat i = Some sys_ind /\
            0 <= sys_ind /\
            Reaction.reaction_systems s !! Z.to_nat sys_ind = Some rs)
         (Reaction.active_nodes s).

(** The contract of the external collaborators: the solution that
    [solve_ode_node] returns has a last row with one entry per entry of the
    input vector, and [get_rates] returns one rate per entry of that row. *)
Definition well_shaped_collaborators {ET : Reaction.ExternalTypes}
  {EO : Reaction.ExternalOps} : Prop :=
  forall rs args v_in,
    exists row, last (Reaction.solve_ode_node rs args v_in).1 = Some row /\
                length row = length v_in /\
                length (Reaction.get_rates rs row) = length v_in.

(** The number of layers of the material [mat_name] among [names]. *)
Definition count_layers (mat_name : string) (names : list string) : Z :=
  Z.of_nat (length (List.filter (fun x => String.eqb mat_name x) names)).

(** * Properties *)

(** ** The error monad and the primitives *)

Lemma rbind_OK {A B} (r : result A) (k : A -> result B) (b : B) :
  rbind r k = OK b -> exists a, r = OK a /\ k a = OK b.
Proof. destruct r as [a|e]; simpl; [eauto | discriminate]. Qed.

Lemma Qltb_true (a b : Q) : Qltb a b = true <-> (a < b)%Q.
Proof.
  unfold Qltb. rewrite Qlt_alt. destruct (a ?= b)%Q; split; congruence.
Qed.

Lemma Qltb_false (a b : Q) : Qltb a b = false <-> (b <= a)%Q.
Proof.
  unfold Qltb. rewrite Qle_alt, <- (Qcompare_antisym a b).
  destruct (a ?= b)%Q; simpl; split; congruence.
Qed.

Lemma truediv_OK (a b : Q) : ~ (b == 0)%Q -> truediv a b = OK (a / b)%Q.
Proof.
  intros Hb. unfold truediv. destruct (Qeq_bool b 0) eqn:E; [|reflexivity].
  apply Qeq_bool_iff in E. contradiction.
Qed.

Lemma range_length (n : Z) : length (range n) = Z.to_nat n.
Proof. unfold range. by rewrite length_fmap, length_seq. Qed.

Lemma py_index_nonneg (len : nat) (i : nat) :
  (i < len)%nat -> py_index len (Z.of_nat i) = Some i.
Proof.
  intros H. unfold py_index.
  destruct (0 <=? Z.of_nat i) eqn:E1; [|lia].
  destruct (Z.of_nat i <? Z.of_nat len) eqn:E2; [|lia].
  simpl. by rewrite Nat2Z.id.
Qed.

Lemma getitem_nat {A} (a : list A) (i : nat) (x : A) :
  a !! i = Some x -> getitem a (Z.of_nat i) = OK x.
Proof.
  intros H. unfold getitem.
  rewrite py_index_nonneg by (by eapply lookup_lt_Some). simpl. by rewrite H.
Qed.

Lemma setitem_nat {A} (a : list A) (i : nat) (x : A) :
  (i < length a)%nat -> setitem a (Z.of_nat i) x = OK (<[i := x]> a).
Proof. intros H. unfold setitem. by rewrite py_index_nonneg. Qed.

Lemma py_index_lt len i k : py_index len i = Some k -> (k < len)%nat.
Proof.
  unfold py_index. intros H.
  destruct ((0 <=? i) && (i <? Z.of_nat len)) eqn:E1.
  - injection H as <-. apply andb_prop in E1 as [E1 E2]. lia.
  - destruct ((- Z.of_nat len <=? i) && (i <? 0)) eqn:E2; [|done].
    injection H as <-. apply andb_prop in E2 as [E2 E3]. lia.
Qed.

Lemma getitem_OK {A} (a : list A) i x :
  getitem a i = OK x ->
  exists k, py_index (length a) i = Some k /\ a !! k = Some x.
Proof.
  unfold getitem. destruct (py_index (length a) i) as [k|]; [|done].
  simpl. destruct (a !! k) eqn:E; [|done]. intros [= <-]. eauto.
Qed.


Lemma foldM_OK_inv {A S} (P : S -> Prop) (body : S -> A -> result S) l :
  forall s s',
  P s ->
  (forall s a s', a ∈ l -> P s -> body s a = OK s' -> P s') ->
  foldM body s l = OK s' -> P s'.
Proof.
  induction l as [|a l IH]; intros s s' Hs Hstep H; simpl in H.
  - by injection H as <-.
  - apply rbind_OK in H as (s1 & H1 & H2).
    eapply (IH s1 s'); [|intros; eapply Hstep; eauto; by right|done].
    eapply Hstep; eauto. by left.
Qed.

Lemma foldM_not_value_error {A S} (body : S -> A -> result S) l :
  forall s,
  (forall s a, a ∈ l -> ~ is_value_error (body s a)) ->
  ~ is_value_error (foldM body s l).
Proof.
  induction l as [|a l IH]; intros s Hstep [e He]; simpl in He; [done|].
  destruct (body s a) as [s1|e1] eqn:E1; simpl in He.
  - apply (IH s1); [|by eexists]. intros; apply Hstep. by right.
  - apply (Hstep s a); [by left|]. rewrite E1. by eexists.
Qed.

Lemma mapM_OK_lookup {A B} (f : A -> result B) l : forall l',
  mapM f l = OK l' ->
  length l' = length l /\
  forall k a, l !! k = Some a -> exists b, l' !! k = Some b /\ f a = OK b.
Proof.
  induction l as [|a l IH]; intros l' H; simpl in H.
  - injection H as <-. split; [done|]. intros k a Hk. done.
  - apply rbind_OK in H as (b & Hb & H).
    apply rbind_OK in H as (bs & Hbs & H). injection H as <-.
    destruct (IH bs Hbs) as [Hl Hk]. split; [simpl; lia|].
    intros [|k] a' Ha; simpl in *.
    + injection Ha as <-. eauto.
    + by apply Hk.
Qed.

Lemma setitem_OK {A} (a : list A) i x a' :
  setitem a i x = OK a' ->
  exists k, py_index (length a) i = Some k /\ a' = <[k := x]> a.
Proof.
  unfold setitem. destruct (py_index (length a) i) as [k|]; [|done].
  intros [= <-]. eauto.
Qed.

Lemma py_index_nonneg_inv len i k :
  0 <= i -> py_index len i = Some k -> k = Z.to_nat i /\ (k < len)%nat.
Proof.
  intros Hi H. pose proof (py_index_lt _ _ _ H). split; [|done].
  unfold py_index in H.
  destruct ((0 <=? i) && (i <? Z.of_nat len)) eqn:E1; [by injection H as <-|].
  destruct ((- Z.of_nat len <=? i) && (i <? 0)) eqn:E2; [|done].
  apply andb_prop in E2 as [_ E2]. lia.
Qed.

Lemma setitem_nonneg {A} (a : list A) i x a' :
  0 <= i -> setitem a i x = OK a' ->
  a' = <[Z.to_nat i := x]> a /\ (Z.to_nat i < length a)%nat.
Proof.
  intros Hi H. apply setitem_OK in H as (k & Hk & ->).
  apply py_index_nonneg_inv in Hk as [-> Hlt]; done.
Qed.

Lemma getitem_nonneg {A} (a : list A) i x :
  0 <= i -> getitem a i = OK x -> a !! Z.to_nat i = Some x.
Proof.
  intros Hi H. apply getitem_OK in H as (k & Hk & Hx).
  apply py_index_nonneg_inv in Hk as [-> _]; done.
Qed.

Lemma getitem_elem_of {A} (a : list A) i x : getitem a i = OK x -> x ∈ a.
Proof.
  intros H. apply getitem_OK in H as (k & _ & Hx).
  by eapply list_elem_of_lookup_2.
Qed.

Lemma range_elem_of n i : i ∈ range n <-> 0 <= i < n.
Proof.
  unfold range. rewrite list_elem_of_fmap. split.
  - intros (k & -> & Hk). apply elem_of_seq in Hk. lia.
  - intros Hi. exists (Z.to_nat i). split; [lia|]. apply elem_of_seq. lia.
Qed.


(** ** Binary64 *)

Lemma float_truediv_OK (a b q : float) :
  float_truediv a b = OK q -> (b =? 0)%float = false /\ q = (a / b)%float.
Proof.
  unfold float_truediv. destruct (b =? 0)%float; [done|]. by intros [= <-].
Qed.

(** Dividing by the integer zero raises. *)
Lemma float_truediv_int_OK (a : float) (n : Z) (q : float) :
  float_truediv_int a n = OK q -> n <> 0.
Proof.
  intros H ->. vm_compute in H. discriminate H.
Qed.

Lemma float_zeros_OK (n : Z) (z : list float) :
  float_zeros n = OK z -> 0 <= n /\ z = replicate (Z.to_nat n) 0%float.
Proof.
  unfold float_zeros. destruct (n <? 0) eqn:E; [done|].
  apply Z.ltb_ge in E. by intros [= <-].
Qed.

(** Half way between [k] and [k + 1] the rounding goes to the even one:
    [m * 2^e] is [k + 1/2] when [e] is negative and [2 m = (2 k + 1) 2^(-e)]. *)
Lemma round_half_even_tie (m e k : Z) :
  e < 0 -> 2 * m = (2 * k + 1) * 2 ^ (- e) ->
  round_half_even m e = if Z.even k then k else k + 1.
Proof.
  intros He Hm. unfold round_half_even.
  rewrite (proj2 (Z.leb_gt 0 e)) by lia.
  set (j := - e) in *.
  assert (Hj : 2 ^ j = 2 * 2 ^ (j - 1)).
  { rewrite <- Z.pow_succ_r by lia. f_equal. lia. }
  pose proof (Z.pow_pos_nonneg 2 (j - 1) ltac:(lia) ltac:(lia)) as Hp.
  assert (Hmk : m = k * 2 ^ j + 2 ^ (j - 1)) by nia.
  assert (Hq : m / 2 ^ j = k).
  { symmetry. apply (Z.div_unique_pos m (2 ^ j) k (2 ^ (j - 1))); lia. }
  assert (Hr : m mod 2 ^ j = 2 ^ (j - 1)).
  { symmetry. apply (Z.mod_unique_pos m (2 ^ j) k (2 ^ (j - 1))); lia. }
  cbn zeta. rewrite Hq, Hr.
  rewrite (proj2 (Z.compare_eq_iff _ _)) by lia. reflexivity.
Qed.

(** A float that stands for [k + 1/2], [k] not negative, rounds to the even
    one of [k] and [k + 1]. *)
Lemma int_round_tie (x : float) (q : Q) (k : Z) :
  float_value x = Some q -> (q == inject_Z k + (1 # 2))%Q -> 0 <= k ->
  int_round x = OK (if Z.even k then k else k + 1).
Proof.
  intros Hx Hq Hk. unfold float_value in Hx. unfold int_round.
  destruct (Prim2SF x) as [s| | |s m e]; try done.
  - injection Hx as <-. exfalso. unfold Qeq in Hq. simpl in Hq. lia.
  - injection Hx as <-.
    destruct (0 <=? e) eqn:Ee.
    + exfalso. unfold Qeq in Hq. simpl in Hq.
      set (v := cond_Zopp s (Z.pos m) * 2 ^ e) in *. lia.
    + apply Z.leb_gt in Ee.
      pose proof (Z.pow_pos_nonneg 2 (- e) ltac:(lia) ltac:(lia)) as Hp.
      unfold Qeq in Hq. simpl in Hq. rewrite Z2Pos.id in Hq by done.
      destruct s; simpl in Hq |- *.
      * exfalso. nia.
      * rewrite (round_half_even_tie (Z.pos m) e k); [done | done | lia].
Qed.

(** ** The grid builder *)

Section GridLoops.
Import Grid.

(** The layers [dxs], [ths] resolve to the counts [ns] and the spacings
    [ds], one after the other. *)
Lemma layer_loop_OK names : forall dxs ths ns ds i s,
  length dxs = length names -> length ths = length names ->
  length ns = length names -> length ds = length names ->
  (forall m n, ns !! m = Some n ->
     exists d th dx_m, dxs !! m = Some d /\ ths !! m = Some th /\
                       ds !! m = Some dx_m /\ resolves d th n dx_m) ->
  layer_loop i names dxs ths s = OK (layer_state_after s names ns ds).
Proof.
  induction names as [|name names IH];
    intros dxs ths ns ds i s Hl1 Hl2 Hl3 Hl4 Hres.
  - destruct ns; [|done]. destruct ds; [|done].
    simpl. unfold layer_state_after. simpl.
    rewrite !app_nil_r, Z.add_0_r. by destruct s.
  - destruct dxs as [|d dxs]; [done|]. destruct ths as [|th ths]; [done|].
    destruct ns as [|n ns]; [done|]. destruct ds as [|dx_m ds]; [done|].
    destruct (Hres 0%nat n eq_refl)
      as (d' & th' & dx' & [= <-] & [= <-] & [= <-] & Hthin & Hcnt & Hsp).
    simpl. unfold layer_body. rewrite Hthin.
    unfold layer_count in Hcnt.
    destruct (float_truediv th d) as [r|e]; [|done]. cbn [rbind] in Hcnt |- *.
    rewrite Hcnt. cbn [rbind]. rewrite Hsp. cbn [rbind].
    rewrite (IH dxs ths ns ds) by (simpl in *; first [lia | done |
      intros m n' Hm; apply (Hres (S m) n' Hm)]).
    unfold layer_state_after. simpl.
    rewrite <- !app_assoc, !Z.add_assoc. reflexivity.
Qed.

(** The loop stops at the first layer that is thinner than its requested
    spacing, when the layers before it resolve. *)
Lemma layer_loop_too_thin names : forall dxs ths i s,
  length dxs = length names -> length ths = length names ->
  Forall2 (fun d th => (th <? d)%float = false ->
                       exists n dx_m, resolves d th n dx_m /\ 1 <= n) dxs ths ->
  (exists m d th, dxs !! m = Some d /\ ths !! m = Some th /\
                  (th <? d)%float = true) ->
  exists k, layer_loop i names dxs ths s =
            Raise (ValueError (DxGreaterThanThickness k)).
Proof.
  induction names as [|name names IH]; intros dxs ths i s Hl1 Hl2 Hres Hthin.
  - destruct dxs; [|done]. by destruct Hthin as (m & d & th & Hd & _).
  - destruct dxs as [|d dxs]; [done|]. destruct ths as [|th ths]; [done|].
    apply Forall2_cons in Hres as [Hr Hres]. simpl.
    unfold layer_body at 1.
    destruct (th <? d)%float eqn:E; [by exists (i + 1)|].
    destruct (Hr eq_refl) as (n & dx_m & (_ & Hcnt & Hsp) & _).
    unfold layer_count in Hcnt.
    destruct (float_truediv th d) as [r|e]; [|done]. cbn [rbind] in Hcnt |- *.
    rewrite Hcnt. cbn [rbind]. rewrite Hsp. cbn [rbind].
    apply IH; simpl in *; try lia; try done.
    destruct Hthin as ([|m] & d' & th' & Hd & Hth & Hlt); simpl in Hd, Hth.
    + injection Hd as <-. injection Hth as <-. congruence.
    + by exists m, d', th'.
Qed.

(** The loop over the layers, read backwards: what a run that did not raise
    has gone through. *)
Lemma layer_loop_returns names : forall dxs ths i s s',
  layer_loop i names dxs ths s = OK s' ->
  exists ns ds,
    length ns = length names /\ length ds = length names /\
    s' = layer_state_after s names ns ds /\
    forall m n, ns !! m = Some n ->
      exists d th dx_m, dxs !! m = Some d /\ ths !! m = Some th /\
        ds !! m = Some dx_m /\ resolves d th n dx_m /\ n <> 0.
Proof.
  induction names as [|name names IH]; intros dxs ths i s s' H; simpl in H.
  - injection H as <-. exists [], []. unfold layer_state_after. simpl.
    rewrite !app_nil_r, Z.add_0_r. split; [done|]. split; [done|].
    split; [by destruct s | done].
  - destruct ths as [|th ths]; [done|]. destruct dxs as [|d dxs]; [done|].
    apply rbind_OK in H as (s1 & H1 & H).
    unfold layer_body in H1. destruct (th <? d)%float eqn:Elt; [done|].
    apply rbind_OK in H1 as (r & Hr & H1).
    apply rbind_OK in H1 as (n & Hn & H1).
    apply rbind_OK in H1 as (dx_m & Hdx & H1). injection H1 as <-.
    destruct (IH _ _ _ _ _ H) as (ns & ds & Hl & Hl' & -> & Hlk).
    exists (n :: ns), (dx_m :: ds). simpl.
    split; [lia|]. split; [lia|]. split.
    { unfold layer_state_after. simpl.
      rewrite <- !app_assoc, !Z.add_assoc. reflexivity. }
    intros [|m] n' Hm; simpl in Hm.
    + injection Hm as <-. exists d, th, dx_m.
      do 3 (split; [done|]). split.
      * split; [done|]. split; [|done]. unfold layer_count. by rewrite Hr.
      * by eapply float_truediv_int_OK.
    + by apply Hlk.
Qed.

(** The lengths of the closed forms. *)

Lemma mints_length start ns : length (mints start ns) = length ns.
Proof. revert start. induction ns; intros; simpl; [done|]. by rewrite IHns. Qed.

Lemma firsts_length start ns : length (firsts start ns) = length ns.
Proof. revert start. induction ns; intros; simpl; [done|]. by rewrite IHns. Qed.

Lemma total_nonneg ns : Forall (fun n => 1 <= n) ns -> 0 <= total ns.
Proof. induction 1; simpl; lia. Qed.

Lemma expand_length {A} ns : forall (xs : list A),
  length xs = length ns -> Forall (fun n => 1 <= n) ns ->
  length (expand ns xs) = Z.to_nat (total ns).
Proof.
  induction ns as [|n ns IH]; intros xs Hl Hn; [by destruct xs|].
  destruct xs as [|x xs]; [done|].
  apply Forall_cons in Hn as [Hn1 Hn]. simpl.
  rewrite length_app, length_replicate, IH by (simpl in *; first [lia|done]).
  pose proof (total_nonneg ns Hn). lia.
Qed.

(** The loop that fills [dx_arr]: having written the nodes before [start],
    with the layer pointer on layer [m], it writes the remaining layers. *)
Lemma dx_loop_fill len : forall ns ds m start dx_list mint_list done_,
  Forall (fun n => 1 <= n) ns -> length ds = length ns ->
  len = Z.to_nat (total ns) ->
  drop m dx_list = ds ->
  drop m mint_list = mints (Z.of_nat start) ns ->
  length done_ = start ->
  dx_loop (Z.of_nat <$> seq start len) m dx_list mint_list
          (done_ ++ replicate len 0%float)
  = OK (done_ ++ expand ns ds).
Proof.
  induction len as [|len IH];
    intros ns ds m start dx_list mint_list done_ Hn Hl Hlen Hd Hm Hs.
  - destruct ns as [|n ns].
    + destruct ds; [|done]. reflexivity.
    + apply Forall_cons in Hn as [Hn1 Hn]. pose proof (total_nonneg ns Hn).
      simpl in Hlen. lia.
  - destruct ns as [|n ns]; [done|]. destruct ds as [|d ds]; [done|].
    apply Forall_cons in Hn as [Hn1 Hn]. pose proof (total_nonneg ns Hn) as Ht.
    simpl in Hlen.
    assert (Hdm : dx_list !! m = Some d).
    { rewrite <- (Nat.add_0_r m), <- lookup_drop, Hd. reflexivity. }
    assert (Hmm : mint_list !! m = Some (Z.of_nat start + n - 1)).
    { rewrite <- (Nat.add_0_r m), <- lookup_drop, Hm. reflexivity. }
    cbn [seq fmap list_fmap dx_loop]. rewrite Hdm. cbn [rbind or_raise].
    rewrite setitem_nat by (rewrite length_app, length_replicate; simpl; lia).
    cbn [rbind]. rewrite Hmm. cbn [rbind or_raise].
    replace (<[start := d]> (done_ ++ replicate (S len) 0%float))
      with ((done_ ++ [d]) ++ replicate len 0%float).
    2:{ rewrite <- app_assoc. subst start.
        rewrite <- (Nat.add_0_r (length done_)), insert_app_r. reflexivity. }
    destruct (Z.eq_dec n 1) as [->|Hne].
    + rewrite (proj2 (Z.eqb_eq _ _)) by lia.
      rewrite (IH ns ds (S m) (S start) dx_list mint_list (done_ ++ [d])).
      * simpl. by rewrite <- app_assoc.
      * done.
      * simpl in Hl. lia.
      * lia.
      * replace (S m) with (m + 1)%nat by lia.
        rewrite <- drop_drop, Hd. reflexivity.
      * replace (S m) with (m + 1)%nat by lia.
        rewrite <- drop_drop, Hm. simpl. rewrite drop_0.
        f_equal. lia.
      * rewrite length_app. simpl. lia.
    + rewrite (proj2 (Z.eqb_neq _ _)) by lia.
      rewrite (IH ((n - 1) :: ns) (d :: ds) m (S start) dx_list mint_list
                  (done_ ++ [d])).
      * simpl. rewrite <- app_assoc. simpl. f_equal.
        replace (Z.to_nat n) with (S (Z.to_nat (n - 1))) by lia. reflexivity.
      * constructor; [lia | done].
      * done.
      * simpl. lia.
      * done.
      * rewrite Hm. simpl. f_equal; [lia | f_equal; lia].
      * rewrite length_app. simpl. lia.
Qed.

Lemma dx_loop_OK ns ds :
  Forall (fun n => 1 <= n) ns -> length ds = length ns ->
  dx_loop (range (total ns)) 0 ds (mints 0 ns)
          (replicate (Z.to_nat (total ns)) 0%float)
  = OK (expand ns ds).
Proof.
  intros Hn Hl.
  apply (dx_loop_fill (Z.to_nat (total ns)) ns ds 0%nat 0%nat ds (mints 0 ns) []);
    done.
Qed.
Lemma node_locations_fill dx_arr len : forall start done_,
  (start + len <= length dx_arr)%nat -> length done_ = start ->
  foldM (fun x i =>
           let* dxi := getitem dx_arr i in
           setitem x i (0.5 * dxi + float_sum (take (Z.to_nat i) dx_arr))%float)
        (done_ ++ replicate len 0%float) (Z.of_nat <$> seq start len)
  = OK (done_ ++ (x_at dx_arr <$> seq start len)).
Proof.
  induction len as [|len IH]; intros start done_ Hb Hs; [reflexivity|].
  cbn [seq fmap list_fmap foldM].
  destruct (lookup_lt_is_Some_2 dx_arr start ltac:(lia)) as [dxi Hdxi].
  rewrite (getitem_nat _ _ _ Hdxi). cbn [rbind].
  rewrite setitem_nat by (rewrite length_app, length_replicate; simpl; lia).
  cbn [rbind].
  replace (<[start := _]> (done_ ++ replicate (S len) 0%float))
    with ((done_ ++ [x_at dx_arr start]) ++ replicate len 0%float).
  2:{ rewrite <- app_assoc. subst start.
      rewrite <- (Nat.add_0_r (length done_)), insert_app_r.
      unfold x_at. rewrite Nat.add_0_r, Hdxi, Nat2Z.id. reflexivity. }
  rewrite IH by (rewrite ?length_app; simpl; lia).
  by rewrite <- app_assoc.
Qed.

Lemma node_locations_OK n dx_arr :
  0 <= n -> length dx_arr = Z.to_nat n ->
  node_locations n dx_arr = OK (x_at dx_arr <$> seq 0 (Z.to_nat n)).
Proof.
  intros Hn Hl. unfold node_locations, float_zeros.
  rewrite (proj2 (Z.ltb_ge _ _)) by lia. cbn [rbind].
  apply (node_locations_fill dx_arr (Z.to_nat n) 0%nat []); [lia | done].
Qed.

Lemma bounds_fold_OK mint_list l : forall acc,
  Forall (fun m => 1 <= m < Z.of_nat (length mint_list)) l ->
  is_OK (foldM (fun '(ib, kb) m =>
           let* a := getitem mint_list (m - 1) in
           let* b := getitem mint_list m in
           OK (ib ++ [(a + 2, b)], kb ++ [(a + 1, b)])) acc l).
Proof.
  induction l as [|m l IH]; intros [ib kb] Hl; [by eexists|].
  apply Forall_cons in Hl as [Hm Hl]. simpl.
  destruct (lookup_lt_is_Some_2 mint_list (Z.to_nat (m - 1)) ltac:(lia)) as [a Ha].
  destruct (lookup_lt_is_Some_2 mint_list (Z.to_nat m) ltac:(lia)) as [b Hb].
  apply getitem_nat in Ha, Hb. rewrite Z2Nat.id in Ha, Hb by lia.
  rewrite Ha, Hb. simpl. apply IH, Hl.
Qed.

Lemma bounds_loop_OK nl mint_list :
  nl = Z.of_nat (length mint_list) -> 1 <= nl ->
  is_OK (bounds_loop nl mint_list).
Proof.
  intros -> Hn. unfold bounds_loop.
  destruct mint_list as [|m0 ml]; [simpl in Hn; lia|].
  change (getitem (m0 :: ml) 0) with (OK (A:=Z) m0). cbn [rbind].
  apply bounds_fold_OK. apply list.Forall_forall. intros m Hm.
  apply list_elem_of_fmap in Hm as (k & -> & Hk).
  unfold range in Hk. apply list_elem_of_fmap in Hk as (j & -> & Hj).
  apply elem_of_seq in Hj. simpl length in *. lia.
Qed.

End GridLoops.

Section GridSetup.
Import Grid.

(** Either no layer is thinner than its requested spacing, or there is a
    first one. *)
Lemma thin_or_not dxs : forall ths,
  length ths = length dxs ->
  Forall2 (fun d th => (th <? d)%float = false) dxs ths \/
  exists m d th, dxs !! m = Some d /\ ths !! m = Some th /\
                 (th <? d)%float = true.
Proof.
  induction dxs as [|d dxs IH]; intros [|th ths] Hl; try done.
  - left. constructor.
  - destruct (th <? d)%float eqn:E.
    + right. by exists 0%nat, d, th.
    + destruct (IH ths) as [HF|(m & d' & th' & H1 & H2 & H3)].
      * simpl in Hl. lia.
      * left. by constructor.
      * right. by exists (S m), d', th'.
Qed.

Lemma thin_not_thick dxs ths m d th :
  dxs !! m = Some d -> ths !! m = Some th -> (th <? d)%float = true ->
  ~ Forall2 (fun d th => (th <? d)%float = false) dxs ths.
Proof.
  intros H1 H2 Hlt HF.
  pose proof (Forall2_lookup_lr _ _ _ _ _ _ HF H1 H2) as Hle. simpl in Hle.
  congruence.
Qed.

(** The counts and the spacings of the layers of a table in which no layer
    is thin and every layer resolves. *)
Lemma resolve_all dxs ths :
  Forall2 (fun d th => (th <? d)%float = false ->
                       exists n dx_m, resolves d th n dx_m /\ 1 <= n) dxs ths ->
  Forall2 (fun d th => (th <? d)%float = false) dxs ths ->
  exists ns ds,
    length ns = length dxs /\ length ds = length dxs /\
    Forall (fun n => 1 <= n) ns /\
    forall m n, ns !! m = Some n ->
      exists d th dx_m, dxs !! m = Some d /\ ths !! m = Some th /\
                        ds !! m = Some dx_m /\ resolves d th n dx_m.
Proof.
  induction 1 as [|d th dxs ths Hr Hres IH]; intros Hthick.
  - exists [], []. by repeat split.
  - apply Forall2_cons in Hthick as [Ht Hthick].
    destruct (Hr Ht) as (n & dx_m & Hn & Hn1).
    destruct (IH Hthick) as (ns & ds & Hl & Hl' & Hns & Hlk).
    exists (n :: ns), (dx_m :: ds). simpl.
    split; [lia|]. split; [lia|]. split; [by constructor|].
    intros [|m] n' Hm; simpl in Hm.
    + injection Hm as <-. by exists d, th, dx_m.
    + by apply Hlk.
Qed.


(** The single-node check finds nothing exactly when there is at most one
    layer or every layer has two nodes or more. *)
Lemma single_node_layers_nil ns :
  single_node_layers (Z.of_nat (length ns)) ns = [] <->
  (length ns <= 1)%nat \/ Forall (fun n => 2 <= n) ns.
Proof.
  unfold single_node_layers.
  destruct (1 <? Z.of_nat (length ns)) eqn:E.
  - apply Z.ltb_lt in E. split.
    + intros Hnil. right. apply Forall_lookup. intros k n Hk.
      destruct (Z_le_gt_dec 2 n) as [|Hgt]; [done|]. exfalso.
      assert (Hin : Z.of_nat k ∈ List.filter
        (fun i => match ns !! Z.to_nat i with Some n => n <=? 1 | None => false end)
        (range (Z.of_nat (length ns)))).
      { apply list_elem_of_In, filter_In. split.
        - apply list_elem_of_In. unfold range. apply list_elem_of_fmap.
          exists k. split; [done|]. apply elem_of_seq.
          apply lookup_lt_Some in Hk. lia.
        - rewrite Nat2Z.id, Hk. apply Z.leb_le. lia. }
      rewrite Hnil in Hin. by apply not_elem_of_nil in Hin.
    + intros [Hl|HF]; [lia|].
      destruct (List.filter _ _) as [|i l] eqn:Ef; [done|]. exfalso.
      assert (Hin : In i (i :: l)) by (by left).
      rewrite <- Ef in Hin. apply filter_In in Hin as [_ Hi].
      destruct (ns !! Z.to_nat i) as [n|] eqn:Hn; [|done].
      apply Z.leb_le in Hi.
      pose proof (Forall_lookup_1 _ _ _ _ HF Hn). simpl in *. lia.
  - apply Z.ltb_ge in E. split; [intros _; left; lia | done].
Qed.

(** [setup_grid] once the layers have resolved to the counts [ns] and the
    spacings [ds]. *)
Lemma setup_grid_after_loop t ns ds :
  length (dx t) = length (Material_Name t) ->
  length (Thickness t) = length (Material_Name t) ->
  length ns = length (Material_Name t) -> length ds = length (Material_Name t) ->
  Forall (fun n => 1 <= n) ns ->
  (forall m n, ns !! m = Some n ->
     exists d th dx_m, dx t !! m = Some d /\ Thickness t !! m = Some th /\
                       ds !! m = Some dx_m /\ resolves d th n dx_m) ->
  setup_grid t =
  match single_node_layers (Z.of_nat (length (Material_Name t))) ns with
  | (_ :: _) as l => Raise (ValueError (SingleNodeLayers l))
  | [] =>
      let* (ib, kb) := bounds_loop (Z.of_nat (length (Material_Name t))) (mints 0 ns) in
      OK (grid_of t ns ds ib kb)
  end.
Proof.
  intros Hl1 Hl2 Hl3 Hl4 Hns Hres. unfold setup_grid.
  rewrite (layer_loop_OK _ _ _ ns ds) by done. cbn [rbind].
  unfold layer_state_after, layer_state0. cbn [ls_nodes_per_layer ls_n_tot
    ls_mint_list ls_first_node_list ls_dx_list ls_mat_nodes app Z.add].
  pose proof (total_nonneg ns Hns) as Htot.
  destruct (single_node_layers _ ns); [|reflexivity].
  unfold float_zeros. rewrite (proj2 (Z.ltb_ge _ _)) by lia. cbn [rbind].
  rewrite !Z.add_0_l.
  rewrite dx_loop_OK by (first [done | lia]).
  cbn [rbind].
  destruct (bounds_loop _ _) as [[ib kb]|e]; [|reflexivity].
  cbn [rbind].
  rewrite node_locations_OK; [reflexivity | done |].
  apply expand_length; [lia | done].
Qed.

(** The two bounds lists, entry by entry. *)
Lemma bounds_fold_returns (ml : list Z) l : forall ib kb ib' kb',
  Forall (fun m => 1 <= m) l ->
  foldM (fun '(ib, kb) m =>
           let* a := getitem ml (m - 1) in
           let* b := getitem ml m in
           OK (ib ++ [(a + 2, b)], kb ++ [(a + 1, b)])) (ib, kb) l
  = OK (ib', kb') ->
  Forall2 (fun m '(a, b) => ml !! Z.to_nat (m - 1) = Some (a - 2) /\
                            ml !! Z.to_nat m = Some b) l (drop (length ib) ib') /\
  Forall2 (fun m '(a, b) => ml !! Z.to_nat (m - 1) = Some (a - 1) /\
                            ml !! Z.to_nat m = Some b) l (drop (length kb) kb') /\
  take (length ib) ib' = ib /\ take (length kb) kb' = kb.
Proof.
  induction l as [|m l IH]; intros ib kb ib' kb' Hl H.
  - injection H as <- <-. rewrite !drop_all, !firstn_all. by repeat split.
  - apply Forall_cons in Hl as [Hm Hl]. simpl in H.
    apply rbind_OK in H as ([ib1 kb1] & H1 & H).
    apply rbind_OK in H1 as (a & Ha & H1).
    apply rbind_OK in H1 as (b & Hb & H1). injection H1 as <- <-.
    apply getitem_nonneg in Ha; [|lia]. apply getitem_nonneg in Hb; [|lia].
    destruct (IH _ _ _ _ Hl H) as (F1 & F2 & T1 & T2).
    rewrite !length_app in F1, F2, T1, T2. simpl in F1, F2, T1, T2.
    assert (Eib : ib' = ib ++ (a + 2, b) :: drop (length ib + 1) ib').
    { rewrite <- (take_drop (length ib + 1) ib') at 1. rewrite T1.
      by rewrite <- app_assoc. }
    assert (Ekb : kb' = kb ++ (a + 1, b) :: drop (length kb + 1) kb').
    { rewrite <- (take_drop (length kb + 1) kb') at 1. rewrite T2.
      by rewrite <- app_assoc. }
    split; [|split; [|split]].
    + rewrite Eib at 1. rewrite drop_app_length. constructor; [|done].
      split; [|done]. rewrite Ha. f_equal. lia.
    + rewrite Ekb at 1. rewrite drop_app_length. constructor; [|done].
      split; [|done]. rewrite Ha. f_equal. lia.
    + rewrite Eib. by rewrite take_app_length.
    + rewrite Ekb. by rewrite take_app_length.
Qed.

(** The first node of a layer is the node after the last node of the layer
    before. *)
Lemma firsts_after_mints ns : forall start m l,
  mints start ns !! m = Some l -> (S m < length ns)%nat ->
  firsts start ns !! S m = Some (l + 1).
Proof.
  induction ns as [|n ns IH]; intros start m l Hm Hlt; [done|].
  destruct m as [|m]; simpl in *.
  - injection Hm as <-. destruct ns; simpl in *; [lia|]. f_equal. lia.
  - apply IH; [done | lia].
Qed.

Lemma firsts_head start n ns : firsts start (n :: ns) !! 0%nat = Some start.
Proof. reflexivity. Qed.

Lemma mints_last ns : forall start,
  ns <> [] ->
  mints start ns !! (length ns - 1)%nat = Some (start + total ns - 1).
Proof.
  induction ns as [|n ns IH]; intros start Hne; [done|].
  destruct ns as [|n' ns].
  - simpl. f_equal. lia.
  - specialize (IH (start + n) ltac:(done)).
    simpl length in *. replace (S (S (length ns)) - 1)%nat with (S (length ns)) by lia.
    replace (S (length ns) - 1)%nat with (length ns) in IH by lia.
    change (mints start (n :: n' :: ns) !! S (length ns))
      with (mints (start + n) (n' :: ns) !! length ns).
    rewrite IH. f_equal. simpl. lia.
Qed.

Lemma bounds_loop_returns ns ib kb :
  bounds_loop (Z.of_nat (length ns)) (mints 0 ns) = OK (ib, kb) ->
  ib = zip (Z.succ <$> firsts 0 ns) (mints 0 ns) /\
  kb = zip (firsts 0 ns) (mints 0 ns).
Proof.
  intros H. unfold bounds_loop in H.
  apply rbind_OK in H as (m0 & Hm0 & H).
  destruct ns as [|n ns]; [done|].
  apply getitem_nonneg in Hm0; [|lia]. simpl in Hm0. injection Hm0 as <-.
  apply bounds_fold_returns in H as (F1 & F2 & T1 & T2).
  2:{ apply list.Forall_forall. intros m Hm.
      apply list_elem_of_fmap in Hm as (k & -> & Hk).
      apply range_elem_of in Hk. lia. }
  simpl length in F1, F2, T1, T2.
  set (ml := mints 0 (n :: ns)) in *.
  set (fl := firsts 0 (n :: ns)).
  assert (Hlen : length (Z.succ <$> range (Z.of_nat (S (length ns)) - 1))
                 = length ns).
  { rewrite length_fmap, range_length. lia. }
  assert (Hrng : forall k, (k < length ns)%nat ->
            (Z.succ <$> range (Z.of_nat (S (length ns)) - 1)) !! k
            = Some (Z.of_nat (S k))).
  { intros k Hk. unfold range. rewrite !list_lookup_fmap, lookup_seq_lt by lia.
    simpl. f_equal. lia. }
  assert (Hent : forall (c : Z) (xs : list (Z * Z)),
            take 1 xs = [(c, 0 + n - 1)] ->
            Forall2 (fun m '(a, b) => ml !! Z.to_nat (m - 1) = Some (a - c - 1) /\
                                      ml !! Z.to_nat m = Some b)
                    (Z.succ <$> range (Z.of_nat (S (length ns)) - 1))
                    (drop 1 xs) ->
            xs = zip ((fun f => f + c) <$> fl) ml).
  { intros c xs Hx HF.
    pose proof (Forall2_length _ _ _ HF) as Hl. rewrite Hlen in Hl.
    assert (Hxl : length xs = S (length ns)).
    { destruct xs; [done|]. simpl in Hl. rewrite drop_0 in Hl. simpl. lia. }
    apply list_eq. intros k.
    destruct (decide (k < S (length ns))%nat) as [Hk|Hk].
    2:{ rewrite !lookup_ge_None_2; [done| |lia].
        rewrite length_zip, length_fmap. unfold fl, ml.
        rewrite firsts_length, mints_length. simpl. lia. }
    destruct k as [|k].
    - destruct xs as [|x xs]; [done|]. simpl in Hx. rewrite take_0 in Hx.
      injection Hx as ->. simpl. by rewrite Z.add_0_l.
    - destruct (lookup_lt_is_Some_2 xs (S k) ltac:(lia)) as [[a b] Hab].
      rewrite Hab.
      assert (Hd : drop 1 xs !! k = Some (a, b)).
      { rewrite lookup_drop. exact Hab. }
      pose proof (Forall2_lookup_lr _ _ _ _ _ _ HF (Hrng k ltac:(lia)) Hd)
        as [Ha Hb].
      replace (Z.to_nat (Z.of_nat (S k) - 1)) with k in Ha by lia.
      rewrite Nat2Z.id in Hb.
      apply firsts_after_mints in Ha; [|simpl; lia]. fold fl in Ha.
      symmetry. apply lookup_zip_with_Some. exists a, b.
      split; [done|]. split; [|done].
      rewrite list_lookup_fmap, Ha. simpl. f_equal; lia. }
  split.
  - rewrite (Hent 1 ib).
    + reflexivity.
    + done.
    + eapply Forall2_impl; [exact F1|]. intros m [a b] [Ha Hb]. split; [|done].
      rewrite Ha. f_equal. lia.
  - rewrite (Hent 0 kb).
    + f_equal. rewrite <- (list_fmap_id fl) at 2. apply list_fmap_ext.
      intros; simpl; lia.
    + done.
    + eapply Forall2_impl; [exact F2|]. intros m [a b] [Ha Hb]. split; [|done].
      rewrite Ha. f_equal. lia.
Qed.

Lemma total_ge_length ns c :
  0 <= c -> Forall (fun n => c <= n) ns -> c * Z.of_nat (length ns) <= total ns.
Proof. intros Hc. induction 1; simpl; lia. Qed.

(** Every node lies in a layer. *)
Lemma node_in_layer ns : forall start i,
  Forall (fun n => 1 <= n) ns -> start <= i < start + total ns ->
  exists m f l, firsts start ns !! m = Some f /\ mints start ns !! m = Some l /\
                f <= i <= l.
Proof.
  induction ns as [|n ns IH]; intros start i Hn Hi; [simpl in Hi; lia|].
  apply Forall_cons in Hn as [Hn1 Hn]. simpl in Hi.
  destruct (Z_lt_ge_dec i (start + n)) as [Hlt|Hge].
  - exists 0%nat, start, (start + n - 1). simpl. repeat split; lia.
  - destruct (IH (start + n) i Hn ltac:(lia)) as (m & f & l & Hf & Hl & Hfl).
    by exists (S m), f, l.
Qed.

(** A grid that [setup_grid] has returned, in terms of the node counts [ns]
    and the spacings [ds] of its layers. *)
Lemma setup_grid_returns t g :
  setup_grid t = OK g ->
  exists ns ds,
    length ns = length (Material_Name t) /\ length ds = length ns /\
    ns <> [] /\
    ((length ns = 1%nat /\ Forall (fun n => 1 <= n) ns) \/
     Forall (fun n => 2 <= n) ns) /\
    (forall m n, ns !! m = Some n ->
       exists d th dx_m, dx t !! m = Some d /\ Thickness t !! m = Some th /\
                         ds !! m = Some dx_m /\ resolves d th n dx_m) /\
    n_layers g = Z.of_nat (length (Material_Name t)) /\
    n_tot g = total ns /\
    mat_nodes g = expand ns (Material_Name t) /\
    first_node_list g = firsts 0 ns /\
    mint_list g = mints 0 ns /\
    dx_arr g = expand ns ds /\
    internal_bounds g = zip (Z.succ <$> firsts 0 ns) (mints 0 ns) /\
    k_bounds g = zip (firsts 0 ns) (mints 0 ns) /\
    x_node g = x_at (expand ns ds) <$> seq 0 (Z.to_nat (total ns)).
Proof.
  intros H. unfold setup_grid in H.
  apply rbind_OK in H as (s & Hs & H).
  destruct (layer_loop_returns _ _ _ _ _ _ Hs) as (ns & ds & Hl & Hl' & -> & Hlk).
  unfold layer_state_after, layer_state0 in H.
  cbn [ls_nodes_per_layer ls_n_tot ls_mint_list ls_first_node_list ls_dx_list
       ls_mat_nodes app] in H.
  rewrite !Z.add_0_l in H.
  destruct (single_node_layers _ _) as [|x l] eqn:Es; [|done].
  rewrite <- Hl in Es. apply single_node_layers_nil in Es.
  apply rbind_OK in H as (z & Hz & H).
  apply float_zeros_OK in Hz as [En ->].
  assert (Hne : ns <> []).
  { intros ->. simpl in H. discriminate H. }
  assert (Hcnt : (length ns = 1%nat /\ Forall (fun n => 1 <= n) ns) \/
                 Forall (fun n => 2 <= n) ns).
  { destruct Es as [Hle|HF]; [left|by right].
    destruct ns as [|n [|n' ns]]; [done| |simpl in Hle; lia].
    split; [done|].
    destruct (Hlk 0%nat n eq_refl) as (_ & _ & _ & _ & _ & _ & _ & Hn0).
    simpl in En. constructor; [lia | constructor]. }
  assert (Hn1 : Forall (fun n => 1 <= n) ns).
  { destruct Hcnt as [[_ HF]|HF]; [done|].
    eapply Forall_impl; [exact HF|]. simpl. intros; lia. }
  rewrite dx_loop_OK in H by (first [done | lia]).
  cbn [rbind] in H. rewrite <- Hl in H.
  apply rbind_OK in H as ([ib kb] & Hb & H).
  apply bounds_loop_returns in Hb as [-> ->].
  rewrite node_locations_OK in H;
    [|by apply total_nonneg | apply expand_length; first [done | lia]].
  cbn [rbind] in H. injection H as <-. simpl.
  exists ns, ds.
  repeat split; try done; try lia.
  intros m n Hm. destruct (Hlk m n Hm) as (d & th & dx_m & H1 & H2 & H3 & H4 & _).
  by exists d, th, dx_m.
Qed.

End GridSetup.

Section GridGeometry.
Import Grid.

(** First and last node of a layer. *)
Lemma firsts_mints_lookup ns : forall start m n,
  ns !! m = Some n ->
  exists f, firsts start ns !! m = Some f /\
            mints start ns !! m = Some (f + n - 1).
Proof.
  induction ns as [|n0 ns IH]; intros start m n Hm; [done|].
  destruct m as [|m]; simpl in *.
  - injection Hm as ->. eauto.
  - by apply IH.
Qed.

Lemma firsts_ge ns : forall start m f,
  Forall (fun n => 1 <= n) ns -> firsts start ns !! m = Some f -> start <= f.
Proof.
  induction ns as [|n ns IH]; intros start m f Hn Hf; [done|].
  apply Forall_cons in Hn as [Hn1 Hn].
  destruct m; simpl in *; [injection Hf as <-; lia|].
  specialize (IH _ _ _ Hn Hf). lia.
Qed.

(** Every node between the first and the last node of a layer carries that
    layer's entry. *)
Lemma expand_lookup_layer {A} ns : forall (xs : list A) start m f l x i,
  Forall (fun n => 1 <= n) ns -> length xs = length ns -> 0 <= start ->
  firsts start ns !! m = Some f -> mints start ns !! m = Some l ->
  xs !! m = Some x -> f <= i <= l ->
  expand ns xs !! Z.to_nat (i - start) = Some x.
Proof.
  induction ns as [|n ns IH]; intros xs start m f l x i Hn Hl Hs Hf Hm Hx Hi;
    [done|].
  destruct xs as [|x0 xs]; [done|].
  apply Forall_cons in Hn as [Hn1 Hn]. simpl.
  destruct m as [|m]; simpl in *.
  - injection Hf as <-. injection Hm as <-. injection Hx as <-.
    rewrite lookup_app_l by (rewrite length_replicate; lia).
    apply lookup_replicate_2. lia.
  - pose proof (firsts_ge _ _ _ _ Hn Hf) as Hfi.
    rewrite lookup_app_r by (rewrite length_replicate; lia).
    rewrite length_replicate.
    replace (Z.to_nat (i - start) - Z.to_nat n)%nat
      with (Z.to_nat (i - (start + n))) by lia.
    eapply (IH xs (start + n) m f l x i); eauto; lia.
Qed.

(** Node positions: each is right of the one before when all spacings are
    positive lengths. *)
End GridGeometry.

Section GridTheorems.
Import Grid.


Lemma total_pos ns : ns <> [] -> Forall (fun n => 1 <= n) ns -> 1 <= total ns.
Proof.
  intros Hne Hn. destruct Hn as [|n ns Hn1 Hn]; [done|].
  pose proof (total_nonneg ns Hn). simpl. lia.
Qed.

(** What a layer of a returned grid went through. *)
Lemma returned_layer t g :
  setup_grid t = OK g ->
  forall m d th, dx t !! m = Some d -> Thickness t !! m = Some th ->
    (m < length (Material_Name t))%nat ->
    exists n nf f l,
      (th <? d)%float = false /\ (d =? 0)%float = false /\
      int_round (th / d)%float = OK n /\ 1 <= n /\
      float_of_int n = OK nf /\
      first_node_list g !! m = Some f /\ mint_list g !! m = Some l /\
      0 <= f /\ l - f + 1 = n /\
      forall i, f <= i <= l -> dx_arr g !! Z.to_nat i = Some (th / nf)%float.
Proof.
  intros H m d th Hd Hth Hm.
  destruct (setup_grid_returns _ _ H)
    as (ns & ds & Hl & Hl' & Hne & Hcnt & Hlk & _ & _ & _ & E3 & E4 & E5 & _).
  assert (Hn1 : Forall (fun n => 1 <= n) ns).
  { destruct Hcnt as [[_ HF]|HF]; [done|].
    eapply Forall_impl; [exact HF|]. simpl. intros; lia. }
  destruct (lookup_lt_is_Some_2 ns m ltac:(lia)) as [n Hn].
  destruct (Hlk m n Hn) as (d' & th' & dx_m & Hd' & Hth' & Hds & Hthin & Hc & Hs).
  rewrite Hd in Hd'. injection Hd' as <-.
  rewrite Hth in Hth'. injection Hth' as <-.
  unfold layer_count in Hc. apply rbind_OK in Hc as (r & Hr & Hc).
  apply float_truediv_OK in Hr as [Hd0 ->].
  unfold float_truediv_int in Hs. apply rbind_OK in Hs as (nf & Hnf & Hs).
  apply float_truediv_OK in Hs as [_ ->].
  destruct (firsts_mints_lookup ns 0 m n Hn) as (f & Hf & Hmi).
  pose proof (firsts_ge _ _ _ _ Hn1 Hf) as Hf0.
  exists n, nf, f, (f + n - 1). rewrite E3, E4, E5.
  do 3 (split; [done|]).
  split; [by eapply Forall_lookup_1 in Hn1|].
  do 4 (split; [done|]). split; [lia|].
  intros i Hi. rewrite <- (Z.sub_0_r i).
  eapply (expand_lookup_layer ns ds 0 m); eauto; lia.
Qed.


(** Nor are the positions always strictly increasing when a grid is
    returned: in [wide_then_narrow] the two nodes of the second layer get the
    same position, [1e16]. *)
Lemma x_node_not_strictly_increasing :
  exists g, setup_grid wide_then_narrow = OK g /\
            mat_nodes g = ["steel"; "steel"; "foam"; "foam"]%string /\
            x_node g = [2.5e15; 7.5e15; 1e16; 1e16]%float.
Proof. eexists. split; [vm_compute; reflexivity|]. by split. Qed.



Lemma setup_grid_too_thin t :
  well_formed t -> some_layer_too_thin t -> is_value_error (setup_grid t).
Proof.
  intros (Hl1 & Hl2 & Hres) Hthin.
  destruct (layer_loop_too_thin (Material_Name t) (dx t) (Thickness t) 0
              layer_state0 Hl1 Hl2 Hres Hthin) as [k Hk].
  unfold setup_grid. rewrite Hk. by eexists.
Qed.

(** The counts of a table without a thin layer. *)
Lemma below_two_counts t ns (ds : list float) :
  (forall m n, ns !! m = Some n ->
     exists d th dx_m, dx t !! m = Some d /\ Thickness t !! m = Some th /\
                       ds !! m = Some dx_m /\ resolves d th n dx_m) ->
  length ns = length (dx t) ->
  some_layer_below_two t <-> ~ Forall (fun n => 2 <= n) ns.
Proof.
  intros Hlk Hl. split.
  - intros (m & d & th & n & Hd & Hth & Hc & Hlt) HF.
    destruct (lookup_lt_is_Some_2 ns m) as [n' Hn'].
    { rewrite Hl. by eapply lookup_lt_Some. }
    destruct (Hlk m n' Hn') as (d' & th' & dx_m & Hd' & Hth' & _ & _ & Hc' & _).
    rewrite Hd in Hd'. injection Hd' as <-.
    rewrite Hth in Hth'. injection Hth' as <-.
    rewrite Hc in Hc'. injection Hc' as <-.
    pose proof (Forall_lookup_1 _ _ _ _ HF Hn'). simpl in *. lia.
  - intros HF. apply not_Forall_Exists in HF; [|apply _].
    apply Exists_exists in HF as (n & Hin & Hn). simpl in Hn.
    apply list_elem_of_lookup in Hin as [m Hm].
    destruct (Hlk m n Hm) as (d & th & dx_m & Hd & Hth & _ & _ & Hc & _).
    exists m, d, th, n. repeat split; try done. lia.
Qed.

(** C4, as stated, fails: the only layer of [negative_dx_layer] is not
    thinner than its requested spacing, and [setup_grid] still raises a
    [ValueError]: the layer resolves to [-1] nodes, and numpy refuses the
    negative dimension. *)
Lemma setup_grid_negative_dx_raises :
  setup_grid negative_dx_layer = Raise (ValueError NegativeDimensions) /\
  ~ some_layer_too_thin negative_dx_layer /\
  length (Material_Name negative_dx_layer) = 1%nat.
Proof.
  split; [vm_compute; reflexivity|]. split; [|reflexivity].
  intros ([|m] & d & th & Hd & Hth & Hlt); [|done].
  injection Hd as <-. injection Hth as <-. vm_compute in Hlt. discriminate Hlt.
Qed.

(** C4 (amended): on a table whose columns have one length and in which
    every layer that is not thin resolves to one node or more,
    [setup_grid] raises a [ValueError] exactly when some layer is thinner
    than its requested spacing, or there are several layers and one of them
    resolves to fewer than two nodes; and a table of one layer that resolves
    to one node is accepted, giving a grid of one node. *)
Theorem setup_grid_raises_iff (t : table) :
  well_formed t ->
  (is_value_error (setup_grid t) <->
     some_layer_too_thin t \/
     ((1 < length (Material_Name t))%nat /\ some_layer_below_two t)) /\
  (forall d th, dx t = [d] -> Thickness t = [th] ->
     (th <? d)%float = false -> layer_count d th = OK 1 ->
     exists g, setup_grid t = OK g /\ n_tot g = 1).
Proof.
  intros Hwf. pose proof Hwf as (Hl1 & Hl2 & Hres).
  assert (Hnot : ~ some_layer_too_thin t ->
            exists ns ds,
              length ns = length (Material_Name t) /\
              Forall (fun n => 1 <= n) ns /\
              (forall m n, ns !! m = Some n ->
                 exists d th dx_m, dx t !! m = Some d /\ Thickness t !! m = Some th /\
                                   ds !! m = Some dx_m /\ resolves d th n dx_m) /\
              setup_grid t =
              match single_node_layers (Z.of_nat (length ns)) ns with
              | (_ :: _) as l => Raise (ValueError (SingleNodeLayers l))
              | [] =>
                  let* (ib, kb) := bounds_loop (Z.of_nat (length ns)) (mints 0 ns) in
                  OK (grid_of t ns ds ib kb)
              end).
  { intros Hthin.
    destruct (thin_or_not (dx t) (Thickness t)) as [Hthick|Hthin']; [lia| |done].
    destruct (resolve_all _ _ Hres Hthick) as (ns & ds & Hln & Hld & Hns & Hlk).
    exists ns, ds. split; [lia|]. split; [done|]. split; [done|].
    rewrite (setup_grid_after_loop t ns ds) by (first [done | lia]).
    by replace (length ns) with (length (Material_Name t)) by lia. }
  split; [split|].
  - intros [e He].
    destruct (thin_or_not (dx t) (Thickness t)) as [Hthick|Hthin]; [lia| |by left].
    right.
    destruct Hnot as (ns & ds & Hln & Hns & Hlk & Hg).
    { intros (m & d & th & Hd & Hth & Hlt).
      by eapply (thin_not_thick (dx t) (Thickness t)). }
    rewrite Hg in He.
    destruct (single_node_layers _ _) as [|i l] eqn:Es.
    + exfalso. destruct ns as [|n ns]; [discriminate He|].
      destruct (bounds_loop_OK (Z.of_nat (length (n :: ns))) (mints 0 (n :: ns)))
        as [[ib kb] Hb].
      * by rewrite mints_length.
      * simpl. lia.
      * rewrite Hb in He. discriminate He.
    + assert (Hn : ~ ((length ns <= 1)%nat \/ Forall (fun n => 2 <= n) ns)).
      { intros H. apply single_node_layers_nil in H. congruence. }
      split; [lia|]. apply (below_two_counts t ns ds); [done | lia | tauto].
  - intros [Hthin|[Hlen Hbelow]]; [by apply setup_grid_too_thin|].
    destruct (thin_or_not (dx t) (Thickness t)) as [Hthick|Hthin]; [lia| |].
    2:{ by apply setup_grid_too_thin. }
    destruct Hnot as (ns & ds & Hln & Hns & Hlk & Hg).
    { intros (m & d & th & Hd & Hth & Hlt).
      by eapply (thin_not_thick (dx t) (Thickness t)). }
    rewrite Hg.
    destruct (single_node_layers _ _) as [|i l] eqn:Es; [|by eexists].
    apply single_node_layers_nil in Es as [Hle|HF]; [lia|].
    apply (below_two_counts t ns ds) in Hbelow; [contradiction | done | lia].
  - intros d th Hd Hth Hthin Hc.
    destruct Hnot as (ns & ds & Hln & Hns & Hlk & Hg).
    { intros ([|m] & d' & th' & Hd' & Hth' & Hlt); rewrite Hd in Hd';
        rewrite Hth in Hth'; [|done].
      injection Hd' as <-. injection Hth' as <-. congruence. }
    rewrite Hd in Hl1. simpl in Hl1.
    destruct ns as [|n [|n' ns]]; [simpl in Hln; lia| |simpl in Hln; lia].
    destruct (Hlk 0%nat n eq_refl) as (d' & th' & dx_m & Hd' & Hth' & _ & _ & Hc' & _).
    rewrite Hd in Hd'. rewrite Hth in Hth'.
    injection Hd' as <-. injection Hth' as <-.
    rewrite Hc in Hc'. injection Hc' as <-.
    rewrite Hg. change (single_node_layers (Z.of_nat (length [1])) [1]) with (@nil Z).
    destruct (bounds_loop_OK (Z.of_nat (length [1])) (mints 0 [1])) as [[ib kb] Hb];
      [done | simpl; lia |].
    rewrite Hb. cbn [rbind]. eexists. split; [done|]. reflexivity.
Qed.

Lemma setup_grid_raises_iff_witness :
  is_value_error (setup_grid thin_second_layer) /\
  exists g, setup_grid one_unit_layer = OK g /\ n_tot g = 1.
Proof.
  assert (Hwf1 : well_formed thin_second_layer).
  { repeat split. constructor; [|constructor; [|constructor]].
    - intros _. exists 4, 0.25%float. repeat split; try done.
    - intros H. vm_compute in H. discriminate H. }
  assert (Hwf2 : well_formed one_unit_layer).
  { repeat split. constructor; [|constructor].
    intros _. exists 1, 1%float. repeat split; try done. }
  split.
  - apply (proj1 (setup_grid_raises_iff thin_second_layer Hwf1)).
    left. exists 1%nat, 2%float, 1%float. repeat split.
  - by apply (proj2 (setup_grid_raises_iff one_unit_layer Hwf2) 1%float 1%float).
Defined.

(** A float below zero does not round to a positive count. *)
Lemma int_round_negative (x : float) (q : Q) (n : Z) :
  float_value x = Some q -> (q < 0)%Q -> int_round x = OK n -> n <= 0.
Proof.
  unfold float_value, int_round.
  destruct (Prim2SF x) as [s| | |s m e]; try done.
  - intros _ _ [= <-]. lia.
  - intros [= <-] Hq [= <-].
    destruct s.
    2:{ exfalso. destruct (0 <=? e) eqn:Ee; unfold Qlt in Hq; simpl in Hq.
        - apply Z.leb_le in Ee.
          pose proof (Z.pow_pos_nonneg 2 e ltac:(lia) Ee). nia.
        - lia. }
    simpl. unfold round_half_even.
    destruct (0 <=? e) eqn:Ee.
    + apply Z.leb_le in Ee.
      pose proof (Z.pow_pos_nonneg 2 e ltac:(lia) Ee). nia.
    + apply Z.leb_gt in Ee.
      pose proof (Z.pow_pos_nonneg 2 (- e) ltac:(lia) ltac:(lia)) as Hp.
      pose proof (Z.div_pos (Z.pos m) (2 ^ (- e)) ltac:(lia) Hp).
      destruct (_ ?= _); [destruct (Z.even _)| |]; lia.
Qed.

(** C10: in every grid that [setup_grid] returns, a layer whose binary64
    quotient thickness/dx lies exactly half way between the integers [k] and
    [k + 1] has the even one of the two as its number of nodes. *)
Theorem layer_count_half_even (t : table) (g : grid_manager) (m : nat)
  (d th : float) (f l : Z) (q : Q) (k : Z) :
  setup_grid t = OK g ->
  dx t !! m = Some d -> Thickness t !! m = Some th ->
  first_node_list g !! m = Some f -> mint_list g !! m = Some l ->
  float_value (th / d)%float = Some q -> (q == inject_Z k + (1 # 2))%Q ->
  (l - f + 1 = if Z.even k then k else k + 1) /\
  Z.even (l - f + 1) = true.
Proof.
  intros H Hd Hth Hf Hl Hq Hk.
  assert (Hm : (m < length (Material_Name t))%nat).
  { destruct (setup_grid_returns _ _ H)
      as (ns & ds & Hln & _ & _ & _ & _ & _ & _ & _ & E3 & _).
    rewrite E3 in Hf. apply lookup_lt_Some in Hf.
    by rewrite firsts_length, Hln in Hf. }
  destruct (returned_layer t g H m d th Hd Hth Hm)
    as (n & nf & f' & l' & _ & _ & Hn & Hn1 & _ & Hf' & Hl' & _ & Hfl & _).
  rewrite Hf in Hf'. injection Hf' as <-.
  rewrite Hl in Hl'. injection Hl' as <-.
  assert (Hk0 : 0 <= k).
  { destruct (Z_lt_le_dec k 0) as [Hneg|]; [|done]. exfalso.
    assert (Hq0 : (q < 0)%Q).
    { rewrite Hk. unfold Qlt. simpl. lia. }
    pose proof (int_round_negative _ _ _ Hq Hq0 Hn). lia. }
  rewrite (int_round_tie _ _ _ Hq Hk Hk0) in Hn. injection Hn as <-.
  split; [done|]. rewrite Hfl.
  destruct (Z.even k) eqn:E; [done|]. by rewrite Z.even_add, E.
Qed.

(** Thickness/dx = 2.5 gives 2 nodes and thickness/dx = 3.5 gives 4. *)
Lemma layer_count_half_even_witness :
  (exists g, setup_grid half_way_layer = OK g /\
             (0.05 / 0.02)%float = 2.5%float /\ n_tot g = 2) /\
  (exists g, setup_grid {| Material_Name := ["steel"%string];
                           dx := [1%float]; Thickness := [3.5%float] |} = OK g /\
             n_tot g = 4).
Proof.
  split.
  - destruct (setup_grid half_way_layer) as [g|e] eqn:E;
      [|vm_compute in E; discriminate E].
    exists g. split; [done|]. split; [reflexivity|].
    assert (Hg : first_node_list g = [0] /\ mint_list g = [n_tot g - 1]).
    { vm_compute in E. by injection E as <-. }
    destruct Hg as [Hf Hl].
    assert (Hn : n_tot g - 1 - 0 + 1 = 2 /\ Z.even (n_tot g - 1 - 0 + 1) = true).
    { eapply (layer_count_half_even half_way_layer g 0 _ _ 0 (n_tot g - 1)
                _ 2 E eq_refl eq_refl).
      - by rewrite Hf.
      - by rewrite Hl.
      - vm_compute. reflexivity.
      - vm_compute. reflexivity. }
    lia.
  - match goal with
    | |- exists g, setup_grid ?t = _ /\ _ =>
        destruct (setup_grid t) as [g|e] eqn:E;
          [|vm_compute in E; discriminate E];
        exists g; split; [done|];
        assert (Hg : first_node_list g = [0] /\ mint_list g = [n_tot g - 1])
          by (vm_compute in E; by injection E as <-);
        destruct Hg as [Hf Hl];
        assert (Hn : n_tot g - 1 - 0 + 1 = 4 /\
                     Z.even (n_tot g - 1 - 0 + 1) = true);
        [eapply (layer_count_half_even t g 0 _ _ 0 (n_tot g - 1)
                   _ 3 E eq_refl eq_refl)|]
    end.
    + by rewrite Hf.
    + by rewrite Hl.
    + vm_compute. reflexivity.
    + vm_compute. reflexivity.
    + lia.
Defined.

End GridTheorems.

(** ** Boundary operators *)

Section BoundaryTheorems.
Import Boundary.

Lemma getitem_updated a i x a' :
  updated a i x a' -> getitem a' i = OK x.
Proof.
  intros (k & Hk & ->). unfold getitem. rewrite length_insert, Hk. simpl.
  rewrite list_lookup_insert_eq by (by eapply py_index_lt). reflexivity.
Qed.

Lemma iadd_OK a i x v :
  getitem a i = OK x ->
  exists a', iadd a i v = OK a' /\ updated a i (x + v)%Q a'.
Proof.
  intros H. unfold iadd. rewrite H. cbn [rbind].
  apply getitem_OK in H as (k & Hk & _).
  unfold setitem. rewrite Hk. eexists. split; [done|]. by exists k.
Qed.

Lemma isub_OK a i x v :
  getitem a i = OK x ->
  exists a', isub a i v = OK a' /\ updated a i (x + - v)%Q a'.
Proof.
  intros H. unfold isub. rewrite H. cbn [rbind].
  apply getitem_OK in H as (k & Hk & _).
  unfold setitem. rewrite Hk. eexists. split; [done|]. by exists k.
Qed.

Lemma radiative_loss_equilibrium eps T_ext t :
  (t == T_ext)%Q -> (radiative_loss eps T_ext t == 0)%Q.
Proof. intros H. unfold radiative_loss. rewrite H. ring. Qed.

(** C5: for [end_radiation] with emissivity [eps] and external temperature
    [T_ext], and every temperature field, [apply] adds the radiative loss
    [sigma*eps*(T^4 - T_ext^4)] to [F] and [4*sigma*eps*T^3] to [J_c] at the
    boundary node and nothing else; [apply_operator] adds the negation of
    that same loss to [RHS] at the boundary node and nothing else; and the
    loss is zero when the boundary node is at [T_ext]. *)
Theorem end_radiation_consistency (b : end_bc) (eps T_ext : Q) (es : eqn_sys)
  (mm : mat_man) (T : list Q) (t j f r : Q) :
  getitem T (n_ind b) = OK t ->
  getitem (J_c es) (n_ind b) = OK j ->
  getitem (F es) (n_ind b) = OK f ->
  getitem (RHS es) (n_ind b) = OK r ->
  let c := end_radiation_set_params b eps T_ext in
  let v := radiative_loss eps T_ext t in
  (exists es1,
     apply c es mm (Some T) = OK es1 /\
     updated (F es) (n_ind b) (f + v)%Q (F es1) /\
     updated (J_c es) (n_ind b) (j + sigma * eps * 4 * t ^ 3)%Q (J_c es1) /\
     RHS es1 = RHS es /\ LHS_c es1 = LHS_c es) /\
  (exists es2,
     apply_operator c es mm (Some T) = OK es2 /\
     updated (RHS es) (n_ind b) (r + - v)%Q (RHS es2) /\
     F es2 = F es /\ J_c es2 = J_c es /\ LHS_c es2 = LHS_c es) /\
  ((t == T_ext)%Q -> (v == 0)%Q).
Proof.
  intros Ht Hj Hf Hr c v. split; [|split].
  - destruct (iadd_OK _ _ _ (sigma * eps * 4 * t ^ 3)%Q Hj) as (j' & Hj' & Uj).
    destruct (iadd_OK _ _ _ v Hf) as (f' & Hf' & Uf).
    exists (set_F (set_J_c es j') f'). split; [|done].
    unfold c, end_radiation_set_params. cbn [apply end_rename n_ind].
    rewrite Ht. cbn [rbind]. rewrite Hj'. cbn [rbind J_c set_J_c F].
    unfold v, radiative_loss in Hf'. rewrite Hf'. reflexivity.
  - destruct (isub_OK _ _ _ v Hr) as (r' & Hr' & Ur).
    exists (set_RHS es r'). split; [|done].
    unfold c, end_radiation_set_params. cbn [apply_operator end_rename n_ind].
    rewrite Ht. cbn [rbind].
    unfold v, radiative_loss in Hr'. rewrite Hr'. reflexivity.
  - apply radiative_loss_equilibrium.
Qed.

Lemma end_radiation_consistency_witness :
  exists es1 es2,
    apply (end_radiation_set_params right_end (1 # 2) 300) es0 mm0
          (Some [300; 300; 300]%Q) = OK es1 /\
    apply_operator (end_radiation_set_params right_end (1 # 2) 300) es0 mm0
          (Some [300; 300; 300]%Q) = OK es2 /\
    Forall2 Qeq (F es1) [0; 0; 0]%Q /\ Forall2 Qeq (RHS es2) [1; 2; 3]%Q.
Proof.
  destruct (end_radiation_consistency right_end (1 # 2) 300 es0 mm0
              [300; 300; 300]%Q 300 0 0 3
              eq_refl eq_refl eq_refl eq_refl)
    as ((es1 & H1 & _) & (es2 & H2 & _) & _).
  exists es1, es2. split; [done|]. split; [done|].
  vm_compute in H1. injection H1 as <-.
  vm_compute in H2. injection H2 as <-.
  split; repeat constructor.
Defined.

(** C8: for [end_flux] with flux [q], [apply] and [apply_operator] return
    the same equation system: [q] added to the [RHS] entry of the boundary
    node, and [LHS_c], [J_c] and [F] as they were. *)
Theorem end_flux_paths_agree (b : end_bc) (q : Q) (es : eqn_sys)
  (mm : mat_man) (T : list Q) (r : Q) :
  getitem (RHS es) (n_ind b) = OK r ->
  exists rhs,
    updated (RHS es) (n_ind b) (r + q)%Q rhs /\
    apply (end_flux b q) es mm None =
      OK {| LHS_c := LHS_c es; RHS := rhs; J_c := J_c es; F := F es |} /\
    apply_operator (end_flux b q) es mm (Some T) =
      OK {| LHS_c := LHS_c es; RHS := rhs; J_c := J_c es; F := F es |}.
Proof.
  intros Hr. destruct (iadd_OK _ _ _ q Hr) as (rhs & Hrhs & U).
  exists rhs. split; [done|].
  cbn [apply apply_operator]. rewrite Hrhs. by split.
Qed.

Lemma end_flux_paths_agree_witness :
  apply (end_flux right_end 5) es0 mm0 None =
    OK {| LHS_c := [0; 0; 0]%Q; RHS := [1; 2; 3 + 5]%Q; J_c := [0; 0; 0]%Q;
          F := [0; 0; 0]%Q |} /\
  apply_operator (end_flux right_end 5) es0 mm0 (Some [300; 300; 300]%Q) =
    OK {| LHS_c := [0; 0; 0]%Q; RHS := [1; 2; 3 + 5]%Q; J_c := [0; 0; 0]%Q;
          F := [0; 0; 0]%Q |}.
Proof.
  destruct (end_flux_paths_agree right_end 5 es0 mm0 [300; 300; 300]%Q 3
              eq_refl) as (rhs & (k & Hk & ->) & H1 & H2).
  vm_compute in Hk. injection Hk as <-. by split.
Defined.

(** C7: with the time set, a timed boundary passes [apply] and
    [apply_operator] on to the wrapped boundary condition when
    [off_time - tot_time > 1e-14] holds in binary64, and otherwise returns
    the equation system as it was; with [off_time = 10] the call is passed
    on at [tot_time = 9.999999999999] and is a no-op at [tot_time = 10].
    The difference is the rounded one: at [off_time = 1.3552713678800501e-14]
    and [tot_time = 3.5527136788005005e-15] the call is a no-op, although
    the difference of the two numbers exceeds the number [1e-14] stands
    for. *)
Theorem timed_gate (tb : timed_boundary) (tot : float) (es : eqn_sys)
  (mm : mat_man) (T : option (list Q)) :
  tot_time tb = Some tot ->
  ((gate_eps <? off_time tb - tot)%float = true ->
     timed_apply tb es mm T = apply (tb_bc tb) es mm T /\
     timed_apply_operator tb es mm T = apply_operator (tb_bc tb) es mm T) /\
  ((gate_eps <? off_time tb - tot)%float = false ->
     timed_apply tb es mm T = OK es /\
     timed_apply_operator tb es mm T = OK es) /\
  (off_time tb = 10%float -> tot = 9.999999999999%float ->
     timed_apply tb es mm T = apply (tb_bc tb) es mm T /\
     timed_apply_operator tb es mm T = apply_operator (tb_bc tb) es mm T) /\
  (off_time tb = 10%float -> tot = 10%float ->
     timed_apply tb es mm T = OK es /\
     timed_apply_operator tb es mm T = OK es) /\
  (off_time tb = 1.3552713678800501e-14%float ->
   tot = 3.5527136788005005e-15%float ->
     timed_apply tb es mm T = OK es /\
     timed_apply_operator tb es mm T = OK es).
Proof.
  intros Htot.
  assert (Hopen : (gate_eps <? off_time tb - tot)%float = true ->
     timed_apply tb es mm T = apply (tb_bc tb) es mm T /\
     timed_apply_operator tb es mm T = apply_operator (tb_bc tb) es mm T).
  { intros H. unfold timed_apply, timed_apply_operator, gate_open.
    rewrite Htot. cbn [or_raise rbind]. by rewrite H. }
  assert (Hshut : (gate_eps <? off_time tb - tot)%float = false ->
     timed_apply tb es mm T = OK es /\
     timed_apply_operator tb es mm T = OK es).
  { intros H. unfold timed_apply, timed_apply_operator, gate_open.
    rewrite Htot. cbn [or_raise rbind]. by rewrite H. }
  split; [done|]. split; [done|]. split; [|split].
  - intros Hoff ->. apply Hopen. rewrite Hoff. reflexivity.
  - intros Hoff ->. apply Hshut. rewrite Hoff. reflexivity.
  - intros Hoff ->. apply Hshut. rewrite Hoff. reflexivity.
Qed.

Lemma timed_gate_witness :
  let tb := timed_boundary_init (end_flux right_end 5) 10 in
  timed_apply (set_time tb 9.999999999999) es0 mm0 None =
    OK {| LHS_c := [0; 0; 0]%Q; RHS := [1; 2; 3 + 5]%Q; J_c := [0; 0; 0]%Q;
          F := [0; 0; 0]%Q |} /\
  timed_apply (set_time tb 10) es0 mm0 None = OK es0.
Proof.
  intros tb. split.
  - destruct (timed_gate (set_time tb 9.999999999999) 9.999999999999
                es0 mm0 None eq_refl) as (H & _).
    rewrite (proj1 (H eq_refl)). reflexivity.
  - destruct (timed_gate (set_time tb 10) 10 es0 mm0 None eq_refl)
      as (_ & H & _).
    apply (proj1 (H eq_refl)).
Defined.

End BoundaryTheorems.

(** ** The reaction manager: arrays and loops *)

(** Stores observed through their entries: a function applied to the
    entries that a predicate selects, the others left as they are. *)
Section Updates.
Context {S I V : Type} (obs : S -> I -> option V) (f : V -> V).
Hypothesis f_idem : forall x, f (f x) = f x.

Lemma upd_refl s : upd obs f (fun _ => False) s s.
Proof. intros i. split; [done|done]. Qed.

Lemma upd_iff (P P' : I -> Prop) s s' :
  (forall i, P i <-> P' i) -> upd obs f P s s' -> upd obs f P' s s'.
Proof.
  intros HP H i. destruct (H i) as [H1 H2]. split; intros Hi.
  - apply H1, HP, Hi.
  - apply H2. intros HPi. apply Hi, HP, HPi.
Qed.

Lemma upd_trans (P1 P2 : I -> Prop) s s1 s2 :
  (forall i, P1 i \/ ~ P1 i) -> (forall i, P2 i \/ ~ P2 i) ->
  upd obs f P1 s s1 -> upd obs f P2 s1 s2 -> upd obs f (fun i => P1 i \/ P2 i) s s2.
Proof.
  intros Hd1 Hd2 H1 H2 i.
  destruct (H1 i) as [H1y H1n], (H2 i) as [H2y H2n]. split.
  - intros Hor. destruct (Hd1 i) as [Hp1|Hn1], (Hd2 i) as [Hp2|Hn2].
    + rewrite H2y, H1y by done.
      destruct (obs s i); simpl; [by rewrite f_idem | done].
    + by rewrite H2n, H1y.
    + by rewrite H2y, H1n.
    + tauto.
  - intros Hn. rewrite H2n, H1n by tauto. done.
Qed.

Lemma foldM_upd {A} (body : S -> A -> result S) (P1 : A -> I -> Prop) l :
  (forall a i, P1 a i \/ ~ P1 a i) ->
  forall s s',
  (forall s a s', a ∈ l -> body s a = OK s' -> upd obs f (P1 a) s s') ->
  foldM body s l = OK s' ->
  upd obs f (fun i => exists a, a ∈ l /\ P1 a i) s s'.
Proof.
  intros Hdec. induction l as [|a l IH]; intros s s' Hstep H; simpl in H.
  - injection H as <-. eapply upd_iff; [|apply upd_refl].
    intros i. split; [done|]. intros (a & Ha & _). by apply elem_of_nil in Ha.
  - apply rbind_OK in H as (s1 & H1 & H2).
    assert (Hdl : forall i, (exists a, a ∈ l /\ P1 a i) \/
                            ~ (exists a, a ∈ l /\ P1 a i)).
    { intros i. clear -Hdec. induction l as [|b l IHl].
      - right. intros (a & Ha & _). by apply elem_of_nil in Ha.
      - destruct (Hdec b i) as [Hb|Hb]; [left; exists b; split; [by left|done]|].
        destruct IHl as [(a & Ha & HP)|Hn]; [left; exists a; split; [by right|done]|].
        right. intros (a & Ha & HP). apply elem_of_cons in Ha as [->|Ha]; [done|].
        apply Hn. eauto. }
    eapply upd_iff; [|eapply (upd_trans (P1 a)); [apply Hdec | apply Hdl | |]].
    + intros i. split.
      * intros [Hi|(b & Hb & Hi)]; [exists a; split; [by left|done]|].
        exists b. split; [by right|done].
      * intros (b & Hb & Hi). apply elem_of_cons in Hb as [->|Hb]; [by left|].
        right. eauto.
    + eapply Hstep; [by left | done].
    + apply IH; [|done]. intros; eapply Hstep; [by right | done].
Qed.

End Updates.

Section DictArrays.
Import Reaction.

Lemma entry_insert d name a n k :
  entry (<[name := a]> d) n k =
  if decide (n = name) then a !! k else entry d n k.
Proof.
  unfold entry. destruct (decide (n = name)) as [->|Hne].
  - by rewrite lookup_insert_eq.
  - by rewrite lookup_insert_ne.
Qed.

Lemma dict_setitem_entry d name i v d' :
  0 <= i -> dict_setitem d name i v = OK d' ->
  (exists x, entry d name (Z.to_nat i) = Some x) /\
  forall n k, entry d' n k =
              if decide (n = name /\ k = Z.to_nat i) then Some v
              else entry d n k.
Proof.
  intros Hi H. unfold dict_setitem in H.
  destruct (d !! name) as [a|] eqn:Ha; [|done]. cbn [or_raise rbind] in H.
  apply rbind_OK in H as (a' & Ha' & H). injection H as <-.
  apply setitem_nonneg in Ha' as [-> Hlt]; [|done].
  split.
  - unfold entry. rewrite Ha. simpl. by apply lookup_lt_is_Some_2.
  - intros n k. rewrite entry_insert.
    destruct (decide (n = name)) as [->|Hne].
    + destruct (decide (k = Z.to_nat i)) as [->|Hk].
      * rewrite decide_True by done. by rewrite list_lookup_insert_eq.
      * rewrite decide_False by tauto. rewrite list_lookup_insert_ne by done.
        unfold entry. by rewrite Ha.
    + rewrite decide_False by tauto. done.
Qed.

Lemma dict_getitem_entry d name i x :
  0 <= i -> dict_getitem d name i = OK x -> entry d name (Z.to_nat i) = Some x.
Proof.
  intros Hi H. unfold dict_getitem in H.
  destruct (d !! name) as [a|] eqn:Ha; [|done]. cbn [or_raise rbind] in H.
  unfold entry. rewrite Ha. simpl. by apply getitem_nonneg.
Qed.

Lemma snap_idem sm x : snap sm (snap sm x) = snap sm x.
Proof.
  unfold snap. destruct (Qltb x sm) eqn:E; [|by rewrite E].
  by destruct (Qltb 0 sm).
Qed.

(** A write of [v] at node [i] of the array [name], seen as an update. *)
Lemma dict_setitem_upd d name i v d' :
  0 <= i -> dict_setitem d name i v = OK d' ->
  upd obs_dict (fun _ => v)
      (fun nk => nk.1 = name /\ nk.2 = Z.to_nat i) d d'.
Proof.
  intros Hi H. destruct (dict_setitem_entry _ _ _ _ _ Hi H) as [[x Hx] He].
  intros [n k]. unfold obs_dict. simpl. rewrite He. split.
  - intros [-> ->]. rewrite decide_True by done. by rewrite Hx.
  - intros Hn. by rewrite decide_False.
Qed.

Lemma setitem_upd (a : list Q) i v a' :
  0 <= i -> setitem a i v = OK a' ->
  upd obs_arr (fun _ => v) (fun k => k = Z.to_nat i) a a'.
Proof.
  intros Hi H. apply setitem_nonneg in H as [-> Hlt]; [|done].
  intros k. unfold obs_arr. split.
  - intros ->. rewrite list_lookup_insert_eq by done.
    destruct (lookup_lt_is_Some_2 a _ Hlt) as [x ->]. reflexivity.
  - intros Hk. by rewrite list_lookup_insert_ne.
Qed.

End DictArrays.

Section ClearPass.
Import Reaction.
Context {ET : ExternalTypes} {EO : ExternalOps}.

Lemma foldM_total {A S} (P : S -> Prop) (body : S -> A -> result S) l :
  (forall s a, a ∈ l -> P s -> exists s', body s a = OK s' /\ P s') ->
  forall s, P s -> exists s', foldM body s l = OK s' /\ P s'.
Proof.
  induction l as [|a l IH]; intros Hstep s Hs; simpl; [eauto|].
  destruct (Hstep s a) as (s1 & H1 & HP1); [by left | done |].
  rewrite H1. cbn [rbind]. apply IH; [|done].
  intros; apply Hstep; [by right | done].
Qed.

Lemma dict_setitem_total names n d name i v :
  dict_shape names n d -> name ∈ names -> 0 <= i < Z.of_nat n ->
  exists d', dict_setitem d name i v = OK d' /\ dict_shape names n d'.
Proof.
  intros Hd Hin Hi. unfold dict_shape in *.
  destruct (proj1 (list.Forall_forall _ _) Hd name Hin) as (a & Ha & Hl).
  unfold dict_setitem. rewrite Ha. cbn [or_raise rbind].
  replace i with (Z.of_nat (Z.to_nat i)) by lia.
  rewrite setitem_nat by lia. cbn [rbind]. eexists. split; [done|].
  apply list.Forall_forall. intros name' Hin'.
  destruct (decide (name' = name)) as [->|Hne].
  - rewrite lookup_insert_eq. eexists. split; [done|]. by rewrite length_insert.
  - rewrite lookup_insert_ne by done.
    apply (proj1 (list.Forall_forall _ _) Hd name' Hin').
Qed.

Lemma dict_getitem_total names n d name i :
  dict_shape names n d -> name ∈ names -> 0 <= i < Z.of_nat n ->
  exists x, dict_getitem d name i = OK x.
Proof.
  intros Hd Hin Hi.
  destruct (proj1 (list.Forall_forall _ _) Hd name Hin) as (a & Ha & Hl).
  unfold dict_getitem. rewrite Ha. cbn [or_raise rbind].
  destruct (lookup_lt_is_Some_2 a (Z.to_nat i) ltac:(lia)) as [x Hx].
  exists x. replace i with (Z.of_nat (Z.to_nat i)) by lia.
  by apply getitem_nat.
Qed.

Lemma dict_setitem_shape names n d name i v d' :
  dict_shape names n d -> dict_setitem d name i v = OK d' ->
  dict_shape names n d'.
Proof.
  intros Hd H. unfold dict_setitem in H.
  destruct (d !! name) as [a|] eqn:Ha; [|done]. cbn [or_raise rbind] in H.
  apply rbind_OK in H as (a' & Ha' & H). injection H as <-.
  apply setitem_OK in Ha' as (k & _ & ->).
  unfold dict_shape in *. apply list.Forall_forall. intros name' Hin'.
  destruct (proj1 (list.Forall_forall _ _) Hd name' Hin') as (b & Hb & Hl).
  destruct (decide (name' = name)) as [->|Hne].
  - rewrite lookup_insert_eq. eexists. split; [done|].
    rewrite length_insert. congruence.
  - rewrite lookup_insert_ne by done. eauto.
Qed.

Lemma well_formed_arrays s : well_formed s -> arrays_shape s (arrays_of s).
Proof. intros []. by repeat split. Qed.

(** The clear pass on one node, as four updates. *)
Lemma clear_node_upd s a act_ind a' :
  Forall (fun i => 0 <= i) (active_nodes s) ->
  clear_node s a act_ind = OK a' ->
  exists i, getitem (active_nodes s) act_ind = OK i /\
    upd obs_dict (snap (small_number s))
        (fun nk => nk.1 ∈ species_name_list s /\ nk.2 = Z.to_nat i)
        (na_species_density a) (na_species_density a') /\
    upd obs_dict (fun _ => 0%Q)
        (fun nk => nk.1 ∈ species_name_list s /\ nk.2 = Z.to_nat i)
        (na_species_rate a) (na_species_rate a') /\
    upd obs_arr (fun _ => 0%Q) (fun k => k = Z.to_nat i)
        (na_temperature_rate a) (na_temperature_rate a') /\
    upd obs_arr (fun _ => 0%Q) (fun k => k = Z.to_nat i)
        (na_heat_release_rate a) (na_heat_release_rate a').
Proof.
  intros Hnn H. unfold clear_node in H.
  apply rbind_OK in H as (i & Hi & H). exists i. split; [done|].
  assert (H0 : 0 <= i).
  { apply getitem_elem_of in Hi.
    by apply (proj1 (list.Forall_forall _ _) Hnn). }
  apply rbind_OK in H as (dens & Hdens & H).
  apply rbind_OK in H as (rate & Hrate & H).
  apply rbind_OK in H as (tr & Htr & H).
  apply rbind_OK in H as (hrr & Hhrr & H). injection H as <-. simpl.
  assert (Hdec : forall (name : string) (nk : string * nat),
            (nk.1 = name /\ nk.2 = Z.to_nat i) \/
            ~ (nk.1 = name /\ nk.2 = Z.to_nat i)).
  { intros name nk. destruct (decide (nk.1 = name /\ nk.2 = Z.to_nat i)); tauto. }
  assert (Hiff : forall nk : string * nat,
            (exists name, name ∈ species_name_list s /\
                          nk.1 = name /\ nk.2 = Z.to_nat i) <->
            nk.1 ∈ species_name_list s /\ nk.2 = Z.to_nat i).
  { intros nk. split; [intros (name & Hin & <- & ->); done|].
    intros [Hin ->]. by exists nk.1. }
  split; [|split; [|split]].
  - eapply upd_iff; [apply Hiff|].
    eapply (foldM_upd obs_dict (snap (small_number s)) (snap_idem _));
      [apply Hdec | | apply Hdens].
    intros d name d' _ Hbody.
    apply rbind_OK in Hbody as (x & Hx & Hbody).
    apply dict_getitem_entry in Hx; [|done].
    destruct (Qltb x (small_number s)) eqn:E.
    + destruct (dict_setitem_entry _ _ _ _ _ H0 Hbody) as [_ He].
      intros [n k]. unfold obs_dict. simpl. rewrite He. split.
      * intros [-> ->]. rewrite decide_True by done. rewrite Hx. simpl.
        unfold snap. by rewrite E.
      * intros Hn. by rewrite decide_False.
    + injection Hbody as <-. intros [n k]. unfold obs_dict. simpl. split.
      * intros [-> ->]. rewrite Hx. simpl. unfold snap. by rewrite E.
      * done.
  - eapply upd_iff; [apply Hiff|].
    eapply (foldM_upd obs_dict (fun _ => 0%Q) (fun _ => eq_refl));
      [apply Hdec | | apply Hrate].
    intros d name d' _ Hbody. by apply dict_setitem_upd.
  - by apply setitem_upd.
  - by apply setitem_upd.
Qed.

Lemma clear_node_total s a act_ind :
  Forall (fun i => 0 <= i < n_tot s) (active_nodes s) ->
  0 <= act_ind < Z.of_nat (length (active_nodes s)) ->
  arrays_shape s a ->
  exists a', clear_node s a act_ind = OK a' /\ arrays_shape s a'.
Proof.
  intros Hact Hind (Hd & Hr & Ht & Hh). unfold clear_node.
  destruct (lookup_lt_is_Some_2 (active_nodes s) (Z.to_nat act_ind) ltac:(lia))
    as [i Hi].
  pose proof (Forall_lookup_1 _ _ _ _ Hact Hi) as Hin. simpl in Hin.
  apply getitem_nat in Hi. rewrite Z2Nat.id in Hi by lia.
  rewrite Hi. cbn [rbind].
  destruct (foldM_total (dict_shape (species_name_list s) (Z.to_nat (n_tot s)))
    (fun d name =>
       let* x := dict_getitem d name i in
       if Qltb x (small_number s) then dict_setitem d name i 0%Q else OK d)
    (species_name_list s)) with (s := na_species_density a)
    as (dens & Hdens & Hsd); [|done|].
  { intros d name Hname HP.
    destruct (dict_getitem_total _ _ _ _ i HP Hname ltac:(lia)) as [x Hx].
    rewrite Hx. cbn [rbind]. destruct (Qltb x (small_number s)); [|eauto].
    apply dict_setitem_total; [done | done | lia]. }
  rewrite Hdens. cbn [rbind].
  destruct (foldM_total (dict_shape (species_name_list s) (Z.to_nat (n_tot s)))
    (fun d name => dict_setitem d name i 0%Q)
    (species_name_list s)) with (s := na_species_rate a)
    as (rate & Hrate & Hsr); [|done|].
  { intros d name Hname HP. apply dict_setitem_total; [done | done | lia]. }
  rewrite Hrate. cbn [rbind].
  replace i with (Z.of_nat (Z.to_nat i)) by lia.
  rewrite !setitem_nat by lia. cbn [rbind]. eexists. split; [done|].
  repeat split; simpl; rewrite ?length_insert; done.
Qed.

End ClearPass.

Section Delete.

Lemma delete_positions_elem_of {A} ks (l : list A) : forall k x,
  x ∈ delete_positions k ks l ->
  exists j, l !! j = Some x /\ (k + j)%nat ∉ ks.
Proof.
  induction l as [|y l IH]; intros k x Hx; simpl in Hx.
  - by apply elem_of_nil in Hx.
  - destruct (decide (k ∈ ks)) as [Hk|Hk].
    + destruct (IH _ _ Hx) as (j & Hj & Hn). exists (S j). split; [done|].
      by replace (k + S j)%nat with (S k + j)%nat by lia.
    + apply elem_of_cons in Hx as [->|Hx].
      * exists 0%nat. split; [done|]. by rewrite Nat.add_0_r.
      * destruct (IH _ _ Hx) as (j & Hj & Hn). exists (S j). split; [done|].
        by replace (k + S j)%nat with (S k + j)%nat by lia.
Qed.

Lemma delete_positions_subseteq {A} ks (l : list A) k x :
  x ∈ delete_positions k ks l -> x ∈ l.
Proof.
  intros H. apply delete_positions_elem_of in H as (j & Hj & _).
  by eapply list_elem_of_lookup_2.
Qed.

Lemma delete_positions_NoDup {A} ks (l : list A) : forall k,
  NoDup l -> NoDup (delete_positions k ks l).
Proof.
  induction l as [|y l IH]; intros k Hnd; simpl; [constructor|].
  apply NoDup_cons in Hnd as [Hy Hnd].
  destruct (decide (k ∈ ks)); [by apply IH|].
  apply NoDup_cons. split; [|by apply IH].
  intros Hin. by apply delete_positions_subseteq in Hin.
Qed.

Lemma delete_positions_length {A} ks (l : list A) k :
  (length (delete_positions k ks l) <= length l)%nat.
Proof.
  revert k. induction l as [|y l IH]; intros k; simpl; [lia|].
  destruct (decide (k ∈ ks)); simpl; specialize (IH (S k)); lia.
Qed.

Lemma np_delete_OK {A} (a : list A) idxs a' :
  np_delete a idxs = OK a' ->
  (forall x, x ∈ a' -> x ∈ a) /\
  (NoDup a -> NoDup a') /\
  (length a' <= length a)%nat /\
  (NoDup a -> forall i x, i ∈ idxs -> getitem a i = OK x -> x ∉ a').
Proof.
  intros H. unfold np_delete in H.
  apply rbind_OK in H as (ks & Hks & H). injection H as <-.
  split; [intros x; apply delete_positions_subseteq|].
  split; [apply delete_positions_NoDup|].
  split; [apply delete_positions_length|].
  intros Hnd i x Hi Hx Hin.
  apply delete_positions_elem_of in Hin as (j & Hj & Hn). simpl in Hn.
  apply getitem_OK in Hx as (k & Hk & Hxk).
  assert (j = k) as -> by (by eapply NoDup_lookup).
  apply Hn. apply list_elem_of_lookup in Hi as [p Hp].
  destruct (proj2 (mapM_OK_lookup _ _ _ Hks) _ _ Hp) as (k' & Hk' & Hidx).
  rewrite Hk in Hidx. injection Hidx as <-.
  by eapply list_elem_of_lookup_2.
Qed.

Lemma np_delete_total {A} (a : list A) idxs :
  Forall (fun i => 0 <= i < Z.of_nat (length a)) idxs ->
  exists a', np_delete a idxs = OK a'.
Proof.
  intros H. unfold np_delete.
  assert (exists ks, mapM (fun i => or_raise IndexError (py_index (length a) i))
                       idxs = OK ks) as [ks ->].
  { induction H as [|i idxs Hi _ [ks IH]]; [by eexists|].
    simpl. replace i with (Z.of_nat (Z.to_nat i)) by lia.
    rewrite py_index_nonneg by lia. simpl. rewrite IH. by eexists. }
  by eexists.
Qed.

End Delete.

Section ClearNodes.
Import Reaction.
Context {ET : ExternalTypes} {EO : ExternalOps}.

Lemma pending_nodes_elem_of s i :
  i ∈ pending_nodes s <->
  exists act_ind, act_ind ∈ inactive_node_list s /\
                  getitem (active_nodes s) act_ind = OK i.
Proof.
  unfold pending_nodes. rewrite list_elem_of_omap. split.
  - intros (a & Ha & H). exists a. split; [done|].
    destruct (getitem (active_nodes s) a); congruence.
  - intros (a & Ha & H). exists a. split; [done|]. by rewrite H.
Qed.

Lemma pending_nodes_active s i : i ∈ pending_nodes s -> i ∈ active_nodes s.
Proof.
  intros H. apply pending_nodes_elem_of in H as (a & _ & H).
  by eapply getitem_elem_of.
Qed.

Lemma clear_nodes_cleared s s1 :
  Forall (fun i => 0 <= i) (active_nodes s) ->
  clear_nodes s = OK s1 -> cleared s s1.
Proof.
  intros Hnn H. unfold clear_nodes in H.
  apply rbind_OK in H as (a & Ha & H).
  apply rbind_OK in H as (act & Hact & H). injection H as <-.
  destruct (np_delete_OK _ _ _ Hact) as (Hsub & Hnd & _ & Hrem).
  assert (Hdec2 : forall (act_ind : Z) (nk : string * nat),
    (exists i, getitem (active_nodes s) act_ind = OK i /\
               nk.1 ∈ species_name_list s /\ nk.2 = Z.to_nat i) \/
    ~ (exists i, getitem (active_nodes s) act_ind = OK i /\
                 nk.1 ∈ species_name_list s /\ nk.2 = Z.to_nat i)).
  { intros act_ind nk. destruct (getitem (active_nodes s) act_ind) as [i|e].
    - destruct (decide (nk.1 ∈ species_name_list s /\ nk.2 = Z.to_nat i))
        as [Hy|Hn]; [left; eauto|].
      right. intros (i' & [= <-] & Hi'). tauto.
    - right. by intros (i' & Hi' & _). }
  assert (Hdec1 : forall (act_ind : Z) (k : nat),
    (exists i, getitem (active_nodes s) act_ind = OK i /\ k = Z.to_nat i) \/
    ~ (exists i, getitem (active_nodes s) act_ind = OK i /\ k = Z.to_nat i)).
  { intros act_ind k. destruct (getitem (active_nodes s) act_ind) as [i|e].
    - destruct (decide (k = Z.to_nat i)) as [Hy|Hn]; [left; eauto|].
      right. intros (i' & [= <-] & Hi'). tauto.
    - right. by intros (i' & Hi' & _). }
  assert (Hiff2 : forall nk : string * nat,
    (exists act_ind, act_ind ∈ inactive_node_list s /\
       exists i, getitem (active_nodes s) act_ind = OK i /\
                 nk.1 ∈ species_name_list s /\ nk.2 = Z.to_nat i) <->
    nk.1 ∈ species_name_list s /\ pending_at s nk.2).
  { intros nk. unfold pending_at. split.
    - intros (a0 & Ha0 & i & Hi & Hn & Hk). split; [done|].
      exists i. split; [|done]. apply pending_nodes_elem_of. eauto.
    - intros (Hn & i & Hi & Hk).
      apply pending_nodes_elem_of in Hi as (a0 & Ha0 & Hi). eauto 10. }
  assert (Hiff1 : forall k : nat,
    (exists act_ind, act_ind ∈ inactive_node_list s /\
       exists i, getitem (active_nodes s) act_ind = OK i /\ k = Z.to_nat i) <->
    pending_at s k).
  { intros k. unfold pending_at. split.
    - intros (a0 & Ha0 & i & Hi & Hk).
      exists i. split; [|done]. apply pending_nodes_elem_of. eauto.
    - intros (i & Hi & Hk).
      apply pending_nodes_elem_of in Hi as (a0 & Ha0 & Hi). eauto 10. }
  set (P2 := fun (act_ind : Z) (nk : string * nat) =>
    exists i, getitem (active_nodes s) act_ind = OK i /\
              nk.1 ∈ species_name_list s /\ nk.2 = Z.to_nat i) in *.
  set (P1 := fun (act_ind : Z) (k : nat) =>
    exists i, getitem (active_nodes s) act_ind = OK i /\ k = Z.to_nat i) in *.
  split; simpl; try done.
  - eapply upd_iff; [apply Hiff2|].
    refine (foldM_upd (fun a => obs_dict (na_species_density a))
              (snap (small_number s)) (snap_idem _) (clear_node s) P2
              (inactive_node_list s) Hdec2 (arrays_of s) a _ Ha).
    intros a1 act_ind a2 _ Hc.
    destruct (clear_node_upd _ _ _ _ Hnn Hc) as (i & Hi & H1 & _).
    eapply upd_iff; [|apply H1]. intros nk. unfold P2. split.
    + intros [Hn Hk]. eauto.
    + intros (i' & Hi' & Hn & Hk). rewrite Hi in Hi'. by injection Hi' as <-.
  - eapply upd_iff; [apply Hiff2|].
    refine (foldM_upd (fun a => obs_dict (na_species_rate a))
              (fun _ => 0%Q) (fun _ => eq_refl) (clear_node s) P2
              (inactive_node_list s) Hdec2 (arrays_of s) a _ Ha).
    intros a1 act_ind a2 _ Hc.
    destruct (clear_node_upd _ _ _ _ Hnn Hc) as (i & Hi & _ & H1 & _).
    eapply upd_iff; [|apply H1]. intros nk. unfold P2. split.
    + intros [Hn Hk]. eauto.
    + intros (i' & Hi' & Hn & Hk). rewrite Hi in Hi'. by injection Hi' as <-.
  - eapply upd_iff; [apply Hiff1|].
    refine (foldM_upd (fun a => obs_arr (na_temperature_rate a))
              (fun _ => 0%Q) (fun _ => eq_refl) (clear_node s) P1
              (inactive_node_list s) Hdec1 (arrays_of s) a _ Ha).
    intros a1 act_ind a2 _ Hc.
    destruct (clear_node_upd _ _ _ _ Hnn Hc) as (i & Hi & _ & _ & H1 & _).
    eapply upd_iff; [|apply H1]. intros k. unfold P1. split.
    + intros Hk. eauto.
    + intros (i' & Hi' & Hk). rewrite Hi in Hi'. by injection Hi' as <-.
  - eapply upd_iff; [apply Hiff1|].
    refine (foldM_upd (fun a => obs_arr (na_heat_release_rate a))
              (fun _ => 0%Q) (fun _ => eq_refl) (clear_node s) P1
              (inactive_node_list s) Hdec1 (arrays_of s) a _ Ha).
    intros a1 act_ind a2 _ Hc.
    destruct (clear_node_upd _ _ _ _ Hnn Hc) as (i & Hi & _ & _ & _ & H1).
    eapply upd_iff; [|apply H1]. intros k. unfold P1. split.
    + intros Hk. eauto.
    + intros (i' & Hi' & Hk). rewrite Hi in Hi'. by injection Hi' as <-.
  - intros Hnd' i Hi. apply pending_nodes_elem_of in Hi as (a0 & Ha0 & Hi).
    by eapply Hrem.
Qed.

Lemma clear_pass_cleared s s1 :
  Forall (fun i => 0 <= i) (active_nodes s) ->
  clear_pass s = OK s1 -> cleared s s1.
Proof.
  intros Hnn H. unfold clear_pass in H.
  destruct (inactive_node_list s) as [|a0 l] eqn:El; simpl in H.
  - injection H as <-.
    assert (Hp : pending_nodes s = []) by (unfold pending_nodes; by rewrite El).
    assert (Hno : forall k, ~ pending_at s k).
    { intros k (i & Hi & _). rewrite Hp in Hi. by apply elem_of_nil in Hi. }
    split; try done.
    + eapply upd_iff; [|apply upd_refl]. intros nk. split; [done|].
      intros [_ Hk]. by apply Hno in Hk.
    + eapply upd_iff; [|apply upd_refl]. intros nk. split; [done|].
      intros [_ Hk]. by apply Hno in Hk.
    + eapply upd_iff; [|apply upd_refl]. intros k. split; [done|apply Hno].
    + eapply upd_iff; [|apply upd_refl]. intros k. split; [done|apply Hno].
    + intros _ i Hi. rewrite Hp in Hi. by apply elem_of_nil in Hi.
  - apply clear_nodes_cleared; [done|]. done.
Qed.

Lemma clear_pass_total s :
  well_formed s -> exists s1, clear_pass s = OK s1 /\ well_formed s1.
Proof.
  intros Hwf. unfold clear_pass.
  destruct (0 <? length (inactive_node_list s))%nat; [|eauto].
  unfold clear_nodes.
  destruct (foldM_total (arrays_shape s) (clear_node s) (inactive_node_list s))
    with (s := arrays_of s) as (a & Ha & Hsa).
  { intros a act_ind Hin Hs. apply clear_node_total; [apply Hwf| |done].
    by apply (proj1 (list.Forall_forall _ _) (wf_inactive _ Hwf)). }
  { by apply well_formed_arrays. }
  rewrite Ha. cbn [rbind].
  destruct (np_delete_total (active_nodes s) (inactive_node_list s))
    as [act Hact]; [apply Hwf|].
  rewrite Hact. cbn [rbind]. eexists. split; [done|].
  destruct (np_delete_OK _ _ _ Hact) as (Hsub & Hnd & _ & _).
  destruct Hsa as (Hd & Hr & Ht & Hh).
  split; simpl; try done.
  - apply list.Forall_forall. intros i Hi.
    apply (proj1 (list.Forall_forall _ _) (wf_active _ Hwf)). by apply Hsub.
  - apply Hnd, Hwf.
Qed.

End ClearNodes.

(** ** Results that are not a [ValueError] *)

Section NoValueError.

Lemma nve_OK {A} (a : A) : ~ is_value_error (OK a).
Proof. intros [e He]. discriminate He. Qed.

Lemma nve_bind {A B} (r : result A) (k : A -> result B) :
  ~ is_value_error r ->
  (forall a, r = OK a -> ~ is_value_error (k a)) ->
  ~ is_value_error (rbind r k).
Proof.
  intros Hr Hk [e He]. destruct r as [a|e']; simpl in He.
  - apply (Hk a eq_refl). exists e. exact He.
  - apply Hr. exists e. by injection He as ->.
Qed.

Lemma nve_or_raise {A} (o : option A) e :
  (forall v, e <> ValueError v) -> ~ is_value_error (or_raise e o).
Proof.
  intros He [v Hv]. destruct o; simpl in Hv; [done|].
  injection Hv as Hv. by apply (He v).
Qed.

Lemma nve_getitem {A} (a : list A) i : ~ is_value_error (getitem a i).
Proof. by apply nve_or_raise. Qed.

Lemma nve_setitem {A} (a : list A) i x : ~ is_value_error (setitem a i x).
Proof.
  intros [v Hv]. unfold setitem in Hv. by destruct (py_index _ _).
Qed.

Lemma nve_mapM {A B} (f : A -> result B) l :
  (forall a, a ∈ l -> ~ is_value_error (f a)) -> ~ is_value_error (mapM f l).
Proof.
  induction l as [|a l IH]; intros Hf; [apply nve_OK|]. simpl.
  apply nve_bind; [apply Hf; by left|]. intros b _.
  apply nve_bind; [apply IH; intros; apply Hf; by right|]. intros bs _.
  apply nve_OK.
Qed.

Lemma nve_dict_getitem d name i : ~ is_value_error (Reaction.dict_getitem d name i).
Proof.
  apply nve_bind; [by apply nve_or_raise|]. intros; apply nve_getitem.
Qed.

Lemma nve_dict_setitem d name i v :
  ~ is_value_error (Reaction.dict_setitem d name i v).
Proof.
  apply nve_bind; [by apply nve_or_raise|]. intros a _.
  apply nve_bind; [apply nve_setitem|]. intros; apply nve_OK.
Qed.

Lemma nve_np_delete {A} (a : list A) idxs : ~ is_value_error (np_delete a idxs).
Proof.
  apply nve_bind; [|intros; apply nve_OK].
  apply nve_mapM. intros; by apply nve_or_raise.
Qed.

End NoValueError.

Section IntegrationPass.
Import Reaction.
Context {ET : ExternalTypes} {EO : ExternalOps}.

Lemma dict_setitem_same_away d name i v d' :
  0 <= i -> dict_setitem d name i v = OK d' -> same_away (Z.to_nat i) d d'.
Proof.
  intros Hi H name' k' Hk.
  destruct (dict_setitem_entry _ _ _ _ _ Hi H) as [_ He].
  rewrite He. by rewrite decide_False by tauto.
Qed.

Lemma setitem_same_away {A} (a : list A) i v a' k' :
  0 <= i -> setitem a i v = OK a' -> k' <> Z.to_nat i -> a' !! k' = a !! k'.
Proof.
  intros Hi H Hk. apply setitem_nonneg in H as [-> _]; [|done].
  by rewrite list_lookup_insert_ne.
Qed.

Lemma setitem_length {A} (a : list A) i v a' :
  setitem a i v = OK a' -> length a' = length a.
Proof. intros H. apply setitem_OK in H as (k & _ & ->). apply length_insert. Qed.

Lemma integrate_node_step s args T_in return_err st act_ind st' :
  Forall (fun i => 0 <= i) (active_nodes s) ->
  integrate_node s args T_in return_err st act_ind = OK st' ->
  exists i, 0 <= i /\ node_step s act_ind i st st'.
Proof.
  intros Hnn H. unfold integrate_node in H.
  apply rbind_OK in H as (i & Hi & H).
  assert (H0 : 0 <= i).
  { apply getitem_elem_of in Hi.
    by apply (proj1 (list.Forall_forall _ _) Hnn). }
  apply rbind_OK in H as (sys_ind & Hsys & H).
  destruct (sys_ind <? 0); [done|].
  apply rbind_OK in H as (v0 & Hv0 & H).
  apply rbind_OK in H as (v1 & Hv1 & H).
  apply rbind_OK in H as (t & Ht & H).
  apply rbind_OK in H as (v_in & Hv_in & H).
  apply rbind_OK in H as (rs & Hrs & H).
  destruct (solve_ode_node rs args v_in) as [my_sol my_status].
  apply rbind_OK in H as (dens & Hdens & H).
  apply rbind_OK in H as (last & Hlast & H).
  apply rbind_OK in H as (rate & Hrate & H).
  apply rbind_OK in H as (r & Hr & H).
  apply rbind_OK in H as (tr & Htr & H).
  apply rbind_OK in H as (hrr & Hhrr & H).
  apply rbind_OK in H as (x & Hx & H).
  apply rbind_OK in H as (T_out & HT_out & H).
  injection H as <-.
  assert (Hd : same_away (Z.to_nat i) (na_species_density (lp_arrays st)) dens /\
               (dict_shape (species_name_list s) (Z.to_nat (n_tot s))
                  (na_species_density (lp_arrays st)) ->
                dict_shape (species_name_list s) (Z.to_nat (n_tot s)) dens)).
  { eapply (foldM_OK_inv (fun d =>
       same_away (Z.to_nat i) (na_species_density (lp_arrays st)) d /\
       (dict_shape (species_name_list s) (Z.to_nat (n_tot s))
          (na_species_density (lp_arrays st)) ->
        dict_shape (species_name_list s) (Z.to_nat (n_tot s)) d)));
      [|  | apply Hdens].
    - split; [by intros ? ? ?|done].
    - intros d [j name] d' _ [Hsa Hsh] Hb.
      apply rbind_OK in Hb as (row & _ & Hb).
      apply rbind_OK in Hb as (y & _ & Hb). split.
      + intros name' k' Hk.
        rewrite (dict_setitem_same_away _ _ _ _ _ H0 Hb) by done. by apply Hsa.
      + intros Hs0. eapply dict_setitem_shape; [by apply Hsh | done]. }
  assert (Hra : same_away (Z.to_nat i) (na_species_rate (lp_arrays st)) rate /\
               (dict_shape (species_name_list s) (Z.to_nat (n_tot s))
                  (na_species_rate (lp_arrays st)) ->
                dict_shape (species_name_list s) (Z.to_nat (n_tot s)) rate)).
  { eapply (foldM_OK_inv (fun d =>
       same_away (Z.to_nat i) (na_species_rate (lp_arrays st)) d /\
       (dict_shape (species_name_list s) (Z.to_nat (n_tot s))
          (na_species_rate (lp_arrays st)) ->
        dict_shape (species_name_list s) (Z.to_nat (n_tot s)) d)));
      [|  | apply Hrate].
    - split; [by intros ? ? ?|done].
    - intros d [j name] d' _ [Hsa Hsh] Hb.
      apply rbind_OK in Hb as (y & _ & Hb). split.
      + intros name' k' Hk.
        rewrite (dict_setitem_same_away _ _ _ _ _ H0 Hb) by done. by apply Hsa.
      + intros Hs0. eapply dict_setitem_shape; [by apply Hsh | done]. }
  exists i. split; [done|]. split; simpl; try done.
  - apply Hd.
  - apply Hra.
  - intros k Hk. by eapply setitem_same_away.
  - intros k Hk. by eapply setitem_same_away.
  - intros k Hk. by eapply setitem_same_away.
  - intros (S1 & S2 & S3 & S4). split; [by apply Hd|]. split; [by apply Hra|].
    simpl. rewrite (setitem_length _ _ _ _ Htr), (setitem_length _ _ _ _ Hhrr).
    done.
  - destruct (check_complete rs last); [by right | by left].
Qed.

Lemma integration_pass_integrated s args T_in return_err s2 T_out err_list :
  Forall (fun i => 0 <= i) (active_nodes s) ->
  integration_pass s args T_in return_err = OK (s2, T_out, err_list) ->
  integrated s T_in s2 T_out.
Proof.
  intros Hnn H. unfold integration_pass in H.
  apply rbind_OK in H as (st & Hst & H). injection H as <- <- <-.
  set (st0 := {| lp_arrays := arrays_of s; lp_T_out := T_in; lp_err_list := [];
                 lp_inactive_node_list := inactive_node_list s |}) in *.
  pose (P := fun st : loop_state =>
    (forall k, Z.of_nat k ∉ active_nodes s ->
       lp_T_out st !! k = T_in !! k /\
       (forall name, entry (na_species_density (lp_arrays st)) name k =
                     entry (species_density s) name k) /\
       (forall name, entry (na_species_rate (lp_arrays st)) name k =
                     entry (species_rate s) name k) /\
       na_temperature_rate (lp_arrays st) !! k = temperature_rate s !! k /\
       na_heat_release_rate (lp_arrays st) !! k = heat_release_rate s !! k) /\
    (well_formed s ->
       arrays_shape s (lp_arrays st) /\
       Forall (fun a => 0 <= a < Z.of_nat (length (active_nodes s)))
              (lp_inactive_node_list st))).
  assert (HP : P st).
  { eapply (foldM_OK_inv P); [| |apply Hst].
    - split; [by intros k Hk|]. intros Hwf.
      split; [by apply well_formed_arrays | apply Hwf].
    - intros st1 act_ind st1' Hin [Hfr Hwf1] Hstep.
      apply integrate_node_step in Hstep as (i & H0 & Hns); [|done].
      destruct Hns. split.
      + intros k Hk.
        assert (Hne : k <> Z.to_nat i).
        { intros ->. apply Hk. rewrite Z2Nat.id by done.
          by eapply getitem_elem_of. }
        destruct (Hfr k Hk) as (F1 & F2 & F3 & F4 & F5).
        split; [by rewrite ns_T_out0|].
        split; [intros name; by rewrite ns_density0|].
        split; [intros name; by rewrite ns_rate0|].
        split; [by rewrite ns_temperature_rate0 | by rewrite ns_heat_release_rate0].
      + intros Hwf. destruct (Hwf1 Hwf) as [Hsh Hin1]. split; [by apply ns_shape0|].
        apply range_elem_of in Hin.
        destruct ns_inactive0 as [-> | ->]; [done|].
        apply Forall_app. split; [done|]. by constructor. }
  destruct HP as [Hfr Hwf]. split; simpl; try done.
  - intros k Hk. by apply Hfr.
  - intros k name Hk. by apply Hfr.
  - intros k name Hk. by apply Hfr.
  - intros k Hk. by apply Hfr.
  - intros k Hk. by apply Hfr.
  - intros Hw. destruct (Hwf Hw) as [(S1 & S2 & S3 & S4) Hin].
    split; simpl; try done; apply Hw.
Qed.

(** Further calls never add an active node. *)
Lemma solve_active_subseteq s args T_in return_err s2 T_out err_list :
  solve_ode_all_nodes s args T_in return_err = OK (s2, T_out, err_list) ->
  forall i, i ∈ active_nodes s2 -> i ∈ active_nodes s.
Proof.
  intros H. unfold solve_ode_all_nodes in H.
  apply rbind_OK in H as (s1 & H1 & H2).
  unfold integration_pass in H2.
  apply rbind_OK in H2 as (st & _ & H2). injection H2 as <- _ _. simpl.
  unfold clear_pass in H1. destruct (0 <? _)%nat; [|by injection H1 as <-].
  unfold clear_nodes in H1.
  apply rbind_OK in H1 as (a & _ & H1).
  apply rbind_OK in H1 as (act & Hact & H1). injection H1 as <-. simpl.
  apply (np_delete_OK _ _ _ Hact).
Qed.

Lemma later_state_active_subseteq s s' :
  later_state s s' -> forall i, i ∈ active_nodes s' -> i ∈ active_nodes s.
Proof.
  induction 1 as [|s' s'' args T_in re T_out errs Hl IH Hs]; [done|].
  intros i Hi. apply IH. by eapply solve_active_subseteq.
Qed.

End IntegrationPass.

Section SolveTheorems.
Import Reaction.
Context {ET : ExternalTypes} {EO : ExternalOps}.

Lemma cleared_nonneg s s1 :
  Forall (fun i => 0 <= i) (active_nodes s) -> cleared s s1 ->
  Forall (fun i => 0 <= i) (active_nodes s1).
Proof.
  intros Hnn Hc. apply list.Forall_forall. intros i Hi.
  apply (proj1 (list.Forall_forall _ _) Hnn). by apply Hc.
Qed.

Lemma not_pending_at s k :
  Forall (fun i => 0 <= i) (active_nodes s) ->
  Z.of_nat k ∉ pending_nodes s -> ~ pending_at s k.
Proof.
  intros Hnn Hk (i & Hi & ->). apply Hk.
  pose proof (pending_nodes_active _ _ Hi) as Ha.
  apply (proj1 (list.Forall_forall _ _) Hnn) in Ha.
  by rewrite Z2Nat.id.
Qed.

(** C9: a call of [solve_ode_all_nodes] that returns has first run the clear
    pass, giving a state [s1], and then integrated the active nodes of
    [s1].  [T_out] is [T_in] at every node that is not an active node of
    [s1]; and at every node that is neither an active node of [s1] nor
    waiting to be cleared, the species densities, the species rates, the
    temperature rate and the heat release rate are what they were before the
    call. *)
Theorem solve_frame (s : reaction_manager) (args : solver_args)
  (T_in : list Q) (return_err : bool) (s' : reaction_manager)
  (T_out : list Q) (err_list : list status) :
  Forall (fun i => 0 <= i) (active_nodes s) ->
  solve_ode_all_nodes s args T_in return_err = OK (s', T_out, err_list) ->
  exists s1,
    clear_pass s = OK s1 /\
    integration_pass s1 args T_in return_err = OK (s', T_out, err_list) /\
    (forall k, Z.of_nat k ∉ active_nodes s1 -> T_out !! k = T_in !! k) /\
    (forall k, Z.of_nat k ∉ active_nodes s1 -> Z.of_nat k ∉ pending_nodes s ->
       (forall name, entry (species_density s') name k =
                     entry (species_density s) name k) /\
       (forall name, entry (species_rate s') name k =
                     entry (species_rate s) name k) /\
       temperature_rate s' !! k = temperature_rate s !! k /\
       heat_release_rate s' !! k = heat_release_rate s !! k).
Proof.
  intros Hnn H. unfold solve_ode_all_nodes in H.
  apply rbind_OK in H as (s1 & H1 & H2). exists s1.
  split; [done|]. split; [done|].
  pose proof (clear_pass_cleared _ _ Hnn H1) as Hc.
  pose proof (integration_pass_integrated _ _ _ _ _ _ _
                (cleared_nonneg _ _ Hnn Hc) H2) as Hi.
  split; [apply Hi|].
  intros k Hk Hp. pose proof (not_pending_at _ _ Hnn Hp) as Hnp.
  split; [|split; [|split]].
  - intros name. rewrite (in_density _ _ _ _ Hi) by done.
    apply (proj2 (cl_density _ _ Hc (name, k))). simpl. tauto.
  - intros name. rewrite (in_rate _ _ _ _ Hi) by done.
    apply (proj2 (cl_rate _ _ Hc (name, k))). simpl. tauto.
  - rewrite (in_temperature_rate _ _ _ _ Hi) by done.
    by apply (proj2 (cl_temperature_rate _ _ Hc k)).
  - rewrite (in_heat_release_rate _ _ _ _ Hi) by done.
    by apply (proj2 (cl_heat_release_rate _ _ Hc k)).
Qed.

(** C6: on a well-formed manager the clear pass returns, giving a state
    [s1] from which the integration of the same call starts.  Every node
    waiting to be cleared is no longer an active node of [s1]; in [s1] each
    of its species densities below the small number is zero and the others
    are as before, and its species rates, temperature rate and heat release
    rate are zero.  The integration leaves all of that as it is, and the
    node is not an active node after any later call. *)
Theorem clear_pass_clears (s : reaction_manager) :
  well_formed s ->
  exists s1,
    clear_pass s = OK s1 /\ well_formed s1 /\ inactive_node_list s1 = [] /\
    (forall args T_in return_err,
       solve_ode_all_nodes s args T_in return_err =
       integration_pass s1 args T_in return_err) /\
    forall i, i ∈ pending_nodes s ->
      (i ∉ active_nodes s1) /\
      (forall name, name ∈ species_name_list s ->
         exists x,
           entry (species_density s) name (Z.to_nat i) = Some x /\
           entry (species_density s1) name (Z.to_nat i) =
             Some (if Qltb x (small_number s) then 0%Q else x)) /\
      (forall name, name ∈ species_name_list s ->
         entry (species_rate s1) name (Z.to_nat i) = Some 0%Q) /\
      temperature_rate s1 !! Z.to_nat i = Some 0%Q /\
      heat_release_rate s1 !! Z.to_nat i = Some 0%Q /\
      forall args T_in return_err s2 T_out err_list,
        integration_pass s1 args T_in return_err = OK (s2, T_out, err_list) ->
        (forall name,
           entry (species_density s2) name (Z.to_nat i) =
           entry (species_density s1) name (Z.to_nat i)) /\
        (forall name, name ∈ species_name_list s ->
           entry (species_rate s2) name (Z.to_nat i) = Some 0%Q) /\
        temperature_rate s2 !! Z.to_nat i = Some 0%Q /\
        heat_release_rate s2 !! Z.to_nat i = Some 0%Q /\
        T_out !! Z.to_nat i = T_in !! Z.to_nat i /\
        forall s3, later_state s2 s3 -> i ∉ active_nodes s3.
Proof.
  intros Hwf. destruct (clear_pass_total s Hwf) as (s1 & H1 & Hwf1).
  exists s1. split; [done|]. split; [done|].
  assert (Hnn : Forall (fun i => 0 <= i) (active_nodes s)).
  { eapply Forall_impl; [apply Hwf|]. simpl. intros; lia. }
  pose proof (clear_pass_cleared _ _ Hnn H1) as Hc.
  split; [apply Hc|].
  split; [intros; unfold solve_ode_all_nodes; by rewrite H1|].
  intros i Hp.
  pose proof (pending_nodes_active _ _ Hp) as Ha.
  pose proof (proj1 (list.Forall_forall _ _) (wf_active _ Hwf) i Ha) as Hi.
  simpl in Hi.
  assert (Hpa : pending_at s (Z.to_nat i)) by (by exists i).
  assert (Hrm : i ∉ active_nodes s1) by (apply Hc; [apply Hwf | done]).
  assert (Hrate : forall name, name ∈ species_name_list s ->
            entry (species_rate s1) name (Z.to_nat i) = Some 0%Q).
  { intros name Hn.
    destruct (proj1 (list.Forall_forall _ _) (wf_rate _ Hwf) name Hn)
      as (a & Hla & Hlen).
    destruct (lookup_lt_is_Some_2 a (Z.to_nat i) ltac:(lia)) as [x Hx].
    pose proof (proj1 (cl_rate _ _ Hc (name, Z.to_nat i))) as Hu.
    unfold obs_dict in Hu. simpl in Hu. rewrite Hu by done.
    unfold entry. rewrite Hla. simpl. by rewrite Hx. }
  assert (Htr : temperature_rate s1 !! Z.to_nat i = Some 0%Q).
  { destruct (lookup_lt_is_Some_2 (temperature_rate s) (Z.to_nat i))
      as [x Hx]; [rewrite (wf_temperature_rate _ Hwf); lia|].
    pose proof (proj1 (cl_temperature_rate _ _ Hc (Z.to_nat i)) Hpa) as Hu.
    unfold obs_arr in Hu. by rewrite Hu, Hx. }
  assert (Hhrr : heat_release_rate s1 !! Z.to_nat i = Some 0%Q).
  { destruct (lookup_lt_is_Some_2 (heat_release_rate s) (Z.to_nat i))
      as [x Hx]; [rewrite (wf_heat_release_rate _ Hwf); lia|].
    pose proof (proj1 (cl_heat_release_rate _ _ Hc (Z.to_nat i)) Hpa) as Hu.
    unfold obs_arr in Hu. by rewrite Hu, Hx. }
  split; [done|]. split; [|split; [done|split; [done|split; [done|]]]].
  - intros name Hn.
    destruct (proj1 (list.Forall_forall _ _) (wf_density _ Hwf) name Hn)
      as (a & Hla & Hlen).
    destruct (lookup_lt_is_Some_2 a (Z.to_nat i) ltac:(lia)) as [x Hx].
    exists x. split; [unfold entry; rewrite Hla; simpl; done|].
    pose proof (proj1 (cl_density _ _ Hc (name, Z.to_nat i))) as Hu.
    unfold obs_dict in Hu. simpl in Hu. rewrite Hu by done.
    unfold entry. rewrite Hla. simpl. by rewrite Hx.
  - intros args T_in re s2 T_out errs H2.
    pose proof (integration_pass_integrated _ _ _ _ _ _ _
                  (cleared_nonneg _ _ Hnn Hc) H2) as Hint.
    assert (Hni : Z.of_nat (Z.to_nat i) ∉ active_nodes s1)
      by (rewrite Z2Nat.id by lia; done).
    split; [intros name; by apply Hint|].
    split; [intros name Hn; rewrite (in_rate _ _ _ _ Hint) by done; by apply Hrate|].
    split; [by rewrite (in_temperature_rate _ _ _ _ Hint)|].
    split; [by rewrite (in_heat_release_rate _ _ _ _ Hint)|].
    split; [by apply Hint|].
    intros s3 Hl Hin. apply Hrm.
    apply (later_state_active_subseteq _ _ Hl) in Hin.
    by rewrite (in_active _ _ _ _ Hint) in Hin.
Qed.

End SolveTheorems.

Section SolveWitnesses.
Import Reaction Demo.

Lemma solve_frame_witness :
  match demo_setup with
  | OK s =>
      exists s' T_out err_list,
        solve_ode_all_nodes s tt demo_T true = OK (s', T_out, err_list) /\
        T_out !! 2%nat = Some 300%Q /\
        entry (species_density s') "R" 2 = entry (species_density s) "R" 2
  | Raise _ => False
  end.
Proof.
  destruct demo_setup as [s|e] eqn:E; vm_compute in E; [|discriminate E].
  injection E as <-.
  match goal with
  | |- exists s' T_out err_list, ?r = _ /\ _ =>
      destruct r as [[[s' T_out] err_list]|e] eqn:Es;
        [|vm_compute in Es; discriminate Es]
  end.
  exists s', T_out, err_list. split; [reflexivity|].
  match type of Es with
  | solve_ode_all_nodes ?s _ _ _ = _ =>
      destruct (solve_frame s tt demo_T true s' T_out err_list)
        as (s1 & H1 & _ & HT & Hfr); [repeat constructor; done | exact Es |]
  end.
  vm_compute in H1. injection H1 as <-.
  assert (Hk : Z.of_nat 2 ∉ [0; 1; 4; 5]).
  { intros Hin. repeat (apply elem_of_cons in Hin as [Hin|Hin]; [discriminate Hin|]).
    by apply elem_of_nil in Hin. }
  split.
  - rewrite (HT 2%nat Hk). reflexivity.
  - apply (Hfr 2%nat Hk). intros Hin. by apply elem_of_nil in Hin.
Defined.

Lemma clear_pass_clears_witness :
  match demo_run 3 with
  | OK (s, _) =>
      pending_nodes s = [0; 1; 4; 5] /\
      exists s1, clear_pass s = OK s1 /\ active_nodes s1 = [] /\
                 temperature_rate s1 !! 4%nat = Some 0%Q /\
                 entry (species_rate s1) "R" 4 = Some 0%Q
  | Raise _ => False
  end.
Proof.
  destruct (demo_run 3) as [[s T]|e] eqn:E; vm_compute in E; [|discriminate E].
  injection E as <- <-.
  split; [vm_compute; reflexivity|].
  match goal with
  | |- exists s1, clear_pass ?s = _ /\ _ =>
      destruct (clear_pass_clears s) as (s1 & H1 & _ & _ & _ & Hcl)
  end.
  - split; simpl.
    + repeat constructor. eexists. split; [vm_compute; reflexivity | reflexivity].
    + repeat constructor. eexists. split; [vm_compute; reflexivity | reflexivity].
    + reflexivity.
    + reflexivity.
    + repeat constructor; done.
    + repeat (apply NoDup_cons; split;
        [intros Hin;
         repeat (apply elem_of_cons in Hin as [Hin|Hin]; [discriminate Hin|]);
         by apply elem_of_nil in Hin|]).
      apply NoDup_nil. done.
    + repeat constructor; done.
  - exists s1. split; [exact H1|].
    destruct (Hcl 4) as (_ & _ & Hr & Ht & _).
    { vm_compute. apply list_elem_of_In. simpl. tauto. }
    split; [|split; [exact Ht|apply Hr; by left]].
    vm_compute in H1. by injection H1 as <-.
Defined.

End SolveWitnesses.

(** ** [load_reactions] *)

Section ActiveCells.
Import Reaction.
Context {ET : ExternalTypes} {EO : ExternalOps}.

Lemma set_entry_upd {A} (a : list (list A)) i c v a' :
  0 <= i -> 0 <= c -> set_entry a i c v = OK a' ->
  upd get2 (fun _ => v) (fun cj => cj.1 = Z.to_nat c /\ cj.2 = Z.to_nat i) a a' /\
  forall ncols nrows, shape2 ncols nrows a -> shape2 ncols nrows a'.
Proof.
  intros Hi Hc H. unfold set_entry in H.
  apply rbind_OK in H as (col & Hcol & H).
  apply rbind_OK in H as (col' & Hcol' & H).
  apply getitem_nonneg in Hcol; [|done].
  apply setitem_nonneg in Hcol' as [-> Hlt]; [|done].
  apply setitem_nonneg in H as [-> Hltc]; [|done].
  split.
  - intros [c' j]. unfold get2. simpl. split.
    + intros [-> ->]. rewrite list_lookup_insert_eq by done. simpl.
      rewrite list_lookup_insert_eq by done. rewrite Hcol. simpl.
      destruct (lookup_lt_is_Some_2 col _ Hlt) as [x ->]. reflexivity.
    + intros Hn. destruct (decide (c' = Z.to_nat c)) as [->|Hne].
      * rewrite list_lookup_insert_eq by done. rewrite Hcol. simpl.
        rewrite list_lookup_insert_ne; [reflexivity|].
        intros E. apply Hn. by split.
      * by rewrite list_lookup_insert_ne.
  - intros ncols nrows [Hl HF]. split; [by rewrite length_insert|].
    apply Forall_insert; [done|]. rewrite length_insert.
    by apply (Forall_lookup_1 _ _ _ _ HF Hcol).
Qed.

Lemma activate_upd n_cells rxn i a cell_num a' :
  0 <= i -> activate n_cells rxn i a cell_num = OK a' ->
  1 <= cell_num <= n_cells /\
  upd get2 (fun _ => 1)
      (fun cj => cj.1 = Z.to_nat (cell_num - 1) /\ cj.2 = Z.to_nat i) a a' /\
  forall ncols nrows, shape2 ncols nrows a -> shape2 ncols nrows a'.
Proof.
  intros Hi H. unfold activate in H.
  destruct (n_cells <? cell_num) eqn:E1; [done|].
  destruct (cell_num <? 1) eqn:E2; [done|].
  split; [lia|]. apply set_entry_upd; [done | lia | done].
Qed.

Lemma ones_row_upd (a : list (list Z)) i a' :
  0 <= i -> mapM (fun col => setitem col i 1) a = OK a' ->
  upd get2 (fun _ => 1) (fun cj => cj.2 = Z.to_nat i) a a' /\
  forall ncols nrows, shape2 ncols nrows a -> shape2 ncols nrows a'.
Proof.
  intros Hi. revert a'. induction a as [|col a IH]; intros a' H; simpl in H.
  - injection H as <-. split; [|done]. intros [c j]. by split.
  - apply rbind_OK in H as (col' & Hcol' & H).
    apply rbind_OK in H as (a1 & Ha1 & H). injection H as <-.
    destruct (IH _ Ha1) as [IHu IHs].
    apply setitem_nonneg in Hcol' as [-> Hlt]; [|done]. split.
    + intros [[|c] j]; unfold get2; simpl.
      * split.
        -- intros ->. rewrite list_lookup_insert_eq by done.
           destruct (lookup_lt_is_Some_2 col _ Hlt) as [x ->]. reflexivity.
        -- intros Hn. by rewrite list_lookup_insert_ne.
      * apply (IHu (c, j)).
    + intros ncols nrows [Hl HF]. apply Forall_cons in HF as [Hc HF].
      destruct ncols as [|ncols]; [done|].
      destruct (IHs ncols nrows) as [Hl1 HF1]; [split; [simpl in Hl; lia | done]|].
      split; [simpl; lia|]. constructor; [by rewrite length_insert | done].
Qed.

Lemma with_default_type_cells info :
  Active_Cells (with_default_type info) = Active_Cells info.
Proof. unfold with_default_type. by destruct (rxn_Type info). Qed.

Lemma set_column_stored nrows fm i col fm' :
  set_column nrows fm i col = OK fm' ->
  setitem fm i (stored_column nrows col) = OK fm'.
Proof.
  unfold set_column, stored_column.
  destruct (Z.of_nat (length col) =? nrows); [done|].
  destruct col as [|x [|y col]]; done.
Qed.

Lemma rxn_body_OK s rxn_dict i rxn st st' :
  0 <= i -> rxn_body s rxn_dict i rxn st = OK st' ->
  exists out,
    factory_output s rxn_dict rxn out /\
    st_model_list st' = st_model_list st ++ [out.1] /\
    setitem (st_frac_mat st) i (stored_column (n_species s) out.2)
      = OK (st_frac_mat st') /\
    upd get2 (fun _ => 1)
        (fun cj => cj.2 = Z.to_nat i /\
                   is_active rxn_dict rxn (Z.of_nat cj.1 + 1) = true)
        (st_active_cells st) (st_active_cells st') /\
    forall ncols nrows, shape2 ncols nrows (st_active_cells st) ->
                        shape2 ncols nrows (st_active_cells st').
Proof.
  intros Hi H. unfold rxn_body in H.
  destruct (rxn_dict !! rxn) as [info|] eqn:Hinfo; [|done].
  cbn [or_raise rbind] in H.
  apply rbind_OK in H as ([m col] & Hout & H).
  apply rbind_OK in H as (fm & Hfm & H).
  apply rbind_OK in H as (ac & Hac & H). injection H as <-. simpl.
  exists (m, col). split; [by exists info|]. split; [done|].
  split; [by apply set_column_stored|].
  rewrite with_default_type_cells in Hac.
  unfold is_active. rewrite Hinfo.
  destruct (Active_Cells info) as [cells|].
  - assert (Hall : forall ac0 ac1,
      foldM (activate (n_cells s) rxn i) ac0 cells = OK ac1 ->
      Forall (fun cell_num => 1 <= cell_num) cells).
    { clear. induction cells as [|c cells IH]; intros ac0 ac1 H; [constructor|].
      simpl in H. apply rbind_OK in H as (ac2 & H2 & H).
      constructor; [|by eapply IH].
      unfold activate in H2. destruct (n_cells s <? c); [done|].
      destruct (c <? 1) eqn:E; [done|]. lia. }
    pose proof (Hall _ _ Hac) as Hpos.
    split.
    + eapply upd_iff; cycle 1.
      * refine (foldM_upd get2 (fun _ => 1) (fun _ => eq_refl)
                  (activate (n_cells s) rxn i)
                  (fun cell_num cj => cj.1 = Z.to_nat (cell_num - 1) /\
                                      cj.2 = Z.to_nat i)
                  cells _ (st_active_cells st) ac _ Hac).
        -- intros cell_num cj.
           destruct (decide (cj.1 = Z.to_nat (cell_num - 1) /\ cj.2 = Z.to_nat i));
             tauto.
        -- intros a0 cell_num a1 _ Hstep.
           by apply (activate_upd _ _ _ _ _ _ Hi Hstep).
      * intros [c j]. simpl. rewrite bool_decide_eq_true. split.
        -- intros (cell_num & Hin & -> & ->). split; [done|].
           pose proof (proj1 (list.Forall_forall _ _) Hpos _ Hin). simpl in *.
           by replace (Z.of_nat (Z.to_nat (cell_num - 1)) + 1) with cell_num by lia.
        -- intros [-> Hin]. exists (Z.of_nat c + 1). split; [done|].
           split; [lia | done].
    + eapply (foldM_OK_inv (fun a => forall ncols nrows,
         shape2 ncols nrows (st_active_cells st) -> shape2 ncols nrows a));
        [done| |apply Hac].
      intros a0 cell_num a1 _ IH Hstep ncols nrows Hs.
      by apply (activate_upd _ _ _ _ _ _ Hi Hstep), IH.
  - destruct (ones_row_upd _ _ _ Hi Hac) as [Hu Hs]. split; [|done].
    eapply upd_iff; [|apply Hu]. intros [c j]. simpl. tauto.
Qed.

End ActiveCells.

Section RxnLoop.
Import Reaction.
Context {ET : ExternalTypes} {EO : ExternalOps}.

Lemma flagged_dec rxn_dict rxn_nums i cj :
  flagged rxn_dict rxn_nums i cj \/ ~ flagged rxn_dict rxn_nums i cj.
Proof.
  destruct (decide (i <= cj.2)%nat) as [Hle|Hgt].
  - destruct (rxn_nums !! (cj.2 - i)%nat) as [rxn|] eqn:E.
    + destruct (is_active rxn_dict rxn (Z.of_nat cj.1 + 1)) eqn:Ea.
      * left. exists (cj.2 - i)%nat, rxn. split; [done|]. split; [lia | done].
      * right. intros (j & rxn' & Hj & Hc & Ha).
        replace (cj.2 - i)%nat with j in E by lia. congruence.
    + right. intros (j & rxn' & Hj & Hc & Ha).
      replace (cj.2 - i)%nat with j in E by lia. congruence.
  - right. intros (j & rxn' & Hj & Hc & Ha). lia.
Qed.

Lemma rxn_loop_OK s rxn_dict rxn_nums : forall i st st',
  0 <= i -> rxn_loop s rxn_dict i rxn_nums st = OK st' ->
  exists outs,
    Forall2 (factory_output s rxn_dict) rxn_nums outs /\
    st_model_list st' = st_model_list st ++ outs.*1 /\
    length (st_frac_mat st') = length (st_frac_mat st) /\
    (forall j, (j < Z.to_nat i)%nat ->
               st_frac_mat st' !! j = st_frac_mat st !! j) /\
    (forall j out, outs !! j = Some out ->
       st_frac_mat st' !! (Z.to_nat i + j)%nat
         = Some (stored_column (n_species s) out.2)) /\
    upd get2 (fun _ => 1) (flagged rxn_dict rxn_nums (Z.to_nat i))
        (st_active_cells st) (st_active_cells st') /\
    forall ncols nrows, shape2 ncols nrows (st_active_cells st) ->
                        shape2 ncols nrows (st_active_cells st').
Proof.
  induction rxn_nums as [|rxn rxn_nums IH]; intros i st st' Hi H; simpl in H.
  - injection H as <-. exists []. split; [constructor|].
    split; [by rewrite app_nil_r|]. split; [done|]. split; [done|].
    split; [done|]. split; [|done].
    eapply upd_iff; [|apply upd_refl]. intros cj. split; [done|].
    by intros (j & r & Hj & _).
  - apply rbind_OK in H as (st1 & H1 & H).
    destruct (rxn_body_OK _ _ _ _ _ _ Hi H1) as (out & Hout & Hm & Hf & Hu & Hs).
    destruct (IH (i + 1) st1 st' ltac:(lia) H)
      as (outs & Houts & Hm' & Hl' & Hpre' & Hf' & Hu' & Hs').
    apply setitem_nonneg in Hf as [Hf Hlt]; [|done].
    exists (out :: outs). split; [by constructor|].
    split; [rewrite Hm', Hm, <- app_assoc; reflexivity|].
    split; [rewrite Hl', Hf; apply length_insert|].
    split; [|split; [|split]].
    + intros j Hj. rewrite Hpre' by lia. rewrite Hf.
      apply list_lookup_insert_ne. lia.
    + intros [|j] out' Hj; simpl in Hj.
      * injection Hj as <-. rewrite Nat.add_0_r, Hpre' by lia. rewrite Hf.
        by apply list_lookup_insert_eq.
      * replace (Z.to_nat i + S j)%nat with (Z.to_nat (i + 1) + j)%nat by lia.
        by apply Hf'.
    + eapply upd_iff; [|eapply upd_trans; [done | | | exact Hu | exact Hu']].
      * intros cj. unfold flagged. split.
        -- intros [[Hc Ha]|(j & r & Hj & Hc & Ha)].
           ++ exists 0%nat, rxn. split; [done|]. split; [lia | done].
           ++ exists (S j), r. split; [done|]. split; [lia | done].
        -- intros ([|j] & r & Hj & Hc & Ha); simpl in Hj.
           ++ injection Hj as <-. left. split; [lia | done].
           ++ right. exists j, r. split; [done|]. split; [lia | done].
      * intros cj. destruct (decide (cj.2 = Z.to_nat i)) as [E|E];
          destruct (is_active rxn_dict rxn (Z.of_nat cj.1 + 1)); try tauto;
          right; intros [? ?]; congruence.
      * intros cj. apply flagged_dec.
    + intros ncols nrows Hsh. by apply Hs', Hs.
Qed.

Lemma get2_zeros (ncols nrows : nat) (cj : nat * nat) :
  (cj.1 < ncols)%nat -> (cj.2 < nrows)%nat ->
  get2 (replicate ncols (replicate nrows 0)) cj = Some 0.
Proof.
  intros H1 H2. unfold get2. rewrite lookup_replicate_2 by done. simpl.
  by rewrite lookup_replicate_2.
Qed.

Lemma shape2_zeros {A} (ncols nrows : nat) (x : A) :
  shape2 ncols nrows (replicate ncols (replicate nrows x)).
Proof.
  split; [apply length_replicate|].
  apply Forall_replicate. apply length_replicate.
Qed.

(** The activation masks that the loop leaves: column [c] is the pattern
    of cell [c + 1]. *)
Lemma active_cells_columns rxn_dict rxn_nums (ncols : nat) ac :
  upd get2 (fun _ => 1) (flagged rxn_dict rxn_nums 0)
      (replicate ncols (replicate (length rxn_nums) 0)) ac ->
  shape2 ncols (length rxn_nums) ac ->
  ac = (fun c => mask_column rxn_dict rxn_nums (Z.of_nat c + 1)) <$> seq 0 ncols.
Proof.
  intros Hu [Hl HF]. apply list_eq. intros c.
  rewrite list_lookup_fmap.
  destruct (decide (c < ncols)%nat) as [Hc|Hc].
  2:{ rewrite lookup_seq_ge by lia. simpl. apply lookup_ge_None. lia. }
  rewrite lookup_seq_lt by done. simpl.
  destruct (lookup_lt_is_Some_2 ac c ltac:(lia)) as [col Hcol].
  rewrite Hcol. f_equal.
  pose proof (Forall_lookup_1 _ _ _ _ HF Hcol) as Hlen. simpl in Hlen.
  apply list_eq. intros j. unfold mask_column. rewrite list_lookup_fmap.
  destruct (rxn_nums !! j) as [rxn|] eqn:Ej; simpl.
  - pose proof (lookup_lt_Some _ _ _ Ej) as Hj.
    assert (Hg : get2 ac (c, j) = col !! j) by (unfold get2; simpl; by rewrite Hcol).
    rewrite <- Hg. destruct (Hu (c, j)) as [Hy Hn].
    destruct (is_active rxn_dict rxn (Z.of_nat c + 1)) eqn:Ea.
    + rewrite Hy; [by rewrite get2_zeros|]. exists j, rxn. by repeat split.
    + rewrite Hn; [by rewrite get2_zeros|].
      intros (j' & rxn' & Hj' & Hc' & Ha'). simpl in *. subst j'. congruence.
  - apply lookup_ge_None. apply lookup_ge_None in Ej. lia.
Qed.

End RxnLoop.

Section Systems.
Import Reaction.
Context {ET : ExternalTypes} {EO : ExternalOps}.

Lemma index_of_lookup {A} `{EqDecision A} (x : A) l : forall k,
  index_of x l = Some k -> l !! k = Some x.
Proof.
  induction l as [|y l IH]; intros k H; simpl in H; [done|].
  destruct (decide (y = x)) as [->|Hne].
  - by injection H as <-.
  - destruct (index_of x l) as [k'|] eqn:E; [|done].
    injection H as <-. simpl. by apply IH.
Qed.

Lemma select_by_mask {A} (mask : list Z) : forall (xs pre ys : list A),
  length xs = length mask ->
  mapM (getitem (pre ++ xs))
       (indices_where truthy (Z.of_nat (length pre)) mask) = OK ys ->
  ys = snd <$> List.filter (fun mx => truthy mx.1) (zip mask xs).
Proof.
  induction mask as [|m mask IH]; intros xs pre ys Hl H.
  - destruct xs; [|done]. simpl in H. by injection H as <-.
  - destruct xs as [|x xs]; [done|]. simpl in *.
    assert (Hpre : pre ++ x :: xs = (pre ++ [x]) ++ xs) by (by rewrite <- app_assoc).
    assert (Hlen : Z.of_nat (length pre) + 1 = Z.of_nat (length (pre ++ [x])))
      by (rewrite length_app; simpl; lia).
    rewrite Hlen, Hpre in H.
    destruct (truthy m); simpl in *.
    + apply rbind_OK in H as (y & Hy & H).
      apply rbind_OK in H as (ys' & Hys & H). injection H as <-.
      rewrite <- Hpre in Hy.
      rewrite (getitem_nat _ _ x) in Hy.
      2:{ rewrite lookup_app_r by lia. by rewrite Nat.sub_diag. }
      injection Hy as <-. f_equal. apply (IH xs (pre ++ [x])); [lia | done].
    + apply (IH xs (pre ++ [x])); [lia | done].
Qed.

Lemma filter_mask_active {B} rxn_dict cell (f : model * list Q -> B) rxn_nums :
  forall outs, length outs = length rxn_nums ->
  snd <$> List.filter (fun mx => truthy mx.1)
            (zip (mask_column rxn_dict rxn_nums cell) (f <$> outs))
  = f <$> active_outs rxn_dict cell rxn_nums outs.
Proof.
  unfold active_outs.
  induction rxn_nums as [|rxn rxn_nums IH]; intros [|out outs] Hl; try done.
  simpl. destruct (is_active rxn_dict rxn cell); simpl.
  - f_equal. apply IH. simpl in Hl. lia.
  - apply IH. simpl in Hl. lia.
Qed.

Lemma load_reactions_loaded s rxn_dict s' :
  load_reactions s rxn_dict = OK s' -> exists outs, loaded s rxn_dict s' outs.
Proof.
  intros H. unfold load_reactions in H.
  set (rxn_nums := sorted_keys rxn_dict) in *.
  apply rbind_OK in H as (fm0 & Hfm0 & H).
  apply rbind_OK in H as (ac0 & Hac0 & H).
  apply rbind_OK in H as (st & Hst & H).
  apply rbind_OK in H as ([ntsm unique] & Hmap & H).
  apply rbind_OK in H as (systems & Hsys & H). injection H as <-.
  unfold np_zeros2 in Hfm0, Hac0.
  destruct ((n_species s <? 0) || (Z.of_nat (length rxn_nums) <? 0)) eqn:E1;
    [done|]. injection Hfm0 as <-.
  destruct ((Z.of_nat (length rxn_nums) <? 0) || (n_cells s <? 0)) eqn:E2;
    [done|]. injection Hac0 as <-.
  apply orb_false_elim in E2 as [_ E2]. apply Z.ltb_ge in E2.
  destruct (rxn_loop_OK _ _ _ _ _ _ (Z.le_refl 0) Hst)
    as (outs & Houts & Hm & Hl & _ & Hf & Hu & Hs).
  simpl in Hm, Hl, Hf, Hu, Hs.
  pose proof (Forall2_length _ _ _ Houts) as Hlo.
  rewrite Nat2Z.id in *. rewrite length_replicate in Hl.
  assert (Hfrac : st_frac_mat st = stored_column (n_species s) <$> outs.*2).
  { apply list_eq. intros j. rewrite !list_lookup_fmap.
    destruct (outs !! j) as [out|] eqn:Ej; simpl.
    - by apply (Hf j out).
    - apply lookup_ge_None. apply lookup_ge_None in Ej. lia. }
  assert (Hac : st_active_cells st =
    (fun c => mask_column rxn_dict rxn_nums (Z.of_nat c + 1))
      <$> seq 0 (Z.to_nat (n_cells s))).
  { apply active_cells_columns; [exact Hu|]. apply Hs, shape2_zeros. }
  rewrite Hac in Hmap.
  assert (Hu' : unique = remove_dups
    ((fun c => mask_column rxn_dict rxn_nums (Z.of_nat c + 1))
       <$> seq 0 (Z.to_nat (n_cells s)))).
  { unfold map_all_systems in Hmap.
    apply rbind_OK in Hmap as (m & Hm1 & Hm2). by injection Hm2 as _ <-. }
  rewrite Hfrac, Hm, Hu' in Hsys. rewrite Hu' in Hmap.
  exists outs. by split.
Qed.

(** The system of a cell. *)
Lemma loaded_cell_system s rxn_dict s' outs i cell :
  loaded s rxn_dict s' outs ->
  cell_node_key s !! i = Some cell -> 1 <= cell ->
  exists (sys_ind : nat) rs,
    node_to_system_map s' !! i = Some (Z.of_nat sys_ind) /\
    reaction_systems s' !! sys_ind = Some rs /\
    rs_model_list rs =
      (active_outs rxn_dict cell (sorted_keys rxn_dict) outs).*1 /\
    rs_frac_mat rs =
      stored_column (n_species s)
        <$> (active_outs rxn_dict cell (sorted_keys rxn_dict) outs).*2.
Proof.
  intros Hld Hcell Hpos. destruct Hld.
  set (rxn_nums := sorted_keys rxn_dict) in *.
  set (cols := (fun c => mask_column rxn_dict rxn_nums (Z.of_nat c + 1))
                 <$> seq 0 (Z.to_nat (n_cells s))) in *.
  unfold map_all_systems in ld_map0.
  apply rbind_OK in ld_map0 as (m & Hm & Hm2). injection Hm2 as <-.
  destruct (proj2 (mapM_OK_lookup _ _ _ Hm) _ _ Hcell) as (sys & Hsys & Hf).
  destruct (cell <? 1) eqn:E; [lia|].
  apply rbind_OK in Hf as (mask & Hmask & Hf).
  apply rbind_OK in Hf as (k & Hk & Hf). injection Hf as <-.
  destruct (index_of mask (remove_dups cols)) as [k'|] eqn:Ek; [|done].
  injection Hk as <-. apply index_of_lookup in Ek.
  destruct (proj2 (mapM_OK_lookup _ _ _ ld_systems0) _ _ Ek) as (rs & Hrs & Hb).
  exists k', rs. split; [done|]. split; [done|].
  apply getitem_nonneg in Hmask; [|lia].
  unfold cols in Hmask. rewrite list_lookup_fmap in Hmask.
  destruct (seq 0 (Z.to_nat (n_cells s)) !! Z.to_nat (cell - 1)) as [c|] eqn:Ec;
    [|done].
  apply lookup_seq in Ec as [-> _]. simpl in Hmask. injection Hmask as <-.
  replace (Z.of_nat (Z.to_nat (cell - 1)) + 1) with cell in Hb by lia.
  unfold build_system in Hb.
  apply rbind_OK in Hb as (ms & Hms & Hb).
  apply rbind_OK in Hb as (fs & Hfs & Hb). injection Hb as <-. simpl.
  pose proof (Forall2_length _ _ _ ld_outs0) as Hlo.
  split.
  - apply (select_by_mask _ _ []) in Hms.
    + rewrite Hms. by apply filter_mask_active.
    + unfold mask_column. rewrite !length_fmap. done.
  - apply (select_by_mask _ _ []) in Hfs.
    + rewrite Hfs. rewrite <- list_fmap_compose.
      rewrite (filter_mask_active _ _ (stored_column (n_species s) ∘ snd)) by done.
      by rewrite list_fmap_compose.
    + unfold mask_column. rewrite !length_fmap. done.
Qed.

End Systems.

Section GroupingTheorem.
Import Reaction.
Context {ET : ExternalTypes} {EO : ExternalOps}.

Lemma sorted_keys_Sorted (rxn_dict : gmap Z rxn_info) :
  Sorted Z.le (sorted_keys rxn_dict).
Proof. apply Sorted_merge_sort. apply _. Qed.

Lemma sorted_keys_elem_of (rxn_dict : gmap Z rxn_info) rxn :
  rxn ∈ sorted_keys rxn_dict <-> is_Some (rxn_dict !! rxn).
Proof.
  unfold sorted_keys. rewrite merge_sort_Permutation, list_elem_of_fmap. split.
  - intros ([k v] & -> & Hin). apply elem_of_map_to_list in Hin. by eexists.
  - intros [v Hv]. exists (rxn, v). split; [done|]. by apply elem_of_map_to_list.
Qed.

Lemma mapM_length {A B} (f : A -> result B) l l' :
  mapM f l = OK l' -> length l' = length l.
Proof. intros H. by apply mapM_OK_lookup in H as [? _]. Qed.

(** The number of systems is the number of distinct patterns. *)
Lemma loaded_count s rxn_dict s' outs (pats : list (list Z)) :
  loaded s rxn_dict s' outs -> NoDup pats ->
  (forall p, p ∈ pats <->
             exists cell, 1 <= cell <= n_cells s /\
                          p = mask_column rxn_dict (sorted_keys rxn_dict) cell) ->
  length (reaction_systems s') = length pats.
Proof.
  intros Hld Hnd Hp. destruct Hld.
  rewrite (mapM_length _ _ _ ld_systems0).
  apply Permutation_length, NoDup_Permutation; [apply NoDup_remove_dups|done|].
  intros p. rewrite elem_of_remove_dups, Hp, list_elem_of_fmap. split.
  - intros (c & -> & Hc). apply elem_of_seq in Hc.
    exists (Z.of_nat c + 1). split; [lia | done].
  - intros (cell & Hcell & ->). exists (Z.to_nat (cell - 1)). split.
    + f_equal. lia.
    + apply elem_of_seq. lia.
Qed.

(** C2: when [load_reactions] returns, with the reactions taken in sorted
    key order, there are as many reaction systems as there are distinct
    activation patterns among the cells, and the system assigned to a node
    of cell [cell] holds the models and the fractional-conversion columns
    of exactly the reactions flagged active on [cell], in sorted key
    order. *)
Theorem load_reactions_groups (s : reaction_manager)
  (rxn_dict : gmap Z rxn_info) (s' : reaction_manager) :
  load_reactions s rxn_dict = OK s' ->
  Sorted Z.le (sorted_keys rxn_dict) /\
  (forall rxn, rxn ∈ sorted_keys rxn_dict <-> is_Some (rxn_dict !! rxn)) /\
  exists outs,
    Forall2 (factory_output s rxn_dict) (sorted_keys rxn_dict) outs /\
    (forall pats : list (list Z), NoDup pats ->
       (forall p, p ∈ pats <->
          exists cell, 1 <= cell <= n_cells s /\
                       p = mask_column rxn_dict (sorted_keys rxn_dict) cell) ->
       length (reaction_systems s') = length pats) /\
    (forall (i : nat) cell, cell_node_key s !! i = Some cell -> 1 <= cell ->
       exists (sys_ind : nat) rs,
         node_to_system_map s' !! i = Some (Z.of_nat sys_ind) /\
         reaction_systems s' !! sys_ind = Some rs /\
         rs_model_list rs =
           (active_outs rxn_dict cell (sorted_keys rxn_dict) outs).*1 /\
         rs_frac_mat rs =
           stored_column (n_species s)
             <$> (active_outs rxn_dict cell (sorted_keys rxn_dict) outs).*2).
Proof.
  intros H. split; [apply sorted_keys_Sorted|].
  split; [apply sorted_keys_elem_of|].
  destruct (load_reactions_loaded _ _ _ H) as [outs Hld].
  exists outs. split; [apply Hld|]. split.
  - intros pats. apply (loaded_count _ _ _ _ _ Hld).
  - intros i cell. apply (loaded_cell_system _ _ _ _ _ _ Hld).
Qed.

End GroupingTheorem.

Section GroupingWitness.
Import Reaction Demo.

Lemma load_reactions_groups_witness :
  match demo_species_loaded with
  | OK s =>
      exists s', load_reactions s demo_reactions = OK s' /\
                 length (reaction_systems s') = 2%nat /\
                 exists rs, reaction_systems s' !! 1%nat = Some rs /\
                            rs_model_list rs = [7; 8]
  | Raise _ => False
  end.
Proof.
  destruct demo_species_loaded as [s|e] eqn:E; vm_compute in E; [|discriminate E].
  injection E as <-.
  match goal with
  | |- exists s', ?r = _ /\ _ =>
      destruct r as [s'|e] eqn:Es; [|vm_compute in Es; discriminate Es]
  end.
  exists s'. split; [reflexivity|].
  destruct (load_reactions_groups _ _ _ Es) as (_ & _ & outs & Houts & Hcount & Hsys).
  split.
  - apply (Hcount [[1; 0]; [1; 1]]).
    + apply NoDup_cons. split.
      * intros Hin. apply elem_of_cons in Hin as [Hin|Hin]; [discriminate Hin|].
        by apply elem_of_nil in Hin.
      * apply NoDup_cons. split; [apply not_elem_of_nil | apply NoDup_nil; done].
    + intros p. cbn [n_cells]. split.
      * intros Hin. apply elem_of_cons in Hin as [->|Hin].
        -- exists 1. split; [lia|]. vm_compute. reflexivity.
        -- apply elem_of_cons in Hin as [->|Hin]; [|by apply elem_of_nil in Hin].
           exists 2. split; [lia|]. vm_compute. reflexivity.
      * intros (cell & Hc & ->).
        assert (cell = 1 \/ cell = 2) as [-> | ->] by lia.
        -- left.
        -- right. left.
  - vm_compute in Es. injection Es as <-.
    eexists. split; reflexivity.
Defined.

End GroupingWitness.

(** ** No configuration error after setup *)

Section Resolved.
Import Reaction.
Context {ET : ExternalTypes} {EO : ExternalOps}.

Lemma nve_foldM {A S} (body : S -> A -> result S) l s :
  (forall s a, a ∈ l -> ~ is_value_error (body s a)) ->
  ~ is_value_error (foldM body s l).
Proof. intros H. by apply foldM_not_value_error. Qed.

Lemma nve_clear_pass s : ~ is_value_error (clear_pass s).
Proof.
  unfold clear_pass. destruct (0 <? _)%nat; [|apply nve_OK].
  unfold clear_nodes. apply nve_bind.
  - apply nve_foldM. intros a act_ind _. unfold clear_node.
    apply nve_bind; [apply nve_getitem|]. intros i _.
    apply nve_bind.
    { apply nve_foldM. intros d name _.
      apply nve_bind; [apply nve_dict_getitem|]. intros x _.
      destruct (Qltb x (small_number s)); [apply nve_dict_setitem | apply nve_OK]. }
    intros dens _. apply nve_bind.
    { apply nve_foldM. intros d name _. apply nve_dict_setitem. }
    intros rate _.
    apply nve_bind; [apply nve_setitem|]. intros tr _.
    apply nve_bind; [apply nve_setitem|]. intros hrr _. apply nve_OK.
  - intros a _. apply nve_bind; [apply nve_np_delete|]. intros; apply nve_OK.
Qed.

Lemma nve_integrate_node s args T_in return_err st act_ind :
  resolved s ->
  ~ is_value_error (integrate_node s args T_in return_err st act_ind).
Proof.
  intros [Hns Hres]. unfold integrate_node.
  apply nve_bind; [apply nve_getitem|]. intros i Hi.
  apply nve_bind; [apply nve_getitem|]. intros sys_ind Hsys.
  apply getitem_elem_of in Hi.
  destruct (proj1 (list.Forall_forall _ _) Hres i Hi) as (H0 & m & Hm & Hm0).
  apply getitem_nonneg in Hsys; [|done].
  rewrite Hm in Hsys. injection Hsys as <-.
  rewrite (proj2 (Z.ltb_ge _ _)) by done.
  apply nve_bind.
  { unfold np_zeros. rewrite (proj2 (Z.ltb_ge _ _)) by lia. apply nve_OK. }
  intros v0 _. apply nve_bind.
  { apply nve_foldM. intros v [j name] _.
    apply nve_bind; [apply nve_dict_getitem|]. intros; apply nve_setitem. }
  intros v1 _. apply nve_bind; [apply nve_getitem|]. intros t _.
  apply nve_bind; [apply nve_setitem|]. intros v_in _.
  apply nve_bind; [apply nve_getitem|]. intros rs _.
  destruct (solve_ode_node rs args v_in) as [my_sol my_status].
  apply nve_bind.
  { apply nve_foldM. intros d [j name] _.
    apply nve_bind; [apply nve_getitem|]. intros row _.
    apply nve_bind; [apply nve_getitem|]. intros; apply nve_dict_setitem. }
  intros dens _. apply nve_bind; [apply nve_getitem|]. intros last _.
  apply nve_bind.
  { apply nve_foldM. intros d [j name] _.
    apply nve_bind; [apply nve_getitem|]. intros; apply nve_dict_setitem. }
  intros rate _. apply nve_bind; [apply nve_getitem|]. intros r _.
  apply nve_bind; [apply nve_setitem|]. intros tr _.
  apply nve_bind; [apply nve_setitem|]. intros hrr _.
  apply nve_bind; [apply nve_getitem|]. intros x _.
  apply nve_bind; [apply nve_setitem|]. intros T_out _. apply nve_OK.
Qed.

Lemma resolved_nonneg s :
  resolved s -> Forall (fun i => 0 <= i) (active_nodes s).
Proof. intros [_ H]. eapply Forall_impl; [exact H|]. by intros i [? _]. Qed.

Lemma resolved_cleared s s1 : resolved s -> cleared s s1 -> resolved s1.
Proof.
  intros [Hns Hres] Hc. split; [by rewrite (cl_n_species _ _ Hc)|].
  apply list.Forall_forall. intros i Hi. rewrite (cl_map _ _ Hc).
  apply (proj1 (list.Forall_forall _ _) Hres). by apply Hc.
Qed.

Lemma resolved_integrated s T_in s2 T_out :
  resolved s -> integrated s T_in s2 T_out -> resolved s2.
Proof.
  intros [Hns Hres] Hi. split; [by rewrite (in_n_species _ _ _ _ Hi)|].
  by rewrite (in_active _ _ _ _ Hi), (in_map _ _ _ _ Hi).
Qed.

Lemma resolved_solve s args T_in return_err :
  resolved s ->
  ~ is_value_error (solve_ode_all_nodes s args T_in return_err) /\
  forall s' T_out err_list,
    solve_ode_all_nodes s args T_in return_err = OK (s', T_out, err_list) ->
    resolved s'.
Proof.
  intros Hres. unfold solve_ode_all_nodes. split.
  - apply nve_bind; [apply nve_clear_pass|]. intros s1 H1.
    pose proof (clear_pass_cleared _ _ (resolved_nonneg _ Hres) H1) as Hc.
    pose proof (resolved_cleared _ _ Hres Hc) as Hres1.
    unfold integration_pass. apply nve_bind; [|intros; apply nve_OK].
    apply nve_foldM. intros st act_ind _. by apply nve_integrate_node.
  - intros s' T_out errs H. apply rbind_OK in H as (s1 & H1 & H2).
    pose proof (clear_pass_cleared _ _ (resolved_nonneg _ Hres) H1) as Hc.
    pose proof (resolved_cleared _ _ Hres Hc) as Hres1.
    eapply resolved_integrated; [exact Hres1|].
    eapply integration_pass_integrated; [|exact H2].
    by apply resolved_nonneg.
Qed.

Lemma resolved_later s s' : resolved s -> later_state s s' -> resolved s'.
Proof.
  intros Hres Hl. induction Hl as [|s' s'' args T_in re T_out errs Hl IH Hs];
    [done|].
  by apply (proj2 (resolved_solve s' args T_in re IH) _ _ _ Hs).
Qed.

End Resolved.

Section GridInversion.
Import Grid.

Lemma truediv_inv a b q : truediv a b = OK q -> ~ (b == 0)%Q /\ q = (a / b)%Q.
Proof.
  unfold truediv. destruct (Qeq_bool b 0) eqn:E; [done|].
  intros [= <-]. split; [|done]. intros Hb. apply Qeq_bool_iff in Hb. congruence.
Qed.

(** A grid that [setup_grid] has returned: every layer has at least one
    node, and the nodes carry their layer's name, layer after layer. *)
Lemma setup_grid_inv t g :
  setup_grid t = OK g ->
  exists ns,
    length ns = length (Material_Name t) /\ Forall (fun n => 1 <= n) ns /\
    n_tot g = total ns /\
    mat_nodes g = expand ns (Material_Name t) /\
    first_node_list g = firsts 0 ns.
Proof.
  intros H.
  destruct (setup_grid_returns _ _ H)
    as (ns & ds & Hl & _ & _ & Hcnt & _ & _ & Etot & Emat & Efirst & _).
  exists ns. repeat split; try done.
  destruct Hcnt as [[_ HF]|HF]; [done|].
  eapply Forall_impl; [exact HF|]. simpl. intros; lia.
Qed.

End GridInversion.

Section LoadSpecies.
Import Reaction.
Context {ET : ExternalTypes}.

Lemma indices_where_elem_of {A} (p : A -> bool) (l : list A) : forall start i,
  i ∈ indices_where p start l ->
  exists k y, i = start + Z.of_nat k /\ l !! k = Some y /\ p y = true.
Proof.
  induction l as [|y l IH]; intros start i Hi; simpl in Hi.
  - by apply elem_of_nil in Hi.
  - assert (Hrest : i ∈ indices_where p (start + 1) l ->
              exists k y0, i = start + Z.of_nat k /\ (y :: l) !! k = Some y0 /\
                           p y0 = true).
    { intros H. destruct (IH _ _ H) as (k & y0 & -> & Hk & Hp).
      exists (S k), y0. split; [lia | done]. }
    destruct (p y) eqn:E; [|by apply Hrest].
    apply elem_of_cons in Hi as [->|Hi]; [|by apply Hrest].
    exists 0%nat, y. split; [lia | done].
Qed.

Lemma slice_fill_lookup {A} (a : list A) start stop v (p : nat) x :
  0 <= start -> 0 <= stop -> a !! p = Some x ->
  slice_fill a start stop v !! p =
  Some (if (start <=? Z.of_nat p) && (Z.of_nat p <? stop) then v else x).
Proof.
  intros H1 H2 Hx. unfold slice_fill. rewrite list_lookup_imap, Hx. simpl.
  pose proof (lookup_lt_Some _ _ _ Hx) as Hlt.
  unfold slice_bound.
  rewrite (proj2 (Z.ltb_ge start 0)), (proj2 (Z.ltb_ge stop 0)) by done.
  f_equal.
  replace (Z.min start (Z.of_nat (length a)) <=? Z.of_nat p)
    with (start <=? Z.of_nat p) by (apply eq_true_iff_eq; rewrite !Z.leb_le; lia).
  replace (Z.of_nat p <? Z.min stop (Z.of_nat (length a)))
    with (Z.of_nat p <? stop) by (apply eq_true_iff_eq; rewrite !Z.ltb_lt; lia).
  reflexivity.
Qed.

Lemma slice_fill_length {A} (a : list A) start stop v :
  length (slice_fill a start stop v) = length a.
Proof. unfold slice_fill. apply length_imap. Qed.

Lemma firsts_total_lookup ns : forall start j,
  (j <= length ns)%nat ->
  (Grid.firsts start ns ++ [start + Grid.total ns]) !! j
  = Some (start + Grid.total (take j ns)).
Proof.
  induction ns as [|n ns IH]; intros start j Hj; simpl in *.
  - replace j with 0%nat by lia. simpl. f_equal.
  - destruct j as [|j]; simpl; [f_equal; lia|].
    replace (start + (n + Grid.total ns)) with (start + n + Grid.total ns) by lia.
    rewrite IH by lia. f_equal. lia.
Qed.

(** The cell numbers that the loop over the layers writes: a node of a
    layer of the reacting material has a cell number of at least 1. *)
Lemma cell_loop_spec mat_name fnl names :
  forall ns (k : nat) start n_cells key n_cells' key',
  length ns = length names -> Forall (fun n => 1 <= n) ns ->
  0 <= start -> 0 <= n_cells ->
  (forall j, (j <= length ns)%nat ->
             fnl !! (k + j)%nat = Some (start + Grid.total (take j ns))) ->
  cell_loop (Z.of_nat k) names mat_name fnl n_cells key = OK (n_cells', key') ->
  length key' = length key /\
  (forall p, (p < Z.to_nat start)%nat -> key' !! p = key !! p) /\
  (forall p, Grid.expand ns names !! p = Some mat_name ->
             (Z.to_nat start + p < length key)%nat ->
             exists cell, key' !! (Z.to_nat start + p)%nat = Some cell /\
                          1 <= cell).
Proof.
  induction names as [|name names IH];
    intros ns k start n_cells key n_cells' key' Hl Hns Hs Hc Hf H.
  - destruct ns; [|done]. simpl in H. injection H as <- <-.
    split; [done|]. split; [done|]. intros p Hp. done.
  - destruct ns as [|n ns]; [done|].
    apply Forall_cons in Hns as [Hn Hns]. simpl in H.
    assert (Hf' : forall j, (j <= length ns)%nat ->
              fnl !! (S k + j)%nat = Some (start + n + Grid.total (take j ns))).
    { intros j Hj. replace (S k + j)%nat with (k + S j)%nat by lia.
      rewrite Hf by (simpl; lia). simpl. f_equal. lia. }
    replace (Z.of_nat k + 1) with (Z.of_nat (S k)) in H by lia.
    destruct (String.eqb mat_name name) eqn:E.
    + apply String.eqb_eq in E as <-.
      pose proof (Hf 0%nat ltac:(lia)) as Ha.
      pose proof (Hf 1%nat ltac:(simpl; lia)) as Hb.
      rewrite Nat.add_0_r in Ha. simpl in Ha, Hb.
      rewrite Z.add_0_r in Ha, Hb.
      replace (k + 1)%nat with (S k) in Hb by lia.
      rewrite (getitem_nat _ _ _ Ha) in H. cbn [rbind] in H.
      rewrite (getitem_nat _ _ _ Hb) in H. cbn [rbind] in H.
      destruct (IH ns (S k) (start + n) (n_cells + 1) _ _ _
                  ltac:(simpl in Hl; lia) Hns ltac:(lia) ltac:(lia) Hf' H)
        as (Hlen & Hpre & Hcell).
      rewrite slice_fill_length in Hlen.
      split; [done|]. split.
      * intros p Hp. rewrite Hpre by lia.
        destruct (key !! p) as [x|] eqn:Ex.
        -- rewrite (slice_fill_lookup _ _ _ _ _ x) by (first [lia | done]).
           rewrite (proj2 (Z.leb_gt _ _)) by lia. reflexivity.
        -- apply lookup_ge_None. rewrite slice_fill_length.
           by apply lookup_ge_None.
      * intros p Hp Hlt. simpl in Hp.
        destruct (decide (p < Z.to_nat n)%nat) as [Hpn|Hpn].
        -- exists (n_cells + 1). split; [|lia].
           rewrite Hpre by lia.
           destruct (lookup_lt_is_Some_2 key _ Hlt) as [x Hx].
           rewrite (slice_fill_lookup _ _ _ _ _ x) by (first [lia | done]).
           rewrite (proj2 (Z.leb_le _ _)), (proj2 (Z.ltb_lt _ _)) by lia.
           reflexivity.
        -- rewrite lookup_app_r in Hp by (rewrite length_replicate; lia).
           rewrite length_replicate in Hp.
           destruct (Hcell _ Hp) as (cell & Hk & Hc1).
           { rewrite slice_fill_length. lia. }
           exists cell. split; [|done].
           by replace (Z.to_nat start + p)%nat
             with (Z.to_nat (start + n) + (p - Z.to_nat n))%nat by lia.
    + apply String.eqb_neq in E.
      destruct (IH ns (S k) (start + n) n_cells _ _ _
                  ltac:(simpl in Hl; lia) Hns ltac:(lia) Hc Hf' H)
        as (Hlen & Hpre & Hcell).
      split; [done|]. split.
      * intros p Hp. apply Hpre. lia.
      * intros p Hp Hlt. simpl in Hp.
        destruct (decide (p < Z.to_nat n)%nat) as [Hpn|Hpn].
        -- rewrite lookup_app_l in Hp by (rewrite length_replicate; lia).
           apply lookup_replicate in Hp as [Hp _]. congruence.
        -- rewrite lookup_app_r in Hp by (rewrite length_replicate; lia).
           rewrite length_replicate in Hp.
           destruct (Hcell _ Hp) as (cell & Hk & Hc1); [lia|].
           exists cell. split; [|done].
           by replace (Z.to_nat start + p)%nat
             with (Z.to_nat (start + n) + (p - Z.to_nat n))%nat by lia.
Qed.

Lemma load_species_inv (s : reaction_manager) sd mm s2 :
  load_species s sd mm = OK s2 ->
  0 <= n_tot s /\
  active_nodes s2 = argwhere (mat_nodes s) (Material_Name sd) /\
  n_species s2 = Z.of_nat (length (Names sd)) /\
  cell_loop 0 (mm_layer_names mm) (Material_Name sd)
            (first_node_list s ++ [n_tot s]) 0
            (replicate (Z.to_nat (n_tot s)) 0)
  = OK (n_cells s2, cell_node_key s2).
Proof.
  intros H. unfold load_species in H.
  destruct (negb _); [done|]. destruct (float_gt _ _); [done|].
  apply rbind_OK in H as (my_mat & _ & H).
  apply rbind_OK in H as ([dens rate] & _ & H).
  apply rbind_OK in H as (hrr & Hhrr & H).
  apply rbind_OK in H as (tr & _ & H).
  apply rbind_OK in H as (key0 & Hkey0 & H).
  apply rbind_OK in H as ([nc key] & Hcl & H). injection H as <-. simpl.
  unfold np_zeros_int in Hkey0. destruct (n_tot s <? 0) eqn:E; [done|].
  injection Hkey0 as <-. apply Z.ltb_ge in E. done.
Qed.

End LoadSpecies.

Section WellFormed.
Import Reaction.
Context {ET : ExternalTypes} {EO : ExternalOps}.

Lemma init_inv g o (s1 : reaction_manager) :
  init g o = OK s1 ->
  n_tot s1 = Grid.n_tot g /\ mat_nodes s1 = Grid.mat_nodes g /\
  first_node_list s1 = Grid.first_node_list g.
Proof.
  intros H. unfold init in H.
  apply rbind_OK in H as (Ly & _ & H). apply rbind_OK in H as (Lz & _ & H).
  apply rbind_OK in H as (r & _ & H). apply rbind_OK in H as (ro & _ & H).
  by injection H as <-.
Qed.

Lemma indices_where_NoDup {A} (p : A -> bool) (l : list A) : forall start,
  NoDup (indices_where p start l).
Proof.
  induction l as [|y l IH]; intros start; simpl; [constructor|].
  destruct (p y); [|apply IH].
  apply NoDup_cons. split; [|apply IH].
  intros Hin. apply indices_where_elem_of in Hin as (k & _ & Hk & _). lia.
Qed.

Lemma initial_density_length n mat_name mat_nodes y rho a :
  initial_density n mat_name mat_nodes y rho = OK a ->
  length a = Z.to_nat n.
Proof.
  intros H. unfold initial_density in H.
  apply rbind_OK in H as (z & Hz & H).
  unfold np_zeros in Hz. destruct (n <? 0); [done|]. injection Hz as <-.
  eapply (foldM_OK_inv (fun a => length a = Z.to_nat n)); [| |exact H].
  - apply length_replicate.
  - intros a0 j a1 _ Hl Hb. apply rbind_OK in Hb as (m & _ & Hb).
    destruct (String.eqb mat_name m); [|by injection Hb as <-].
    by rewrite (setitem_length _ _ _ _ Hb).
Qed.

Lemma np_zeros_length n z : np_zeros n = OK z -> length z = Z.to_nat n.
Proof.
  unfold np_zeros. destruct (n <? 0); [done|]. intros [= <-].
  apply length_replicate.
Qed.

Lemma elem_of_zip_l {A B} (l : list A) (k : list B) x :
  length k = length l -> x ∈ l -> exists y, (x, y) ∈ zip l k.
Proof.
  revert k. induction l as [|a l IH]; intros [|b k] Hl Hx; try done.
  - by apply elem_of_nil in Hx.
  - apply elem_of_cons in Hx as [->|Hx].
    + exists b. by left.
    + destruct (IH k) as [y Hy]; [simpl in Hl; lia | done |].
      exists y. by right.
Qed.

Lemma load_species_well_formed (s : reaction_manager) sd mm s2 :
  length (mat_nodes s) = Z.to_nat (n_tot s) ->
  load_species s sd mm = OK s2 -> well_formed s2.
Proof.
  intros Hmat H. unfold load_species in H.
  destruct (negb _) eqn:Elen; [done|]. destruct (float_gt _ _); [done|].
  apply negb_false_iff, Nat.eqb_eq in Elen.
  apply rbind_OK in H as (my_mat & _ & H).
  apply rbind_OK in H as ([dens rate] & Hfold & H).
  apply rbind_OK in H as (hrr & Hhrr & H).
  apply rbind_OK in H as (tr & Htr & H).
  apply rbind_OK in H as (key0 & Hkey0 & H).
  apply rbind_OK in H as ([nc key] & Hcl & H). injection H as <-.
  set (N := Z.to_nat (n_tot s)) in *.
  assert (Hshape : forall (l : list (string * float))
                            (d0 r0 d1 r1 : gmap string (list Q)),
    foldM (fun '(dens, rate) '(name, y) =>
             let* a := initial_density (n_tot s) (Material_Name sd)
                         (mat_nodes s) (float_Q y) (mat_rho my_mat) in
             let* z := np_zeros (n_tot s) in
             OK (<[name := a]> dens, <[name := z]> rate))
          (d0, r0) l = OK (d1, r1) ->
    forall name y, (name, y) ∈ l ->
      (exists a, d1 !! name = Some a /\ length a = N) /\
      (exists a, r1 !! name = Some a /\ length a = N)).
  { induction l as [|[n0 y0] l IH]; intros d0 r0 d1 r1 Hf name y Hin.
    - by apply elem_of_nil in Hin.
    - simpl in Hf. apply rbind_OK in Hf as ([d2 r2] & Hb & Hf).
      apply rbind_OK in Hb as (a & Ha & Hb).
      apply rbind_OK in Hb as (z & Hz & Hb). injection Hb as <- <-.
      destruct (decide (name ∈ l.*1)) as [Hy'|Hno].
      + apply list_elem_of_fmap in Hy' as ([n' y'] & -> & Hy').
        by apply (IH _ _ _ _ Hf n' y').
      + assert (Hno' : forall y', (name, y') ∉ l).
        { intros y' Hy'. apply Hno. apply list_elem_of_fmap.
          by exists (name, y'). }
        apply elem_of_cons in Hin as [[= -> ->]|Hin]; [|by apply Hno' in Hin].
        assert (Hkeep : forall (l' : list (string * float))
                               (da ra db rb : gmap string (list Q)),
          foldM (fun '(dens, rate) '(name, y) =>
                   let* a := initial_density (n_tot s) (Material_Name sd)
                               (mat_nodes s) (float_Q y) (mat_rho my_mat) in
                   let* z := np_zeros (n_tot s) in
                   OK (<[name := a]> dens, <[name := z]> rate))
                (da, ra) l' = OK (db, rb) ->
          (forall y', (n0, y') ∉ l') ->
          db !! n0 = da !! n0 /\ rb !! n0 = ra !! n0).
        { clear. induction l' as [|[n1 y1] l' IH']; intros da ra db rb Hf Hn.
          - simpl in Hf. by injection Hf as <- <-.
          - simpl in Hf. apply rbind_OK in Hf as ([d2 r2] & Hb & Hf).
            apply rbind_OK in Hb as (a & Ha & Hb).
            apply rbind_OK in Hb as (z & Hz & Hb). injection Hb as <- <-.
            destruct (IH' _ _ _ _ Hf) as [E1 E2].
            { intros y' Hy'. apply (Hn y'). by right. }
            assert (n1 <> n0).
            { intros ->. apply (Hn y1). by left. }
            rewrite E1, E2. by rewrite !lookup_insert_ne. }
        destruct (Hkeep _ _ _ _ _ Hf Hno') as [E1 E2].
        rewrite E1, E2, !lookup_insert_eq. split; eexists; split; try done.
        * by apply initial_density_length in Ha.
        * by apply np_zeros_length in Hz. }
  split; simpl.
  - apply list.Forall_forall. intros name Hin.
    destruct (elem_of_zip_l _ (Initial_Mass_Fraction sd) _ Elen Hin) as [y Hy].
    apply (Hshape _ _ _ _ _ Hfold name y Hy).
  - apply list.Forall_forall. intros name Hin.
    destruct (elem_of_zip_l _ (Initial_Mass_Fraction sd) _ Elen Hin) as [y Hy].
    apply (Hshape _ _ _ _ _ Hfold name y Hy).
  - by apply np_zeros_length.
  - by apply np_zeros_length.
  - apply list.Forall_forall. intros i Hi.
    apply indices_where_elem_of in Hi as (k & y & -> & Hk & _).
    apply lookup_lt_Some in Hk. lia.
  - apply indices_where_NoDup.
  - constructor.
Qed.

Lemma loaded_well_formed s rxn_dict s' outs :
  loaded s rxn_dict s' outs -> well_formed s -> well_formed s'.
Proof.
  intros Hld Hwf. destruct Hld, Hwf.
  split; rewrite ?ld_names0, ?ld_density0, ?ld_rate0, ?ld_n_tot0,
    ?ld_temperature_rate0, ?ld_heat_release_rate0, ?ld_active0, ?ld_inactive0;
    done.
Qed.

(** Setup leaves a well-formed manager, and every call keeps it so. *)
Lemma setup_well_formed c s0 : setup c = OK s0 -> well_formed s0.
Proof.
  intros H. unfold setup in H.
  apply rbind_OK in H as (g & Hg & H).
  apply rbind_OK in H as (s1 & H1 & H).
  apply rbind_OK in H as (s2 & H2 & H).
  destruct (setup_grid_inv _ _ Hg) as (ns & Hl & Hns & Etot & Emat & _).
  destruct (init_inv _ _ _ H1) as (I1 & I2 & _).
  destruct (load_reactions_loaded _ _ _ H) as [outs Hld].
  eapply loaded_well_formed; [exact Hld|].
  eapply load_species_well_formed; [|exact H2].
  rewrite I1, I2, Etot, Emat. by apply expand_length.
Qed.

Lemma solve_well_formed s args T_in return_err s' T_out err_list :
  well_formed s ->
  solve_ode_all_nodes s args T_in return_err = OK (s', T_out, err_list) ->
  well_formed s'.
Proof.
  intros Hwf H. unfold solve_ode_all_nodes in H.
  destruct (clear_pass_total s Hwf) as (s1 & H1 & Hwf1).
  rewrite H1 in H. cbn [rbind] in H.
  eapply in_well_formed; [|exact Hwf1].
  eapply integration_pass_integrated; [|exact H].
  eapply Forall_impl; [apply Hwf1|]. simpl. intros; lia.
Qed.

Lemma later_well_formed s s' : well_formed s -> later_state s s' -> well_formed s'.
Proof.
  intros Hwf Hl. induction Hl as [|s' s'' args T_in re T_out errs Hl IH Hs];
    [done|].
  by eapply solve_well_formed.
Qed.

End WellFormed.

Section SetupTheorem.
Import Reaction.
Context {ET : ExternalTypes} {EO : ExternalOps}.

Lemma setup_resolved c s0 :
  mm_layer_names (cfg_mat_man c) = Grid.Material_Name (cfg_table c) ->
  setup c = OK s0 -> resolved s0.
Proof.
  intros Hnames H. unfold setup in H.
  apply rbind_OK in H as (g & Hg & H).
  apply rbind_OK in H as (s1 & H1 & H).
  apply rbind_OK in H as (s2 & H2 & H).
  destruct (setup_grid_inv _ _ Hg) as (ns & Hl & Hns & Etot & Emat & Efirst).
  destruct (init_inv _ _ _ H1) as (I1 & I2 & I3).
  destruct (load_species_inv _ _ _ _ H2) as (Hn0 & Hact & Hnsp & Hcl).
  destruct (load_reactions_loaded _ _ _ H) as [outs Hld].
  rewrite I1, I2, I3, Etot, Emat, Efirst, Hnames in *.
  split; [rewrite (ld_n_species _ _ _ _ Hld), Hnsp; lia|].
  rewrite (ld_active _ _ _ _ Hld), Hact.
  apply list.Forall_forall. intros i Hi.
  apply indices_where_elem_of in Hi as (k & y & -> & Hk & Hy).
  apply String.eqb_eq in Hy as ->.
  split; [lia|]. rewrite Z.add_0_l, Nat2Z.id.
  change 0 with (Z.of_nat 0) in Hcl at 1.
  pose proof (lookup_lt_Some _ _ _ Hk) as Hlt.
  rewrite (expand_length ns) in Hlt by (first [done | lia]).
  destruct (cell_loop_spec _ _ _ ns 0%nat 0 0 _ _ _ (eq_sym (eq_sym Hl)) Hns
              (Z.le_refl 0) (Z.le_refl 0)
              (fun j Hj => firsts_total_lookup ns 0 j Hj) Hcl)
    as (Hlen & _ & Hcell).
  destruct (Hcell k Hk) as (cell & Hkey & Hc1).
  { rewrite length_replicate. simpl. lia. }
  simpl in Hkey.
  destruct (loaded_cell_system _ _ _ _ _ _ Hld Hkey Hc1)
    as (sys_ind & rs & Hm & _).
  exists (Z.of_nat sys_ind). split; [done | lia].
Qed.

(** C1 (amended): the check for an unresolved node-to-system mapping is made
    inside [solve_ode_all_nodes], on every active node, not at setup.  For
    every configuration whose material manager carries the layer names of
    the table, if setup ([setup_grid], the construction of the reaction
    manager, [load_species], [load_reactions]) returns, then no later call
    of [solve_ode_all_nodes] raises a [ValueError], whatever its arguments
    and however many calls came before. *)
Theorem setup_then_no_configuration_error (c : configuration)
  (s0 : reaction_manager) :
  mm_layer_names (cfg_mat_man c) = Grid.Material_Name (cfg_table c) ->
  setup c = OK s0 ->
  forall s, later_state s0 s ->
  forall args T_in return_err,
    ~ is_value_error (solve_ode_all_nodes s args T_in return_err).
Proof.
  intros Hnames H s Hl args T_in re.
  apply resolved_solve. eapply resolved_later; [|exact Hl].
  by eapply setup_resolved.
Qed.

End SetupTheorem.

Section SetupWitness.
Import Reaction Demo.

(** C1, as stated, fails: [mismatched_config] passes setup, no cell is
    found for the reacting material, every node is left without a reaction
    system, and the first call of [solve_ode_all_nodes] raises the
    [ValueError] of line 177 on node 0. *)
Lemma setup_passes_then_solve_raises :
  match setup mismatched_config with
  | OK s0 =>
      node_to_system_map s0 = [-1; -1] /\
      solve_ode_all_nodes s0 tt [300; 300]%Q false
        = Raise (ValueError (NoReactionSystem 0))
  | Raise _ => False
  end.
Proof. vm_compute. split; reflexivity. Qed.

Lemma setup_then_no_configuration_error_witness :
  match setup demo_config with
  | OK s0 => ~ is_value_error (solve_ode_all_nodes s0 tt demo_T true)
  | Raise _ => False
  end.
Proof.
  destruct (setup demo_config) as [s0|e] eqn:E.
  - apply (setup_then_no_configuration_error demo_config s0 eq_refl E s0).
    apply later_now.
  - vm_compute in E. discriminate E.
Defined.

End SetupWitness.

(** * Further properties *)

(** ** The grid that [setup_grid] returns *)

Section GridReturned.
Import Grid.

(** X1: in a grid that [setup_grid] has returned, [k_bounds] pairs the first
    and the last node of every layer and [internal_bounds] pairs the node
    after the first with the last; the layers tile the nodes: the first
    layer starts at node 0, every other layer starts right after the last
    node of the layer before, and the last layer ends at node [n_tot - 1];
    no layer is empty, and with several layers every layer has an interior
    range that is not empty either. *)
Theorem setup_grid_layer_bounds (t : table) (g : grid_manager) :
  setup_grid t = OK g ->
  k_bounds g = zip (first_node_list g) (mint_list g) /\
  internal_bounds g = zip (Z.succ <$> first_node_list g) (mint_list g) /\
  length (first_node_list g) = length (Material_Name t) /\
  length (mint_list g) = length (Material_Name t) /\
  first_node_list g !! 0%nat = Some 0 /\
  (forall m l, mint_list g !! m = Some l ->
     (S m < length (Material_Name t))%nat ->
     first_node_list g !! S m = Some (l + 1)) /\
  mint_list g !! (length (Material_Name t) - 1)%nat = Some (n_tot g - 1) /\
  (forall m f l, first_node_list g !! m = Some f -> mint_list g !! m = Some l ->
     f <= l /\ ((1 < length (Material_Name t))%nat -> f + 1 <= l)).
Proof.
  intros H.
  destruct (setup_grid_returns _ _ H)
    as (ns & ds & Hl & Hl' & Hne & Hcnt & Hlk & _ & E1 & _ & E3 & E4 & _ & E6 & E7 & _).
  rewrite E1, E3, E4, E6, E7, firsts_length, mints_length, <- Hl.
  split; [done|]. split; [done|]. split; [done|]. split; [done|].
  split; [by destruct ns|].
  split; [intros m l Hm Hlt; by apply firsts_after_mints|].
  split; [rewrite mints_last by done; f_equal; lia|].
  intros m f l Hf Hm.
  destruct (lookup_lt_is_Some_2 ns m) as [n Hn].
  { apply lookup_lt_Some in Hf. by rewrite firsts_length in Hf. }
  destruct (firsts_mints_lookup ns 0 m n Hn) as (f' & Hf' & Hm').
  rewrite Hf in Hf'. injection Hf' as <-. rewrite Hm in Hm'. injection Hm' as ->.
  destruct Hcnt as [[H1 HF]|HF].
  - pose proof (Forall_lookup_1 _ _ _ _ HF Hn). simpl in *. lia.
  - pose proof (Forall_lookup_1 _ _ _ _ HF Hn). simpl in *. lia.
Qed.

(** X2: in a grid that [setup_grid] has returned, [mat_nodes] has one entry
    per node, every node from the first to the last node of a layer carries
    that layer's material name, and every node lies in some layer. *)
Theorem setup_grid_mat_nodes (t : table) (g : grid_manager) :
  setup_grid t = OK g ->
  length (mat_nodes g) = Z.to_nat (n_tot g) /\
  (forall m f l name,
     first_node_list g !! m = Some f -> mint_list g !! m = Some l ->
     Material_Name t !! m = Some name ->
     forall i, f <= i <= l -> mat_nodes g !! Z.to_nat i = Some name) /\
  (forall i, 0 <= i < n_tot g ->
     exists m f l, first_node_list g !! m = Some f /\
                   mint_list g !! m = Some l /\ f <= i <= l).
Proof.
  intros H.
  destruct (setup_grid_returns _ _ H)
    as (ns & ds & Hl & Hl' & Hne & Hcnt & Hlk & _ & E1 & E2 & E3 & E4 & _).
  assert (Hn1 : Forall (fun n => 1 <= n) ns).
  { destruct Hcnt as [[_ HF]|HF]; [done|].
    eapply Forall_impl; [exact HF|]. simpl. intros; lia. }
  rewrite E1, E2, E3, E4. split; [|split].
  - by apply expand_length.
  - intros m f l name Hf Hm Hname i Hi. rewrite <- (Z.sub_0_r i).
    eapply (expand_lookup_layer ns (Material_Name t) 0 m); eauto. lia.
  - intros i Hi. apply node_in_layer; [done | lia].
Qed.

(** X4: [setup_grid] never returns an empty grid.  A table without layers
    makes it raise [IndexError], whatever the other two columns hold; a grid
    that it returns has at least one layer, at least one node per layer,
    and, with several layers, at least two nodes per layer; and its arrays
    [dx_arr] and [x_node] have one entry per node. *)
Theorem setup_grid_never_empty (t : table) :
  (Material_Name t = [] -> setup_grid t = Raise IndexError) /\
  (forall g, setup_grid t = OK g ->
     1 <= n_layers g /\ n_layers g <= n_tot g /\
     (1 < n_layers g -> 2 * n_layers g <= n_tot g) /\
     length (dx_arr g) = Z.to_nat (n_tot g) /\
     length (x_node g) = Z.to_nat (n_tot g)).
Proof.
  split.
  - intros E. unfold setup_grid. rewrite E. reflexivity.
  - intros g H.
    destruct (setup_grid_returns _ _ H)
      as (ns & ds & Hl & Hl' & Hne & Hcnt & Hlk & E0 & E1 & _ & _ & _ & E5 & _ & _ & E8).
    rewrite E0, E1, E5, E8, <- Hl.
    assert (Hn1 : Forall (fun n => 1 <= n) ns).
    { destruct Hcnt as [[_ HF]|HF]; [done|].
      eapply Forall_impl; [exact HF|]. simpl. intros; lia. }
    pose proof (total_ge_length ns 1 ltac:(lia) Hn1) as Ht1.
    split; [destruct ns; [done | simpl; lia]|].
    split; [lia|]. split.
    + intros Hlen. destruct Hcnt as [[H1 _]|HF]; [lia|].
      by apply (total_ge_length ns 2).
    + split; [by apply expand_length|].
      by rewrite length_fmap, length_seq.
Qed.

End GridReturned.

Section GridReturnedWitnesses.
Import Grid Demo.

Lemma setup_grid_layer_bounds_witness :
  exists g, setup_grid demo_table = OK g /\
            k_bounds g = [(0, 1); (2, 3); (4, 5)] /\
            internal_bounds g = [(1, 1); (3, 3); (5, 5)].
Proof.
  destruct (setup_grid demo_table) as [g|e] eqn:E;
    [|vm_compute in E; discriminate E].
  destruct (setup_grid_layer_bounds demo_table g E) as (Hk & Hi & _).
  exists g. split; [done|]. rewrite Hk, Hi.
  vm_compute in E. injection E as <-. by split.
Defined.

Lemma setup_grid_mat_nodes_witness :
  exists g, setup_grid demo_table = OK g /\
            mat_nodes g !! 3%nat = Some "B"%string.
Proof.
  destruct (setup_grid demo_table) as [g|e] eqn:E;
    [|vm_compute in E; discriminate E].
  destruct (setup_grid_mat_nodes demo_table g E) as (_ & Hm & _).
  exists g. split; [done|].
  change 3%nat with (Z.to_nat 3).
  apply (Hm 1%nat 2 3 "B"%string); [| |reflexivity|lia];
    vm_compute in E; injection E as <-; reflexivity.
Defined.

Lemma setup_grid_never_empty_witness :
  exists g, setup_grid demo_table = OK g /\ 2 * n_layers g <= n_tot g.
Proof.
  destruct (setup_grid demo_table) as [g|e] eqn:E;
    [|vm_compute in E; discriminate E].
  destruct (proj2 (setup_grid_never_empty demo_table) g E) as (_ & _ & H & _).
  exists g. split; [done|]. apply H.
  vm_compute in E. injection E as <-. reflexivity.
Defined.

End GridReturnedWitnesses.

(** ** Boundary conditions at the two ends *)

Section EndBoundaries.
Import Boundary.

Lemma getitem_last {A} (a : list A) (x : A) :
  last a = Some x -> getitem a (Z.of_nat (length a) - 1) = OK x.
Proof.
  intros H. rewrite last_lookup in H.
  destruct a as [|y a]; [done|].
  replace (Z.of_nat (length (y :: a)) - 1) with (Z.of_nat (length a))
    by (simpl; lia).
  by apply getitem_nat.
Qed.

Lemma getitem_minus_one {A} (a : list A) (x : A) :
  last a = Some x -> getitem a (-1) = OK x.
Proof.
  intros H. rewrite last_lookup in H.
  destruct a as [|y a]; [done|]. unfold getitem, py_index.
  simpl length in *. simpl pred in H.
  assert (E2 : (- Z.of_nat (S (length a)) <=? -1) = true)
    by (apply Z.leb_le; lia).
  change (0 <=? -1) with false. change (-1 <? 0) with true.
  rewrite E2. cbn [andb].
  replace (Z.to_nat (Z.of_nat (S (length a)) + -1)) with (length a) by lia.
  cbn [mbind option_bind or_raise]. by rewrite H.
Qed.

(** X6: [end_bc] accepts the two ends ['Left'] and ['Right'] and raises a
    [ValueError] for any other name.  On a grid with at least one node the
    boundary node [n_ind] is the first node for the left end and the last
    node for the right end; on an empty grid the constructor still returns
    and reading the boundary node raises [IndexError].  For the right end of
    a grid of a single node [k_ind] is [-1], which reads the last entry of
    the conductivity array instead of raising. *)
Theorem end_bc_init_ends (dx_arr : list Q) (my_end : string) :
  (my_end <> "Left"%string -> my_end <> "Right"%string ->
   end_bc_init dx_arr my_end = Raise (ValueError (UnrecognizedBoundary my_end))) /\
  (forall e, e = "Left"%string \/ e = "Right"%string ->
     exists b, end_bc_init dx_arr e = OK b /\
       end_dx_arr b = dx_arr /\ end_n_tot b = Z.of_nat (length dx_arr) /\
       (dx_arr = [] -> getitem (end_dx_arr b) (n_ind b) = Raise IndexError) /\
       (forall x, e = "Left"%string -> head dx_arr = Some x ->
          getitem (end_dx_arr b) (n_ind b) = OK x /\ k_ind b = 0) /\
       (forall x, e = "Right"%string -> last dx_arr = Some x ->
          getitem (end_dx_arr b) (n_ind b) = OK x /\
          k_ind b = n_ind b - 1 /\
          (length dx_arr = 1%nat ->
           forall (k_arr : list Q) y, last k_arr = Some y ->
             getitem k_arr (k_ind b) = OK y))).
Proof.
  split.
  - intros H1 H2. unfold end_bc_init.
    apply String.eqb_neq in H1, H2. by rewrite H1, H2.
  - intros e [-> | ->]; eexists; (split; [reflexivity|]);
      cbn [end_dx_arr end_n_tot n_ind k_ind];
      (split; [done|]); (split; [done|]); (split; [by intros ->|]).
    + split; [|done]. intros x _ Hx. split; [|done].
      destruct dx_arr as [|x' l]; [done|]. injection Hx as ->. reflexivity.
    + split; [done|]. intros x _ Hx.
      split; [by apply getitem_last|]. split; [lia|].
      intros Hl k_arr y Hy. rewrite Hl. by apply getitem_minus_one.
Qed.



(** X9: a timed boundary is transparent.  Wrapping a boundary condition
    changes its name only, by the suffix ['_timed']; before [set_time] has
    been called [apply] and [apply_operator] raise [AttributeError]; of
    several calls of [set_time] the last one counts; and then the wrapper
    does what the wrapped boundary condition itself does while
    [off_time - tot_time > 1e-14] holds in binary64, and nothing
    otherwise. *)
Theorem timed_boundary_transparent (c : bc) (off : float) (es : eqn_sys)
  (mm : mat_man) (T : option (list Q)) :
  let tb := timed_boundary_init c off in
  bc_name (tb_bc tb) = (bc_name c ++ "_timed")%string /\
  timed_apply tb es mm T = Raise AttributeError /\
  timed_apply_operator tb es mm T = Raise AttributeError /\
  (forall t1 t2, set_time (set_time tb t1) t2 = set_time tb t2) /\
  (forall t, (gate_eps <? off - t)%float = true ->
     timed_apply (set_time tb t) es mm T = apply c es mm T /\
     timed_apply_operator (set_time tb t) es mm T = apply_operator c es mm T) /\
  (forall t, (gate_eps <? off - t)%float = false ->
     timed_apply (set_time tb t) es mm T = OK es /\
     timed_apply_operator (set_time tb t) es mm T = OK es).
Proof.
  intros tb.
  assert (Ha : apply (tb_bc tb) es mm T = apply c es mm T)
    by (by destruct c, T).
  assert (Ho : apply_operator (tb_bc tb) es mm T = apply_operator c es mm T)
    by (by destruct c, T).
  split; [by destruct c|]. split; [done|]. split; [done|]. split; [done|].
  split.
  - intros t H.
    unfold timed_apply, timed_apply_operator, gate_open.
    cbn [set_time tot_time off_time or_raise rbind tb timed_boundary_init].
    rewrite H. by split.
  - intros t H.
    unfold timed_apply, timed_apply_operator, gate_open.
    cbn [set_time tot_time off_time or_raise rbind tb timed_boundary_init].
    by rewrite H.
Qed.

End EndBoundaries.

(** ** Boundary conditions over all nodes *)

Section ExternalBoundaries.
Import Boundary.

(** A loop over [range(n)] that keeps an invariant indexed by the number of
    passes made returns, and the invariant holds at [n]. *)
Lemma foldM_range_inv {S} (body : S -> Z -> result S) (P : nat -> S -> Prop)
  (n : nat) (s : S) :
  P 0%nat s ->
  (forall k s, (k < n)%nat -> P k s ->
     exists s', body s (Z.of_nat k) = OK s' /\ P (Datatypes.S k) s') ->
  exists s', foldM body s (range (Z.of_nat n)) = OK s' /\ P n s'.
Proof.
  intros H0 Hstep. unfold range. rewrite Nat2Z.id.
  assert (Hgen : forall len start s, (start + len = n)%nat -> P start s ->
            exists s', foldM body s (Z.of_nat <$> seq start len) = OK s' /\ P n s').
  { induction len as [|len IH]; intros start s0 Hn Hs.
    - exists s0. split; [done|]. by replace n with start by lia.
    - destruct (Hstep start s0 ltac:(lia) Hs) as (s1 & H1 & Hs1).
      destruct (IH (Datatypes.S start) s1 ltac:(lia) Hs1) as (s2 & H2 & Hs2).
      exists s2. split; [|done]. simpl. by rewrite H1. }
  by apply (Hgen n 0%nat s).
Qed.

Lemma bumped_0 inc a : bumped inc 0 a a.
Proof. split; [done|]. intros i. destruct (decide (i < 0)%nat); [lia|done]. Qed.

Lemma bumped_step inc k a a' :
  bumped inc k a a' -> (k < length a)%nat ->
  exists a'', iadd a' (Z.of_nat k) (inc k) = OK a'' /\ bumped inc (S k) a a''.
Proof.
  intros [Hl Hb] Hk.
  destruct (lookup_lt_is_Some_2 a k Hk) as [x Hx].
  assert (Hx' : a' !! k = Some x).
  { rewrite Hb. destruct (decide (k < k)%nat); [lia|done]. }
  exists (<[k := (x + inc k)%Q]> a'). split.
  - unfold iadd. rewrite (getitem_nat _ _ _ Hx'). cbn [rbind].
    apply setitem_nat. lia.
  - split; [by rewrite length_insert|]. intros i.
    destruct (decide (i = k)) as [->|Hne].
    + rewrite list_lookup_insert_eq by lia.
      destruct (decide (k < S k)%nat); [|lia]. by rewrite Hx.
    + rewrite list_lookup_insert_ne by done. rewrite Hb.
      destruct (decide (i < k)%nat), (decide (i < S k)%nat); first [done | lia].
Qed.

Lemma bumped_lookup inc k a a' i x :
  bumped inc k a a' -> (i < k)%nat -> a !! i = Some x ->
  a' !! i = Some (x + inc i)%Q.
Proof.
  intros [_ Hb] Hi Hx. rewrite Hb, Hx. by destruct (decide (i < k)%nat).
Qed.

Lemma bumped_beyond inc k a a' i :
  bumped inc k a a' -> (k <= i)%nat -> a' !! i = a !! i.
Proof. intros [_ Hb] Hi. rewrite Hb. destruct (decide (i < k)%nat); [lia|done]. Qed.

(** X10: external convection on a grid of spacings [dx_arr], with arrays
    that have an entry for every node.  [apply] returns, having added
    [h * dx_i * PA_r] to [LHS_c] and [h * dx_i * PA_r * T_ext] to [RHS] at
    every node [i], and nothing else; [apply_operator] returns, having added
    [h * dx_i * PA_r * (T_ext - T_i)] to [RHS] at every node and nothing
    else.  Entries beyond the last node, and the lengths of the arrays, stay
    as they are. *)
Theorem ext_convection_consistency (dx_arr : list Q) (PA h T_ext : Q)
  (es : eqn_sys) (mm : mat_man) (T : list Q) :
  (length dx_arr <= length (LHS_c es))%nat ->
  (length dx_arr <= length (RHS es))%nat ->
  (length dx_arr <= length T)%nat ->
  let c := ext_convection_set_params (ext_bc_init dx_arr PA) h T_ext in
  (exists es1,
     apply c es mm None = OK es1 /\
     J_c es1 = J_c es /\ F es1 = F es /\
     length (LHS_c es1) = length (LHS_c es) /\
     length (RHS es1) = length (RHS es) /\
     (forall i dxi l r,
        dx_arr !! i = Some dxi -> LHS_c es !! i = Some l ->
        RHS es !! i = Some r ->
        LHS_c es1 !! i = Some (l + h * dxi * PA)%Q /\
        RHS es1 !! i = Some (r + h * dxi * PA * T_ext)%Q) /\
     (forall i, (length dx_arr <= i)%nat ->
        LHS_c es1 !! i = LHS_c es !! i /\ RHS es1 !! i = RHS es !! i)) /\
  (exists es2,
     apply_operator c es mm (Some T) = OK es2 /\
     LHS_c es2 = LHS_c es /\ J_c es2 = J_c es /\ F es2 = F es /\
     length (RHS es2) = length (RHS es) /\
     (forall i dxi t r,
        dx_arr !! i = Some dxi -> T !! i = Some t -> RHS es !! i = Some r ->
        RHS es2 !! i = Some (r + h * dxi * PA * (T_ext - t))%Q) /\
     (forall i, (length dx_arr <= i)%nat -> RHS es2 !! i = RHS es !! i)).
Proof.
  intros HL HR HT c. set (n := length dx_arr).
  set (hc := fun i => (h * default 0%Q (dx_arr !! i) * PA)%Q).
  split.
  - set (incL := hc). set (incR := fun i => (hc i * T_ext)%Q).
    destruct (foldM_range_inv
      (fun es i =>
         let* dxi := getitem dx_arr i in
         let h_const := (h * dxi * PA)%Q in
         let* lhs := iadd (LHS_c es) i h_const in
         let* rhs := iadd (RHS es) i (h_const * T_ext) in
         OK (set_RHS (set_LHS_c es lhs) rhs))
      (fun k es' => bumped incL k (LHS_c es) (LHS_c es') /\
                    bumped incR k (RHS es) (RHS es') /\
                    J_c es' = J_c es /\ F es' = F es) n es)
      as (es1 & H1 & BL & BR & HJ & HF).
    { split; [apply bumped_0|]. split; [apply bumped_0|]. done. }
    { intros k es' Hk (BL & BR & HJ & HF).
      destruct (lookup_lt_is_Some_2 dx_arr k Hk) as [dxi Hdxi].
      rewrite (getitem_nat _ _ _ Hdxi). cbn [rbind].
      destruct (bumped_step _ _ _ _ BL ltac:(lia)) as (lhs & Hlhs & BL').
      destruct (bumped_step _ _ _ _ BR ltac:(lia)) as (rhs & Hrhs & BR').
      unfold incL, hc in Hlhs. rewrite Hdxi in Hlhs. simpl default in Hlhs.
      unfold incR, hc in Hrhs. rewrite Hdxi in Hrhs. simpl default in Hrhs.
      rewrite Hlhs. cbn [rbind RHS set_LHS_c]. rewrite Hrhs. cbn [rbind].
      eexists. split; [reflexivity|]. by cbn. }
    exists es1. split; [exact H1|].
    split; [done|]. split; [done|].
    split; [apply BL|]. split; [apply BR|]. split.
    + intros i dxi l r Hd Hl Hr.
      pose proof (lookup_lt_Some _ _ _ Hd) as Hi. fold n in Hi.
      rewrite (bumped_lookup _ _ _ _ _ _ BL Hi Hl).
      rewrite (bumped_lookup _ _ _ _ _ _ BR Hi Hr).
      unfold incR, incL, hc. rewrite Hd. by simpl.
    + intros i Hi. split; by eapply bumped_beyond.
  - set (incR := fun i => (hc i * (T_ext - default 0%Q (T !! i)))%Q).
    destruct (foldM_range_inv
      (fun es i =>
         let* dxi := getitem dx_arr i in
         let h_const := (h * dxi * PA)%Q in
         let* t := getitem T i in
         let* rhs := iadd (RHS es) i (h_const * (T_ext - t)) in
         OK (set_RHS es rhs))
      (fun k es' => bumped incR k (RHS es) (RHS es') /\
                    LHS_c es' = LHS_c es /\
                    J_c es' = J_c es /\ F es' = F es) n es)
      as (es2 & H2 & BR & HLc & HJ & HF).
    { split; [apply bumped_0|]. done. }
    { intros k es' Hk (BR & HLc & HJ & HF).
      destruct (lookup_lt_is_Some_2 dx_arr k Hk) as [dxi Hdxi].
      destruct (lookup_lt_is_Some_2 T k ltac:(unfold n in Hk; lia)) as [t Ht].
      rewrite (getitem_nat _ _ _ Hdxi). cbn [rbind].
      rewrite (getitem_nat _ _ _ Ht). cbn [rbind].
      destruct (bumped_step _ _ _ _ BR ltac:(lia)) as (rhs & Hrhs & BR').
      unfold incR, hc in Hrhs. rewrite Hdxi, Ht in Hrhs. simpl default in Hrhs.
      rewrite Hrhs. cbn [rbind].
      eexists. split; [reflexivity|]. by cbn. }
    exists es2. split; [exact H2|].
    split; [done|]. split; [done|]. split; [done|].
    split; [apply BR|]. split.
    + intros i dxi t r Hd Ht Hr.
      pose proof (lookup_lt_Some _ _ _ Hd) as Hi. fold n in Hi.
      rewrite (bumped_lookup _ _ _ _ _ _ BR Hi Hr).
      unfold incR, hc. rewrite Hd, Ht. by simpl.
    + intros i Hi. by eapply bumped_beyond.
Qed.

(** X11: external radiation on a grid of spacings [dx_arr], with arrays
    that have an entry for every node.  With
    [loss_i = dx_i * PA_r * sigma * eps * (T_i^4 - T_ext^4)], [apply] returns,
    having added [loss_i] to [F] and [dx_i * PA_r * sigma * eps * 4 * T_i^3]
    to [J_c] at every node [i], and nothing else; [apply_operator] returns,
    having subtracted the same [loss_i] from [RHS] at every node and nothing
    else; and [loss_i] is zero at a node whose temperature is [T_ext]. *)
Theorem ext_radiation_consistency (dx_arr : list Q) (PA eps T_ext : Q)
  (es : eqn_sys) (mm : mat_man) (T : list Q) :
  (length dx_arr <= length (J_c es))%nat ->
  (length dx_arr <= length (F es))%nat ->
  (length dx_arr <= length (RHS es))%nat ->
  (length dx_arr <= length T)%nat ->
  let c := ext_radiation_set_params (ext_bc_init dx_arr PA) eps T_ext in
  let loss := fun dxi t =>
    (dxi * PA * (sigma * eps) * (t ^ 4 - T_ext ^ 4))%Q in
  (exists es1,
     apply c es mm (Some T) = OK es1 /\
     LHS_c es1 = LHS_c es /\ RHS es1 = RHS es /\
     length (J_c es1) = length (J_c es) /\
     length (F es1) = length (F es) /\
     (forall i dxi t j f,
        dx_arr !! i = Some dxi -> T !! i = Some t ->
        J_c es !! i = Some j -> F es !! i = Some f ->
        J_c es1 !! i = Some (j + dxi * PA * (sigma * eps) * 4 * t ^ 3)%Q /\
        F es1 !! i = Some (f + loss dxi t)%Q) /\
     (forall i, (length dx_arr <= i)%nat ->
        J_c es1 !! i = J_c es !! i /\ F es1 !! i = F es !! i)) /\
  (exists es2,
     apply_operator c es mm (Some T) = OK es2 /\
     LHS_c es2 = LHS_c es /\ J_c es2 = J_c es /\ F es2 = F es /\
     length (RHS es2) = length (RHS es) /\
     (forall i dxi t r,
        dx_arr !! i = Some dxi -> T !! i = Some t -> RHS es !! i = Some r ->
        RHS es2 !! i = Some (r - loss dxi t)%Q) /\
     (forall i, (length dx_arr <= i)%nat -> RHS es2 !! i = RHS es !! i)) /\
  (forall dxi t, (t == T_ext)%Q -> (loss dxi t == 0)%Q).
Proof.
  intros HJl HFl HR HT c loss. set (n := length dx_arr).
  set (dxPA := (fun x => x * PA)%Q <$> dx_arr).
  assert (HdxPA : forall i dxi, dx_arr !! i = Some dxi ->
            dxPA !! i = Some (dxi * PA)%Q).
  { intros i dxi Hd. unfold dxPA. by rewrite list_lookup_fmap, Hd. }
  set (ls := fun i => loss (default 0%Q (dx_arr !! i)) (default 0%Q (T !! i))).
  split; [|split].
  - set (incJ := fun i => (default 0%Q (dx_arr !! i) * PA * (sigma * eps) * 4
                           * default 0%Q (T !! i) ^ 3)%Q).
    destruct (foldM_range_inv
      (fun es i =>
         let* d := getitem dxPA i in
         let* t := getitem T i in
         let* j := iadd (J_c es) i (d * (sigma * eps) * 4 * t ^ 3) in
         let* d' := getitem dxPA i in
         let* t' := getitem T i in
         let* f := iadd (F es) i (d' * (sigma * eps) * (t' ^ 4 - T_ext ^ 4)) in
         OK (set_F (set_J_c es j) f))
      (fun k es' => bumped incJ k (J_c es) (J_c es') /\
                    bumped ls k (F es) (F es') /\
                    LHS_c es' = LHS_c es /\ RHS es' = RHS es) n es)
      as (es1 & H1 & BJ & BF & HLc & HRc).
    { split; [apply bumped_0|]. split; [apply bumped_0|]. done. }
    { intros k es' Hk (BJ & BF & HLc & HRc).
      destruct (lookup_lt_is_Some_2 dx_arr k Hk) as [dxi Hdxi].
      destruct (lookup_lt_is_Some_2 T k ltac:(unfold n in Hk; lia)) as [t Ht].
      rewrite (getitem_nat _ _ _ (HdxPA _ _ Hdxi)). cbn [rbind].
      rewrite (getitem_nat _ _ _ Ht). cbn [rbind].
      destruct (bumped_step _ _ _ _ BJ ltac:(lia)) as (j & Hj & BJ').
      destruct (bumped_step _ _ _ _ BF ltac:(lia)) as (f & Hf & BF').
      unfold incJ in Hj. rewrite Hdxi, Ht in Hj. simpl default in Hj.
      unfold ls, loss in Hf. rewrite Hdxi, Ht in Hf. simpl default in Hf.
      rewrite Hj. cbn [rbind F set_J_c]. rewrite Hf. cbn [rbind].
      eexists. split; [reflexivity|]. by cbn. }
    exists es1. split; [exact H1|].
    split; [done|]. split; [done|].
    split; [apply BJ|]. split; [apply BF|]. split.
    + intros i dxi t j f Hd Ht Hj Hf.
      pose proof (lookup_lt_Some _ _ _ Hd) as Hi. fold n in Hi.
      rewrite (bumped_lookup _ _ _ _ _ _ BJ Hi Hj).
      rewrite (bumped_lookup _ _ _ _ _ _ BF Hi Hf).
      unfold incJ, ls. rewrite Hd, Ht. by simpl.
    + intros i Hi. split; by eapply bumped_beyond.
  - set (incR := fun i => (- ls i)%Q).
    destruct (foldM_range_inv
      (fun es i =>
         let* d := getitem dxPA i in
         let* t := getitem T i in
         let* rhs := isub (RHS es) i
                       (d * (sigma * eps) * (t ^ 4 - T_ext ^ 4)) in
         OK (set_RHS es rhs))
      (fun k es' => bumped incR k (RHS es) (RHS es') /\
                    LHS_c es' = LHS_c es /\
                    J_c es' = J_c es /\ F es' = F es) n es)
      as (es2 & H2 & BR & HLc & HJ & HF).
    { split; [apply bumped_0|]. done. }
    { intros k es' Hk (BR & HLc & HJ & HF).
      destruct (lookup_lt_is_Some_2 dx_arr k Hk) as [dxi Hdxi].
      destruct (lookup_lt_is_Some_2 T k ltac:(unfold n in Hk; lia)) as [t Ht].
      rewrite (getitem_nat _ _ _ (HdxPA _ _ Hdxi)). cbn [rbind].
      rewrite (getitem_nat _ _ _ Ht). cbn [rbind].
      destruct (bumped_step _ _ _ _ BR ltac:(lia)) as (rhs & Hrhs & BR').
      unfold incR, ls, loss in Hrhs. rewrite Hdxi, Ht in Hrhs.
      simpl default in Hrhs.
      change (isub (RHS es') (Z.of_nat k)
                (dxi * PA * (sigma * eps) * (t ^ 4 - T_ext ^ 4)))
        with (iadd (RHS es') (Z.of_nat k)
                (- (dxi * PA * (sigma * eps) * (t ^ 4 - T_ext ^ 4)))).
      rewrite Hrhs. cbn [rbind].
      eexists. split; [reflexivity|]. by cbn. }
    exists es2. split; [exact H2|].
    split; [done|]. split; [done|]. split; [done|].
    split; [apply BR|]. split.
    + intros i dxi t r Hd Ht Hr.
      pose proof (lookup_lt_Some _ _ _ Hd) as Hi. fold n in Hi.
      rewrite (bumped_lookup _ _ _ _ _ _ BR Hi Hr).
      unfold incR, ls. rewrite Hd, Ht. by simpl.
    + intros i Hi. by eapply bumped_beyond.
  - intros dxi t E. unfold loss. rewrite E. ring.
Qed.

Lemma ext_convection_consistency_witness :
  exists es1 es2,
    apply (ext_convection_set_params (ext_bc_init [1; 1; 1]%Q 2) 10 300)
          es0 mm0 None = OK es1 /\
    apply_operator (ext_convection_set_params (ext_bc_init [1; 1; 1]%Q 2) 10 300)
          es0 mm0 (Some [300; 300; 290]%Q) = OK es2 /\
    Forall2 Qeq (LHS_c es1) [20; 20; 20]%Q /\
    Forall2 Qeq (RHS es2) [1; 2; 203]%Q.
Proof.
  destruct (ext_convection_consistency [1; 1; 1]%Q 2 10 300 es0 mm0
              [300; 300; 290]%Q) as ((es1 & H1 & _) & (es2 & H2 & _));
    [simpl; lia | simpl; lia | simpl; lia |].
  exists es1, es2. split; [done|]. split; [done|].
  vm_compute in H1. injection H1 as <-.
  vm_compute in H2. injection H2 as <-.
  split; repeat constructor.
Defined.

Lemma ext_radiation_consistency_witness :
  exists es1 es2,
    apply (ext_radiation_set_params (ext_bc_init [1; 1; 1]%Q 2) (1 # 2) 300)
          es0 mm0 (Some [300; 300; 300]%Q) = OK es1 /\
    apply_operator
          (ext_radiation_set_params (ext_bc_init [1; 1; 1]%Q 2) (1 # 2) 300)
          es0 mm0 (Some [300; 300; 300]%Q) = OK es2 /\
    Forall2 Qeq (F es1) [0; 0; 0]%Q /\ Forall2 Qeq (RHS es2) [1; 2; 3]%Q.
Proof.
  destruct (ext_radiation_consistency [1; 1; 1]%Q 2 (1 # 2) 300 es0 mm0
              [300; 300; 300]%Q) as ((es1 & H1 & _) & (es2 & H2 & _) & _);
    [simpl; lia | simpl; lia | simpl; lia | simpl; lia |].
  exists es1, es2. split; [done|]. split; [done|].
  vm_compute in H1. injection H1 as <-.
  vm_compute in H2. injection H2 as <-.
  split; repeat constructor.
Defined.

End ExternalBoundaries.

(** ** What the calls of [solve_ode_all_nodes] keep *)

Section SolveInvariants.
Import Reaction.
Context {ET : ExternalTypes} {EO : ExternalOps}.

(** The pieces of a call that returned. *)
Lemma solve_returns s args T_in return_err s' T_out err_list :
  solve_ode_all_nodes s args T_in return_err = OK (s', T_out, err_list) ->
  exists s1 st,
    clear_pass s = OK s1 /\
    foldM (integrate_node s1 args T_in return_err)
          {| lp_arrays := arrays_of s1; lp_T_out := T_in; lp_err_list := [];
             lp_inactive_node_list := inactive_node_list s1 |}
          (range (Z.of_nat (length (active_nodes s1)))) = OK st /\
    s' = with_arrays s1 (lp_arrays st) (active_nodes s1)
                     (lp_inactive_node_list st) /\
    T_out = lp_T_out st /\ err_list = lp_err_list st.
Proof.
  intros H. unfold solve_ode_all_nodes in H.
  apply rbind_OK in H as (s1 & H1 & H2). unfold integration_pass in H2.
  apply rbind_OK in H2 as (st & Hst & H2). injection H2 as <- <- <-.
  by exists s1, st.
Qed.

Lemma clear_pass_returns s s1 :
  clear_pass s = OK s1 ->
  s1 = s \/
  exists a active,
    foldM (clear_node s) (arrays_of s) (inactive_node_list s) = OK a /\
    np_delete (active_nodes s) (inactive_node_list s) = OK active /\
    s1 = with_arrays s a active [].
Proof.
  intros H. unfold clear_pass in H.
  destruct (0 <? _)%nat; [|left; by injection H as <-].
  right. unfold clear_nodes in H.
  apply rbind_OK in H as (a & Ha & H).
  apply rbind_OK in H as (act & Hact & H). injection H as <-.
  by exists a, act.
Qed.

Lemma delete_positions_sublist {A} ks (l : list A) : forall k,
  delete_positions k ks l `sublist_of` l.
Proof.
  induction l as [|y l IH]; intros k; simpl; [done|].
  destruct (decide (k ∈ ks)).
  - by apply sublist_cons.
  - by apply sublist_skip.
Qed.

Lemma solve_same_configuration s args T_in return_err s' T_out err_list :
  solve_ode_all_nodes s args T_in return_err = OK (s', T_out, err_list) ->
  same_configuration s s' /\ active_nodes s' `sublist_of` active_nodes s.
Proof.
  intros H.
  destruct (solve_returns _ _ _ _ _ _ _ H) as (s1 & st & H1 & _ & -> & _ & _).
  destruct (clear_pass_returns _ _ H1) as [->|(a & act & _ & Hact & ->)].
  - by repeat split.
  - repeat split; try done. simpl.
    unfold np_delete in Hact. apply rbind_OK in Hact as (ks & _ & Hact).
    injection Hact as <-. apply delete_positions_sublist.
Qed.

Lemma later_same_configuration s s' :
  later_state s s' ->
  same_configuration s s' /\ active_nodes s' `sublist_of` active_nodes s.
Proof.
  induction 1 as [|s' s'' args T_in re T_out errs Hl [IHc IHs] Hs].
  - by repeat split.
  - destruct (solve_same_configuration _ _ _ _ _ _ _ Hs) as (Hc & Hsub).
    split; [|by etrans].
    destruct IHc as (A1 & A2 & A3 & A4 & A5 & A6 & A7 & A8 & A9).
    destruct Hc as (B1 & B2 & B3 & B4 & B5 & B6 & B7 & B8 & B9).
    repeat split; congruence.
Qed.

(** X12: whatever calls of [solve_ode_all_nodes] are made, the number of
    nodes, the materials of the nodes, the species, [rho_cp], the small
    number, the cell numbers, the node-to-system map and the reaction
    systems stay what they were, and the active nodes are a sublist of what
    they were: no node is ever added or moved, and a removed node does not
    come back. *)
Theorem later_state_keeps_configuration (s s' : reaction_manager) :
  later_state s s' ->
  same_configuration s s' /\ active_nodes s' `sublist_of` active_nodes s.
Proof. apply later_same_configuration. Qed.

(** A loop whose every pass adds one to a count has added the number of its
    passes. *)
Lemma foldM_count {A S} (f : S -> nat) (c : nat)
  (body : S -> A -> result S) l :
  (forall s a s', body s a = OK s' -> f s' = (f s + c)%nat) ->
  forall s s', foldM body s l = OK s' -> f s' = (f s + c * length l)%nat.
Proof.
  intros Hstep. induction l as [|a l IH]; intros s s' H; simpl in H.
  - injection H as <-. simpl. lia.
  - apply rbind_OK in H as (s1 & H1 & H).
    rewrite (IH _ _ H), (Hstep _ _ _ H1). simpl. lia.
Qed.

Lemma integrate_node_lengths s args T_in return_err st act_ind st' :
  integrate_node s args T_in return_err st act_ind = OK st' ->
  length (lp_T_out st') = length (lp_T_out st) /\
  length (lp_err_list st') =
    (length (lp_err_list st) + (if return_err then 1 else 0))%nat.
Proof.
  intros H. unfold integrate_node in H.
  apply rbind_OK in H as (i & Hi & H).
  apply rbind_OK in H as (sys_ind & Hsys & H).
  destruct (sys_ind <? 0); [done|].
  apply rbind_OK in H as (v0 & Hv0 & H).
  apply rbind_OK in H as (v1 & Hv1 & H).
  apply rbind_OK in H as (t & Ht & H).
  apply rbind_OK in H as (v_in & Hvin & H).
  apply rbind_OK in H as (rs & Hrs & H).
  destruct (solve_ode_node rs args v_in) as [my_sol my_status].
  apply rbind_OK in H as (dens & Hdens & H).
  apply rbind_OK in H as (last & Hlast & H).
  apply rbind_OK in H as (rate & Hrate & H).
  apply rbind_OK in H as (r & Hr & H).
  apply rbind_OK in H as (tr & Htr & H).
  apply rbind_OK in H as (hrr & Hhrr & H).
  apply rbind_OK in H as (x & Hx & H).
  apply rbind_OK in H as (T_out & HT & H). injection H as <-. simpl.
  split; [by eapply setitem_length|].
  destruct return_err; [rewrite length_app; simpl; lia | lia].
Qed.

(** X13: a call of [solve_ode_all_nodes] that returns gives back a
    temperature array of the length of [T_in], and an error list with one
    status per active node integrated when [return_err] is set, and none
    otherwise. *)
Theorem solve_output_lengths (s : reaction_manager) (args : solver_args)
  (T_in : list Q) (return_err : bool) (s' : reaction_manager)
  (T_out : list Q) (err_list : list status) :
  solve_ode_all_nodes s args T_in return_err = OK (s', T_out, err_list) ->
  length T_out = length T_in /\
  length err_list = (if return_err then length (active_nodes s') else 0%nat).
Proof.
  intros H.
  destruct (solve_returns _ _ _ _ _ _ _ H) as (s1 & st & _ & Hst & -> & -> & ->).
  simpl. split.
  - eapply (foldM_OK_inv (fun st => length (lp_T_out st) = length T_in));
      [| |exact Hst]; [done|].
    intros st0 a st1 _ Hl Hb.
    apply integrate_node_lengths in Hb as [-> _]. done.
  - pose proof (foldM_count (fun st => length (lp_err_list st))
                  (if return_err then 1 else 0)%nat
                  (integrate_node s1 args T_in return_err) _
                  (fun st0 a st1 Hb =>
                     proj2 (integrate_node_lengths _ _ _ _ _ _ _ Hb))
                  _ _ Hst) as Hc.
    simpl in Hc. rewrite range_length, Nat2Z.id in Hc.
    destruct return_err; lia.
Qed.

(** Writing one pair of related values at the same index of two arrays
    related entry by entry keeps them related. *)
Lemma setitem_Forall2 {A B} (R : A -> B -> Prop) a b i x y a' b' :
  Forall2 R a b -> R x y ->
  setitem a i x = OK a' -> setitem b i y = OK b' -> Forall2 R a' b'.
Proof.
  intros HF Hxy Ha Hb.
  apply setitem_OK in Ha as (k & Hk & ->).
  apply setitem_OK in Hb as (k' & Hk' & ->).
  rewrite <- (Forall2_length _ _ _ HF), Hk in Hk'. injection Hk' as <-.
  by apply Forall2_insert.
Qed.

Lemma clear_node_rates (R : Q -> Q -> Prop) s a act_ind a' :
  R 0%Q 0%Q ->
  clear_node s a act_ind = OK a' ->
  Forall2 R (na_temperature_rate a) (na_heat_release_rate a) ->
  Forall2 R (na_temperature_rate a') (na_heat_release_rate a').
Proof.
  intros H0 H HF. unfold clear_node in H.
  apply rbind_OK in H as (i & Hi & H).
  apply rbind_OK in H as (dens & Hdens & H).
  apply rbind_OK in H as (rate & Hrate & H).
  apply rbind_OK in H as (tr & Htr & H).
  apply rbind_OK in H as (hrr & Hhrr & H). injection H as <-. simpl.
  by eapply setitem_Forall2.
Qed.

Lemma integrate_node_rates s args T_in return_err st act_ind st' :
  integrate_node s args T_in return_err st act_ind = OK st' ->
  Forall2 (fun t h => (h == t * rho_cp s)%Q)
          (na_temperature_rate (lp_arrays st))
          (na_heat_release_rate (lp_arrays st)) ->
  Forall2 (fun t h => (h == t * rho_cp s)%Q)
          (na_temperature_rate (lp_arrays st'))
          (na_heat_release_rate (lp_arrays st')).
Proof.
  intros H HF. unfold integrate_node in H.
  apply rbind_OK in H as (i & Hi & H).
  apply rbind_OK in H as (sys_ind & Hsys & H).
  destruct (sys_ind <? 0); [done|].
  apply rbind_OK in H as (v0 & Hv0 & H).
  apply rbind_OK in H as (v1 & Hv1 & H).
  apply rbind_OK in H as (t & Ht & H).
  apply rbind_OK in H as (v_in & Hvin & H).
  apply rbind_OK in H as (rs & Hrs & H).
  destruct (solve_ode_node rs args v_in) as [my_sol my_status].
  apply rbind_OK in H as (dens & Hdens & H).
  apply rbind_OK in H as (last & Hlast & H).
  apply rbind_OK in H as (rate & Hrate & H).
  apply rbind_OK in H as (r & Hr & H).
  apply rbind_OK in H as (tr & Htr & H).
  apply rbind_OK in H as (hrr & Hhrr & H).
  apply rbind_OK in H as (x & Hx & H).
  apply rbind_OK in H as (T_out & HT & H). injection H as <-. simpl.
  eapply (setitem_Forall2 _ _ _ _ r (r * rho_cp s)%Q); [exact HF| |done|done].
  reflexivity.
Qed.

Lemma solve_rates_agree s args T_in return_err s' T_out err_list :
  solve_ode_all_nodes s args T_in return_err = OK (s', T_out, err_list) ->
  rates_agree s -> rates_agree s'.
Proof.
  intros H Hs.
  destruct (solve_returns _ _ _ _ _ _ _ H) as (s1 & st & H1 & Hst & -> & _ & _).
  assert (Hs1 : rates_agree s1).
  { destruct (clear_pass_returns _ _ H1) as [->|(a & act & Ha & _ & ->)]; [done|].
    unfold rates_agree. simpl.
    eapply (foldM_OK_inv
      (fun a => Forall2 (fun t h => (h == t * rho_cp s)%Q)
                        (na_temperature_rate a) (na_heat_release_rate a))
      (clear_node s) _ (arrays_of s) a);
      [exact Hs| |exact Ha].
    intros a0 act_ind a1 _ HF Hb.
    eapply clear_node_rates; [|exact Hb|exact HF]. ring. }
  unfold rates_agree. simpl.
  match type of Hst with foldM _ ?st0 _ = _ => set (st0' := st0) in Hst end.
  eapply (foldM_OK_inv
    (fun st => Forall2 (fun t h => (h == t * rho_cp s1)%Q)
                       (na_temperature_rate (lp_arrays st))
                       (na_heat_release_rate (lp_arrays st)))
    _ _ st0' st);
    [exact Hs1| |exact Hst].
  intros st0 act_ind st1 _ HF Hb. by eapply integrate_node_rates.
Qed.

Lemma load_species_rates_agree (s : reaction_manager) sd mm s2 :
  load_species s sd mm = OK s2 -> rates_agree s2.
Proof.
  intros H. unfold load_species in H.
  destruct (negb _); [done|]. destruct (float_gt _ _); [done|].
  apply rbind_OK in H as (my_mat & _ & H).
  apply rbind_OK in H as ([dens rate] & _ & H).
  apply rbind_OK in H as (hrr & Hhrr & H).
  apply rbind_OK in H as (tr & Htr & H).
  apply rbind_OK in H as (key0 & Hkey0 & H).
  apply rbind_OK in H as ([nc key] & Hcl & H). injection H as <-.
  unfold rates_agree. simpl.
  unfold np_zeros in Hhrr, Htr. destruct (n_tot s <? 0); [done|].
  injection Hhrr as <-. injection Htr as <-.
  apply Forall2_replicate. ring.
Qed.

Lemma load_reactions_rates_agree s rxn_dict s' :
  load_reactions s rxn_dict = OK s' -> rates_agree s -> rates_agree s'.
Proof.
  intros H Hs. unfold load_reactions in H.
  apply rbind_OK in H as (fm0 & _ & H).
  apply rbind_OK in H as (ac0 & _ & H).
  apply rbind_OK in H as (st & _ & H).
  apply rbind_OK in H as ([ntsm unique] & _ & H).
  apply rbind_OK in H as (systems & _ & H). by injection H as <-.
Qed.

(** X14: after setup, and after any number of calls of
    [solve_ode_all_nodes], the heat release rate of every node is its
    temperature rate times the [rho_cp] that [load_species] computed from
    the material. *)
Theorem heat_release_follows_temperature_rate (c : configuration)
  (s0 s : reaction_manager) :
  setup c = OK s0 -> later_state s0 s ->
  rho_cp s = rho_cp s0 /\
  length (heat_release_rate s) = length (temperature_rate s) /\
  forall k t h,
    temperature_rate s !! k = Some t -> heat_release_rate s !! k = Some h ->
    (h == t * rho_cp s0)%Q.
Proof.
  intros H Hl.
  assert (H0 : rates_agree s0).
  { unfold setup in H.
    apply rbind_OK in H as (g & _ & H).
    apply rbind_OK in H as (s1 & _ & H).
    apply rbind_OK in H as (s2 & H2 & H).
    eapply load_reactions_rates_agree; [exact H|].
    by eapply load_species_rates_agree. }
  assert (Hs : rates_agree s /\ rho_cp s = rho_cp s0).
  { clear H. induction Hl as [|s' s'' args T_in re T_out errs Hl [IH1 IH2] Hs];
      [done|].
    split; [by eapply solve_rates_agree|].
    destruct (solve_same_configuration _ _ _ _ _ _ _ Hs) as [Hc _].
    destruct Hc as (_ & _ & _ & _ & E & _). congruence. }
  destruct Hs as [Hs E]. split; [done|].
  split; [symmetry; by eapply Forall2_length|].
  intros k t h Ht Hh. rewrite <- E.
  apply (Forall2_lookup_lr _ _ _ _ _ _ Hs Ht Hh).
Qed.

(** X15: after setup, and after any number of calls of
    [solve_ode_all_nodes], every species has a density array and a rate
    array with one entry per node, the temperature rate and the heat release
    rate have one entry per node, the active nodes are distinct nodes of the
    grid, and the inactive node list holds positions of the active node
    array. *)
Theorem setup_keeps_well_formed (c : configuration) (s0 s : reaction_manager) :
  setup c = OK s0 -> later_state s0 s -> well_formed s.
Proof.
  intros H Hl. eapply later_well_formed; [|exact Hl]. by eapply setup_well_formed.
Qed.

End SolveInvariants.

Section SolveInvariantsWitnesses.
Import Reaction Demo.

Lemma demo_run_later (n : nat) s0 : demo_setup = OK s0 ->
  forall s T, demo_run n = OK (s, T) -> later_state s0 s.
Proof.
  intros H0. induction n as [|n IH]; intros s T H; cbn [demo_run] in H.
  - rewrite H0 in H. cbn [rbind] in H. injection H as <- _. apply later_now.
  - apply rbind_OK in H as ([s1 T1] & H1 & H).
    apply rbind_OK in H as ([[s2 T2] errs] & H2 & H). injection H as <- <-.
    eapply later_call; [by eapply IH | exact H2].
Qed.

Lemma later_state_keeps_configuration_witness :
  match demo_setup, demo_run 4 with
  | OK s0, OK (s, _) =>
      active_nodes s0 = [0; 1; 4; 5] /\ active_nodes s = [] /\
      same_configuration s0 s /\ active_nodes s `sublist_of` active_nodes s0
  | _, _ => False
  end.
Proof.
  destruct demo_setup as [s0|e] eqn:E0; [|vm_compute in E0; discriminate E0].
  destruct (demo_run 4) as [[s T]|e] eqn:E4; [|vm_compute in E4; discriminate E4].
  split; [vm_compute in E0; by injection E0 as <-|].
  split; [vm_compute in E4; by injection E4 as <- _|].
  apply later_state_keeps_configuration. by eapply demo_run_later.
Defined.

Lemma solve_output_lengths_witness :
  match demo_setup with
  | OK s =>
      exists s' T_out err_list,
        solve_ode_all_nodes s tt demo_T true = OK (s', T_out, err_list) /\
        length T_out = 6%nat /\ length err_list = 4%nat
  | Raise _ => False
  end.
Proof.
  destruct demo_setup as [s|e] eqn:E; [|vm_compute in E; discriminate E].
  destruct (solve_ode_all_nodes s tt demo_T true)
    as [[[s' T_out] err_list]|e] eqn:Es.
  2:{ vm_compute in E. injection E as <-. vm_compute in Es. discriminate Es. }
  exists s', T_out, err_list. split; [done|].
  destruct (solve_output_lengths _ _ _ _ _ _ _ Es) as [H1 H2].
  split; [exact H1|]. rewrite H2.
  vm_compute in E. injection E as <-. vm_compute in Es. by injection Es as <- _ _.
Defined.

Lemma heat_release_follows_temperature_rate_witness :
  match demo_setup, demo_run 2 with
  | OK s0, OK (s, _) =>
      rho_cp s0 = 6%Q /\
      forall k t h,
        temperature_rate s !! k = Some t -> heat_release_rate s !! k = Some h ->
        (h == t * rho_cp s0)%Q
  | _, _ => False
  end.
Proof.
  destruct demo_setup as [s0|e] eqn:E0; [|vm_compute in E0; discriminate E0].
  destruct (demo_run 2) as [[s T]|e] eqn:E2; [|vm_compute in E2; discriminate E2].
  split; [vm_compute in E0; by injection E0 as <-|].
  apply (heat_release_follows_temperature_rate (EO := demo_ops) demo_config s0 s E0).
  by eapply demo_run_later.
Defined.

Lemma setup_keeps_well_formed_witness :
  match demo_setup, demo_run 3 with
  | OK s0, OK (s, _) => well_formed s
  | _, _ => False
  end.
Proof.
  destruct demo_setup as [s0|e] eqn:E0; [|vm_compute in E0; discriminate E0].
  destruct (demo_run 3) as [[s T]|e] eqn:E3; [|vm_compute in E3; discriminate E3].
  apply (setup_keeps_well_formed (EO := demo_ops) demo_config s0 s E0).
  by eapply demo_run_later.
Defined.

End SolveInvariantsWitnesses.

(** ** What the loop over the active nodes writes *)

Section NodeIntegration.
Import Reaction.
Context {ET : ExternalTypes} {EO : ExternalOps}.

Lemma getitem_minus_one_inv {A} (a : list A) (x : A) :
  getitem a (-1) = OK x -> last a = Some x.
Proof.
  intros H. apply getitem_OK in H as (k & Hk & Hx).
  rewrite last_lookup. unfold py_index in Hk.
  change (0 <=? -1) with false in Hk. cbn [andb] in Hk.
  destruct ((- Z.of_nat (length a) <=? -1) && (-1 <? 0)); [|done].
  injection Hk as <-.
  by replace (Z.to_nat (Z.of_nat (length a) + -1)) with (pred (length a))
    in Hx by lia.
Qed.

(** A loop over [range(n)], read backwards, with an invariant indexed by
    the number of passes made. *)
Lemma foldM_range_OK_inv {S} (body : S -> Z -> result S)
  (P : nat -> S -> Prop) (n : nat) (s s' : S) :
  P 0%nat s ->
  (forall k s s', (k < n)%nat -> P k s -> body s (Z.of_nat k) = OK s' ->
                  P (Datatypes.S k) s') ->
  foldM body s (range (Z.of_nat n)) = OK s' -> P n s'.
Proof.
  intros H0 Hstep. unfold range. rewrite Nat2Z.id.
  assert (Hgen : forall len start s, (start + len = n)%nat -> P start s ->
            foldM body s (Z.of_nat <$> seq start len) = OK s' -> P n s').
  { induction len as [|len IH]; intros start s0 Hn Hs H.
    - injection H as <-. by replace n with start by lia.
    - simpl in H. apply rbind_OK in H as (s1 & H1 & H).
      apply (IH (Datatypes.S start) s1); [lia| |done].
      apply (Hstep start s0); [lia | done | done]. }
  by apply (Hgen n 0%nat s).
Qed.

(** The loop that fills the input vector. *)
Lemma input_loop (d : gmap string (list Q)) (i : Z) (extra : nat) names :
  0 <= i ->
  forall done_ v,
  foldM (fun v '(j, name) =>
           let* x := dict_getitem d name i in setitem v j x)
        (done_ ++ replicate (length names + extra) 0%Q)
        (zip (Z.of_nat <$> seq (length done_) (length names)) names) = OK v ->
  v = done_ ++ ((fun name => default 0%Q (entry d name (Z.to_nat i))) <$> names)
      ++ replicate extra 0%Q.
Proof.
  intros Hi. induction names as [|name names IH]; intros done_ v H.
  - simpl in H. by injection H as <-.
  - cbn [length seq fmap list_fmap zip zip_with foldM] in H.
    apply rbind_OK in H as (v1 & Hb & H).
    apply rbind_OK in Hb as (x & Hx & Hb).
    apply dict_getitem_entry in Hx; [|done].
    apply setitem_nonneg in Hb as [-> _]; [|lia].
    rewrite Nat2Z.id in H.
    replace (<[length done_ := x]>
               (done_ ++ replicate (S (length names) + extra) 0%Q))
      with ((done_ ++ [x]) ++ replicate (length names + extra) 0%Q) in H.
    2:{ rewrite <- app_assoc. simpl.
        rewrite insert_app_r_alt by lia. by rewrite Nat.sub_diag. }
    replace (S (length done_)) with (length (done_ ++ [x])) in H
      by (rewrite length_app; simpl; lia).
    rewrite (IH _ _ H), <- app_assoc. simpl. by rewrite Hx.
Qed.

(** A loop that writes one value per species at node [i]. *)
Lemma write_loop (g : nat -> option Q) (i : Z)
  (body : gmap string (list Q) -> Z * string -> result (gmap string (list Q)))
  names :
  0 <= i ->
  (forall d k name d', body d (Z.of_nat k, name) = OK d' ->
     exists x, g k = Some x /\ dict_setitem d name i x = OK d') ->
  NoDup names ->
  forall start d0 d,
  foldM body d0 (zip (Z.of_nat <$> seq start (length names)) names) = OK d ->
  (forall k name, names !! k = Some name ->
     entry d name (Z.to_nat i) = g (start + k)%nat) /\
  (forall name, name ∉ names ->
     entry d name (Z.to_nat i) = entry d0 name (Z.to_nat i)).
Proof.
  intros Hi Hbody. induction names as [|name names IH]; intros Hnd start d0 d H.
  - simpl in H. injection H as <-. by split.
  - apply NoDup_cons in Hnd as [Hnew Hnd].
    cbn [length seq fmap list_fmap zip zip_with foldM] in H.
    apply rbind_OK in H as (d1 & Hb & H).
    destruct (Hbody _ _ _ _ Hb) as (x & Hg & Hset).
    destruct (dict_setitem_entry _ _ _ _ _ Hi Hset) as [_ He].
    destruct (IH Hnd _ _ _ H) as [Hin Hout].
    split.
    + intros [|k] name' Hk; simpl in Hk.
      * injection Hk as <-. rewrite (Hout _ Hnew), He.
        rewrite decide_True by done. by rewrite Nat.add_0_r.
      * rewrite (Hin _ _ Hk). f_equal. lia.
    + intros name' Hn. apply not_elem_of_cons in Hn as [Hne Hn].
      rewrite (Hout _ Hn), He. by rewrite decide_False by tauto.
Qed.

Lemma enumerate_seq {A} (l : list A) :
  enumerate l = zip (Z.of_nat <$> seq 0 (length l)) l.
Proof. unfold enumerate, range. by rewrite Nat2Z.id. Qed.

Lemma setitem_lookup {A} (a : list A) i x a' :
  0 <= i -> setitem a i x = OK a' -> a' !! Z.to_nat i = Some x.
Proof.
  intros Hi H. apply setitem_nonneg in H as [-> Hlt]; [|done].
  by apply list_lookup_insert_eq.
Qed.

(** One pass of the loop over the active nodes, read backwards: what it
    has read, and what it has written for its node. *)
Lemma integrate_node_writes s args T_in return_err st act_ind st' :
  Forall (fun i => 0 <= i) (active_nodes s) ->
  NoDup (species_name_list s) ->
  n_species s = Z.of_nat (length (species_name_list s)) ->
  integrate_node s args T_in return_err st act_ind = OK st' ->
  exists i sys_ind rs my_sol my_status row,
    getitem (active_nodes s) act_ind = OK i /\ 0 <= i /\
    node_to_system_map s !! Z.to_nat i = Some sys_ind /\ 0 <= sys_ind /\
    reaction_systems s !! Z.to_nat sys_ind = Some rs /\
    solve_ode_node rs args
      (((fun name =>
           default 0%Q
             (entry (na_species_density (lp_arrays st)) name (Z.to_nat i)))
          <$> species_name_list s) ++ [default 0%Q (T_in !! Z.to_nat i)])
      = (my_sol, my_status) /\
    last my_sol = Some row /\
    lp_T_out st' !! Z.to_nat i = last row /\
    (forall j name, species_name_list s !! j = Some name ->
       entry (na_species_density (lp_arrays st')) name (Z.to_nat i) = row !! j) /\
    (forall j name, species_name_list s !! j = Some name ->
       entry (na_species_rate (lp_arrays st')) name (Z.to_nat i)
       = get_rates rs row !! j) /\
    na_temperature_rate (lp_arrays st') !! Z.to_nat i
      = last (get_rates rs row) /\
    na_heat_release_rate (lp_arrays st') !! Z.to_nat i
      = (fun r => (r * rho_cp s)%Q) <$> last (get_rates rs row) /\
    lp_inactive_node_list st' =
      lp_inactive_node_list st ++ (if check_complete rs row then [act_ind] else []) /\
    lp_err_list st' =
      lp_err_list st ++ (if return_err then [my_status] else []).
Proof.
  intros Hnn Hnd Hns H. unfold integrate_node in H.
  apply rbind_OK in H as (i & Hi & H).
  assert (H0 : 0 <= i).
  { apply getitem_elem_of in Hi.
    by apply (proj1 (list.Forall_forall _ _) Hnn). }
  apply rbind_OK in H as (sys_ind & Hsys & H).
  destruct (sys_ind <? 0) eqn:Esys; [done|]. apply Z.ltb_ge in Esys.
  apply rbind_OK in H as (v0 & Hv0 & H).
  apply rbind_OK in H as (v1 & Hv1 & H).
  apply rbind_OK in H as (t & Ht & H).
  apply rbind_OK in H as (v_in & Hv_in & H).
  apply rbind_OK in H as (rs & Hrs & H).
  apply getitem_nonneg in Hsys; [|done].
  apply getitem_nonneg in Hrs; [|done].
  apply getitem_nonneg in Ht; [|done].
  (* the input vector *)
  unfold np_zeros in Hv0. destruct (n_species s + 1 <? 0); [done|].
  injection Hv0 as <-.
  replace (Z.to_nat (n_species s + 1))
    with (length (species_name_list s) + 1)%nat in Hv1 by lia.
  rewrite enumerate_seq in Hv1.
  apply (input_loop _ _ 1 _ H0 []) in Hv1. simpl app in Hv1. subst v1.
  apply setitem_OK in Hv_in as (k & Hk & ->).
  assert (Ek : k = length (species_name_list s)).
  { unfold py_index in Hk. change (0 <=? -1) with false in Hk.
    cbn [andb] in Hk.
    destruct ((- Z.of_nat _ <=? -1) && (-1 <? 0)); [|done].
    injection Hk as <-. rewrite length_app, length_fmap. simpl. lia. }
  rewrite Ek in H.
  rewrite insert_app_r_alt in H by (rewrite length_fmap; lia).
  rewrite length_fmap, Nat.sub_diag in H. simpl insert in H.
  set (v_in := _ ++ [t]) in H.
  destruct (solve_ode_node rs args v_in) as [my_sol my_status] eqn:Esol.
  apply rbind_OK in H as (dens & Hdens & H).
  apply rbind_OK in H as (row & Hrow & H).
  apply rbind_OK in H as (rate & Hrate & H).
  apply rbind_OK in H as (r & Hr & H).
  apply rbind_OK in H as (tr & Htr & H).
  apply rbind_OK in H as (hrr & Hhrr & H).
  apply rbind_OK in H as (x & Hx & H).
  apply rbind_OK in H as (T_out & HT_out & H).
  injection H as <-. cbn [lp_arrays lp_T_out lp_err_list lp_inactive_node_list
    na_species_density na_species_rate na_temperature_rate
    na_heat_release_rate].
  exists i, sys_ind, rs, my_sol, my_status, row.
  split; [done|]. split; [done|]. split; [done|]. split; [done|].
  split; [done|].
  split; [unfold v_in in Esol; by rewrite Ht|].
  split; [by apply getitem_minus_one_inv|].
  apply getitem_minus_one_inv in Hx, Hr.
  split; [rewrite Hx; by eapply setitem_lookup|].
  rewrite enumerate_seq in Hdens, Hrate.
  split.
  { intros j name Hj.
    pose proof (fun Hb => write_loop (fun k => row !! k) i _
                  (species_name_list s) H0 Hb Hnd 0%nat _ _ Hdens) as Hw.
    destruct Hw as [Hin _]; [|by apply (Hin j name)].
    intros d k0 name' d' Hb.
    apply rbind_OK in Hb as (row' & Hrow' & Hb).
    rewrite Hrow in Hrow'. injection Hrow' as <-.
    apply rbind_OK in Hb as (y & Hy & Hb).
    apply getitem_nonneg in Hy; [|lia]. rewrite Nat2Z.id in Hy. eauto. }
  split.
  { intros j name Hj.
    pose proof (fun Hb => write_loop (fun k => get_rates rs row !! k) i _
                  (species_name_list s) H0 Hb Hnd 0%nat _ _ Hrate) as Hw.
    destruct Hw as [Hin _]; [|by apply (Hin j name)].
    intros d k0 name' d' Hb.
    apply rbind_OK in Hb as (y & Hy & Hb).
    apply getitem_nonneg in Hy; [|lia]. rewrite Nat2Z.id in Hy. eauto. }
  split; [rewrite Hr; by eapply setitem_lookup|].
  split; [rewrite Hr; simpl; by eapply setitem_lookup|].
  split; [destruct (check_complete rs row); by rewrite ?app_nil_r|].
  destruct return_err; by rewrite ?app_nil_r.
Qed.

Lemma clear_pass_inactive s s1 : clear_pass s = OK s1 -> inactive_node_list s1 = [].
Proof.
  intros H. unfold clear_pass in H.
  destruct (inactive_node_list s) as [|a l] eqn:E; simpl in H.
  - by injection H as <-.
  - unfold clear_nodes in H.
    apply rbind_OK in H as (a' & _ & H).
    apply rbind_OK in H as (act & _ & H). by injection H as <-.
Qed.

(** The state of the loop over the active nodes after [m] passes. *)
Lemma integration_loop_writes s args T_in return_err st :
  well_formed s -> inactive_node_list s = [] ->
  NoDup (species_name_list s) ->
  n_species s = Z.of_nat (length (species_name_list s)) ->
  foldM (integrate_node s args T_in return_err)
        {| lp_arrays := arrays_of s; lp_T_out := T_in; lp_err_list := [];
           lp_inactive_node_list := inactive_node_list s |}
        (range (Z.of_nat (length (active_nodes s)))) = OK st ->
  forall act_ind i, active_nodes s !! act_ind = Some i ->
    exists rs row my_status,
      node_solution s args T_in (Z.to_nat i) = Some (rs, row, my_status) /\
      integrated_at s return_err act_ind (Z.to_nat i) rs row my_status
        (na_species_density (lp_arrays st)) (na_species_rate (lp_arrays st))
        (na_temperature_rate (lp_arrays st))
        (na_heat_release_rate (lp_arrays st))
        (lp_T_out st) (lp_inactive_node_list st) (lp_err_list st).
Proof.
  intros Hwf Hin0 Hnd Hns Hst.
  assert (Hnn : Forall (fun i => 0 <= i) (active_nodes s)).
  { eapply Forall_impl; [apply Hwf|]. simpl. intros; lia. }
  assert (Hinj : forall a a' i i',
            active_nodes s !! a = Some i -> active_nodes s !! a' = Some i' ->
            a <> a' -> Z.to_nat i <> Z.to_nat i').
  { intros a a' i i' Ha Ha' Hne E.
    pose proof (Forall_lookup_1 _ _ _ _ Hnn Ha) as H1.
    pose proof (Forall_lookup_1 _ _ _ _ Hnn Ha') as H2. simpl in H1, H2.
    assert (i = i') as -> by lia.
    apply Hne. eapply NoDup_lookup; [apply Hwf| |]; done. }
  pose (P := fun (m : nat) (st : loop_state) =>
    (forall k, (forall a i, (a < m)%nat -> active_nodes s !! a = Some i ->
                            Z.to_nat i <> k) ->
       forall name, entry (na_species_density (lp_arrays st)) name k
                    = entry (species_density s) name k) /\
    (forall a i, (a < m)%nat -> active_nodes s !! a = Some i ->
       exists rs row my_status,
         node_solution s args T_in (Z.to_nat i) = Some (rs, row, my_status) /\
         integrated_at s return_err a (Z.to_nat i) rs row my_status
           (na_species_density (lp_arrays st)) (na_species_rate (lp_arrays st))
           (na_temperature_rate (lp_arrays st))
           (na_heat_release_rate (lp_arrays st))
           (lp_T_out st) (lp_inactive_node_list st) (lp_err_list st)) /\
    Forall (fun x => 0 <= x < Z.of_nat m) (lp_inactive_node_list st) /\
    length (lp_err_list st) = (if return_err then m else 0%nat)).
  assert (HP : P (length (active_nodes s)) st).
  { eapply (foldM_range_OK_inv _ P); [| |exact Hst].
    - split; [done|]. split; [intros; lia|]. simpl. rewrite Hin0.
      split; [constructor|]. by destruct return_err.
    - clear st Hst. intros m st st' Hm (Pa & Pb & Pc & Pd) Hb.
      destruct (integrate_node_writes _ _ _ _ _ _ _ Hnn Hnd Hns Hb)
        as (i & sys_ind & rs & my_sol & my_status & row & Hi & H0 & Hsys
            & Hsys0 & Hrs & Hsol & Hrow & WT & Wd & Wr & Wtr & Whrr & Wina
            & Werr).
      destruct (integrate_node_step _ _ _ _ _ _ _ Hnn Hb) as (i' & _ & Hstep).
      pose proof (ns_getitem _ _ _ _ _ Hstep) as Hi'.
      rewrite Hi in Hi'. injection Hi' as <-.
      apply getitem_nonneg in Hi; [|lia]. rewrite Nat2Z.id in Hi.
      split; [|split; [|split]].
      + intros k Hk name.
        rewrite (ns_density _ _ _ _ _ Hstep)
          by (intros E; apply (Hk m i); [lia | done | done]).
        apply Pa. intros a i0 Ha Hi0. apply (Hk a i0); [lia | done].
      + intros a i0 Ha Hi0.
        destruct (decide (a = m)) as [->|Hne].
        * rewrite Hi in Hi0. injection Hi0 as <-.
          exists rs, row, my_status.
          assert (Hin : node_input s T_in (Z.to_nat i) =
                    ((fun name =>
                        default 0%Q
                          (entry (na_species_density (lp_arrays st)) name
                             (Z.to_nat i))) <$> species_name_list s)
                    ++ [default 0%Q (T_in !! Z.to_nat i)]).
          { unfold node_input. f_equal. apply list_fmap_ext.
            intros _ name _. f_equal. symmetry. apply Pa.
            intros a i0 Ha' Hi0. apply (Hinj a m i0 i); [done | done | lia]. }
          split.
          { unfold node_solution. rewrite Hsys. simpl.
            rewrite (proj2 (Z.ltb_ge _ _) Hsys0), Hrs. simpl.
            rewrite Hin, Hsol, Hrow. reflexivity. }
          split; try done.
          -- rewrite Wina. rewrite elem_of_app. split.
             ++ intros [Hold|Hnew].
                ** apply (proj1 (list.Forall_forall _ _) Pc) in Hold. lia.
                ** destruct (check_complete rs row); [done|].
                   by apply elem_of_nil in Hnew.
             ++ intros ->. right. by left.
          -- intros ->. rewrite Werr, lookup_app_r by lia.
             rewrite Pd, Nat.sub_diag. reflexivity.
        * destruct (Pb a i0 ltac:(lia) Hi0) as (rs0 & row0 & st0 & Hn0 & Ia).
          exists rs0, row0, st0. split; [done|].
          pose proof (Hinj a m i0 i Hi0 Hi Hne) as Hki.
          destruct Ia as [I1 I2 I3 I4 I5 I6 I7]. split.
          -- by rewrite (ns_T_out _ _ _ _ _ Hstep).
          -- intros j name Hj. rewrite (ns_density _ _ _ _ _ Hstep) by done.
             by apply I2.
          -- intros j name Hj. rewrite (ns_rate _ _ _ _ _ Hstep) by done.
             by apply I3.
          -- by rewrite (ns_temperature_rate _ _ _ _ _ Hstep).
          -- by rewrite (ns_heat_release_rate _ _ _ _ _ Hstep).
          -- rewrite Wina, elem_of_app, I6. split; [|by left].
             intros [Hold|Hnew]; [done|].
             destruct (check_complete rs row); [|by apply elem_of_nil in Hnew].
             apply list_elem_of_singleton in Hnew. lia.
          -- intros Hre. rewrite Werr, lookup_app_l; [by apply I7|].
             rewrite Pd, Hre. lia.
      + rewrite Wina. apply Forall_app. split.
        * eapply Forall_impl; [exact Pc|]. simpl. intros; lia.
        * destruct (check_complete rs row); [|constructor].
          constructor; [lia | constructor].
      + rewrite Werr, length_app, Pd. destruct return_err; simpl; lia. }
  intros act_ind i Hi. destruct HP as (_ & Pb & _).
  apply (Pb act_ind i); [|done]. by eapply lookup_lt_Some.
Qed.

(** X16: what a call of [solve_ode_all_nodes] that returns has done for
    every active node.  With [s1] the state after the clear pass, the node
    at position [act_ind] of the active node array was integrated by the
    reaction system that the node-to-system map assigns to it, from the
    vector of its species densities in [s1] followed by its input
    temperature, whatever the other nodes hold.  The last row of the
    solution gives the new species densities and the output temperature of
    the node; [get_rates] of that row gives its species rates and its
    temperature rate, and the heat release rate is the temperature rate
    times [rho_cp]; the position enters the inactive node list exactly when
    [check_complete] holds for that row; and with [return_err] the status
    is entry [act_ind] of the error list. *)
Theorem solve_integrates_each_node (s : reaction_manager) (args : solver_args)
  (T_in : list Q) (return_err : bool) (s' : reaction_manager)
  (T_out : list Q) (err_list : list status) :
  well_formed s -> NoDup (species_name_list s) ->
  n_species s = Z.of_nat (length (species_name_list s)) ->
  solve_ode_all_nodes s args T_in return_err = OK (s', T_out, err_list) ->
  exists s1,
    clear_pass s = OK s1 /\ active_nodes s' = active_nodes s1 /\
    forall act_ind i, active_nodes s1 !! act_ind = Some i ->
      exists rs row my_status,
        node_solution s1 args T_in (Z.to_nat i) = Some (rs, row, my_status) /\
        integrated_at s1 return_err act_ind (Z.to_nat i) rs row my_status
          (species_density s') (species_rate s') (temperature_rate s')
          (heat_release_rate s') T_out (inactive_node_list s') err_list.
Proof.
  intros Hwf Hnd Hns H.
  destruct (solve_returns _ _ _ _ _ _ _ H) as (s1 & st & H1 & Hst & -> & -> & ->).
  exists s1. split; [done|]. split; [done|].
  destruct (clear_pass_total s Hwf) as (s1' & H1' & Hwf1).
  rewrite H1 in H1'. injection H1' as <-.
  assert (Hnn : Forall (fun i => 0 <= i) (active_nodes s)).
  { eapply Forall_impl; [apply Hwf|]. simpl. intros; lia. }
  pose proof (clear_pass_cleared _ _ Hnn H1) as Hc.
  apply (integration_loop_writes s1 args T_in return_err st Hwf1).
  - by eapply clear_pass_inactive.
  - by rewrite (cl_names _ _ Hc).
  - by rewrite (cl_names _ _ Hc), (cl_n_species _ _ Hc).
  - exact Hst.
Qed.

End NodeIntegration.

Section NodeIntegrationWitness.
Import Reaction Demo.

Lemma solve_integrates_each_node_witness :
  match demo_setup with
  | OK s =>
      exists s' T_out err_list x y,
        solve_ode_all_nodes s tt demo_T true = OK (s', T_out, err_list) /\
        T_out !! 0%nat = Some x /\ (x == 150)%Q /\
        entry (species_density s') "R" 0 = Some y /\ (y == 1)%Q
  | Raise _ => False
  end.
Proof.
  destruct demo_setup as [s|e] eqn:E; [|vm_compute in E; discriminate E].
  pose proof (setup_well_formed (EO := demo_ops) demo_config s E) as Hwf.
  vm_compute in E. injection E as <-.
  match goal with
  | |- exists s' T_out err_list x y, ?r = _ /\ _ =>
      destruct r as [[[s' T_out] err_list]|e] eqn:Es;
        [|vm_compute in Es; discriminate Es]
  end.
  match type of Es with
  | solve_ode_all_nodes ?s _ _ _ = _ =>
      destruct (solve_integrates_each_node s tt demo_T true s' T_out err_list
                  Hwf ltac:(repeat constructor; by intros ?%elem_of_nil)
                  eq_refl Es) as (s1 & H1 & _ & Hall)
  end.
  vm_compute in H1. injection H1 as <-.
  destruct (Hall 0%nat 0 eq_refl) as (rs & row & st & Hn & Ia).
  vm_compute in Hn. injection Hn as <- <- <-.
  destruct Ia as [I1 I2 _ _ _ _ _].
  eexists s', T_out, err_list, _, _.
  split; [reflexivity|]. split; [exact I1|]. split; [reflexivity|].
  split; [exact (I2 0%nat "R"%string eq_refl) | reflexivity].
Defined.

End NodeIntegrationWitness.

(** ** Calls of [solve_ode_all_nodes] that return *)

Section SolveReturns.
Import Reaction.
Context {ET : ExternalTypes} {EO : ExternalOps}.

Lemma elem_of_enumerate {A} (l : list A) j x :
  (j, x) ∈ enumerate l -> exists k, j = Z.of_nat k /\ l !! k = Some x.
Proof.
  unfold enumerate, range. rewrite Nat2Z.id. intros H.
  apply list_elem_of_lookup in H as [k Hk].
  apply lookup_zip_with_Some in Hk as (j' & x' & [= -> ->] & Hj & Hx).
  rewrite list_lookup_fmap in Hj.
  destruct (seq 0 (length l) !! k) as [k'|] eqn:Ek; [|done].
  apply lookup_seq in Ek as [-> _]. simpl in Hj. injection Hj as <-.
  by exists k.
Qed.

Lemma getitem_last_OK {A} (a : list A) x :
  last a = Some x -> getitem a (-1) = OK x.
Proof.
  intros H. rewrite last_lookup in H.
  destruct a as [|y a]; [done|]. unfold getitem, py_index.
  simpl length in *. simpl pred in H.
  assert (E2 : (- Z.of_nat (S (length a)) <=? -1) = true)
    by (apply Z.leb_le; lia).
  change (0 <=? -1) with false. change (-1 <? 0) with true.
  rewrite E2. cbn [andb].
  replace (Z.to_nat (Z.of_nat (S (length a)) + -1)) with (length a) by lia.
  cbn [mbind option_bind or_raise]. by rewrite H.
Qed.

Lemma setitem_last_OK {A} (a : list A) x :
  a <> [] -> exists a', setitem a (-1) x = OK a' /\ length a' = length a.
Proof.
  intros Hne. destruct a as [|y a]; [done|]. unfold setitem, py_index.
  assert (E2 : (- Z.of_nat (length (y :: a)) <=? -1) = true)
    by (apply Z.leb_le; simpl; lia).
  change (0 <=? -1) with false. change (-1 <? 0) with true.
  rewrite E2. cbn [andb]. eexists. split; [done|]. by rewrite length_insert.
Qed.

(** One pass of the loop over the active nodes returns when the arrays
    have their shape and the collaborators keep their contract. *)
Lemma integrate_node_total s args T_in return_err st act_ind :
  well_shaped_collaborators ->
  Forall (fun i => 0 <= i < n_tot s) (active_nodes s) ->
  systems_assigned s ->
  n_species s = Z.of_nat (length (species_name_list s)) ->
  length T_in = Z.to_nat (n_tot s) ->
  0 <= act_ind < Z.of_nat (length (active_nodes s)) ->
  arrays_shape s (lp_arrays st) ->
  length (lp_T_out st) = Z.to_nat (n_tot s) ->
  exists st', integrate_node s args T_in return_err st act_ind = OK st' /\
              arrays_shape s (lp_arrays st') /\
              length (lp_T_out st') = Z.to_nat (n_tot s).
Proof.
  intros Hcol Hact Hsys Hns HT Hind (Sd & Sr & St & Sh) HTo.
  unfold integrate_node.
  destruct (lookup_lt_is_Some_2 (active_nodes s) (Z.to_nat act_ind) ltac:(lia))
    as [i Hi].
  pose proof (Forall_lookup_1 _ _ _ _ Hact Hi) as Hin. simpl in Hin.
  destruct (Forall_lookup_1 _ _ _ _ Hsys Hi) as (sys_ind & rs & Hm & Hs0 & Hrs).
  apply getitem_nat in Hi. rewrite Z2Nat.id in Hi by lia.
  rewrite Hi. cbn [rbind].
  apply getitem_nat in Hm. rewrite Z2Nat.id in Hm by lia.
  rewrite Hm. cbn [rbind].
  rewrite (proj2 (Z.ltb_ge _ _) Hs0).
  unfold np_zeros. rewrite (proj2 (Z.ltb_ge _ _)) by lia. cbn [rbind].
  set (n := length (species_name_list s)) in *.
  (* the input vector *)
  destruct (foldM_total (fun v : list Q => length v = S n)
    (fun v '(j, name) =>
       let* x := dict_getitem (na_species_density (lp_arrays st)) name i in
       setitem v j x)
    (enumerate (species_name_list s)))
    with (s := replicate (Z.to_nat (n_species s + 1)) 0%Q)
    as (v1 & Hv1 & Lv1).
  { intros v [j name] Hjn Lv.
    apply elem_of_enumerate in Hjn as (k & -> & Hk).
    destruct (dict_getitem_total _ _ _ name i Sd) as [x Hx];
      [by eapply list_elem_of_lookup_2 | lia |].
    rewrite Hx. cbn [rbind].
    rewrite setitem_nat by (apply lookup_lt_Some in Hk; fold n in Hk; lia).
    eexists. split; [done|]. by rewrite length_insert. }
  { rewrite length_replicate. lia. }
  rewrite Hv1. cbn [rbind].
  destruct (lookup_lt_is_Some_2 T_in (Z.to_nat i) ltac:(lia)) as [t Ht].
  apply getitem_nat in Ht. rewrite Z2Nat.id in Ht by lia.
  rewrite Ht. cbn [rbind].
  destruct (setitem_last_OK v1 t) as (v_in & Hv_in & Lv_in);
    [by destruct v1|].
  rewrite Hv_in. cbn [rbind].
  apply getitem_nat in Hrs. rewrite Z2Nat.id in Hrs by lia.
  rewrite Hrs. cbn [rbind].
  destruct (Hcol rs args v_in) as (row & Hrow & Lrow & Lrates).
  destruct (solve_ode_node rs args v_in) as [my_sol my_status].
  simpl in Hrow. apply getitem_last_OK in Hrow.
  rewrite Lv_in, Lv1 in Lrow, Lrates.
  (* the densities *)
  destruct (foldM_total
    (dict_shape (species_name_list s) (Z.to_nat (n_tot s)))
    (fun d '(j, name) =>
       let* row := getitem my_sol (-1) in
       let* x := getitem row j in dict_setitem d name i x)
    (enumerate (species_name_list s)))
    with (s := na_species_density (lp_arrays st))
    as (dens & Hdens & Sdens); [|done|].
  { intros d [j name] Hjn Sd0.
    apply elem_of_enumerate in Hjn as (k & -> & Hk).
    rewrite Hrow. cbn [rbind].
    destruct (lookup_lt_is_Some_2 row k) as [x Hx].
    { apply lookup_lt_Some in Hk. fold n in Hk. lia. }
    rewrite (getitem_nat _ _ _ Hx). cbn [rbind].
    apply dict_setitem_total; [done | by eapply list_elem_of_lookup_2 | lia]. }
  rewrite Hdens. cbn [rbind]. rewrite Hrow. cbn [rbind].
  (* the rates *)
  destruct (foldM_total
    (dict_shape (species_name_list s) (Z.to_nat (n_tot s)))
    (fun d '(j, name) =>
       let* x := getitem (get_rates rs row) j in dict_setitem d name i x)
    (enumerate (species_name_list s)))
    with (s := na_species_rate (lp_arrays st))
    as (rate & Hrate & Srate); [|done|].
  { intros d [j name] Hjn Sd0.
    apply elem_of_enumerate in Hjn as (k & -> & Hk).
    destruct (lookup_lt_is_Some_2 (get_rates rs row) k) as [x Hx].
    { apply lookup_lt_Some in Hk. fold n in Hk. lia. }
    rewrite (getitem_nat _ _ _ Hx). cbn [rbind].
    apply dict_setitem_total; [done | by eapply list_elem_of_lookup_2 | lia]. }
  rewrite Hrate. cbn [rbind].
  destruct (last (get_rates rs row)) as [r|] eqn:Er.
  2:{ apply last_None in Er. rewrite Er in Lrates. done. }
  rewrite (getitem_last_OK _ _ Er). cbn [rbind].
  replace i with (Z.of_nat (Z.to_nat i)) by lia.
  rewrite !setitem_nat by lia. cbn [rbind].
  destruct (last row) as [x|] eqn:Ex.
  2:{ apply last_None in Ex. rewrite Ex in Lrow. done. }
  rewrite (getitem_last_OK _ _ Ex). cbn [rbind].
  rewrite setitem_nat by lia. cbn [rbind].
  eexists. split; [reflexivity|]. cbn.
  rewrite !length_insert. split; [|done].
  repeat split; simpl; rewrite ?length_insert; done.
Qed.

Lemma solve_total s args T_in return_err :
  well_shaped_collaborators -> well_formed s -> systems_assigned s ->
  n_species s = Z.of_nat (length (species_name_list s)) ->
  length T_in = Z.to_nat (n_tot s) ->
  is_OK (solve_ode_all_nodes s args T_in return_err).
Proof.
  intros Hcol Hwf Hsys Hns HT. unfold solve_ode_all_nodes.
  destruct (clear_pass_total s Hwf) as (s1 & H1 & Hwf1).
  rewrite H1. cbn [rbind].
  assert (Hnn : Forall (fun i => 0 <= i) (active_nodes s)).
  { eapply Forall_impl; [apply Hwf|]. simpl. intros; lia. }
  pose proof (clear_pass_cleared _ _ Hnn H1) as Hc.
  assert (Hsys1 : systems_assigned s1).
  { unfold systems_assigned. rewrite (cl_map _ _ Hc), (cl_systems _ _ Hc).
    apply list.Forall_forall. intros i Hi.
    apply (proj1 (list.Forall_forall _ _) Hsys). by apply Hc. }
  unfold integration_pass.
  destruct (foldM_total
    (fun st => arrays_shape s1 (lp_arrays st) /\
               length (lp_T_out st) = Z.to_nat (n_tot s1))
    (integrate_node s1 args T_in return_err)
    (range (Z.of_nat (length (active_nodes s1)))))
    with (s := {| lp_arrays := arrays_of s1; lp_T_out := T_in;
                  lp_err_list := [];
                  lp_inactive_node_list := inactive_node_list s1 |})
    as (st & Hst & _).
  - intros st act_ind Hin [Hsh HTo].
    apply integrate_node_total; try done.
    + apply Hwf1.
    + by rewrite (cl_names _ _ Hc), (cl_n_species _ _ Hc).
    + by rewrite (cl_n_tot _ _ Hc).
    + by apply range_elem_of in Hin.
  - split; [by apply well_formed_arrays|]. simpl. by rewrite (cl_n_tot _ _ Hc).
  - rewrite Hst. cbn [rbind]. by eexists.
Qed.

Lemma load_species_names (s : reaction_manager) sd mm s2 :
  load_species s sd mm = OK s2 ->
  species_name_list s2 = Names sd /\
  n_species s2 = Z.of_nat (length (Names sd)).
Proof.
  intros H. unfold load_species in H.
  destruct (negb _); [done|]. destruct (float_gt _ _); [done|].
  apply rbind_OK in H as (my_mat & _ & H).
  apply rbind_OK in H as ([dens rate] & _ & H).
  apply rbind_OK in H as (hrr & Hhrr & H).
  apply rbind_OK in H as (tr & _ & H).
  apply rbind_OK in H as (key0 & Hkey0 & H).
  apply rbind_OK in H as ([nc key] & Hcl & H). by injection H as <-.
Qed.

Lemma setup_species c s0 :
  setup c = OK s0 ->
  species_name_list s0 = Names (cfg_species c) /\
  n_species s0 = Z.of_nat (length (species_name_list s0)).
Proof.
  intros H. unfold setup in H.
  apply rbind_OK in H as (g & Hg & H).
  apply rbind_OK in H as (s1 & H1 & H).
  apply rbind_OK in H as (s2 & H2 & H).
  destruct (load_species_names _ _ _ _ H2) as [E1 E2].
  destruct (load_reactions_loaded _ _ _ H) as [outs Hld].
  rewrite (ld_names _ _ _ _ Hld), (ld_n_species _ _ _ _ Hld), E1. by split.
Qed.

Lemma setup_systems_assigned c s0 :
  mm_layer_names (cfg_mat_man c) = Grid.Material_Name (cfg_table c) ->
  setup c = OK s0 -> systems_assigned s0.
Proof.
  intros Hnames H. unfold setup in H.
  apply rbind_OK in H as (g & Hg & H).
  apply rbind_OK in H as (s1 & H1 & H).
  apply rbind_OK in H as (s2 & H2 & H).
  destruct (setup_grid_inv _ _ Hg) as (ns & Hl & Hns & Etot & Emat & Efirst).
  destruct (init_inv _ _ _ H1) as (I1 & I2 & I3).
  destruct (load_species_inv _ _ _ _ H2) as (Hn0 & Hact & Hnsp & Hcl).
  destruct (load_reactions_loaded _ _ _ H) as [outs Hld].
  rewrite I1, I2, I3, Etot, Emat, Efirst, Hnames in *.
  unfold systems_assigned.
  rewrite (ld_active _ _ _ _ Hld), Hact.
  apply list.Forall_forall. intros i Hi.
  apply indices_where_elem_of in Hi as (k & y & -> & Hk & Hy).
  apply String.eqb_eq in Hy as ->.
  rewrite Z.add_0_l, Nat2Z.id.
  change 0 with (Z.of_nat 0) in Hcl at 1.
  pose proof (lookup_lt_Some _ _ _ Hk) as Hlt.
  rewrite (expand_length ns) in Hlt by (first [done | lia]).
  destruct (cell_loop_spec _ _ _ ns 0%nat 0 0 _ _ _ (eq_sym (eq_sym Hl)) Hns
              (Z.le_refl 0) (Z.le_refl 0)
              (fun j Hj => firsts_total_lookup ns 0 j Hj) Hcl)
    as (Hlen & _ & Hcell).
  destruct (Hcell k Hk) as (cell & Hkey & Hc1).
  { rewrite length_replicate. simpl. lia. }
  simpl in Hkey.
  destruct (loaded_cell_system _ _ _ _ _ _ Hld Hkey Hc1)
    as (sys_ind & rs & Hm & Hrs & _).
  exists (Z.of_nat sys_ind), rs. split; [done|]. split; [lia|].
  by rewrite Nat2Z.id.
Qed.

(** X17: after a setup that returned, for a configuration whose material
    manager carries the layer names of the table, every call of
    [solve_ode_all_nodes] returns, whatever calls came before, provided the
    temperature array has one entry per node and the collaborators keep
    their contract (a solution with a last row of the size of the input
    vector, and one rate per entry of that row). *)
Theorem setup_then_solve_returns (c : configuration) (s0 : reaction_manager) :
  well_shaped_collaborators ->
  mm_layer_names (cfg_mat_man c) = Grid.Material_Name (cfg_table c) ->
  setup c = OK s0 ->
  forall s, later_state s0 s ->
  forall args T_in return_err,
    length T_in = Z.to_nat (n_tot s0) ->
    is_OK (solve_ode_all_nodes s args T_in return_err).
Proof.
  intros Hcol Hnames H s Hl args T_in re HT.
  destruct (later_same_configuration _ _ Hl) as [Hc Hsub].
  destruct Hc as (E1 & _ & E3 & E4 & _ & _ & _ & E8 & E9).
  destruct (setup_species _ _ H) as [_ Hns].
  apply solve_total; [done| | | |].
  - eapply later_well_formed; [|exact Hl]. by eapply setup_well_formed.
  - unfold systems_assigned. rewrite E8, E9.
    apply list.Forall_forall. intros i Hi.
    apply (proj1 (list.Forall_forall _ _) (setup_systems_assigned _ _ Hnames H)).
    by eapply elem_of_sublist.
  - by rewrite E3, E4.
  - by rewrite E1.
Qed.

End SolveReturns.

Section SolveReturnsWitness.
Import Reaction Demo.

Lemma demo_well_shaped : well_shaped_collaborators.
Proof.
  intros rs args v_in. simpl. exists ((fun x => x / 2)%Q <$> v_in).
  by rewrite length_fmap.
Qed.

Lemma setup_then_solve_returns_witness :
  match demo_run 2 with
  | OK (s, T) => is_OK (solve_ode_all_nodes s tt T true)
  | Raise _ => False
  end.
Proof.
  destruct demo_setup as [s0|e] eqn:E0; [|vm_compute in E0; discriminate E0].
  destruct (demo_run 2) as [[s T]|e] eqn:E2; [|vm_compute in E2; discriminate E2].
  apply (setup_then_solve_returns demo_config s0 demo_well_shaped eq_refl E0 s
           (demo_run_later 2 s0 E0 s T E2)).
  vm_compute in E0. injection E0 as <-.
  vm_compute in E2. by injection E2 as _ <-.
Defined.

End SolveReturnsWitness.

(** ** The construction of the reaction manager *)

Section Construction.
Import Reaction.
Context {ET : ExternalTypes} {EO : ExternalOps}.

(** X18: the constructor of the reaction manager.  Without one of the two
    dimensions it raises [KeyError].  With both, it raises a [ValueError]
    exactly when the DSC mode is set and no DSC rate is given, or the
    reaction-only mode is set on a grid that does not have exactly one
    node, the missing DSC rate being reported first.  A manager that it
    returns has the product of the two dimensions as cross-section, the
    nodes of the grid, a DSC rate that is zero unless the DSC mode is set
    (a given rate is then ignored), and no species and no active node
    yet. *)
Theorem init_outcome (g : Grid.grid_manager) (o : other_opts) :
  (Y_Dimension o = None \/ Z_Dimension o = None -> init g o = Raise KeyError) /\
  (forall L_y L_z, Y_Dimension o = Some L_y -> Z_Dimension o = Some L_z ->
     (is_value_error (init g o) <->
        (default 0 (DSC_Mode o) <> 0 /\ DSC_Rate o = None) \/
        (Reaction_Only o = Some true /\ Grid.n_tot g <> 1)) /\
     (default 0 (DSC_Mode o) <> 0 -> DSC_Rate o = None ->
        init g o = Raise (ValueError MissingDSCRate)) /\
     (forall s, init g o = OK s ->
        cross_area s = (L_y * L_z)%Q /\
        n_tot s = Grid.n_tot g /\ mat_nodes s = Grid.mat_nodes g /\
        first_node_list s = Grid.first_node_list g /\
        dsc_mode s = default 0 (DSC_Mode o) /\
        dsc_info s = (dsc_mode s, dsc_rate s) /\
        (dsc_mode s = 0 -> dsc_rate s = 0%Q) /\
        (dsc_mode s <> 0 -> DSC_Rate o = Some (dsc_rate s)) /\
        (rxn_only s = true <-> Reaction_Only o = Some true) /\
        (rxn_only s = true -> n_tot s = 1) /\
        small_number s = small /\
        species_density s = ∅ /\ species_name_list s = [] /\
        active_nodes s = [])).
Proof.
  split.
  - unfold init. intros [E|E].
    + by rewrite E.
    + rewrite E. by destruct (Y_Dimension o).
  - intros L_y L_z Hy Hz. unfold init. rewrite Hy, Hz. cbn [or_raise rbind].
    destruct (default 0 (DSC_Mode o) =? 0) eqn:Em;
      [apply Z.eqb_eq in Em | apply Z.eqb_neq in Em];
      destruct (DSC_Rate o) as [r|] eqn:Edr;
      destruct (Reaction_Only o) as [[|]|] eqn:Er;
      destruct (Grid.n_tot g =? 1) eqn:En;
      (apply Z.eqb_eq in En || apply Z.eqb_neq in En);
      cbn [rbind];
      (split; [split|split]);
      try (intros [e He]; discriminate He);
      try (intros [[? ?]|[? ?]]; congruence);
      try (intros _; by eexists);
      try (intros _; left; by split);
      try (intros _; right; by split);
      try done;
      try (intros s [= <-]; cbn; repeat split; try done; congruence).
Qed.

(** The initial density of one species, node by node. *)
Lemma initial_density_returns n mat_name mat_nodes y rho a :
  initial_density n mat_name mat_nodes y rho = OK a ->
  0 <= n /\ length a = Z.to_nat n /\
  forall k m, (k < Z.to_nat n)%nat -> mat_nodes !! k = Some m ->
    a !! k = Some (if String.eqb mat_name m then (y * rho)%Q else 0%Q).
Proof.
  intros H. unfold initial_density in H.
  apply rbind_OK in H as (z & Hz & H).
  unfold np_zeros in Hz. destruct (n <? 0) eqn:En; [done|].
  apply Z.ltb_ge in En. injection Hz as <-.
  split; [done|].
  set (N := Z.to_nat n) in *. replace n with (Z.of_nat N) in H by lia.
  pose (P := fun (k : nat) (a : list Q) =>
    length a = N /\
    forall j m, (j < N)%nat -> mat_nodes !! j = Some m ->
      a !! j = Some (if decide (j < k)%nat
                     then (if String.eqb mat_name m then (y * rho)%Q else 0%Q)
                     else 0%Q)).
  assert (HP : P N a).
  { eapply (foldM_range_OK_inv _ P); [| |exact H].
    - split; [by rewrite length_replicate|]. intros j m Hj _.
      rewrite lookup_replicate_2 by (fold N; lia).
      destruct (decide (j < 0)%nat); [lia|done].
    - intros k a0 a1 Hk [Hl Hlk] Hb.
      apply rbind_OK in Hb as (m & Hm & Hb).
      apply getitem_nonneg in Hm; [|lia]. rewrite Nat2Z.id in Hm.
      destruct (String.eqb mat_name m) eqn:E.
      + apply setitem_nonneg in Hb as [-> _]; [|lia]. rewrite Nat2Z.id.
        split; [by rewrite length_insert|]. intros j m' Hj Hm'.
        destruct (decide (j = k)) as [->|Hne].
        * rewrite list_lookup_insert_eq by lia.
          rewrite Hm in Hm'. injection Hm' as <-. rewrite E.
          by destruct (decide (k < S k)%nat); [|lia].
        * rewrite list_lookup_insert_ne by done. rewrite (Hlk j m') by done.
          destruct (decide (j < k)%nat), (decide (j < S k)%nat);
            first [done | lia].
      + injection Hb as <-. split; [done|]. intros j m' Hj Hm'.
        rewrite (Hlk j m') by done.
        destruct (decide (j = k)) as [->|Hne].
        * rewrite Hm in Hm'. injection Hm' as <-. rewrite E.
          by destruct (decide (k < k)%nat), (decide (k < S k)%nat).
        * destruct (decide (j < k)%nat), (decide (j < S k)%nat);
            first [done | lia]. }
  destruct HP as [Hl Hlk]. split; [done|].
  intros k m Hk Hm. rewrite (Hlk k m) by done.
  by destruct (decide (k < N)%nat).
Qed.

(** The arrays that the loop over the species stores, species by
    species. *)
Lemma species_loop n mat_name mat_nodes rho names :
  forall (ys : list float) (d0 r0 d r : gmap string (list Q)),
  NoDup names ->
  foldM (fun '(dens, rate) '(name, y) =>
           let* a := initial_density n mat_name mat_nodes (float_Q y) rho in
           let* z := np_zeros n in
           OK (<[name := a]> dens, <[name := z]> rate))
        (d0, r0) (zip names ys) = OK (d, r) ->
  (forall i name y, names !! i = Some name -> ys !! i = Some y ->
     exists a,
       initial_density n mat_name mat_nodes (float_Q y) rho = OK a /\
       d !! name = Some a /\
       r !! name = Some (replicate (Z.to_nat n) 0%Q)) /\
  (forall name, name ∉ names ->
     d !! name = d0 !! name /\ r !! name = r0 !! name).
Proof.
  induction names as [|name names IH]; intros ys d0 r0 d r Hnd H.
  - simpl in H. injection H as <- <-. split; [done|]. done.
  - destruct ys as [|y ys].
    { simpl in H. injection H as <- <-. split; [done|]. done. }
    apply NoDup_cons in Hnd as [Hnew Hnd]. simpl in H.
    apply rbind_OK in H as ([d1 r1] & Hb & H).
    apply rbind_OK in Hb as (a & Ha & Hb).
    apply rbind_OK in Hb as (z & Hz & Hb). injection Hb as <- <-.
    destruct (IH _ _ _ _ _ Hnd H) as [Hin Hout].
    assert (Hz' : z = replicate (Z.to_nat n) 0%Q).
    { unfold np_zeros in Hz. destruct (n <? 0); [done|]. by injection Hz as <-. }
    split.
    + intros [|i] name' y' Hi Hy; simpl in Hi, Hy.
      * injection Hi as <-. injection Hy as <-. exists a.
        split; [done|].
        destruct (Hout name Hnew) as [-> ->].
        rewrite !lookup_insert_eq. by rewrite Hz'.
      * by apply (Hin i name' y').
    + intros name' Hn. apply not_elem_of_cons in Hn as [Hne Hn].
      destruct (Hout name' Hn) as [-> ->].
      by rewrite !lookup_insert_ne.
Qed.

(** X19: the state that [load_species] leaves, on a manager constructed on
    a grid, for distinct species names.  The material is the one that the
    material manager returns for the name, and [rho_cp] is its density
    times its heat capacity.  Species [i] has the density
    [Initial Mass Fraction[i] * rho] at every node of that material and zero
    at every other node; all species rates, the temperature rate and the
    heat release rate are zero.  The check of the mass fractions has
    passed: the distance from one of their sum, added up from the left in
    binary64, is not greater than [1e-15]. *)
Theorem load_species_initial_state (t : Grid.table) (g : Grid.grid_manager)
  (o : other_opts) (s1 : reaction_manager) (sd : spec_dict) (mm : mat_man)
  (s2 : reaction_manager) :
  Grid.setup_grid t = OK g -> init g o = OK s1 ->
  load_species s1 sd mm = OK s2 -> NoDup (Names sd) ->
  exists mat,
    get_material mm (Material_Name sd) = OK mat /\
    mat_name s2 = Material_Name sd /\
    rho s2 = mat_rho mat /\ cp s2 = mat_cp mat /\
    rho_cp s2 = (mat_rho mat * mat_cp mat)%Q /\
    species_name_list s2 = Names sd /\
    length (Initial_Mass_Fraction sd) = length (Names sd) /\
    (forall i name y, Names sd !! i = Some name ->
       Initial_Mass_Fraction sd !! i = Some y ->
       forall k m, Grid.mat_nodes g !! k = Some m ->
         entry (species_density s2) name k =
           Some (if String.eqb (Material_Name sd) m
                 then (float_Q y * mat_rho mat)%Q else 0%Q) /\
         entry (species_rate s2) name k = Some 0%Q) /\
    temperature_rate s2 = replicate (Z.to_nat (Grid.n_tot g)) 0%Q /\
    heat_release_rate s2 = replicate (Z.to_nat (Grid.n_tot g)) 0%Q /\
    float_gt (PrimFloat.abs (1 - sum_from 0 (Initial_Mass_Fraction sd))%float)
             small = false.
Proof.
  intros Hg H1 H Hnd.
  destruct (setup_grid_returns _ _ Hg)
    as (ns & ds & Hl & Hl' & Hne & Hcnt & _ & _ & Etot & Emat & _).
  assert (Hn1 : Forall (fun n => 1 <= n) ns).
  { destruct Hcnt as [[_ HF]|HF]; [done|].
    eapply Forall_impl; [exact HF|]. simpl. intros; lia. }
  destruct (init_inv _ _ _ H1) as (I1 & I2 & _).
  assert (Hsmall : small_number s1 = small).
  { unfold init in H1.
    apply rbind_OK in H1 as (Ly & _ & H1). apply rbind_OK in H1 as (Lz & _ & H1).
    apply rbind_OK in H1 as (r & _ & H1). apply rbind_OK in H1 as (ro & _ & H1).
    by injection H1 as <-. }
  unfold load_species in H.
  destruct (negb _) eqn:Elen; [done|].
  apply negb_false_iff, Nat.eqb_eq in Elen.
  destruct (float_gt _ _) eqn:Esum; [done|].
  rewrite Hsmall in Esum.
  apply rbind_OK in H as (my_mat & Hmat & H).
  apply rbind_OK in H as ([dens rate] & Hfold & H).
  apply rbind_OK in H as (hrr & Hhrr & H).
  apply rbind_OK in H as (tr & Htr & H).
  apply rbind_OK in H as (key0 & Hkey0 & H).
  apply rbind_OK in H as ([nc key] & Hcl & H). injection H as <-.
  cbn [mat_name rho cp rho_cp species_name_list species_density species_rate
       temperature_rate heat_release_rate].
  exists my_mat. do 7 (split; [done|]).
  split; [|split; [|split]].
  - intros i name y Hi Hy k m Hm.
    destruct (species_loop _ _ _ _ _ _ _ _ _ _ Hnd Hfold) as [Hin _].
    destruct (Hin i name y Hi Hy) as (a & Ha & Hd & Hr).
    apply initial_density_returns in Ha as (Hn0 & Hla & Hlk).
    pose proof (lookup_lt_Some _ _ _ Hm) as Hk.
    rewrite Emat, (expand_length ns) in Hk by (first [done | lia]).
    unfold entry. rewrite Hd, Hr. simpl. split.
    + apply Hlk; [rewrite I1, Etot; lia | by rewrite I2].
    + apply lookup_replicate_2. rewrite I1, Etot. lia.
  - unfold np_zeros in Htr. destruct (n_tot s1 <? 0); [done|].
    injection Htr as <-. by rewrite I1.
  - unfold np_zeros in Hhrr. destruct (n_tot s1 <? 0); [done|].
    injection Hhrr as <-. by rewrite I1.
  - done.
Qed.

Lemma count_layers_cons mat_name name names :
  count_layers mat_name (name :: names) =
  (if String.eqb mat_name name then 1 else 0) + count_layers mat_name names.
Proof.
  unfold count_layers. simpl. destruct (String.eqb mat_name name); simpl; lia.
Qed.

Lemma count_layers_nonneg mat_name names : 0 <= count_layers mat_name names.
Proof. unfold count_layers. lia. Qed.

(** The cell numbers that the loop over the layers writes, layer by
    layer. *)
Lemma cell_loop_exact mat_name fnl names :
  forall ns (k : nat) start n_cells key n_cells' key',
  length ns = length names -> Forall (fun n => 1 <= n) ns -> 0 <= start ->
  (forall j, (j <= length ns)%nat ->
             fnl !! (k + j)%nat = Some (start + Grid.total (take j ns))) ->
  (Z.to_nat (start + Grid.total ns) <= length key)%nat ->
  cell_loop (Z.of_nat k) names mat_name fnl n_cells key = OK (n_cells', key') ->
  n_cells' = n_cells + count_layers mat_name names /\
  length key' = length key /\
  (forall p, (p < Z.to_nat start)%nat \/
             (Z.to_nat (start + Grid.total ns) <= p)%nat ->
             key' !! p = key !! p) /\
  (forall j f l name,
     Grid.firsts start ns !! j = Some f -> Grid.mints start ns !! j = Some l ->
     names !! j = Some name ->
     forall p, f <= p <= l ->
       key' !! Z.to_nat p =
       if String.eqb mat_name name
       then Some (n_cells + count_layers mat_name (take (S j) names))
       else key !! Z.to_nat p).
Proof.
  induction names as [|name names IH];
    intros ns k start n_cells key n_cells' key' Hl Hns Hs Hf Hkey H.
  - destruct ns; [|done]. simpl in H. injection H as <- <-.
    split; [unfold count_layers; simpl; lia|]. split; [done|].
    split; [done|]. intros j f l name Hfj. done.
  - destruct ns as [|n ns]; [done|].
    apply Forall_cons in Hns as [Hn Hns]. simpl in H.
    pose proof (total_nonneg ns Hns) as Htot.
    assert (Hf' : forall j, (j <= length ns)%nat ->
              fnl !! (S k + j)%nat = Some (start + n + Grid.total (take j ns))).
    { intros j Hj. replace (S k + j)%nat with (k + S j)%nat by lia.
      rewrite Hf by (simpl; lia). simpl. f_equal. lia. }
    replace (Z.of_nat k + 1) with (Z.of_nat (S k)) in H by lia.
    change (Grid.total (n :: ns)) with (n + Grid.total ns) in Hkey.
    assert (Hslice : forall (v : Z) (p : nat),
              slice_fill key start (start + n) v !! p =
              if (start <=? Z.of_nat p) && (Z.of_nat p <? start + n)
              then (fun _ => v) <$> key !! p else key !! p).
    { intros v p. destruct (key !! p) as [x|] eqn:Ex.
      - rewrite (slice_fill_lookup _ _ _ _ _ x) by (first [lia | done]).
        by destruct ((start <=? Z.of_nat p) && (Z.of_nat p <? start + n)).
      - rewrite (proj2 (lookup_ge_None _ _)).
        + by destruct ((start <=? Z.of_nat p) && (Z.of_nat p <? start + n)).
        + rewrite slice_fill_length. by apply lookup_ge_None. }
    rewrite count_layers_cons.
    destruct (String.eqb mat_name name) eqn:E.
    + pose proof (Hf 0%nat ltac:(lia)) as Ha.
      pose proof (Hf 1%nat ltac:(simpl; lia)) as Hb.
      rewrite Nat.add_0_r in Ha. simpl in Ha, Hb.
      rewrite Z.add_0_r in Ha, Hb.
      replace (k + 1)%nat with (S k) in Hb by lia.
      rewrite (getitem_nat _ _ _ Ha) in H. cbn [rbind] in H.
      rewrite (getitem_nat _ _ _ Hb) in H. cbn [rbind] in H.
      assert (Hkey' : (Z.to_nat (start + n + Grid.total ns)%Z
                       <= length (slice_fill key start (start + n)%Z
                                    (n_cells + 1)%Z))%nat)
        by (rewrite slice_fill_length; lia).
      destruct (IH ns (S k) (start + n) (n_cells + 1) _ _ _
                  ltac:(simpl in Hl; lia) Hns ltac:(lia) Hf' Hkey' H)
        as (Hnc & Hlen & Hout & Hlay).
      rewrite slice_fill_length in Hlen.
      split; [lia|]. split; [done|]. split.
      * intros p Hp. rewrite Hout by (simpl in Hp; lia). rewrite Hslice.
        simpl in Hp.
        replace ((start <=? Z.of_nat p) && (Z.of_nat p <? start + n))
          with false; [done|].
        symmetry. apply andb_false_iff. rewrite Z.leb_gt, Z.ltb_ge. lia.
      * intros [|j] f l name' Hfj Hmj Hnj p Hp; simpl in Hfj, Hmj, Hnj.
        -- injection Hfj as <-. injection Hmj as <-. injection Hnj as <-.
           rewrite E. rewrite Hout by lia. rewrite Hslice.
           rewrite Z2Nat.id by lia.
           rewrite (proj2 (Z.leb_le _ _)), (proj2 (Z.ltb_lt _ _)) by lia.
           simpl andb. cbv iota.
           destruct (lookup_lt_is_Some_2 key (Z.to_nat p) ltac:(lia)) as [x ->].
           simpl. f_equal. rewrite take_0. unfold count_layers. simpl.
           rewrite E. simpl. lia.
        -- pose proof (firsts_ge _ _ _ _ Hns Hfj) as Hge.
           rewrite (Hlay j f l name' Hfj Hmj Hnj p Hp).
           change (take (S (S j)) (name :: names))
             with (name :: take (S j) names).
           rewrite count_layers_cons, E.
           destruct (String.eqb mat_name name'); [f_equal; lia|].
           rewrite Hslice. rewrite Z2Nat.id by lia.
           replace ((start <=? p) && (p <? start + n)) with false; [done|].
           symmetry. apply andb_false_iff. rewrite Z.leb_gt, Z.ltb_ge. lia.
    + assert (Hkey' : (Z.to_nat (start + n + Grid.total ns)%Z <= length key)%nat)
        by lia.
      destruct (IH ns (S k) (start + n) n_cells _ _ _
                  ltac:(simpl in Hl; lia) Hns ltac:(lia) Hf' Hkey' H)
        as (Hnc & Hlen & Hout & Hlay).
      split; [lia|]. split; [done|]. split.
      * intros p Hp. apply Hout. simpl in Hp. lia.
      * intros [|j] f l name' Hfj Hmj Hnj p Hp; simpl in Hfj, Hmj, Hnj.
        -- injection Hfj as <-. injection Hmj as <-. injection Hnj as <-.
           rewrite E. apply Hout. lia.
        -- rewrite (Hlay j f l name' Hfj Hmj Hnj p Hp).
           change (take (S (S j)) (name :: names))
             with (name :: take (S j) names).
           rewrite count_layers_cons, E.
           destruct (String.eqb mat_name name'); [f_equal; lia | done].
Qed.

Lemma indices_where_elem_of_2 {A} (p : A -> bool) (l : list A) :
  forall start k y, l !! k = Some y -> p y = true ->
  start + Z.of_nat k ∈ indices_where p start l.
Proof.
  induction l as [|x l IH]; intros start k y Hk Hp; [done|].
  cbn [indices_where]. destruct k as [|k].
  - injection Hk as ->. rewrite Hp. replace (start + Z.of_nat 0) with start by lia.
    by left.
  - replace (start + Z.of_nat (S k)) with ((start + 1) + Z.of_nat k) by lia.
    pose proof (IH (start + 1) k y Hk Hp) as Hin.
    destruct (p x); [by right | done].
Qed.

Lemma count_layers_take_pos mat_name names j :
  names !! j = Some mat_name -> 1 <= count_layers mat_name (take (S j) names).
Proof.
  revert j. induction names as [|name names IH]; intros j Hj; [done|].
  change (take (S j) (name :: names)) with (name :: take j names).
  rewrite count_layers_cons. destruct j as [|j]; simpl in Hj.
  - injection Hj as ->. rewrite String.eqb_refl.
    pose proof (count_layers_nonneg mat_name (take 0 names)). lia.
  - specialize (IH j Hj). destruct (String.eqb mat_name name); lia.
Qed.

Lemma mints_lt_total ns : forall start j l,
  Forall (fun n => 1 <= n) ns -> Grid.mints start ns !! j = Some l ->
  l <= start + Grid.total ns - 1.
Proof.
  induction ns as [|n ns IH]; intros start j l Hn Hm; [done|].
  apply Forall_cons in Hn as [Hn1 Hn].
  pose proof (total_nonneg ns Hn) as Htot.
  change (Grid.total (n :: ns)) with (n + Grid.total ns).
  destruct j as [|j]; simpl in Hm.
  - injection Hm as <-. lia.
  - specialize (IH _ _ _ Hn Hm). lia.
Qed.

(** X20: the cells that [load_species] numbers, on a manager constructed on
    a grid, when the material manager carries the layer names of the table.
    The number of cells is the number of layers of the reacting material;
    every node of the [j]-th layer carries, as its cell number, the number
    of layers of the reacting material up to and including layer [j] when
    the layer is of that material, and zero otherwise; and the active nodes
    are exactly the nodes with a cell number of at least one. *)
Theorem load_species_cells (t : Grid.table) (g : Grid.grid_manager)
  (o : other_opts) (s1 : reaction_manager) (sd : spec_dict) (mm : mat_man)
  (s2 : reaction_manager) :
  Grid.setup_grid t = OK g -> init g o = OK s1 ->
  load_species s1 sd mm = OK s2 ->
  mm_layer_names mm = Grid.Material_Name t ->
  let mat := Material_Name sd in
  n_cells s2 = count_layers mat (Grid.Material_Name t) /\
  length (cell_node_key s2) = Z.to_nat (Grid.n_tot g) /\
  (forall j f l name,
     Grid.first_node_list g !! j = Some f -> Grid.mint_list g !! j = Some l ->
     Grid.Material_Name t !! j = Some name ->
     forall p, f <= p <= l ->
       cell_node_key s2 !! Z.to_nat p =
       Some (if String.eqb mat name
             then count_layers mat (take (S j) (Grid.Material_Name t))
             else 0)) /\
  (forall p, p ∈ active_nodes s2 <->
     0 <= p /\ exists cell, cell_node_key s2 !! Z.to_nat p = Some cell /\
                            1 <= cell).
Proof.
  intros Hg H1 H Hnames mat. subst mat.
  destruct (setup_grid_returns _ _ Hg)
    as (ns & ds & Hl & Hl' & Hne & Hcnt & _ & _ & Etot & Emat & Efirst & Emint & _).
  assert (Hn1 : Forall (fun n => 1 <= n) ns).
  { destruct Hcnt as [[_ HF]|HF]; [done|].
    eapply Forall_impl; [exact HF|]. simpl. intros; lia. }
  pose proof (total_nonneg ns Hn1) as Htot.
  destruct (init_inv _ _ _ H1) as (I1 & I2 & I3).
  destruct (load_species_inv _ _ _ _ H) as (Hn0 & Hact & _ & Hcl).
  rewrite I1, I3, Etot, Efirst, Hnames in Hcl. rewrite I2, Emat in Hact.
  change 0 with (Z.of_nat 0) in Hcl at 1.
  assert (Hkl : (Z.to_nat (0 + Grid.total ns)%Z
                 <= length (replicate (Z.to_nat (Grid.total ns)) 0%Z))%nat)
    by (rewrite length_replicate; lia).
  destruct (cell_loop_exact _ _ _ ns 0%nat 0 0 _ _ _ Hl Hn1 (Z.le_refl 0)
              (fun j Hj => firsts_total_lookup ns 0 j Hj) Hkl Hcl)
    as (Hnc & Hlen & _ & Hlay).
  rewrite length_replicate in Hlen.
  rewrite Etot, Efirst, Emint.
  assert (Hkey : forall j f l name,
            Grid.firsts 0 ns !! j = Some f -> Grid.mints 0 ns !! j = Some l ->
            Grid.Material_Name t !! j = Some name ->
            forall p, f <= p <= l ->
              cell_node_key s2 !! Z.to_nat p =
              Some (if String.eqb (Material_Name sd) name
                    then count_layers (Material_Name sd) (take (S j) (Grid.Material_Name t))
                    else 0)).
  { intros j f l name Hf Hm Hname p Hp.
    rewrite (Hlay j f l name Hf Hm Hname p Hp).
    destruct (String.eqb (Material_Name sd) name); [f_equal; lia|].
    apply lookup_replicate_2.
    pose proof (firsts_ge _ _ _ _ Hn1 Hf) as Hge.
    pose proof (mints_lt_total ns 0 j l Hn1 Hm) as Hlt.
    lia. }
  split; [lia|]. split; [done|]. split; [exact Hkey|].
  intros p. rewrite Hact. split.
  - intros Hp. apply indices_where_elem_of in Hp as (k & y & -> & Hk & Hy).
    apply String.eqb_eq in Hy as ->.
    split; [lia|]. rewrite Z.add_0_l.
    pose proof (lookup_lt_Some _ _ _ Hk) as Hlt.
    rewrite (expand_length ns) in Hlt by (first [done | lia]).
    destruct (node_in_layer ns 0 (Z.of_nat k) Hn1 ltac:(lia))
      as (j & f & l & Hf & Hm & Hfl).
    destruct (lookup_lt_is_Some_2 (Grid.Material_Name t) j) as [name Hname].
    { apply lookup_lt_Some in Hf. rewrite firsts_length in Hf. lia. }
    pose proof (expand_lookup_layer ns (Grid.Material_Name t) 0 j f l name
                  (Z.of_nat k) Hn1 ltac:(lia) ltac:(lia) Hf Hm Hname Hfl) as He.
    rewrite Z.sub_0_r, Nat2Z.id, Hk in He. injection He as <-.
    rewrite (Hkey j f l _ Hf Hm Hname _ Hfl).
    rewrite String.eqb_refl. eexists. split; [done|].
    by apply count_layers_take_pos.
  - intros (Hp0 & cell & Hc & Hc1).
    pose proof (lookup_lt_Some _ _ _ Hc) as Hlt. rewrite Hlen in Hlt.
    destruct (node_in_layer ns 0 p Hn1 ltac:(lia))
      as (j & f & l & Hf & Hm & Hfl).
    destruct (lookup_lt_is_Some_2 (Grid.Material_Name t) j) as [name Hname].
    { apply lookup_lt_Some in Hf. rewrite firsts_length in Hf. lia. }
    rewrite (Hkey j f l _ Hf Hm Hname _ Hfl) in Hc.
    destruct (String.eqb (Material_Name sd) name) eqn:E; [|injection Hc as <-; lia].
    apply String.eqb_eq in E. subst name.
    pose proof (expand_lookup_layer ns (Grid.Material_Name t) 0 j f l (Material_Name sd)
                  p Hn1 ltac:(lia) ltac:(lia) Hf Hm Hname Hfl) as He.
    rewrite Z.sub_0_r in He.
    replace p with (0 + Z.of_nat (Z.to_nat p)) by lia.
    eapply indices_where_elem_of_2; [exact He|]. apply String.eqb_refl.
Qed.

End Construction.

Section ConstructionWitnesses.
Import Reaction Demo.

Lemma load_species_initial_state_witness :
  exists s2, demo_species_loaded = OK s2 /\
             (rho_cp s2 == 6)%Q /\ species_name_list s2 = ["R"%string].
Proof.
  destruct (Grid.setup_grid demo_table) as [g|e] eqn:Eg;
    [|vm_compute in Eg; discriminate Eg].
  destruct (init g demo_opts) as [s1|e] eqn:E1;
    [|vm_compute in Eg; injection Eg as <-; vm_compute in E1; discriminate E1].
  destruct (load_species s1 demo_species demo_mat_man) as [s2|e] eqn:E2;
    [|vm_compute in Eg; injection Eg as <-; vm_compute in E1;
      injection E1 as <-; vm_compute in E2; discriminate E2].
  destruct (load_species_initial_state demo_table g demo_opts s1 demo_species
              demo_mat_man s2 Eg E1 E2 (NoDup_singleton "R"%string))
    as (mat & Hm & _ & _ & _ & Hrc & Hn & _).
  exists s2. split.
  { unfold demo_species_loaded. rewrite Eg. cbn [rbind]. rewrite E1.
    cbn [rbind]. exact E2. }
  split; [|exact Hn].
  rewrite Hrc. simpl in Hm. injection Hm as <-. reflexivity.
Defined.

Lemma load_species_cells_witness :
  exists s2, demo_species_loaded = OK s2 /\ n_cells s2 = 2 /\
             cell_node_key s2 !! 4%nat = Some 2 /\
             cell_node_key s2 !! 2%nat = Some 0.
Proof.
  destruct (Grid.setup_grid demo_table) as [g|e] eqn:Eg;
    [|vm_compute in Eg; discriminate Eg].
  destruct (init g demo_opts) as [s1|e] eqn:E1;
    [|vm_compute in Eg; injection Eg as <-; vm_compute in E1; discriminate E1].
  destruct (load_species s1 demo_species demo_mat_man) as [s2|e] eqn:E2;
    [|vm_compute in Eg; injection Eg as <-; vm_compute in E1;
      injection E1 as <-; vm_compute in E2; discriminate E2].
  destruct (load_species_cells demo_table g demo_opts s1 demo_species
              demo_mat_man s2 Eg E1 E2 eq_refl) as (Hn & _ & Hkey & _).
  exists s2. split.
  { unfold demo_species_loaded. rewrite Eg. cbn [rbind]. rewrite E1.
    cbn [rbind]. exact E2. }
  split; [exact Hn|].
  assert (Hf : Grid.first_node_list g = [0; 2; 4] /\
               Grid.mint_list g = [1; 3; 5]).
  { vm_compute in Eg. injection Eg as <-. by split. }
  destruct Hf as [Hf Hm].
  split.
  - change 4%nat with (Z.to_nat 4).
    apply (Hkey 2%nat 4 5 "A"%string); [by rewrite Hf|by rewrite Hm|done|lia].
  - change 2%nat with (Z.to_nat 2).
    apply (Hkey 1%nat 2 3 "B"%string); [by rewrite Hf|by rewrite Hm|done|lia].
Defined.

End ConstructionWitnesses.

(** ** What [load_species] raises *)

Section LoadSpeciesOutcome.
Import Reaction.
Context {ET : ExternalTypes} {EO : ExternalOps}.

Lemma getitem_out_of_range {A} (a : list A) (k : nat) :
  (length a <= k)%nat -> getitem a (Z.of_nat k) = Raise IndexError.
Proof.
  intros H. unfold getitem, py_index.
  rewrite (proj2 (Z.ltb_ge (Z.of_nat k) (Z.of_nat (length a)))) by lia.
  rewrite andb_false_r.
  rewrite (proj2 (Z.ltb_ge (Z.of_nat k) 0)) by lia.
  by rewrite andb_false_r.
Qed.

Lemma initial_density_total n mat_name (nodes : list string) y rho :
  0 <= n -> (Z.to_nat n <= length nodes)%nat ->
  is_OK (initial_density n mat_name nodes y rho).
Proof.
  intros Hn Hl. unfold initial_density, np_zeros.
  rewrite (proj2 (Z.ltb_ge n 0)) by lia. cbn [rbind].
  set (N := Z.to_nat n) in *.
  replace (range n) with (range (Z.of_nat N)) by (f_equal; lia).
  destruct (foldM_range_inv
              (fun a j =>
                 let* m := getitem nodes j in
                 if String.eqb mat_name m then setitem a j (y * rho)%Q else OK a)
              (fun _ a => length a = N) N (replicate N 0%Q))
    as (a & Ha & _).
  - by rewrite length_replicate.
  - intros k a Hk Ha.
    destruct (lookup_lt_is_Some_2 nodes k) as [m Hm]; [lia|].
    rewrite (getitem_nat _ _ _ Hm). cbn [rbind].
    destruct (String.eqb mat_name m); [|by eexists].
    rewrite setitem_nat by lia. eexists. split; [done|].
    by rewrite length_insert.
  - by exists a.
Qed.

Lemma species_loop_total n mat_name (nodes : list string) rho
  (l : list (string * float)) (d r : gmap string (list Q)) :
  0 <= n -> (Z.to_nat n <= length nodes)%nat ->
  is_OK (foldM (fun '(dens, rate) '(name, y) =>
                  let* a := initial_density n mat_name nodes (float_Q y) rho in
                  let* z := np_zeros n in
                  OK (<[name := a]> dens, <[name := z]> rate))
               (d, r) l).
Proof.
  intros Hn Hl.
  unfold is_OK.
  match goal with
  | |- exists a, foldM ?body ?s0 ?l0 = OK a =>
      assert (Hstep : forall s a, a ∈ l0 -> True ->
                exists s', body s a = OK s' /\ True);
      [|destruct (foldM_total (fun _ => True) body l0 Hstep s0 I)
          as (s' & Hs & _); by exists s']
  end.
  intros [dens rate] [name y] _ _.
  destruct (initial_density_total n mat_name nodes (float_Q y) rho Hn Hl)
    as [a ->].
  cbn [rbind]. unfold np_zeros. rewrite (proj2 (Z.ltb_ge n 0)) by lia.
  cbn [rbind]. by eexists.
Qed.

Lemma cell_loop_total mat_name (fnl : list Z) names :
  forall (k : nat) n_cells key,
  (forall j, names !! j = Some mat_name -> (k + j + 1 < length fnl)%nat) ->
  is_OK (cell_loop (Z.of_nat k) names mat_name fnl n_cells key).
Proof.
  induction names as [|name names IH]; intros k n_cells key Hin; simpl.
  - by eexists.
  - replace (Z.of_nat k + 1) with (Z.of_nat (S k)) by lia.
    assert (Hin' : forall j, names !! j = Some mat_name ->
                     (S k + j + 1 < length fnl)%nat).
    { intros j Hj. specialize (Hin (S j) Hj). lia. }
    destruct (String.eqb mat_name name) eqn:E; [|by apply IH].
    apply String.eqb_eq in E. subst name.
    specialize (Hin 0%nat eq_refl).
    destruct (lookup_lt_is_Some_2 fnl k) as [a Ha]; [lia|].
    destruct (lookup_lt_is_Some_2 fnl (S k)) as [b Hb]; [lia|].
    rewrite (getitem_nat _ _ _ Ha). cbn [rbind].
    rewrite (getitem_nat _ _ _ Hb). cbn [rbind].
    by apply IH.
Qed.

Lemma cell_loop_raises mat_name (fnl : list Z) names :
  forall (k : nat) n_cells key j,
  names !! j = Some mat_name -> (length fnl <= k + j + 1)%nat ->
  cell_loop (Z.of_nat k) names mat_name fnl n_cells key = Raise IndexError.
Proof.
  induction names as [|name names IH]; intros k n_cells key j Hj Hlen; [done|].
  simpl. replace (Z.of_nat k + 1) with (Z.of_nat (S k)) by lia.
  destruct (String.eqb mat_name name) eqn:E.
  - destruct (decide (length fnl <= k)%nat) as [Hk|Hk].
    { by rewrite getitem_out_of_range. }
    destruct (lookup_lt_is_Some_2 fnl k) as [a Ha]; [lia|].
    rewrite (getitem_nat _ _ _ Ha). cbn [rbind].
    destruct (decide (length fnl <= S k)%nat) as [Hk1|Hk1].
    { by rewrite getitem_out_of_range. }
    destruct (lookup_lt_is_Some_2 fnl (S k)) as [b Hb]; [lia|].
    rewrite (getitem_nat _ _ _ Hb). cbn [rbind].
    destruct j as [|j]; [lia|]. simpl in Hj.
    apply (IH (S k) _ _ j Hj). lia.
  - destruct j as [|j].
    + simpl in Hj. injection Hj as ->. by rewrite String.eqb_refl in E.
    + simpl in Hj. apply (IH (S k) _ _ j Hj). lia.
Qed.

(** X21: what [load_species] does on a manager constructed on a grid.  It
    raises a [ValueError] when the numbers of mass fractions and of names
    differ, and, the numbers being equal, when the distance from one of the
    sum of the mass fractions, added up from the left in binary64, is
    greater than [1e-15].  Past these two checks an error
    of the material manager is passed on; with a material, the call returns
    when every layer of the material manager that carries the name of the
    reacting material is one of the layers of the grid, and raises
    [IndexError] when one of them lies beyond the layers of the grid.
    Layers beyond the grid that carry another name are accepted. *)
Theorem load_species_outcome (t : Grid.table) (g : Grid.grid_manager)
  (o : other_opts) (s1 : reaction_manager) (sd : spec_dict) (mm : mat_man) :
  Grid.setup_grid t = OK g -> init g o = OK s1 ->
  (length (Initial_Mass_Fraction sd) <> length (Names sd) ->
     load_species s1 sd mm = Raise (ValueError SpeciesCountMismatch)) /\
  (length (Initial_Mass_Fraction sd) = length (Names sd) ->
   float_gt (PrimFloat.abs (1 - sum_from 0 (Initial_Mass_Fraction sd))%float)
            small = true ->
     load_species s1 sd mm = Raise (ValueError MassFractionsNotOne)) /\
  (length (Initial_Mass_Fraction sd) = length (Names sd) ->
   float_gt (PrimFloat.abs (1 - sum_from 0 (Initial_Mass_Fraction sd))%float)
            small = false ->
     (forall e, get_material mm (Material_Name sd) = Raise e ->
        load_species s1 sd mm = Raise e) /\
     (forall mat, get_material mm (Material_Name sd) = OK mat ->
        ((forall j, mm_layer_names mm !! j = Some (Material_Name sd) ->
                    (j < length (Grid.Material_Name t))%nat) ->
         is_OK (load_species s1 sd mm)) /\
        ((exists j, mm_layer_names mm !! j = Some (Material_Name sd) /\
                    (length (Grid.Material_Name t) <= j)%nat) ->
         load_species s1 sd mm = Raise IndexError))).
Proof.
  intros Hg H1.
  destruct (setup_grid_returns _ _ Hg)
    as (ns & ds & Hl & Hl' & Hne & Hcnt & _ & _ & Etot & Emat & Efirst & _).
  assert (Hn1 : Forall (fun n => 1 <= n) ns).
  { destruct Hcnt as [[_ HF]|HF]; [done|].
    eapply Forall_impl; [exact HF|]. simpl. intros; lia. }
  pose proof (total_nonneg ns Hn1) as Htot.
  destruct (init_inv _ _ _ H1) as (I1 & I2 & I3).
  assert (Hsmall : small_number s1 = small).
  { unfold init in H1.
    apply rbind_OK in H1 as (Ly & _ & H1). apply rbind_OK in H1 as (Lz & _ & H1).
    apply rbind_OK in H1 as (r & _ & H1). apply rbind_OK in H1 as (ro & _ & H1).
    by injection H1 as <-. }
  assert (Hnodes : (Z.to_nat (n_tot s1) <= length (mat_nodes s1))%nat).
  { rewrite I1, I2, Etot, Emat, (expand_length ns) by (first [done | lia]).
    lia. }
  assert (Hlen : length (first_node_list s1 ++ [n_tot s1])
                 = S (length (Grid.Material_Name t))).
  { rewrite length_app, I3, Efirst, firsts_length, Hl. simpl. lia. }
  unfold load_species. rewrite Hsmall.
  split; [|split].
  - intros Hne'. apply Nat.eqb_neq in Hne'. by rewrite Hne'.
  - intros He Hs. rewrite He, Nat.eqb_refl. cbn [negb].
    by rewrite Hs.
  - intros He Hs. rewrite He, Nat.eqb_refl. cbn [negb].
    rewrite Hs.
    split.
    + intros e ->. reflexivity.
    + intros mat ->. cbn [rbind].
      destruct (species_loop_total (n_tot s1) (Material_Name sd) (mat_nodes s1)
                  (mat_rho mat)
                  (zip (Names sd) (Initial_Mass_Fraction sd))
                  (species_density s1) (species_rate s1))
        as [[dens rate] ->]; [lia|done|].
      cbn [rbind]. unfold np_zeros, np_zeros_int.
      rewrite (proj2 (Z.ltb_ge (n_tot s1) 0)) by lia. cbn [rbind].
      split.
      * intros Hin.
        destruct (cell_loop_total (Material_Name sd)
                    (first_node_list s1 ++ [n_tot s1]) (mm_layer_names mm)
                    0%nat 0 (replicate (Z.to_nat (n_tot s1)) 0))
          as [[nc key] Hc].
        { intros j Hj. specialize (Hin j Hj). rewrite Hlen. lia. }
        change (Z.of_nat 0) with 0 in Hc. rewrite Hc. cbn [rbind]. by eexists.
      * intros (j & Hj & Hge).
        pose proof (cell_loop_raises (Material_Name sd)
                      (first_node_list s1 ++ [n_tot s1]) (mm_layer_names mm)
                      0%nat 0 (replicate (Z.to_nat (n_tot s1)) 0) j Hj) as Hc.
        change (Z.of_nat 0) with 0 in Hc. rewrite Hc; [done|].
        rewrite Hlen. lia.
Qed.

End LoadSpeciesOutcome.

(** ** The cell numbers that [load_reactions] rejects *)

Section ActiveCellErrors.
Import Reaction.
Context {ET : ExternalTypes} {EO : ExternalOps}.

Lemma set_entry_total (ac : list (list Z)) (i j n_rxn : nat) (v : Z) :
  (j < length ac)%nat -> (i < n_rxn)%nat ->
  Forall (fun col => length col = n_rxn) ac ->
  exists ac', set_entry ac (Z.of_nat i) (Z.of_nat j) v = OK ac' /\
              length ac' = length ac /\
              Forall (fun col => length col = n_rxn) ac'.
Proof.
  intros Hj Hi Hs. unfold set_entry.
  destruct (lookup_lt_is_Some_2 ac j Hj) as [col Hcol].
  pose proof (Forall_lookup_1 _ _ _ _ Hs Hcol) as Hc. simpl in Hc.
  rewrite (getitem_nat _ _ _ Hcol). cbn [rbind].
  rewrite setitem_nat by lia. cbn [rbind].
  rewrite setitem_nat by lia. eexists. split; [done|].
  split; [by rewrite length_insert|].
  apply Forall_insert; [done|]. by rewrite length_insert.
Qed.

Lemma activate_loop (n_rxn : nat) (n_cells rxn : Z) (i : nat) cells :
  forall ac,
  (i < n_rxn)%nat -> length ac = Z.to_nat n_cells ->
  Forall (fun col => length col = n_rxn) ac ->
  (exists ac', foldM (activate n_cells rxn (Z.of_nat i)) ac cells = OK ac' /\
               length ac' = Z.to_nat n_cells /\
               Forall (fun col => length col = n_rxn) ac' /\
               Forall (fun c => 1 <= c <= n_cells) cells) \/
  (exists c, c ∈ cells /\ n_cells < c /\
             foldM (activate n_cells rxn (Z.of_nat i)) ac cells
             = Raise (ValueError (CellDoesNotExist c rxn))) \/
  (exists c, c ∈ cells /\ c < 1 /\
             foldM (activate n_cells rxn (Z.of_nat i)) ac cells
             = Raise (ValueError (CellNumberNotPositive rxn))).
Proof.
  induction cells as [|c cells IH]; intros ac Hi Hl Hs.
  - left. exists ac. simpl. by repeat split.
  - cbn [foldM]. unfold activate at 1 3 5.
    destruct (n_cells <? c) eqn:E1;
      [apply Z.ltb_lt in E1 | apply Z.ltb_ge in E1].
    { right. left. exists c. split; [by left|]. by split. }
    destruct (c <? 1) eqn:E2; [apply Z.ltb_lt in E2 | apply Z.ltb_ge in E2].
    { right. right. exists c. split; [by left|]. by split. }
    replace (c - 1) with (Z.of_nat (Z.to_nat (c - 1))) by lia.
    destruct (set_entry_total ac i (Z.to_nat (c - 1)) n_rxn 1)
      as (ac1 & -> & Hl1 & Hs1); [lia|done|done|].
    cbn [rbind].
    destruct (IH ac1 Hi ltac:(lia) Hs1)
      as [(ac' & H & Hl' & Hs' & Hin)|[(c' & Hc & Hlt & H)|(c' & Hc & Hlt & H)]].
    + left. exists ac'. repeat split; try done. constructor; [lia|done].
    + right. left. exists c'. split; [by right|]. by split.
    + right. right. exists c'. split; [by right|]. by split.
Qed.

Lemma all_cells_total (ac : list (list Z)) (i n_rxn : nat) :
  (i < n_rxn)%nat -> Forall (fun col => length col = n_rxn) ac ->
  exists ac', mapM (fun col => setitem col (Z.of_nat i) 1) ac = OK ac' /\
              length ac' = length ac /\
              Forall (fun col => length col = n_rxn) ac'.
Proof.
  intros Hi. induction 1 as [|col ac Hc Hs IH]; simpl.
  - by exists [].
  - rewrite setitem_nat by lia. cbn [rbind].
    destruct IH as (ac' & -> & Hl & Hs'). cbn [rbind].
    eexists. split; [done|]. split; [simpl; lia|].
    constructor; [by rewrite length_insert | done].
Qed.

Lemma set_column_total (n_species : Z) (fm : list (list Q)) (i : nat) col :
  (i < length fm)%nat ->
  Z.of_nat (length col) = n_species \/ length col = 1%nat ->
  exists fm', set_column n_species fm (Z.of_nat i) col = OK fm' /\
              length fm' = length fm.
Proof.
  intros Hi Hc. unfold set_column.
  destruct (Z.of_nat (length col) =? n_species) eqn:E.
  - rewrite setitem_nat by done. eexists. split; [done|].
    by rewrite length_insert.
  - apply Z.eqb_neq in E. destruct Hc as [Hc|Hc]; [done|].
    destruct col as [|x [|? ?]]; try done.
    rewrite setitem_nat by done. eexists. split; [done|].
    by rewrite length_insert.
Qed.

Lemma rxn_body_outcome (s : reaction_manager) (rxn_dict : gmap Z rxn_info)
  (n_rxn i : nat) rxn info (st : rxn_state) :
  rxn_dict !! rxn = Some info ->
  (exists m col,
     rxn_model_factory (with_default_type info) (rm_material_info s)
     = OK (m, col) /\
     (Z.of_nat (length col) = n_species s \/ length col = 1%nat)) ->
  (i < n_rxn)%nat ->
  length (st_frac_mat st) = n_rxn ->
  length (st_active_cells st) = Z.to_nat (n_cells s) ->
  Forall (fun col => length col = n_rxn) (st_active_cells st) ->
  (exists st', rxn_body s rxn_dict (Z.of_nat i) rxn st = OK st' /\
               length (st_frac_mat st') = n_rxn /\
               length (st_active_cells st') = Z.to_nat (n_cells s) /\
               Forall (fun col => length col = n_rxn) (st_active_cells st') /\
               forall cells, Active_Cells info = Some cells ->
                             Forall (fun c => 1 <= c <= n_cells s) cells) \/
  (exists cells c, Active_Cells info = Some cells /\ c ∈ cells /\
                   n_cells s < c /\
                   rxn_body s rxn_dict (Z.of_nat i) rxn st
                   = Raise (ValueError (CellDoesNotExist c rxn))) \/
  (exists cells c, Active_Cells info = Some cells /\ c ∈ cells /\ c < 1 /\
                   rxn_body s rxn_dict (Z.of_nat i) rxn st
                   = Raise (ValueError (CellNumberNotPositive rxn))).
Proof.
  intros Hinfo (m & col & Hfac & Hcol) Hi Hfm Hac Hsh.
  unfold rxn_body. rewrite Hinfo. cbn [or_raise rbind]. rewrite Hfac.
  cbn [rbind].
  destruct (set_column_total (n_species s) (st_frac_mat st) i col)
    as (fm' & -> & Hfm'); [lia|done|]. cbn [rbind].
  assert (Eac : Active_Cells (with_default_type info) = Active_Cells info).
  { unfold with_default_type. by destruct (rxn_Type info). }
  rewrite Eac. destruct (Active_Cells info) as [cells|].
  - destruct (activate_loop n_rxn (n_cells s) rxn i cells (st_active_cells st)
                Hi Hac Hsh)
      as [(ac' & -> & Hl' & Hs' & Hin)|[(c & Hc & Hlt & ->)|(c & Hc & Hlt & ->)]].
    + left. cbn [rbind]. eexists. split; [done|]. simpl.
      repeat split; try done; try lia. by intros ? [= <-].
    + right. left. by exists cells, c.
    + right. right. by exists cells, c.
  - destruct (all_cells_total (st_active_cells st) i n_rxn Hi Hsh)
      as (ac' & -> & Hl' & Hs').
    left. cbn [rbind]. eexists. split; [done|]. simpl.
    repeat split; try done; lia.
Qed.

Lemma rxn_loop_outcome (s : reaction_manager) (rxn_dict : gmap Z rxn_info)
  (n_rxn : nat) :
  forall rxn_nums (i : nat) (st : rxn_state),
  (i + length rxn_nums = n_rxn)%nat ->
  (forall rxn, rxn ∈ rxn_nums -> exists info, rxn_dict !! rxn = Some info /\
     exists m col,
       rxn_model_factory (with_default_type info) (rm_material_info s)
       = OK (m, col) /\
       (Z.of_nat (length col) = n_species s \/ length col = 1%nat)) ->
  length (st_frac_mat st) = n_rxn ->
  length (st_active_cells st) = Z.to_nat (n_cells s) ->
  Forall (fun col => length col = n_rxn) (st_active_cells st) ->
  (exists st', rxn_loop s rxn_dict (Z.of_nat i) rxn_nums st = OK st' /\
     forall rxn info cells, rxn ∈ rxn_nums -> rxn_dict !! rxn = Some info ->
       Active_Cells info = Some cells ->
       Forall (fun c => 1 <= c <= n_cells s) cells) \/
  (exists rxn info cells c,
     rxn ∈ rxn_nums /\ rxn_dict !! rxn = Some info /\
     Active_Cells info = Some cells /\ c ∈ cells /\
     ((n_cells s < c /\
       rxn_loop s rxn_dict (Z.of_nat i) rxn_nums st
       = Raise (ValueError (CellDoesNotExist c rxn))) \/
      (c < 1 /\
       rxn_loop s rxn_dict (Z.of_nat i) rxn_nums st
       = Raise (ValueError (CellNumberNotPositive rxn))))).
Proof.
  induction rxn_nums as [|rxn rxn_nums IH]; intros i st Hn Hall Hfm Hac Hsh.
  - left. exists st. split; [done|]. intros ? ? ? Hin. by apply elem_of_nil in Hin.
  - cbn [rxn_loop]. simpl in Hn.
    destruct (Hall rxn ltac:(by left)) as (info & Hinfo & Hfac).
    destruct (rxn_body_outcome s rxn_dict n_rxn i rxn info st Hinfo Hfac
                ltac:(lia) Hfm Hac Hsh)
      as [(st1 & -> & Hfm1 & Hac1 & Hsh1 & Hin1)
         |[(cells & c & Hcs & Hc & Hlt & ->)|(cells & c & Hcs & Hc & Hlt & ->)]].
    + cbn [rbind]. replace (Z.of_nat i + 1) with (Z.of_nat (S i)) by lia.
      destruct (IH (S i) st1 ltac:(lia)
                  (fun r Hr => Hall r ltac:(by right)) Hfm1 Hac1 Hsh1)
        as [(st' & H & Hin)|(r & inf & cells & c & Hr & Hri & Hcs & Hc & H)].
      * left. exists st'. split; [done|].
        intros r inf cells Hr Hri Hcs. apply elem_of_cons in Hr as [->|Hr].
        -- rewrite Hinfo in Hri. injection Hri as <-. by apply Hin1.
        -- by eapply Hin.
      * right. exists r, inf, cells, c. split; [by right|]. by repeat split.
    + right. exists rxn, info, cells, c. split; [by left|].
      repeat split; try done. by left.
    + right. exists rxn, info, cells, c. split; [by left|].
      repeat split; try done. by right.
Qed.

(** X22: the cell numbers that [load_reactions] rejects.  The manager has
    non-negative numbers of species and of cells, and the factory builds a
    model for every reaction of the table, with a column of one entry per
    species or of a single entry.  If some reaction lists an active cell
    that is below one or above the number of cells, [load_reactions] raises
    a [ValueError], and the error names a reaction of the table and concerns
    one of the cells that this reaction lists: either that cell is above
    the number of cells and the error is "cell does not exist" for it, or
    it is below one and the error is "cell number must be greater". *)
Theorem load_reactions_rejects_bad_cell (s : reaction_manager)
  (rxn_dict : gmap Z rxn_info) :
  0 <= n_species s -> 0 <= n_cells s ->
  (forall rxn info, rxn_dict !! rxn = Some info ->
     exists m col,
       rxn_model_factory (with_default_type info) (rm_material_info s)
       = OK (m, col) /\
       (Z.of_nat (length col) = n_species s \/ length col = 1%nat)) ->
  (exists rxn info cells c,
     rxn_dict !! rxn = Some info /\ Active_Cells info = Some cells /\
     c ∈ cells /\ (c < 1 \/ n_cells s < c)) ->
  exists rxn info cells c,
    rxn_dict !! rxn = Some info /\ Active_Cells info = Some cells /\
    c ∈ cells /\
    ((n_cells s < c /\
      load_reactions s rxn_dict = Raise (ValueError (CellDoesNotExist c rxn))) \/
     (c < 1 /\
      load_reactions s rxn_dict = Raise (ValueError (CellNumberNotPositive rxn)))).
Proof.
  intros Hsp Hnc Hfac (rxn0 & info0 & cells0 & c0 & Hd0 & Hcs0 & Hc0 & Hbad).
  unfold load_reactions, np_zeros2.
  set (rxn_nums := sorted_keys rxn_dict).
  rewrite (proj2 (Z.ltb_ge (n_species s) 0)) by lia.
  rewrite (proj2 (Z.ltb_ge (Z.of_nat (length rxn_nums)) 0)) by lia.
  rewrite (proj2 (Z.ltb_ge (n_cells s) 0)) by lia.
  cbn [orb rbind]. rewrite Nat2Z.id.
  set (st0 := {| st_frac_mat :=
                   replicate (length rxn_nums)
                             (replicate (Z.to_nat (n_species s)) 0%Q);
                 st_model_list := [];
                 st_active_cells :=
                   replicate (Z.to_nat (n_cells s))
                             (replicate (length rxn_nums) 0) |}).
  assert (Hall : forall rxn, rxn ∈ rxn_nums ->
            exists info, rxn_dict !! rxn = Some info /\
              exists m col,
                rxn_model_factory (with_default_type info) (rm_material_info s)
                = OK (m, col) /\
                (Z.of_nat (length col) = n_species s \/ length col = 1%nat)).
  { intros r Hr. apply sorted_keys_elem_of in Hr as [info Hinfo].
    exists info. split; [done|]. by eapply Hfac. }
  assert (Hsh : Forall (fun col => length col = length rxn_nums)
                       (st_active_cells st0)).
  { simpl. apply Forall_replicate. by rewrite length_replicate. }
  pose proof (rxn_loop_outcome s rxn_dict (length rxn_nums) rxn_nums 0%nat st0
                eq_refl Hall (length_replicate _ _) (length_replicate _ _) Hsh)
    as Hloop.
  change (Z.of_nat 0) with 0 in Hloop.
  destruct Hloop
    as [(st' & _ & Hin)|(r & inf & cells & c & Hr & Hri & Hcs & Hc & H)].
  - exfalso.
    assert (Hr0 : rxn0 ∈ rxn_nums) by (apply sorted_keys_elem_of; eauto).
    pose proof (Hin rxn0 info0 cells0 Hr0 Hd0 Hcs0) as HF.
    rewrite Forall_forall in HF. specialize (HF c0 Hc0). lia.
  - exists r, inf, cells, c. repeat split; try done.
    destruct H as [[Hlt ->]|[Hlt ->]]; [left | right]; by split.
Qed.

End ActiveCellErrors.

(** ** Nodes that are not active *)

Section InactiveNodes.
Import Reaction.
Context {ET : ExternalTypes} {EO : ExternalOps}.

Lemma solve_leaves_inactive_node s args T_in return_err s' T_out err_list k :
  Forall (fun i => 0 <= i) (active_nodes s) ->
  solve_ode_all_nodes s args T_in return_err = OK (s', T_out, err_list) ->
  Z.of_nat k ∉ active_nodes s ->
  T_out !! k = T_in !! k /\
  (forall name, entry (species_density s') name k =
                entry (species_density s) name k) /\
  (forall name, entry (species_rate s') name k =
                entry (species_rate s) name k) /\
  temperature_rate s' !! k = temperature_rate s !! k /\
  heat_release_rate s' !! k = heat_release_rate s !! k.
Proof.
  intros Hnn H Hk. unfold solve_ode_all_nodes in H.
  apply rbind_OK in H as (s1 & H1 & H2).
  pose proof (clear_pass_cleared _ _ Hnn H1) as Hc.
  pose proof (integration_pass_integrated _ _ _ _ _ _ _
                (cleared_nonneg _ _ Hnn Hc) H2) as Hi.
  assert (Hk1 : Z.of_nat k ∉ active_nodes s1).
  { intros Hin. by apply Hk, Hc. }
  assert (Hnp : ~ pending_at s k).
  { apply not_pending_at; [done|]. intros Hp. by apply Hk, pending_nodes_active. }
  split; [by apply Hi|]. split; [|split; [|split]].
  - intros name. rewrite (in_density _ _ _ _ Hi) by done.
    apply (proj2 (cl_density _ _ Hc (name, k))). simpl. tauto.
  - intros name. rewrite (in_rate _ _ _ _ Hi) by done.
    apply (proj2 (cl_rate _ _ Hc (name, k))). simpl. tauto.
  - rewrite (in_temperature_rate _ _ _ _ Hi) by done.
    by apply (proj2 (cl_temperature_rate _ _ Hc k)).
  - rewrite (in_heat_release_rate _ _ _ _ Hi) by done.
    by apply (proj2 (cl_heat_release_rate _ _ Hc k)).
Qed.

(** X23: a node that is not among the active nodes is never touched again.
    Whatever calls of [solve_ode_all_nodes] follow, its species densities,
    species rates, temperature rate and heat release rate stay what they
    are, and every further call returns its temperature as it was given.
    So a node of another material, and a node that has been cleared and
    removed, stay frozen for the rest of the run. *)
Theorem inactive_node_stays_frozen (s s' : reaction_manager) (k : nat) :
  Forall (fun i => 0 <= i) (active_nodes s) ->
  (Z.of_nat k ∉ active_nodes s) ->
  later_state s s' ->
  (Z.of_nat k ∉ active_nodes s') /\
  (forall name, entry (species_density s') name k =
                entry (species_density s) name k) /\
  (forall name, entry (species_rate s') name k =
                entry (species_rate s) name k) /\
  temperature_rate s' !! k = temperature_rate s !! k /\
  heat_release_rate s' !! k = heat_release_rate s !! k /\
  (forall args T_in return_err s'' T_out err_list,
     solve_ode_all_nodes s' args T_in return_err = OK (s'', T_out, err_list) ->
     T_out !! k = T_in !! k).
Proof.
  intros Hnn Hk Hl.
  assert (Hsub : forall s1, later_state s s1 ->
            Forall (fun i => 0 <= i) (active_nodes s1) /\
            Z.of_nat k ∉ active_nodes s1).
  { intros s1 Hl1.
    destruct (later_same_configuration _ _ Hl1) as [_ Hs]. split.
    - apply list.Forall_forall. intros i Hi.
      apply (proj1 (list.Forall_forall _ _) Hnn). by eapply elem_of_sublist.
    - intros Hin. apply Hk. by eapply elem_of_sublist. }
  assert (Hfr : (forall name, entry (species_density s') name k =
                              entry (species_density s) name k) /\
                (forall name, entry (species_rate s') name k =
                              entry (species_rate s) name k) /\
                temperature_rate s' !! k = temperature_rate s !! k /\
                heat_release_rate s' !! k = heat_release_rate s !! k).
  { induction Hl as [|s1 s2 args T_in re T_out errs Hl IH Hs]; [done|].
    destruct (Hsub s1 Hl) as [Hnn1 Hk1].
    destruct (solve_leaves_inactive_node _ _ _ _ _ _ _ k Hnn1 Hs Hk1)
      as (_ & Hd & Hr & Ht & Hh).
    destruct IH as (Id & Ir & It & Ih).
    repeat split.
    - intros name. by rewrite Hd, Id.
    - intros name. by rewrite Hr, Ir.
    - by rewrite Ht, It.
    - by rewrite Hh, Ih. }
  destruct (Hsub s' Hl) as [Hnn' Hk'].
  split; [done|]. destruct Hfr as (Hd & Hr & Ht & Hh).
  do 4 (split; [done|]).
  intros args T_in re s'' T_out errs Hs.
  by destruct (solve_leaves_inactive_node _ _ _ _ _ _ _ k Hnn' Hs Hk').
Qed.

End InactiveNodes.

Section LoadingWitnesses.
Import Reaction Demo.

Lemma load_species_outcome_witness :
  exists g s1,
    Grid.setup_grid demo_table = OK g /\ init g demo_opts = OK s1 /\
    is_OK (load_species s1 demo_species demo_mat_man) /\
    load_species s1 demo_species
      {| get_material := get_material demo_mat_man;
         mm_layer_names := ["A"; "B"; "A"; "A"]%string |}
    = Raise IndexError /\
    is_OK (load_species s1 near_one_species demo_mat_man) /\
    load_species s1 short_species demo_mat_man
    = Raise (ValueError MassFractionsNotOne).
Proof.
  destruct (Grid.setup_grid demo_table) as [g|e] eqn:Eg;
    [|vm_compute in Eg; discriminate Eg].
  destruct (init g demo_opts) as [s1|e] eqn:E1;
    [|vm_compute in Eg; injection Eg as <-; vm_compute in E1; discriminate E1].
  exists g, s1. split; [done|]. split; [done|].
  split; [|split; [|split]].
  - destruct (load_species_outcome demo_table g demo_opts s1 demo_species
                demo_mat_man Eg E1) as (_ & _ & H).
    destruct H as [_ H]; [reflexivity | by vm_compute |].
    destruct (H _ eq_refl) as [H' _]. apply H'.
    intros j Hj. apply lookup_lt_Some in Hj. exact Hj.
  - destruct (load_species_outcome demo_table g demo_opts s1 demo_species
                {| get_material := get_material demo_mat_man;
                   mm_layer_names := ["A"; "B"; "A"; "A"]%string |} Eg E1)
      as (_ & _ & H).
    destruct H as [_ H]; [reflexivity | by vm_compute |].
    destruct (H _ eq_refl) as [_ H']. apply H'.
    exists 3%nat. split; [reflexivity | simpl; lia].
  - destruct (load_species_outcome demo_table g demo_opts s1 near_one_species
                demo_mat_man Eg E1) as (_ & _ & H).
    destruct H as [_ H]; [reflexivity | by vm_compute |].
    destruct (H _ eq_refl) as [H' _]. apply H'.
    intros j Hj. apply lookup_lt_Some in Hj. exact Hj.
  - destruct (load_species_outcome demo_table g demo_opts s1 short_species
                demo_mat_man Eg E1) as (_ & H & _).
    apply H; [reflexivity | by vm_compute].
Defined.

Lemma load_reactions_rejects_bad_cell_witness :
  exists s, demo_species_loaded = OK s /\
    load_reactions s
      {[ 1 := {| rxn_Type := None; Active_Cells := Some [3]; rxn_rest := tt |} ]}
    = Raise (ValueError (CellDoesNotExist 3 1)).
Proof.
  destruct demo_species_loaded as [s|e] eqn:E; [|vm_compute in E; discriminate E].
  exists s. split; [done|].
  assert (Hs : n_species s = 1 /\ n_cells s = 2).
  { vm_compute in E. injection E as <-. by split. }
  destruct Hs as [Hsp Hnc].
  match goal with
  | |- load_reactions _ ?d = _ =>
      destruct (load_reactions_rejects_bad_cell s d)
        as (r & inf & cells & c & Hr & Hcs & Hc & H)
  end.
  - lia.
  - lia.
  - intros rxn info _. eexists _, _. split; [reflexivity|]. by right.
  - eexists 1, _, [3], 3. split; [apply lookup_singleton_eq|].
    split; [reflexivity|]. split; [by left|]. right. lia.
  - apply lookup_singleton_Some in Hr as [<- <-]. simpl in Hcs.
    injection Hcs as <-. apply list_elem_of_singleton in Hc as ->.
    destruct H as [[_ H]|[Hlt _]]; [exact H | lia].
Defined.

Lemma inactive_node_stays_frozen_witness :
  match demo_setup, demo_run 2 with
  | OK s0, OK (s, _) =>
      (Z.of_nat 2 ∉ active_nodes s) /\
      heat_release_rate s !! 2%nat = heat_release_rate s0 !! 2%nat
  | _, _ => False
  end.
Proof.
  destruct demo_setup as [s0|e] eqn:E0; [|vm_compute in E0; discriminate E0].
  destruct (demo_run 2) as [[s T]|e] eqn:E2; [|vm_compute in E2; discriminate E2].
  assert (Hact : active_nodes s0 = [0; 1; 4; 5]).
  { vm_compute in E0. by injection E0 as <-. }
  destruct (inactive_node_stays_frozen s0 s 2%nat)
    as (Hk & _ & _ & _ & Hh & _).
  - rewrite Hact. repeat constructor; lia.
  - rewrite Hact. intros Hin.
    repeat (apply elem_of_cons in Hin as [Hin|Hin]; [lia|]).
    by apply elem_of_nil in Hin.
  - by eapply demo_run_later.
  - by split.
Defined.

End LoadingWitnesses.
